(** * ADPF hint sessions of the Pixel power HAL

    A shallow embedding of the adaptive performance control loop in
    [power-libperfmgr/aidl]: the per-session PID controller and jank
    classifier of [PowerHintSession.cpp], the vote/timeout orchestration of
    [PowerSessionManager.cpp] and the session factory of [Power.cpp].

    Conventions of the embedding.
    - Fixed-width integers are [Z] with the wrap-around written out
      ([to_int32], [to_int64], [to_uint32]); signed overflow, undefined in
      C++, is modelled as two's complement wrap-around.
    - [double] is the kernel's binary64 type, so every floating-point
      operation computes exactly what the hardware computes.
    - [steady_clock::now()] is an argument [now] (nanoseconds) of every
      entry point; the successive clock readings inside one call are taken
      equal.
    - A call that would dereference an empty [std::optional] or a null
      pointer (process abort) returns [None]. *)

From Stdlib Require Import ZArith Lia Bool List.
From Stdlib Require Import Floats.PrimFloat Floats.FloatOps Floats.SpecFloat.
From stdpp Require Import gmap list strings.

Open Scope Z_scope.

(** ** Machine integers *)

Module MachineInt.

Definition wrap_unsigned (w x : Z) : Z := x mod 2 ^ w.

Definition wrap_signed (w x : Z) : Z :=
  (x + 2 ^ (w - 1)) mod 2 ^ w - 2 ^ (w - 1).

Definition to_uint32 : Z -> Z := wrap_unsigned 32.
Definition to_uint64 : Z -> Z := wrap_unsigned 64.
Definition to_int32 : Z -> Z := wrap_signed 32.
Definition to_int64 : Z -> Z := wrap_signed 64.

Definition INT32_MIN : Z := - 2 ^ 31.
Definition INT32_MAX : Z := 2 ^ 31 - 1.
Definition INT64_MIN : Z := - 2 ^ 63.
Definition INT64_MAX : Z := 2 ^ 63 - 1.
Definition UINT32_MAX : Z := 2 ^ 32 - 1.

End MachineInt.
Export MachineInt.

(** ** Doubles *)

Module Double.

Definition double : Set := float.

(** Integer to double conversion: round to nearest, ties to even. *)
Definition of_Z (x : Z) : double :=
  SF2Prim (binary_normalize prec emax x 0 false).

(** Double to integer conversion, truncating toward zero.  A value outside
    the target type is undefined behaviour in C++; the conversion modelled
    here is the saturating one of the AArch64 targets (NaN gives 0). *)
Definition to_Z_sat (lo hi : Z) (d : double) : Z :=
  match Prim2SF d with
  | S754_zero _ => 0
  | S754_nan => 0
  | S754_infinity s => if s then lo else hi
  | S754_finite s m e =>
      let v := Z.shiftl (Z.pos m) e in
      Z.max lo (Z.min hi (if s then - v else v))
  end.

Definition to_int64 : double -> Z := to_Z_sat INT64_MIN INT64_MAX.
Definition to_uint32 : double -> Z := to_Z_sat 0 UINT32_MAX.

(** [std::min] and [std::max] on doubles: [(b < a) ? b : a] and
    [(a < b) ? b : a]. *)
Definition min (a b : double) : double := if PrimFloat.ltb b a then b else a.
Definition max (a b : double) : double := if PrimFloat.ltb a b then b else a.

End Double.

Abbreviation double := Double.double.

(** ** Enumerations and plain data *)

(** [SessionJankyLevel]. *)
Inductive SessionJankyLevel : Set := LIGHT | MODERATE | SEVERE.

Definition SessionJankyLevel_eqb (a b : SessionJankyLevel) : bool :=
  match a, b with
  | LIGHT, LIGHT | MODERATE, MODERATE | SEVERE, SEVERE => true
  | _, _ => false
  end.

(** The binder exception codes the session API returns. *)
Inductive ExceptionCode : Set :=
  | EX_NONE
  | EX_ILLEGAL_ARGUMENT
  | EX_ILLEGAL_STATE
  | EX_UNSUPPORTED_OPERATION.

(** [AdpfVoteType], with the integer each kind is cast to. *)
Inductive AdpfVoteType : Set :=
  | CPU_VOTE_DEFAULT
  | CPU_LOAD_UP
  | CPU_LOAD_RESET
  | CPU_LOAD_RESUME
  | VOTE_POWER_EFFICIENCY
  | GPU_LOAD_UP
  | GPU_LOAD_DOWN
  | GPU_LOAD_RESET
  | GPU_CAPACITY.

(** Modelled from the spec: the enumerators' integer values are declared in
    [AdpfTypes.h], which is absent; they are numbered in the order the kinds
    are listed. *)
Definition underlying (v : AdpfVoteType) : Z :=
  match v with
  | CPU_VOTE_DEFAULT => 0
  | CPU_LOAD_UP => 1
  | CPU_LOAD_RESET => 2
  | CPU_LOAD_RESUME => 3
  | VOTE_POWER_EFFICIENCY => 4
  | GPU_LOAD_UP => 5
  | GPU_LOAD_DOWN => 6
  | GPU_LOAD_RESET => 7
  | GPU_CAPACITY => 8
  end.

(** The fields of the AIDL [WorkDuration] the control loop reads. *)
Record WorkDuration : Set := {
  durationNanos : Z;
  cpuDurationNanos : Z;
  gpuDurationNanos : Z
}.

(** [AdpfConfig] (perfmgr/AdpfConfig.h), without its name. *)
Record AdpfConfig : Set := {
  mPidOn : bool;
  mPidPo : double;
  mPidPu : double;
  mPidI : double;
  mPidIInit : Z;
  mPidIHigh : Z;
  mPidILow : Z;
  mPidDo : double;
  mPidDu : double;
  mUclampMinOn : bool;
  mUclampMinInit : Z;
  mUclampMinHigh : Z;
  mUclampMinLow : Z;
  mSamplingWindowP : Z;
  mSamplingWindowI : Z;
  mSamplingWindowD : Z;
  mReportingRateLimitNs : Z;
  mTargetTimeFactor : double;
  mStaleTimeFactor : double;
  mGpuBoostOn : option bool;
  mGpuBoostCapacityMax : option Z;
  mGpuCapacityLoadUpHeadroom : Z;
  mHeuristicBoostOn : option bool;
  mHBoostModerateJankThreshold : option Z;
  mHBoostOffMaxAvgDurRatio : option double;
  mHBoostSevereJankPidPu : option double;
  mHBoostSevereJankThreshold : option Z;
  mHBoostUclampMinCeilingRange : option (Z * Z);
  mHBoostUclampMinFloorRange : option (Z * Z);
  mJankCheckTimeFactor : option double;
  mLowFrameRateThreshold : option Z;
  mMaxRecordsNum : option Z;
  mUclampMinLoadUp : Z;
  mUclampMinLoadReset : Z;
  mUclampMaxEfficientBase : option Z;
  mUclampMaxEfficientOffset : option Z
}.

(** [mHeuristicBoostOn.has_value() && mHeuristicBoostOn.value()]. *)
Definition hboostEnabled (adpfConfig : AdpfConfig) : bool :=
  match mHeuristicBoostOn adpfConfig with
  | Some b => b
  | None => false
  end.

(** ** The jank classifier *)

(** [PowerHintSession::updateSessionJankState].  The frame count is an
    [int32_t] compared with [uint32_t] thresholds, so it is converted to
    unsigned first. *)
Definition updateSessionJankState (adpfConfig : AdpfConfig)
    (oldState : SessionJankyLevel) (numOfJankFrames : Z)
    (durationVariance : double) (isLowFPS : bool) : option SessionJankyLevel :=
  if isLowFPS then Some LIGHT
  else
    moderate ← mHBoostModerateJankThreshold adpfConfig;
    if to_uint32 numOfJankFrames <? moderate then
      if SessionJankyLevel_eqb oldState LIGHT then Some LIGHT
      else
        ratio ← mHBoostOffMaxAvgDurRatio adpfConfig;
        if PrimFloat.ltb durationVariance ratio then Some LIGHT
        else Some MODERATE
    else
      severe ← mHBoostSevereJankThreshold adpfConfig;
      if to_uint32 numOfJankFrames <? severe then Some MODERATE
      else Some SEVERE.

(** ** The collaborators the core calls into

    Everything below is external to the control loop, or declared in a file
    that is absent, and is taken as a parameter. *)

(** The AIDL [SessionTag]. *)
Inductive SessionTag : Set := OTHER | SURFACEFLINGER | HWUI | GAME | APP.

Record Collaborators (SessionRecords : Type) : Type := {
  (** [AdpfConfig::getPidIHighDivI] and [getPidILowDivI]. *)
  getPidIHighDivI : AdpfConfig -> Z;
  getPidILowDivI : AdpfConfig -> Z;
  (** [HintManager::GetAdpfProfile(tag)], [GetAdpfProfile()],
      [IsAdpfSupported()] and [IsHintSupported(kDisableBoostHintName)]. *)
  GetAdpfProfileOf : SessionTag -> AdpfConfig;
  GetAdpfProfile : AdpfConfig;
  IsAdpfSupported : bool;
  IsHintSupported : bool;
  (** [kUclampMin], [kUclampMax] and [AID_APP_START]. *)
  kUclampMin : Z;
  kUclampMax : Z;
  AID_APP_START : Z;
  (** The [errno] of [sched_setattr] for a thread and a clamp range, 0 on
      success. *)
  sched_setattr : Z -> Z -> Z -> Z;
  (** The GPU capacity node, when the device has one, with the frequency it
      reports; and [calculate_capacity]. *)
  mGpuCapacityNode : option (option Z);
  calculate_capacity : WorkDuration -> Z -> Z -> Z;
  (** The operations of [SessionRecords], the heuristic window. *)
  newSessionRecords : Z -> double -> SessionRecords;
  addReportedDurations : SessionRecords -> list WorkDuration -> Z -> SessionRecords;
  getMaxDuration : SessionRecords -> option Z;
  getAvgDuration : SessionRecords -> option Z;
  getNumOfRecords : SessionRecords -> Z;
  getNumOfMissedCycles : SessionRecords -> Z;
  isLowFrameRate : SessionRecords -> Z -> bool
}.

Arguments getPidIHighDivI {SessionRecords} _.
Arguments getPidILowDivI {SessionRecords} _.
Arguments GetAdpfProfileOf {SessionRecords} _.
Arguments GetAdpfProfile {SessionRecords} _.
Arguments IsAdpfSupported {SessionRecords} _.
Arguments IsHintSupported {SessionRecords} _.
Arguments kUclampMin {SessionRecords} _.
Arguments kUclampMax {SessionRecords} _.
Arguments AID_APP_START {SessionRecords} _.
Arguments sched_setattr {SessionRecords} _.
Arguments mGpuCapacityNode {SessionRecords} _.
Arguments calculate_capacity {SessionRecords} _.
Arguments newSessionRecords {SessionRecords} _.
Arguments addReportedDurations {SessionRecords} _.
Arguments getMaxDuration {SessionRecords} _.
Arguments getAvgDuration {SessionRecords} _.
Arguments getNumOfRecords {SessionRecords} _.
Arguments getNumOfMissedCycles {SessionRecords} _.
Arguments isLowFrameRate {SessionRecords} _.

Definition ESRCH : Z := 3.

(** ** The PID controller *)

(** The part of [AppHintDesc] the sessions read and write. *)
Record AppHintDesc : Set := {
  sessionId : Z;
  tgid : Z;
  uid : Z;
  thread_ids : list Z;
  targetNs : Z;
  pidControlVariable : Z;
  is_active : bool;
  update_count : Z;
  integral_error : Z;
  previous_error : Z
}.

Definition ns_to_100us (ns : Z) : Z := Z.quot ns 100000.

(** [samplingWindow == 0 || samplingWindow > length ? 0 : length - samplingWindow]. *)
Definition window_start (samplingWindow length : Z) : Z :=
  if (samplingWindow =? 0) || (length <? samplingWindow) then 0
  else length - samplingWindow.

(** The four accumulators of the sampling loop. *)
Record PidAcc : Set := {
  err_sum : Z;
  derivative_sum : Z;
  acc_integral_error : Z;
  acc_previous_error : Z
}.

(** The [JankyFactor] of a session at the MODERATE level.  The thresholds
    are [uint32_t], so the comparison and both subtractions are unsigned;
    the severe threshold is read only when the count is not below the
    moderate one. *)
Definition JankyFactor (adpfConfig : AdpfConfig) (mJankyFrameNum : Z) : option double :=
  moderate ← mHBoostModerateJankThreshold adpfConfig;
  if to_uint32 mJankyFrameNum <? moderate then Some 0%float
  else
    severe ← mHBoostSevereJankThreshold adpfConfig;
    Some (PrimFloat.div
            (PrimFloat.mul (Double.of_Z (to_uint32 (mJankyFrameNum - moderate))) 1%float)
            (Double.of_Z (to_uint32 (severe - moderate)))).

Section Pid.

Context {SessionRecords : Type} (env : Collaborators SessionRecords).

(** One iteration of the loop of [convertWorkDurationToBoostByPid]. *)
Definition pid_sample (adpfConfig : AdpfConfig)
    (targetDurationNanos dt p_start i_start d_start : Z)
    (i : Z) (acc : PidAcc) (sample : WorkDuration) : PidAcc :=
  let error := ns_to_100us (to_int64 (durationNanos sample - targetDurationNanos)) in
  let derivative_sum' :=
    if d_start <=? i
    then to_int64 (derivative_sum acc + to_int64 (error - acc_previous_error acc))
    else derivative_sum acc in
  let err_sum' :=
    if p_start <=? i then to_int64 (err_sum acc + error) else err_sum acc in
  let integral_error' :=
    if i_start <=? i then
      let integral := to_int64 (acc_integral_error acc + to_int64 (error * dt)) in
      let integral := Z.min (getPidIHighDivI env adpfConfig) integral in
      Z.max (getPidILowDivI env adpfConfig) integral
    else acc_integral_error acc in
  {| err_sum := err_sum';
     derivative_sum := derivative_sum';
     acc_integral_error := integral_error';
     acc_previous_error := error |}.

(** The loop itself, from index [i] over the samples that remain. *)
Fixpoint pid_loop (adpfConfig : AdpfConfig)
    (targetDurationNanos dt p_start i_start d_start : Z)
    (i : Z) (samples : list WorkDuration) (acc : PidAcc) : PidAcc :=
  match samples with
  | [] => acc
  | sample :: rest =>
      pid_loop adpfConfig targetDurationNanos dt p_start i_start d_start (i + 1) rest
        (pid_sample adpfConfig targetDurationNanos dt p_start i_start d_start i acc sample)
  end.

(** The undershoot gain in force: [pid_pu_active]. *)
Definition pid_pu_active (adpfConfig : AdpfConfig)
    (mJankyLevel : SessionJankyLevel) (mJankyFrameNum : Z) : option double :=
  if hboostEnabled adpfConfig then
    severePidPu ← mHBoostSevereJankPidPu adpfConfig;
    let hboostPidPu := Double.min severePidPu (mPidPu adpfConfig) in
    match mJankyLevel with
    | MODERATE =>
        factor ← JankyFactor adpfConfig mJankyFrameNum;
        Some (PrimFloat.add (mPidPu adpfConfig)
                (PrimFloat.mul factor (PrimFloat.sub hboostPidPu (mPidPu adpfConfig))))
    | SEVERE => Some hboostPidPu
    | LIGHT => Some (mPidPu adpfConfig)
    end
  else Some (mPidPu adpfConfig).

(** The gain of the proportional term. *)
Definition p_gain (adpfConfig : AdpfConfig) (pid_pu : double) (err_sum : Z) : double :=
  if 0 <? err_sum then mPidPo adpfConfig else pid_pu.

(** The three terms, from the accumulators the loop leaves. *)
Definition pOut (adpfConfig : AdpfConfig) (pid_pu : double) (acc : PidAcc)
    (length p_start : Z) : Z :=
  Double.to_int64
    (PrimFloat.div
       (PrimFloat.mul (p_gain adpfConfig pid_pu (err_sum acc)) (Double.of_Z (err_sum acc)))
       (Double.of_Z (length - p_start))).

Definition iOut (adpfConfig : AdpfConfig) (acc : PidAcc) : Z :=
  Double.to_int64 (PrimFloat.mul (mPidI adpfConfig) (Double.of_Z (acc_integral_error acc))).

Definition dOut (adpfConfig : AdpfConfig) (acc : PidAcc) (dt length d_start : Z) : Z :=
  Double.to_int64
    (PrimFloat.div
       (PrimFloat.div
          (PrimFloat.mul
             (if 0 <? derivative_sum acc then mPidDo adpfConfig else mPidDu adpfConfig)
             (Double.of_Z (derivative_sum acc)))
          (Double.of_Z dt))
       (Double.of_Z (length - d_start))).

(** The accumulators a batch starts from and ends with. *)
Definition pid_entry (desc : AppHintDesc) : PidAcc :=
  {| err_sum := 0; derivative_sum := 0;
     acc_integral_error := integral_error desc;
     acc_previous_error := previous_error desc |}.

(** The index the loop starts from, [std::min({p_start, i_start, d_start})]. *)
Definition pid_first (adpfConfig : AdpfConfig) (length : Z) : Z :=
  Z.min (window_start (mSamplingWindowP adpfConfig) length)
    (Z.min (window_start (mSamplingWindowI adpfConfig) length)
       (window_start (mSamplingWindowD adpfConfig) length)).

(** The loop of a batch of [length] samples, run over [samples] from its
    first index. *)
Definition pid_over (adpfConfig : AdpfConfig) (desc : AppHintDesc) (length : Z)
    (samples : list WorkDuration) : PidAcc :=
  pid_loop adpfConfig (targetNs desc) (ns_to_100us (targetNs desc))
    (window_start (mSamplingWindowP adpfConfig) length)
    (window_start (mSamplingWindowI adpfConfig) length)
    (window_start (mSamplingWindowD adpfConfig) length)
    (pid_first adpfConfig length) samples (pid_entry desc).

Definition pid_run (adpfConfig : AdpfConfig) (desc : AppHintDesc)
    (actualDurations : list WorkDuration) : PidAcc :=
  let length := Z.of_nat (length actualDurations) in
  pid_over adpfConfig desc length
    (drop (Z.to_nat (pid_first adpfConfig length)) actualDurations).

(** [PowerHintSession::convertWorkDurationToBoostByPid]: the output, and the
    descriptor with the integral and previous error written back. *)
Definition convertWorkDurationToBoostByPid (adpfConfig : AdpfConfig)
    (mJankyLevel : SessionJankyLevel) (mJankyFrameNum : Z)
    (desc : AppHintDesc) (actualDurations : list WorkDuration)
    : option (Z * AppHintDesc) :=
  let length := Z.of_nat (length actualDurations) in
  let p_start := window_start (mSamplingWindowP adpfConfig) length in
  let d_start := window_start (mSamplingWindowD adpfConfig) length in
  let dt := ns_to_100us (targetNs desc) in
  let acc := pid_run adpfConfig desc actualDurations in
  pid_pu ← pid_pu_active adpfConfig mJankyLevel mJankyFrameNum;
  let output :=
    to_int64 (to_int64 (pOut adpfConfig pid_pu acc length p_start + iOut adpfConfig acc)
              + dOut adpfConfig acc dt length d_start) in
  Some (output,
        {| sessionId := sessionId desc; tgid := tgid desc; uid := uid desc;
           thread_ids := thread_ids desc; targetNs := targetNs desc;
           pidControlVariable := pidControlVariable desc;
           is_active := is_active desc; update_count := update_count desc;
           integral_error := acc_integral_error acc;
           previous_error := acc_previous_error acc |}).

End Pid.

(** ** The vote ledger *)

(** A CPU vote carries a clamp range, a GPU vote a capacity; both carry the
    flag and validity window of [CpuVote(active, startTime, durationNs, ..)]. *)
Inductive VoteValue : Set :=
  | CpuRange (uclampMin uclampMax : Z)
  | GpuCycles (capacity : Z).

Record Vote : Set := {
  voteActive : bool;
  startTime : Z;
  durationNs : Z;
  voteValue : VoteValue
}.

Definition UclampRange : Set := (Z * Z)%type.

(** Modelled from the spec: the fold of sections 4.1 and 4.3, "the maximum
    of all floors and the maximum of all ceilings", of a list of ranges, if
    there is one. *)
Definition maxRange (ranges : list UclampRange) : option UclampRange :=
  match ranges with
  | [] => None
  | r :: rest =>
      Some (foldl (fun acc x => (Z.max acc.1 x.1, Z.max acc.2 x.2)) r rest)
  end.

Module Votes.

(** Modelled from the spec: the class [Votes] (the Vote Ledger of section
    4.1) is absent.  [add] upserts the vote of a kind, replacing any
    previous value and timestamp. *)
Definition add (voteId : Z) (vote : Vote) (votes : gmap Z Vote) : gmap Z Vote :=
  <[voteId := vote]> votes.

(** Modelled from the spec: [Votes::updateDuration] is absent; it replaces
    the validity window of the vote of a kind, if there is one. *)
Definition updateDuration (voteId : Z) (d : Z) (votes : gmap Z Vote) : gmap Z Vote :=
  alter (fun v => {| voteActive := voteActive v; startTime := startTime v;
                     durationNs := d; voteValue := voteValue v |}) voteId votes.

(** Modelled from the spec: [Votes::setUseVote] is absent; it is the
    [setActive(kind, bool)] of section 4.1. *)
Definition setUseVote (voteId : Z) (active : bool) (votes : gmap Z Vote) : gmap Z Vote :=
  alter (fun v => {| voteActive := active; startTime := startTime v;
                     durationNs := durationNs v; voteValue := voteValue v |}) voteId votes.

(** Modelled from the spec: [Votes::voteIsActive] is absent; it is the
    [isActive(kind)] of section 4.1, and a kind with no vote is not active. *)
Definition voteIsActive (voteId : Z) (votes : gmap Z Vote) : bool :=
  match votes !! voteId with
  | Some v => voteActive v
  | None => false
  end.

(** Modelled from the spec: [Votes::voteTimeout] is absent; it is the
    [timeout(kind)] of section 4.1, the deadline [startTime + duration] (the
    epoch for a kind with no vote). *)
Definition voteTimeout (voteId : Z) (votes : gmap Z Vote) : Z :=
  match votes !! voteId with
  | Some v => startTime v + durationNs v
  | None => 0
  end.

(** Modelled from the spec: the test of a vote being currently active is
    absent; a vote is active at [now] when its flag is set and [now] lies in
    its validity window. *)
Definition isTimeInRange (now : Z) (v : Vote) : bool :=
  voteActive v && (startTime v <=? now) && (now <? startTime v + durationNs v).

(** Modelled from the spec: the currently active CPU votes of a ledger. *)
Definition activeCpuRanges (now : Z) (votes : gmap Z Vote) : list UclampRange :=
  omap (fun kv =>
          match voteValue kv.2 with
          | CpuRange lo hi => if isTimeInRange now kv.2 then Some (lo, hi) else None
          | GpuCycles _ => None
          end) (map_to_list votes).

(** Modelled from the spec: the currently active GPU votes of a ledger. *)
Definition activeGpuCapacities (now : Z) (votes : gmap Z Vote) : list Z :=
  omap (fun kv =>
          match voteValue kv.2 with
          | GpuCycles c => if isTimeInRange now kv.2 then Some c else None
          | CpuRange _ _ => None
          end) (map_to_list votes).

(** Modelled from the spec: [Votes::getUclampRange] is absent; it is the
    [resolveRange(now)] of section 4.1, which folds the currently active CPU
    votes of one session by the maximum of the floors and the maximum of the
    ceilings; the range passed in is the default when none is active. *)
Definition getUclampRange (range : UclampRange) (now : Z) (votes : gmap Z Vote)
    : UclampRange :=
  default range (maxRange (activeCpuRanges now votes)).

(** Modelled from the spec: the ledger's GPU query is absent; it is the
    [resolveGpuCapacity(now)] of section 4.1, the maximum of the active GPU
    capacities (0 when there is none). *)
Definition getGpuCapacity (now : Z) (votes : gmap Z Vote) : Z :=
  foldr Z.max 0 (activeGpuCapacities now votes).

End Votes.

(** ** The thread-session map *)

Record HeuristicBoostDist : Set := {
  lightModeFrames : Z;
  moderateModeFrames : Z;
  severeModeFrames : Z
}.

(** [SessionValueEntry], the fields the manager reads and writes (its
    strings and trace handles left out). *)
Record SessionValueEntry : Type := {
  sve_tgid : Z;
  sve_uid : Z;
  isActive : bool;
  isAppSession : bool;
  lastUpdatedTime : Z;
  votes : gmap Z Vote;
  isPowerEfficient : bool;
  hBoostModeDist : HeuristicBoostDist
}.

Definition set_isActive (b : bool) (v : SessionValueEntry) : SessionValueEntry :=
  {| sve_tgid := sve_tgid v; sve_uid := sve_uid v; isActive := b;
     isAppSession := isAppSession v; lastUpdatedTime := lastUpdatedTime v;
     votes := votes v; isPowerEfficient := isPowerEfficient v;
     hBoostModeDist := hBoostModeDist v |}.

Definition set_lastUpdatedTime (t : Z) (v : SessionValueEntry) : SessionValueEntry :=
  {| sve_tgid := sve_tgid v; sve_uid := sve_uid v; isActive := isActive v;
     isAppSession := isAppSession v; lastUpdatedTime := t;
     votes := votes v; isPowerEfficient := isPowerEfficient v;
     hBoostModeDist := hBoostModeDist v |}.

Definition set_votes (f : gmap Z Vote -> gmap Z Vote) (v : SessionValueEntry)
    : SessionValueEntry :=
  {| sve_tgid := sve_tgid v; sve_uid := sve_uid v; isActive := isActive v;
     isAppSession := isAppSession v; lastUpdatedTime := lastUpdatedTime v;
     votes := f (votes v); isPowerEfficient := isPowerEfficient v;
     hBoostModeDist := hBoostModeDist v |}.

Definition set_isPowerEfficient (b : bool) (v : SessionValueEntry) : SessionValueEntry :=
  {| sve_tgid := sve_tgid v; sve_uid := sve_uid v; isActive := isActive v;
     isAppSession := isAppSession v; lastUpdatedTime := lastUpdatedTime v;
     votes := votes v; isPowerEfficient := b;
     hBoostModeDist := hBoostModeDist v |}.

Definition set_hBoostModeDist (d : HeuristicBoostDist) (v : SessionValueEntry)
    : SessionValueEntry :=
  {| sve_tgid := sve_tgid v; sve_uid := sve_uid v; isActive := isActive v;
     isAppSession := isAppSession v; lastUpdatedTime := lastUpdatedTime v;
     votes := votes v; isPowerEfficient := isPowerEfficient v;
     hBoostModeDist := d |}.

(** Modelled from the spec: the class [SessionTaskMap] (the Thread-Session
    Map of section 4.3) is absent.  It keeps session -> (value, threads) and
    thread -> sessions. *)
Record SessionTaskMap : Type := {
  mSessions : gmap Z (SessionValueEntry * list Z);
  mTasks : gmap Z (list Z)
}.

Module SessionTaskMap.

Definition empty : SessionTaskMap := {| mSessions := ∅; mTasks := ∅ |}.

(** Modelled from the spec: [SessionTaskMap::findSession] is absent; the
    value of a session, if the session is in the table. *)
Definition findSession (sessionId : Z) (m : SessionTaskMap) : option SessionValueEntry :=
  fst <$> mSessions m !! sessionId.

(** Modelled from the spec: [SessionTaskMap::getTaskIds] is absent; the
    threads a session claims. *)
Definition getTaskIds (sessionId : Z) (m : SessionTaskMap) : list Z :=
  default [] (snd <$> mSessions m !! sessionId).

(** Modelled from the spec: [SessionTaskMap::getSessionIds] is absent; the
    sessions that claim a thread. *)
Definition getSessionIds (taskId : Z) (m : SessionTaskMap) : list Z :=
  default [] (mTasks m !! taskId).

(** A write through the pointer [findSession] returns. *)
Definition updateSession (f : SessionValueEntry -> SessionValueEntry)
    (sessionId : Z) (m : SessionTaskMap) : SessionTaskMap :=
  {| mSessions := alter (fun e => (f e.1, e.2)) sessionId (mSessions m);
     mTasks := mTasks m |}.

(** A write through the reference [getTaskIds] returns. *)
Definition setTaskIds (sessionId : Z) (tasks : list Z) (m : SessionTaskMap)
    : SessionTaskMap :=
  {| mSessions := alter (fun e => (e.1, tasks)) sessionId (mSessions m);
     mTasks := mTasks m |}.

(** Modelled from the spec: a session is added to the sessions of a thread
    (once). *)
Definition linkTask (sessionId taskId : Z) (tasks : gmap Z (list Z)) : gmap Z (list Z) :=
  let l := default [] (tasks !! taskId) in
  if bool_decide (sessionId ∈ l) then tasks else <[taskId := l ++ [sessionId]]> tasks.

(** Modelled from the spec: a session is taken off the sessions of a
    thread; a thread left with no session leaves the table. *)
Definition unlinkTask (sessionId taskId : Z) (tasks : gmap Z (list Z)) : gmap Z (list Z) :=
  match tasks !! taskId with
  | None => tasks
  | Some l =>
      let l' := filter (fun s => s ≠ sessionId) l in
      match l' with
      | [] => delete taskId tasks
      | _ => <[taskId := l']> tasks
      end
  end.

(** Modelled from the spec: [SessionTaskMap::add] is absent; it registers a
    session with its threads, and refuses an id that is taken. *)
Definition add (sessionId : Z) (sv : SessionValueEntry) (taskIds : list Z)
    (m : SessionTaskMap) : bool * SessionTaskMap :=
  match mSessions m !! sessionId with
  | Some _ => (false, m)
  | None =>
      (true,
       {| mSessions := <[sessionId := (sv, taskIds)]> (mSessions m);
          mTasks := foldr (linkTask sessionId) (mTasks m) taskIds |})
  end.

(** Modelled from the spec: [SessionTaskMap::replace] is absent; it is the
    [replace] of section 4.3.  The session takes the new thread list, and the
    associations follow the difference against the previous one.  The lists
    returned are the thread transitions of section 3, each thread once:
    [added] holds the threads new to the session that no session claimed
    before, and [removed] the threads the session dropped that no session
    claims any more, which are the ones that "revert to a default
    scheduling profile". *)
Definition replace (sessionId : Z) (taskIds : list Z) (m : SessionTaskMap)
    : SessionTaskMap * list Z * list Z :=
  match mSessions m !! sessionId with
  | None => (m, [], [])
  | Some (sv, previous) =>
      let m' :=
        {| mSessions := <[sessionId := (sv, taskIds)]> (mSessions m);
           mTasks := foldr (linkTask sessionId)
                       (foldr (unlinkTask sessionId) (mTasks m)
                          (filter (fun t => t ∉ taskIds) previous))
                       (filter (fun t => t ∉ previous) taskIds) |} in
      let added :=
        filter (fun t => (t ∉ previous) ∧ (getSessionIds t m = [])) (remove_dups taskIds) in
      let removed :=
        filter (fun t => (t ∉ taskIds) ∧ (getSessionIds t m' = [])) (remove_dups previous) in
      (m', added, removed)
  end.

(** Modelled from the spec: [SessionTaskMap::remove] is absent; the session
    leaves both tables. *)
Definition remove (sessionId : Z) (m : SessionTaskMap) : SessionTaskMap :=
  {| mSessions := delete sessionId (mSessions m);
     mTasks := filter (fun kv => kv.2 ≠ [])
                 ((fun l => filter (fun s => s ≠ sessionId) l) <$> mTasks m) |}.

(** Modelled from the spec: [SessionTaskMap::removeDeadTaskSessionMap] is
    absent; a dead thread is pruned from the map on discovery. *)
Definition removeDeadTaskSessionMap (sessionId taskId : Z) (m : SessionTaskMap)
    : SessionTaskMap :=
  {| mSessions := mSessions m; mTasks := unlinkTask sessionId taskId (mTasks m) |}.

(** Modelled from the spec: [SessionTaskMap::addVote] is absent; the vote
    set is live, with the range and window given. *)
Definition addVote (sessionId voteId uclampMin uclampMax start duration : Z)
    (m : SessionTaskMap) : SessionTaskMap :=
  updateSession
    (set_votes (Votes.add voteId
       {| voteActive := true; startTime := start; durationNs := duration;
          voteValue := CpuRange uclampMin uclampMax |})) sessionId m.

(** Modelled from the spec: [SessionTaskMap::addGpuVote] is absent; the
    vote set is live, with the capacity and window given. *)
Definition addGpuVote (sessionId voteId capacity start duration : Z)
    (m : SessionTaskMap) : SessionTaskMap :=
  updateSession
    (set_votes (Votes.add voteId
       {| voteActive := true; startTime := start; durationNs := duration;
          voteValue := GpuCycles capacity |})) sessionId m.

(** Modelled from the spec: the sessions that contribute to a thread in
    section 4.3, those associated with it that are active (a paused session
    is not). *)
Definition contributing (taskId : Z) (m : SessionTaskMap) : list SessionValueEntry :=
  filter (fun sv => isActive sv = true)
    (omap (fun s => findSession s m) (getSessionIds taskId m)).

(** Modelled from the spec: the cap of section 4.3, the ceiling held at
    [efficientBase + efficientOffset]; both are optional in the profile, and
    there is no cap without them. *)
Definition capEfficient (efficientBase efficientOffset : option Z)
    (range : UclampRange) : UclampRange :=
  match efficientBase, efficientOffset with
  | Some base, Some offset => (range.1, Z.min range.2 (base + offset))
  | _, _ => range
  end.

(** Modelled from the spec: [SessionTaskMap::getTaskVoteRange] is absent;
    it is the [resolveThreadRange] of section 4.3: the maximum floor and
    maximum ceiling over the contributing sessions' ledger ranges, capped
    when every contributing session prefers power efficiency. *)
Definition getTaskVoteRange (taskId now : Z) (range : UclampRange)
    (efficientBase efficientOffset : option Z) (m : SessionTaskMap) : UclampRange :=
  let sessions := contributing taskId m in
  let resolved :=
    default range
      (maxRange (map (fun sv => Votes.getUclampRange range now (votes sv)) sessions)) in
  if forallb isPowerEfficient sessions
  then capEfficient efficientBase efficientOffset resolved
  else resolved.

(** Modelled from the spec: [SessionTaskMap::isAnyAppSessionActive] is
    absent; is any application session active (section 4.6). *)
Definition isAnyAppSessionActive (now : Z) (m : SessionTaskMap) : bool :=
  existsb (fun kv => isAppSession kv.2.1 && isActive kv.2.1) (map_to_list (mSessions m)).

(** Modelled from the spec: [SessionTaskMap::getSessionsGpuCapacity] is
    absent; the maximum GPU capacity over the active sessions. *)
Definition getSessionsGpuCapacity (now : Z) (m : SessionTaskMap) : Z :=
  foldr Z.max 0
    (map (fun kv => if isActive kv.2.1 then Votes.getGpuCapacity now (votes kv.2.1) else 0)
       (map_to_list (mSessions m))).

End SessionTaskMap.

(** ** The session manager *)

(** What the manager does to the outside world, in the order it happens. *)
Inductive TaskProfile : Set := ResetUclampGrp | NoResetUclampGrp.

Inductive Effect : Set :=
  | SchedSetattr (tid uclampMin uclampMax : Z)
  | SetTaskProfiles (tid : Z) (profile : TaskProfile)
  | SetGpuCapacity (capacity : Z)
  | DoHint
  | EndHint.

(** [PowerSessionManager::EventSessionTimeout]. *)
Record EventSessionTimeout : Set := {
  timeStamp : Z;
  ev_sessionId : Z;
  ev_voteId : Z
}.

(** [PowerSessionManager]: the thread-session map, the pending timers of
    [mEventSessionTimeoutWorker] (each with its deadline), the keys of the
    registry [mSessionMap], and the trace of effects. *)
Record PowerSessionManager : Type := {
  mSessionTaskMap : SessionTaskMap;
  mEventSessionTimeoutWorker : list (EventSessionTimeout * Z);
  mSessionMap : gset Z;
  effects : list Effect
}.

Definition with_map (f : SessionTaskMap -> SessionTaskMap) (m : PowerSessionManager)
    : PowerSessionManager :=
  {| mSessionTaskMap := f (mSessionTaskMap m);
     mEventSessionTimeoutWorker := mEventSessionTimeoutWorker m;
     mSessionMap := mSessionMap m;
     effects := effects m |}.

Definition emit (es : list Effect) (m : PowerSessionManager) : PowerSessionManager :=
  {| mSessionTaskMap := mSessionTaskMap m;
     mEventSessionTimeoutWorker := mEventSessionTimeoutWorker m;
     mSessionMap := mSessionMap m;
     effects := effects m ++ es |}.

(** [mEventSessionTimeoutWorker.schedule(event, deadline)]. *)
Definition schedule (e : EventSessionTimeout) (deadline : Z) (m : PowerSessionManager)
    : PowerSessionManager :=
  {| mSessionTaskMap := mSessionTaskMap m;
     mEventSessionTimeoutWorker := mEventSessionTimeoutWorker m ++ [(e, deadline)];
     mSessionMap := mSessionMap m;
     effects := effects m |}.

(** The timers pending for one (session, vote kind) slot. *)
Definition pendingTimers (sessionId voteId : Z) (m : PowerSessionManager)
    : list (EventSessionTimeout * Z) :=
  filter (fun t => ev_sessionId t.1 = sessionId ∧ ev_voteId t.1 = voteId)
    (mEventSessionTimeoutWorker m).

(** What the recomputation leaves alone: the timers, the registry and the
    votes of every session. *)
Definition same_ledgers (m m' : PowerSessionManager) : Prop :=
  mEventSessionTimeoutWorker m' = mEventSessionTimeoutWorker m /\
  mSessionMap m' = mSessionMap m /\
  forall sid,
    votes <$> SessionTaskMap.findSession sid (mSessionTaskMap m')
    = votes <$> SessionTaskMap.findSession sid (mSessionTaskMap m).

(** [shouldScheduleTimeout]. *)
Definition shouldScheduleTimeout (votes : gmap Z Vote) (vote_id deadline : Z) : bool :=
  negb (Votes.voteIsActive vote_id votes) || (deadline <? Votes.voteTimeout vote_id votes).

Section Manager.

Context {SessionRecords : Type} (env : Collaborators SessionRecords).

(** [set_uclamp]: the range is bounded by the limits and by itself, then
    handed to [sched_setattr]; the result is 0 or the [errno]. *)
Definition set_uclamp (tid : Z) (range : UclampRange) : Z * Effect :=
  let uclampMin := Z.min (Z.max (kUclampMin env) range.1) (kUclampMax env) in
  let uclampMax := Z.min (Z.max range.2 uclampMin) (kUclampMax env) in
  (sched_setattr env tid uclampMin uclampMax, SchedSetattr tid uclampMin uclampMax).

(** The [while] loop of [applyUclampLocked] over the session's thread list:
    the threads kept, the map and the effects. *)
Fixpoint applyUclampThreads (sessionId timePoint : Z) (threadList : list Z)
    (stm : SessionTaskMap) : list Z * SessionTaskMap * list Effect :=
  match threadList with
  | [] => ([], stm, [])
  | tid :: rest =>
      let uclampRange :=
        SessionTaskMap.getTaskVoteRange tid timePoint (kUclampMin env, kUclampMax env)
          (mUclampMaxEfficientBase (GetAdpfProfile env))
          (mUclampMaxEfficientOffset (GetAdpfProfile env)) stm in
      let '(stat, eff) := set_uclamp tid uclampRange in
      if stat =? ESRCH then
        let '(kept, stm', effs) :=
          applyUclampThreads sessionId timePoint rest
            (SessionTaskMap.removeDeadTaskSessionMap sessionId tid stm) in
        (kept, stm', eff :: effs)
      else
        let '(kept, stm', effs) := applyUclampThreads sessionId timePoint rest stm in
        (tid :: kept, stm', eff :: effs)
  end.

(** [PowerSessionManager::applyUclampLocked]. *)
Definition applyUclampLocked (sessionId timePoint : Z) (m : PowerSessionManager)
    : PowerSessionManager :=
  match SessionTaskMap.findSession sessionId (mSessionTaskMap m) with
  | None => m
  | Some _ =>
      let m1 :=
        if negb (mUclampMinOn (GetAdpfProfile env)) then m
        else
          let '(kept, stm, effs) :=
            applyUclampThreads sessionId timePoint
              (SessionTaskMap.getTaskIds sessionId (mSessionTaskMap m))
              (mSessionTaskMap m) in
          emit effs (with_map (fun _ => SessionTaskMap.setTaskIds sessionId kept stm) m) in
      with_map (SessionTaskMap.updateSession (set_lastUpdatedTime timePoint) sessionId) m1
  end.

(** [PowerSessionManager::applyGpuVotesLocked].  [gpuVotingOn] is the
    optional itself, so the test is whether it holds a value. *)
Definition applyGpuVotesLocked (sessionId timePoint : Z) (m : PowerSessionManager)
    : PowerSessionManager :=
  match SessionTaskMap.findSession sessionId (mSessionTaskMap m) with
  | None => m
  | Some _ =>
      let m1 :=
        match mGpuCapacityNode env, mGpuBoostOn (GetAdpfProfile env) with
        | Some _, Some _ =>
            emit [SetGpuCapacity
                    (SessionTaskMap.getSessionsGpuCapacity timePoint (mSessionTaskMap m))] m
        | _, _ => m
        end in
      with_map (SessionTaskMap.updateSession (set_lastUpdatedTime timePoint) sessionId) m1
  end.

(** [PowerSessionManager::applyCpuAndGpuVotes]. *)
Definition applyCpuAndGpuVotes (sessionId timePoint : Z) (m : PowerSessionManager)
    : PowerSessionManager :=
  applyGpuVotesLocked sessionId timePoint (applyUclampLocked sessionId timePoint m).

(** [PowerSessionManager::updateUniversalBoostMode], with
    [disableSystemTopAppBoost] and [enableSystemTopAppBoost]. *)
Definition updateUniversalBoostMode (now : Z) (m : PowerSessionManager)
    : PowerSessionManager :=
  if SessionTaskMap.isAnyAppSessionActive now (mSessionTaskMap m) then
    if IsHintSupported env then emit [DoHint] m else m
  else
    if IsHintSupported env then emit [EndHint] m else m.

(** [PowerSessionManager::forceSessionActive]. *)
Definition forceSessionActive (sessionId : Z) (isActive : bool) (now : Z)
    (m : PowerSessionManager) : PowerSessionManager :=
  match SessionTaskMap.findSession sessionId (mSessionTaskMap m) with
  | None => m
  | Some _ =>
      let m1 := with_map (SessionTaskMap.updateSession (set_isActive isActive) sessionId) m in
      updateUniversalBoostMode now (applyCpuAndGpuVotes sessionId now m1)
  end.

(** [PowerSessionManager::setThreadsFromPowerSession]. *)
Definition setThreadsFromPowerSession (sessionId : Z) (threadIds : list Z) (now : Z)
    (m : PowerSessionManager) : PowerSessionManager :=
  let m1 := forceSessionActive sessionId false now m in
  let '(stm, addedThreads, removedThreads) :=
    SessionTaskMap.replace sessionId threadIds (mSessionTaskMap m1) in
  let m2 := with_map (fun _ => stm) m1 in
  let m3 := emit (map (fun tid => SetTaskProfiles tid ResetUclampGrp) addedThreads) m2 in
  let m4 := emit (map (fun tid => SetTaskProfiles tid NoResetUclampGrp) removedThreads) m3 in
  forceSessionActive sessionId true now m4.

(** [PowerSessionManager::addPowerSession]. *)
Definition addPowerSession (sessionDescriptor : AppHintDesc) (threadIds : list Z)
    (now : Z) (m : PowerSessionManager) : PowerSessionManager :=
  let sve :=
    {| sve_tgid := tgid sessionDescriptor;
       sve_uid := uid sessionDescriptor;
       isActive := is_active sessionDescriptor;
       isAppSession := AID_APP_START env <=? uid sessionDescriptor;
       lastUpdatedTime := now;
       votes := Votes.add (underlying CPU_VOTE_DEFAULT)
                  {| voteActive := false; startTime := now;
                     durationNs := targetNs sessionDescriptor;
                     voteValue := CpuRange (kUclampMin env) (kUclampMax env) |} ∅;
       isPowerEfficient := false;
       hBoostModeDist :=
         {| lightModeFrames := 0; moderateModeFrames := 0; severeModeFrames := 0 |} |} in
  let m1 :=
    with_map (fun stm => (SessionTaskMap.add (sessionId sessionDescriptor) sve [] stm).2) m in
  setThreadsFromPowerSession (sessionId sessionDescriptor) threadIds now m1.

(** [PowerSessionManager::registerSession] and [unregisterSession]; the
    registry is keyed by [int]. *)
Definition registerSession (sessionId : Z) (m : PowerSessionManager) : PowerSessionManager :=
  {| mSessionTaskMap := mSessionTaskMap m;
     mEventSessionTimeoutWorker := mEventSessionTimeoutWorker m;
     mSessionMap := {[to_int32 sessionId]} ∪ mSessionMap m;
     effects := effects m |}.

Definition unregisterSession (sessionId : Z) (m : PowerSessionManager) : PowerSessionManager :=
  {| mSessionTaskMap := mSessionTaskMap m;
     mEventSessionTimeoutWorker := mEventSessionTimeoutWorker m;
     mSessionMap := mSessionMap m ∖ {[to_int32 sessionId]};
     effects := effects m |}.

(** [PowerSessionManager::removePowerSession]. *)
Definition removePowerSession (sessionId : Z) (now : Z) (m : PowerSessionManager)
    : PowerSessionManager :=
  let m1 := forceSessionActive sessionId false now m in
  let '(stm, _, removedThreads) := SessionTaskMap.replace sessionId [] (mSessionTaskMap m1) in
  let m2 := with_map (fun _ => SessionTaskMap.remove sessionId stm) m1 in
  let m3 := emit (map (fun tid => SetTaskProfiles tid NoResetUclampGrp) removedThreads) m2 in
  unregisterSession sessionId m3.

(** [PowerSessionManager::pause] and [resume]. *)
Definition pause (sessionId : Z) (now : Z) (m : PowerSessionManager) : PowerSessionManager :=
  match SessionTaskMap.findSession sessionId (mSessionTaskMap m) with
  | None => m
  | Some sv =>
      if negb (isActive sv) then m
      else
        let m1 := with_map (SessionTaskMap.updateSession (set_isActive false) sessionId) m in
        updateUniversalBoostMode now (applyCpuAndGpuVotes sessionId now m1)
  end.

Definition resume (sessionId : Z) (now : Z) (m : PowerSessionManager) : PowerSessionManager :=
  match SessionTaskMap.findSession sessionId (mSessionTaskMap m) with
  | None => m
  | Some sv =>
      if isActive sv then m
      else
        let m1 := with_map (SessionTaskMap.updateSession (set_isActive true) sessionId) m in
        updateUniversalBoostMode now (applyCpuAndGpuVotes sessionId now m1)
  end.

(** [PowerSessionManager::updateTargetWorkDuration]. *)
Definition updateTargetWorkDuration (sessionId : Z) (voteId : AdpfVoteType) (durationNs : Z)
    (m : PowerSessionManager) : PowerSessionManager :=
  match SessionTaskMap.findSession sessionId (mSessionTaskMap m) with
  | None => m
  | Some _ =>
      with_map (SessionTaskMap.updateSession
                  (set_votes (Votes.updateDuration (underlying voteId) durationNs))
                  sessionId) m
  end.

(** [PowerSessionManager::voteSet], CPU form. *)
Definition voteSet (sessionId : Z) (voteId : AdpfVoteType) (uclampMin uclampMax : Z)
    (startTime durationNs : Z) (m : PowerSessionManager) : PowerSessionManager :=
  let voteIdInt := underlying voteId in
  let timeoutDeadline := startTime + durationNs in
  match SessionTaskMap.findSession sessionId (mSessionTaskMap m) with
  | None => m
  | Some session =>
      let scheduleTimeout := shouldScheduleTimeout (votes session) voteIdInt timeoutDeadline in
      let m1 :=
        with_map (SessionTaskMap.addVote sessionId voteIdInt uclampMin uclampMax
                    startTime durationNs) m in
      let m2 :=
        with_map (SessionTaskMap.updateSession (set_lastUpdatedTime startTime) sessionId) m1 in
      let m3 := applyUclampLocked sessionId startTime m2 in
      if scheduleTimeout then
        schedule {| timeStamp := startTime; ev_sessionId := sessionId; ev_voteId := voteIdInt |}
          timeoutDeadline m3
      else m3
  end.

(** [PowerSessionManager::voteSet], GPU form. *)
Definition voteSetGpu (sessionId : Z) (voteId : AdpfVoteType) (capacity : Z)
    (startTime durationNs : Z) (m : PowerSessionManager) : PowerSessionManager :=
  let voteIdInt := underlying voteId in
  let timeoutDeadline := startTime + durationNs in
  match SessionTaskMap.findSession sessionId (mSessionTaskMap m) with
  | None => m
  | Some session =>
      let scheduleTimeout := shouldScheduleTimeout (votes session) voteIdInt timeoutDeadline in
      let m1 :=
        with_map (SessionTaskMap.addGpuVote sessionId voteIdInt capacity
                    startTime durationNs) m in
      let m2 :=
        with_map (SessionTaskMap.updateSession (set_lastUpdatedTime startTime) sessionId) m1 in
      let m3 := applyGpuVotesLocked sessionId startTime m2 in
      if scheduleTimeout then
        schedule {| timeStamp := startTime; ev_sessionId := sessionId; ev_voteId := voteIdInt |}
          timeoutDeadline m3
      else m3
  end.

(** [PowerSessionManager::disableBoosts]. *)
Definition disableBoosts (sessionId : Z) (m : PowerSessionManager) : PowerSessionManager :=
  match SessionTaskMap.findSession sessionId (mSessionTaskMap m) with
  | None => m
  | Some _ =>
      with_map
        (SessionTaskMap.updateSession
           (set_votes (fun vs =>
              foldl (fun acc vid => Votes.setUseVote (underlying vid) false acc) vs
                [CPU_LOAD_UP; CPU_LOAD_RESET; CPU_LOAD_RESUME; VOTE_POWER_EFFICIENCY;
                 GPU_LOAD_UP; GPU_LOAD_RESET]))
           sessionId) m
  end.

(** [PowerSessionManager::handleEvent], run when a timer fires at [tNow]. *)
Definition handleEvent (eventTimeout : EventSessionTimeout) (tNow : Z)
    (m : PowerSessionManager) : PowerSessionManager :=
  match SessionTaskMap.findSession (ev_sessionId eventTimeout) (mSessionTaskMap m) with
  | None => m
  | Some sessVal =>
      let voteIsActive := Votes.voteIsActive (ev_voteId eventTimeout) (votes sessVal) in
      let voteTimeout := Votes.voteTimeout (ev_voteId eventTimeout) (votes sessVal) in
      if voteIsActive then
        if voteTimeout <=? tNow then
          let m1 :=
            with_map (SessionTaskMap.updateSession
                        (set_votes (Votes.setUseVote (ev_voteId eventTimeout) false))
                        (ev_sessionId eventTimeout)) m in
          updateUniversalBoostMode tNow
            (applyCpuAndGpuVotes (ev_sessionId eventTimeout) tNow m1)
        else schedule eventTimeout voteTimeout m
      else m
  end.

(** [PowerSessionManager::updateHboostStatistics]. *)
Definition updateHboostStatistics (sessionId : Z) (jankyLevel : SessionJankyLevel)
    (numOfFrames : Z) (m : PowerSessionManager) : PowerSessionManager :=
  match SessionTaskMap.findSession sessionId (mSessionTaskMap m) with
  | None => m
  | Some sv =>
      let d := hBoostModeDist sv in
      let d' :=
        match jankyLevel with
        | LIGHT =>
            {| lightModeFrames := to_int64 (lightModeFrames d + numOfFrames);
               moderateModeFrames := moderateModeFrames d;
               severeModeFrames := severeModeFrames d |}
        | MODERATE =>
            {| lightModeFrames := lightModeFrames d;
               moderateModeFrames := to_int64 (moderateModeFrames d + numOfFrames);
               severeModeFrames := severeModeFrames d |}
        | SEVERE =>
            {| lightModeFrames := lightModeFrames d;
               moderateModeFrames := moderateModeFrames d;
               severeModeFrames := to_int64 (severeModeFrames d + numOfFrames) |}
        end in
      with_map (SessionTaskMap.updateSession (set_hBoostModeDist d') sessionId) m
  end.

(** [PowerSessionManager::gpuFrequency]. *)
Definition gpuFrequency : option Z :=
  match mGpuCapacityNode env with
  | Some frequency => frequency
  | None => None
  end.

End Manager.

(** ** The profiles of the hint manager *)

(** An [AdpfConfig] with its [mName]. *)
Abbreviation NamedProfile := (string * AdpfConfig)%type.

(** The part of [HintManager] that selects ADPF profiles: the profiles
    parsed ([adpfs_]), the profile of each tag that has one
    ([tag_profile_map_]), the index of the default profile ([adpf_index_],
    a [uint32_t]) and the callbacks registered for each tag, each named by
    the id of the session that owns it. *)
Record HintManager : Type := {
  adpfs_ : list NamedProfile;
  tag_profile_map_ : gmap string NamedProfile;
  adpf_index_ : Z;
  tag_update_callback_list_ : gmap string (list Z)
}.

Module HintManager.

(** The constructor: the default profile is the first one and nothing is
    registered. *)
Definition new (adpfs : list NamedProfile) (tag_adpfs : gmap string NamedProfile)
    : HintManager :=
  {| adpfs_ := adpfs; tag_profile_map_ := tag_adpfs; adpf_index_ := 0;
     tag_update_callback_list_ := ∅ |}.

(** The loop [for (i = 0; i < adpfs_.size(); ++i) if (adpfs_[i]->mName ==
    name)]: the first index from [i] on whose profile has the name. *)
Fixpoint find_profile (name : string) (i : Z) (adpfs : list NamedProfile)
    : option (Z * NamedProfile) :=
  match adpfs with
  | [] => None
  | profile :: rest =>
      if String.eqb profile.1 name then Some (i, profile)
      else find_profile name (i + 1) rest
  end.

(** [HintManager::GetAdpfProfileFromDoHint]; out of range, where the source
    indexes past the end of the vector, there is no profile. *)
Definition GetAdpfProfileFromDoHint (hm : HintManager) : option NamedProfile :=
  match adpfs_ hm with
  | [] => None
  | _ => adpfs_ hm !! Z.to_nat (adpf_index_ hm)
  end.

(** [HintManager::SetAdpfProfileFromDoHint]. *)
Definition SetAdpfProfileFromDoHint (profile_name : string) (hm : HintManager)
    : bool * HintManager :=
  match find_profile profile_name 0 (adpfs_ hm) with
  | Some (i, _) =>
      (true,
       if negb (adpf_index_ hm =? i) then
         {| adpfs_ := adpfs_ hm; tag_profile_map_ := tag_profile_map_ hm;
            adpf_index_ := to_uint32 i;
            tag_update_callback_list_ := tag_update_callback_list_ hm |}
       else hm)
  | None => (false, hm)
  end.

(** [HintManager::IsAdpfSupported]. *)
Definition IsAdpfSupported (hm : HintManager) : bool :=
  match adpfs_ hm with
  | [] => false
  | _ => true
  end.

(** [HintManager::GetAdpfProfile]. *)
Definition GetAdpfProfile (tag : string) (hm : HintManager) : option NamedProfile :=
  match adpfs_ hm with
  | [] => None
  | _ =>
      match tag_profile_map_ hm !! tag with
      | None => GetAdpfProfileFromDoHint hm
      | Some profile => Some profile
      end
  end.

(** [HintManager::SetAdpfProfile]. *)
Definition SetAdpfProfile (tag profile : string) (hm : HintManager) : bool * HintManager :=
  match tag_profile_map_ hm !! tag with
  | None => (false, hm)
  | Some current =>
      if String.eqb current.1 profile then (true, hm)
      else
        match find_profile profile 0 (adpfs_ hm) with
        | Some (_, found) =>
            (true,
             {| adpfs_ := adpfs_ hm;
                tag_profile_map_ := <[tag := found]> (tag_profile_map_ hm);
                adpf_index_ := adpf_index_ hm;
                tag_update_callback_list_ := tag_update_callback_list_ hm |})
        | None => (false, hm)
        end
  end.

(** [HintManager::IsAdpfProfileSupported]. *)
Definition IsAdpfProfileSupported (profile_name : string) (hm : HintManager) : bool :=
  match find_profile profile_name 0 (adpfs_ hm) with
  | Some _ => true
  | None => false
  end.

(** [HintManager::RegisterAdpfUpdateEvent]. *)
Definition RegisterAdpfUpdateEvent (tag : string) (update_adpf_func : Z) (hm : HintManager)
    : HintManager :=
  {| adpfs_ := adpfs_ hm; tag_profile_map_ := tag_profile_map_ hm;
     adpf_index_ := adpf_index_ hm;
     tag_update_callback_list_ :=
       <[tag := default [] (tag_update_callback_list_ hm !! tag) ++ [update_adpf_func]]>
         (tag_update_callback_list_ hm) |}.

(** [callback_list.erase(it)] at the first element equal to the callback. *)
Fixpoint erase_first (update_adpf_func : Z) (callback_list : list Z) : list Z :=
  match callback_list with
  | [] => []
  | func :: rest =>
      if func =? update_adpf_func then rest else func :: erase_first update_adpf_func rest
  end.

(** [HintManager::UnregisterAdpfUpdateEvent]; [operator[]] makes the list of
    a tag that had none. *)
Definition UnregisterAdpfUpdateEvent (tag : string) (update_adpf_func : Z) (hm : HintManager)
    : HintManager :=
  {| adpfs_ := adpfs_ hm; tag_profile_map_ := tag_profile_map_ hm;
     adpf_index_ := adpf_index_ hm;
     tag_update_callback_list_ :=
       <[tag := erase_first update_adpf_func
                  (default [] (tag_update_callback_list_ hm !! tag))]>
         (tag_update_callback_list_ hm) |}.

End HintManager.

(** [toString(tag)]: the generated function gives the enumerator's name. *)
Definition SessionTag_toString (tag : SessionTag) : string :=
  match tag with
  | OTHER => "OTHER"
  | SURFACEFLINGER => "SURFACEFLINGER"
  | HWUI => "HWUI"
  | GAME => "GAME"
  | APP => "APP"
  end.

(** ** Hint sessions *)

Definition set_pidControlVariable (v : Z) (d : AppHintDesc) : AppHintDesc :=
  {| sessionId := sessionId d; tgid := tgid d; uid := uid d; thread_ids := thread_ids d;
     targetNs := targetNs d; pidControlVariable := v; is_active := is_active d;
     update_count := update_count d; integral_error := integral_error d;
     previous_error := previous_error d |}.

Definition set_is_active (b : bool) (d : AppHintDesc) : AppHintDesc :=
  {| sessionId := sessionId d; tgid := tgid d; uid := uid d; thread_ids := thread_ids d;
     targetNs := targetNs d; pidControlVariable := pidControlVariable d; is_active := b;
     update_count := update_count d; integral_error := integral_error d;
     previous_error := previous_error d |}.

Definition set_targetNs (t : Z) (d : AppHintDesc) : AppHintDesc :=
  {| sessionId := sessionId d; tgid := tgid d; uid := uid d; thread_ids := thread_ids d;
     targetNs := t; pidControlVariable := pidControlVariable d; is_active := is_active d;
     update_count := update_count d; integral_error := integral_error d;
     previous_error := previous_error d |}.

Definition set_update_count (c : Z) (d : AppHintDesc) : AppHintDesc :=
  {| sessionId := sessionId d; tgid := tgid d; uid := uid d; thread_ids := thread_ids d;
     targetNs := targetNs d; pidControlVariable := pidControlVariable d;
     is_active := is_active d; update_count := c; integral_error := integral_error d;
     previous_error := previous_error d |}.

(** The floor and ceiling [reportActualWorkDuration] clamps the control
    variable to: [uclampMinFloor] and [uclampMinCeiling], both [uint32_t]. *)
Definition uclampMinBounds (adpfConfig : AdpfConfig) (mJankyLevel : SessionJankyLevel)
    (mJankyFrameNum : Z) : option (Z * Z) :=
  let low := mUclampMinLow adpfConfig in
  let high := mUclampMinHigh adpfConfig in
  if hboostEnabled adpfConfig then
    floorRange ← mHBoostUclampMinFloorRange adpfConfig;
    ceilingRange ← mHBoostUclampMinCeilingRange adpfConfig;
    let hboostMinUclampMinFloor := Z.max low floorRange.1 in
    let hboostMaxUclampMinFloor := Z.max low floorRange.2 in
    let hboostMinUclampMinCeiling := Z.max high ceilingRange.1 in
    let hboostMaxUclampMinCeiling := Z.max high ceilingRange.2 in
    match mJankyLevel with
    | MODERATE =>
        factor ← JankyFactor adpfConfig mJankyFrameNum;
        Some (Double.to_uint32
                (PrimFloat.add (Double.of_Z hboostMinUclampMinFloor)
                   (PrimFloat.mul
                      (Double.of_Z (to_uint32 (hboostMaxUclampMinFloor - hboostMinUclampMinFloor)))
                      factor)),
              Double.to_uint32
                (PrimFloat.add (Double.of_Z hboostMinUclampMinCeiling)
                   (PrimFloat.mul
                      (Double.of_Z
                         (to_uint32 (hboostMaxUclampMinCeiling - hboostMinUclampMinCeiling)))
                      factor)))
    | SEVERE => Some (hboostMaxUclampMinFloor, hboostMaxUclampMinCeiling)
    | LIGHT => Some (low, high)
    end
  else Some (low, high).

(** [next_min]: the control variable plus the output, clamped. *)
Definition next_min (bounds : Z * Z) (pidControlVariable output : Z) : Z :=
  let next := Z.min (to_int32 bounds.2) (to_int32 (pidControlVariable + to_int32 output)) in
  Z.max (to_int32 bounds.1) next.

Section Session.

Context {SessionRecords : Type} (env : Collaborators SessionRecords).

(** [PowerHintSession]: its descriptor, profile, jank state and window. *)
Record PowerHintSession : Type := {
  mSessionId : Z;
  mDescriptor : AppHintDesc;
  mTag : SessionTag;
  mAdpfProfile : option AdpfConfig;
  mSessionClosed : bool;
  mLastUpdatedTime : Z;
  mJankyLevel : SessionJankyLevel;
  mJankyFrameNum : Z;
  mSessionRecords : option SessionRecords
}.

Definition with_descriptor (f : AppHintDesc -> AppHintDesc) (s : PowerHintSession)
    : PowerHintSession :=
  {| mSessionId := mSessionId s; mDescriptor := f (mDescriptor s); mTag := mTag s;
     mAdpfProfile := mAdpfProfile s; mSessionClosed := mSessionClosed s;
     mLastUpdatedTime := mLastUpdatedTime s; mJankyLevel := mJankyLevel s;
     mJankyFrameNum := mJankyFrameNum s; mSessionRecords := mSessionRecords s |}.

Definition set_mSessionClosed (b : bool) (s : PowerHintSession) : PowerHintSession :=
  {| mSessionId := mSessionId s; mDescriptor := mDescriptor s; mTag := mTag s;
     mAdpfProfile := mAdpfProfile s; mSessionClosed := b;
     mLastUpdatedTime := mLastUpdatedTime s; mJankyLevel := mJankyLevel s;
     mJankyFrameNum := mJankyFrameNum s; mSessionRecords := mSessionRecords s |}.

Definition set_mLastUpdatedTime (t : Z) (s : PowerHintSession) : PowerHintSession :=
  {| mSessionId := mSessionId s; mDescriptor := mDescriptor s; mTag := mTag s;
     mAdpfProfile := mAdpfProfile s; mSessionClosed := mSessionClosed s;
     mLastUpdatedTime := t; mJankyLevel := mJankyLevel s;
     mJankyFrameNum := mJankyFrameNum s; mSessionRecords := mSessionRecords s |}.

Definition set_jank (level : SessionJankyLevel) (frames : Z) (s : PowerHintSession)
    : PowerHintSession :=
  {| mSessionId := mSessionId s; mDescriptor := mDescriptor s; mTag := mTag s;
     mAdpfProfile := mAdpfProfile s; mSessionClosed := mSessionClosed s;
     mLastUpdatedTime := mLastUpdatedTime s; mJankyLevel := level;
     mJankyFrameNum := frames; mSessionRecords := mSessionRecords s |}.

Definition set_mSessionRecords (r : option SessionRecords) (s : PowerHintSession)
    : PowerHintSession :=
  {| mSessionId := mSessionId s; mDescriptor := mDescriptor s; mTag := mTag s;
     mAdpfProfile := mAdpfProfile s; mSessionClosed := mSessionClosed s;
     mLastUpdatedTime := mLastUpdatedTime s; mJankyLevel := mJankyLevel s;
     mJankyFrameNum := mJankyFrameNum s; mSessionRecords := r |}.

(** [PowerHintSession::getAdpfProfile]. *)
Definition getAdpfProfile (s : PowerHintSession) : AdpfConfig :=
  default (GetAdpfProfileOf env (mTag s)) (mAdpfProfile s).

(** [duration_cast<nanoseconds>(targetNs * factor)]. *)
Definition scaledDuration (targetNs : Z) (factor : double) : Z :=
  Double.to_int64 (PrimFloat.mul (Double.of_Z targetNs) factor).

(** [PowerHintSession::isTimeout]. *)
Definition isTimeout (s : PowerHintSession) (now : Z) : bool :=
  mLastUpdatedTime s
    + scaledDuration (targetNs (mDescriptor s)) (mStaleTimeFactor (getAdpfProfile s))
  <=? now.

(** [PowerHintSession::updatePidControlVariable]. *)
Definition updatePidControlVariable (pidControlVariable : Z) (updateVote : bool) (now : Z)
    (s : PowerHintSession) (m : PowerSessionManager)
    : PowerHintSession * PowerSessionManager :=
  let s' := with_descriptor (set_pidControlVariable pidControlVariable) s in
  if updateVote then
    let adpfConfig := getAdpfProfile s' in
    (s',
     voteSet env (mSessionId s') CPU_VOTE_DEFAULT pidControlVariable (kUclampMax env) now
       (Z.max (scaledDuration (targetNs (mDescriptor s')) (mStaleTimeFactor adpfConfig))
              (to_int64 (mReportingRateLimitNs adpfConfig * 2))) m)
  else (s', m).

(** [PowerHintSession::pause]. *)
Definition session_pause (now : Z) (s : PowerHintSession) (m : PowerSessionManager)
    : ExceptionCode * PowerHintSession * PowerSessionManager :=
  if mSessionClosed s then (EX_ILLEGAL_STATE, s, m)
  else if negb (is_active (mDescriptor s)) then (EX_ILLEGAL_STATE, s, m)
  else
    let m1 := setThreadsFromPowerSession env (mSessionId s) [] now m in
    let s1 := with_descriptor (set_is_active false) s in
    (EX_NONE, s1, pause env (mSessionId s) now m1).

(** [PowerHintSession::resume]. *)
Definition session_resume (now : Z) (s : PowerHintSession) (m : PowerSessionManager)
    : ExceptionCode * PowerHintSession * PowerSessionManager :=
  if mSessionClosed s then (EX_ILLEGAL_STATE, s, m)
  else if is_active (mDescriptor s) then (EX_ILLEGAL_STATE, s, m)
  else
    let m1 :=
      setThreadsFromPowerSession env (mSessionId s) (thread_ids (mDescriptor s)) now m in
    let s1 := with_descriptor (set_is_active true) s in
    (EX_NONE, s1, resume env (mSessionId s) now m1).

(** [PowerHintSession::close]; the callback [&mOnAdpfUpdate] is named by
    the id of the session, and [hm] is the hint manager. *)
Definition close (now : Z) (s : PowerHintSession) (m : PowerSessionManager)
    (hm : HintManager)
    : ExceptionCode * PowerHintSession * PowerSessionManager * HintManager :=
  if mSessionClosed s then (EX_ILLEGAL_STATE, s, m, hm)
  else
    let s1 := set_mSessionClosed true s in
    let m1 := removePowerSession env (mSessionId s1) now m in
    let s2 := with_descriptor (set_is_active false) s1 in
    (EX_NONE, s2, m1,
     HintManager.UnregisterAdpfUpdateEvent (SessionTag_toString (mTag s2)) (mSessionId s2) hm).

(** [PowerHintSession::updateTargetWorkDuration]. *)
Definition session_updateTargetWorkDuration (targetDurationNanos : Z)
    (s : PowerHintSession) (m : PowerSessionManager)
    : ExceptionCode * PowerHintSession * PowerSessionManager :=
  if mSessionClosed s then (EX_ILLEGAL_STATE, s, m)
  else if targetDurationNanos <=? 0 then (EX_ILLEGAL_ARGUMENT, s, m)
  else
    let targetDurationNanos' :=
      scaledDuration targetDurationNanos (mTargetTimeFactor (getAdpfProfile s)) in
    let s1 := with_descriptor (set_targetNs targetDurationNanos') s in
    (EX_NONE, s1,
     updateTargetWorkDuration (mSessionId s1) CPU_VOTE_DEFAULT targetDurationNanos' m).

(** [PowerHintSession::updateHeuristicBoost].  The window reports integral
    microsecond counts, so the second ratio is an integer quotient. *)
Definition updateHeuristicBoost (s : PowerHintSession) : option PowerHintSession :=
  records ← mSessionRecords s;
  match getMaxDuration env records, getAvgDuration env records with
  | Some maxDurationUs, Some avgDurationUs =>
      let numOfJankFrames := getNumOfMissedCycles env records in
      let maxToAvgRatio :=
        if getNumOfRecords env records <=? 0 then
          PrimFloat.div (PrimFloat.mul (Double.of_Z maxDurationUs) 1%float)
            (Double.of_Z (Z.quot (targetNs (mDescriptor s)) 1000))
        else Double.of_Z (Z.quot maxDurationUs avgDurationUs) in
      threshold ← mLowFrameRateThreshold (getAdpfProfile s);
      let isLowFPS := isLowFrameRate env records threshold in
      level ← updateSessionJankState (getAdpfProfile s) (mJankyLevel s) numOfJankFrames
                 maxToAvgRatio isLowFPS;
      Some (set_jank level numOfJankFrames s)
  | _, _ => Some s
  end.

(** The heuristic-boost block of [reportActualWorkDuration]: the window
    takes the batch, the statistics count it at the level in force, and the
    jank state is updated. *)
Definition recordHeuristics (adpfConfig : AdpfConfig) (actualDurations : list WorkDuration)
    (s : PowerHintSession) (m : PowerSessionManager)
    : option (PowerHintSession * PowerSessionManager) :=
  if hboostEnabled adpfConfig then
    records ← mSessionRecords s;
    let s' :=
      set_mSessionRecords
        (Some (addReportedDurations env records actualDurations (targetNs (mDescriptor s))))
        s in
    let m' :=
      updateHboostStatistics (mSessionId s') (mJankyLevel s')
        (Z.of_nat (length actualDurations)) m in
    s'' ← updateHeuristicBoost s';
    Some (s'', m')
  else Some (s, m).

(** The GPU tail of [reportActualWorkDuration]. *)
Definition reportGpu (adpfConfig : AdpfConfig) (actualDurations : list WorkDuration)
    (now : Z) (s : PowerHintSession) (m : PowerSessionManager) : PowerSessionManager :=
  match mGpuBoostCapacityMax adpfConfig, last actualDurations with
  | Some capacityMax, Some back =>
      if negb (default false (mGpuBoostOn adpfConfig)) || (gpuDurationNanos back =? 0)
      then m
      else
        match gpuFrequency env with
        | None => m
        | Some gpu_freq =>
            let additional_gpu_capacity :=
              calculate_capacity env back (targetNs (mDescriptor s)) gpu_freq in
            let clamped := Z.min capacityMax (Z.max 0 additional_gpu_capacity) in
            voteSetGpu env (mSessionId s) GPU_CAPACITY clamped now
              (scaledDuration (targetNs (mDescriptor s)) (mStaleTimeFactor adpfConfig)) m
        end
  | _, _ => m
  end.

(** [PowerHintSession::reportActualWorkDuration]. *)
Definition reportActualWorkDuration (actualDurations : list WorkDuration) (now : Z)
    (s : PowerHintSession) (m : PowerSessionManager)
    : option (ExceptionCode * PowerHintSession * PowerSessionManager) :=
  if mSessionClosed s then Some (EX_ILLEGAL_STATE, s, m)
  else if targetNs (mDescriptor s) =? 0 then Some (EX_ILLEGAL_STATE, s, m)
  else if bool_decide (actualDurations = []) then Some (EX_ILLEGAL_ARGUMENT, s, m)
  else if negb (is_active (mDescriptor s)) then Some (EX_ILLEGAL_STATE, s, m)
  else
    let adpfConfig := getAdpfProfile s in
    let s1 :=
      with_descriptor (set_update_count (to_int64 (update_count (mDescriptor s) + 1))) s in
    let isFirstFrame := isTimeout s1 now in
    let s2 := set_mLastUpdatedTime now s1 in
    let m1 := if isFirstFrame then updateUniversalBoostMode env now m else m in
    let m2 := disableBoosts (mSessionId s2) m1 in
    if negb (mPidOn adpfConfig) then
      let '(s3, m3) :=
        updatePidControlVariable (to_int32 (mUclampMinHigh adpfConfig)) true now s2 m2 in
      Some (EX_NONE, s3, m3)
    else
      '(s3, m3) ← recordHeuristics adpfConfig actualDurations s2 m2;
      '(output, desc) ←
        convertWorkDurationToBoostByPid env adpfConfig (mJankyLevel s3) (mJankyFrameNum s3)
          (mDescriptor s3) actualDurations;
      let s4 := with_descriptor (fun _ => desc) s3 in
      bounds ← uclampMinBounds adpfConfig (mJankyLevel s4) (mJankyFrameNum s4);
      let '(s5, m5) :=
        updatePidControlVariable
          (next_min bounds (pidControlVariable (mDescriptor s4)) output) true now s4 m3 in
      Some (EX_NONE, s5, reportGpu adpfConfig actualDurations now s5 m5).

(** A sequence of report calls, each with its batch and clock reading, all
    of which succeed. *)
Fixpoint reportAll (calls : list (list WorkDuration * Z))
    (s : PowerHintSession) (m : PowerSessionManager)
    : option (PowerHintSession * PowerSessionManager) :=
  match calls with
  | [] => Some (s, m)
  | (actualDurations, now) :: rest =>
      match reportActualWorkDuration actualDurations now s m with
      | Some (EX_NONE, s', m') => reportAll rest s' m'
      | _ => None
      end
  end.

(** The constructor of [PowerHintSession], from the next value of
    [sSessionIDCounter].  The headers that initialise [AppHintDesc] and the
    jank state are absent: as the spec has it, the session starts active,
    with a zeroed controller and the jank level at LIGHT.  The callback
    [&mOnAdpfUpdate] registered with the hint manager [hm] is named by the id
    of the session. *)
Definition newPowerHintSession (tgid uid : Z) (threadIds : list Z) (durationNs : Z)
    (tag : SessionTag) (now : Z) (id : Z) (m : PowerSessionManager) (hm : HintManager)
    : option (PowerHintSession * PowerSessionManager * HintManager) :=
  let adpfConfig := GetAdpfProfileOf env tag in
  records ←
    (if hboostEnabled adpfConfig then
       maxRecordsNum ← mMaxRecordsNum adpfConfig;
       jankCheckTimeFactor ← mJankCheckTimeFactor adpfConfig;
       Some (Some (newSessionRecords env maxRecordsNum jankCheckTimeFactor))
     else Some None);
  let desc :=
    {| sessionId := id; tgid := tgid; uid := uid; thread_ids := threadIds;
       targetNs := durationNs; pidControlVariable := 0; is_active := true;
       update_count := 0; integral_error := 0; previous_error := 0 |} in
  let s :=
    {| mSessionId := id; mDescriptor := desc; mTag := tag;
       mAdpfProfile := Some adpfConfig; mSessionClosed := false;
       mLastUpdatedTime := now; mJankyLevel := LIGHT; mJankyFrameNum := 0;
       mSessionRecords := records |} in
  let hm1 := HintManager.RegisterAdpfUpdateEvent (SessionTag_toString tag) id hm in
  let m1 := addPowerSession env desc threadIds now m in
  let m2 :=
    voteSet env id CPU_LOAD_RESET (mUclampMinLoadReset adpfConfig) (kUclampMax env) now
      (Double.to_int64
         (PrimFloat.div
            (PrimFloat.mul (Double.of_Z durationNs) (mStaleTimeFactor adpfConfig))
            2%float)) m1 in
  let m3 :=
    voteSet env id CPU_VOTE_DEFAULT (mUclampMinInit adpfConfig) (kUclampMax env) now
      durationNs m2 in
  Some (s, m3, hm1).

(** ** The session factory *)

(** The process: the id counter, the manager, the live session objects and
    the hint manager. *)
Record World : Type := {
  sSessionIDCounter : Z;
  manager : PowerSessionManager;
  sessions : gmap Z PowerHintSession;
  hint_manager : HintManager
}.

(** [Power::createHintSessionWithConfig]: the status, the session returned
    and the world after the call. *)
Definition createHintSessionWithConfig (tgid uid : Z) (threadIds : list Z)
    (durationNanos : Z) (tag : SessionTag) (now : Z) (w : World)
    : option (ExceptionCode * option Z * World) :=
  if negb (IsAdpfSupported env) then Some (EX_UNSUPPORTED_OPERATION, None, w)
  else if (Z.of_nat (length threadIds) =? 0) then Some (EX_ILLEGAL_ARGUMENT, None, w)
  else
    let id := to_int64 (sSessionIDCounter w + 1) in
    '(session, m, hm) ←
      newPowerHintSession tgid uid threadIds durationNanos tag now id (manager w)
        (hint_manager w);
    Some (EX_NONE, Some id,
          {| sSessionIDCounter := id;
             manager := registerSession id m;
             sessions := <[id := session]> (sessions w);
             hint_manager := hm |}).

(** [Power::createHintSession]. *)
Definition createHintSession (tgid uid : Z) (threadIds : list Z) (durationNanos : Z)
    (now : Z) (w : World) : option (ExceptionCode * option Z * World) :=
  createHintSessionWithConfig tgid uid threadIds durationNanos OTHER now w.

End Session.

Arguments PowerHintSession : clear implicits.
Arguments World : clear implicits.
Arguments mSessionId {SessionRecords} _.
Arguments mDescriptor {SessionRecords} _.
Arguments mTag {SessionRecords} _.
Arguments mAdpfProfile {SessionRecords} _.
Arguments mSessionClosed {SessionRecords} _.
Arguments mLastUpdatedTime {SessionRecords} _.
Arguments mJankyLevel {SessionRecords} _.
Arguments mJankyFrameNum {SessionRecords} _.
Arguments mSessionRecords {SessionRecords} _.
Arguments with_descriptor {SessionRecords} _ _.
Arguments set_mSessionClosed {SessionRecords} _ _.
Arguments set_mLastUpdatedTime {SessionRecords} _ _.
Arguments set_jank {SessionRecords} _ _ _.
Arguments set_mSessionRecords {SessionRecords} _ _.
Arguments sSessionIDCounter {SessionRecords} _.
Arguments manager {SessionRecords} _.
Arguments sessions {SessionRecords} _.
Arguments hint_manager {SessionRecords} _.

(** ** Concrete profiles and collaborators

    The inputs the examples below are evaluated on. *)

Module Fixture.

(** A profile without heuristic boost. *)
Definition plain : AdpfConfig :=
  {| mPidOn := true;
     mPidPo := 5%float; mPidPu := 3%float; mPidI := 0.0009765625%float;
     mPidIInit := 200; mPidIHigh := 512; mPidILow := -120;
     mPidDo := 500%float; mPidDu := 0%float;
     mUclampMinOn := true;
     mUclampMinInit := 100; mUclampMinHigh := 384; mUclampMinLow := 2;
     mSamplingWindowP := 1; mSamplingWindowI := 0; mSamplingWindowD := 1;
     mReportingRateLimitNs := 166666660;
     mTargetTimeFactor := 1%float; mStaleTimeFactor := 10%float;
     mGpuBoostOn := None; mGpuBoostCapacityMax := None;
     mGpuCapacityLoadUpHeadroom := 0;
     mHeuristicBoostOn := None;
     mHBoostModerateJankThreshold := None; mHBoostOffMaxAvgDurRatio := None;
     mHBoostSevereJankPidPu := None; mHBoostSevereJankThreshold := None;
     mHBoostUclampMinCeilingRange := None; mHBoostUclampMinFloorRange := None;
     mJankCheckTimeFactor := None; mLowFrameRateThreshold := None;
     mMaxRecordsNum := None;
     mUclampMinLoadUp := 200; mUclampMinLoadReset := 250;
     mUclampMaxEfficientBase := Some 300; mUclampMaxEfficientOffset := Some 50 |}.

(** The same profile with heuristic boost on, for a given severe-jank
    gain. *)
Definition hboost (severeJankPidPu : double) : AdpfConfig :=
  {| mPidOn := true;
     mPidPo := 5%float; mPidPu := 3%float; mPidI := 0.0009765625%float;
     mPidIInit := 200; mPidIHigh := 512; mPidILow := -120;
     mPidDo := 500%float; mPidDu := 0%float;
     mUclampMinOn := true;
     mUclampMinInit := 100; mUclampMinHigh := 384; mUclampMinLow := 2;
     mSamplingWindowP := 1; mSamplingWindowI := 0; mSamplingWindowD := 1;
     mReportingRateLimitNs := 166666660;
     mTargetTimeFactor := 1%float; mStaleTimeFactor := 10%float;
     mGpuBoostOn := None; mGpuBoostCapacityMax := None;
     mGpuCapacityLoadUpHeadroom := 0;
     mHeuristicBoostOn := Some true;
     mHBoostModerateJankThreshold := Some 3;
     mHBoostOffMaxAvgDurRatio := Some 4%float;
     mHBoostSevereJankPidPu := Some severeJankPidPu;
     mHBoostSevereJankThreshold := Some 9;
     mHBoostUclampMinCeilingRange := Some (480, 800);
     mHBoostUclampMinFloorRange := Some (200, 400);
     mJankCheckTimeFactor := Some 1.25%float;
     mLowFrameRateThreshold := Some 25;
     mMaxRecordsNum := Some 300;
     mUclampMinLoadUp := 200; mUclampMinLoadReset := 250;
     mUclampMaxEfficientBase := Some 300; mUclampMaxEfficientOffset := Some 50 |}.

(** The heuristic profile with the PID controller switched off. *)
Definition pidOff : AdpfConfig :=
  {| mPidOn := false;
     mPidPo := 5%float; mPidPu := 3%float; mPidI := 0.0009765625%float;
     mPidIInit := 200; mPidIHigh := 512; mPidILow := -120;
     mPidDo := 500%float; mPidDu := 0%float;
     mUclampMinOn := true;
     mUclampMinInit := 100; mUclampMinHigh := 384; mUclampMinLow := 2;
     mSamplingWindowP := 1; mSamplingWindowI := 0; mSamplingWindowD := 1;
     mReportingRateLimitNs := 166666660;
     mTargetTimeFactor := 1%float; mStaleTimeFactor := 10%float;
     mGpuBoostOn := None; mGpuBoostCapacityMax := None;
     mGpuCapacityLoadUpHeadroom := 0;
     mHeuristicBoostOn := Some true;
     mHBoostModerateJankThreshold := Some 3;
     mHBoostOffMaxAvgDurRatio := Some 4%float;
     mHBoostSevereJankPidPu := Some 1%float;
     mHBoostSevereJankThreshold := Some 9;
     mHBoostUclampMinCeilingRange := Some (480, 800);
     mHBoostUclampMinFloorRange := Some (200, 400);
     mJankCheckTimeFactor := Some 1.25%float;
     mLowFrameRateThreshold := Some 25;
     mMaxRecordsNum := Some 300;
     mUclampMinLoadUp := 200; mUclampMinLoadReset := 250;
     mUclampMaxEfficientBase := Some 300; mUclampMaxEfficientOffset := Some 50 |}.

(** A profile whose integral window is the last sample only, with integral
    limits of 100 and 512 (the integral gain is 1). *)
Definition lateIntegral : AdpfConfig :=
  {| mPidOn := true;
     mPidPo := 5%float; mPidPu := 3%float; mPidI := 1%float;
     mPidIInit := 200; mPidIHigh := 512; mPidILow := 100;
     mPidDo := 500%float; mPidDu := 0%float;
     mUclampMinOn := true;
     mUclampMinInit := 100; mUclampMinHigh := 384; mUclampMinLow := 2;
     mSamplingWindowP := 0; mSamplingWindowI := 1; mSamplingWindowD := 1;
     mReportingRateLimitNs := 166666660;
     mTargetTimeFactor := 1%float; mStaleTimeFactor := 10%float;
     mGpuBoostOn := None; mGpuBoostCapacityMax := None;
     mGpuCapacityLoadUpHeadroom := 0;
     mHeuristicBoostOn := None;
     mHBoostModerateJankThreshold := None; mHBoostOffMaxAvgDurRatio := None;
     mHBoostSevereJankPidPu := None; mHBoostSevereJankThreshold := None;
     mHBoostUclampMinCeilingRange := None; mHBoostUclampMinFloorRange := None;
     mJankCheckTimeFactor := None; mLowFrameRateThreshold := None;
     mMaxRecordsNum := None;
     mUclampMinLoadUp := 200; mUclampMinLoadReset := 250;
     mUclampMaxEfficientBase := Some 300; mUclampMaxEfficientOffset := Some 50 |}.

(** A profile whose [mUclampMinLow], 300, is above its [mUclampMinHigh], 100. *)
Definition inverted : AdpfConfig :=
  {| mPidOn := true;
     mPidPo := 5%float; mPidPu := 3%float; mPidI := 0.0009765625%float;
     mPidIInit := 200; mPidIHigh := 512; mPidILow := -120;
     mPidDo := 500%float; mPidDu := 0%float;
     mUclampMinOn := true;
     mUclampMinInit := 100; mUclampMinHigh := 100; mUclampMinLow := 300;
     mSamplingWindowP := 1; mSamplingWindowI := 0; mSamplingWindowD := 1;
     mReportingRateLimitNs := 166666660;
     mTargetTimeFactor := 1%float; mStaleTimeFactor := 10%float;
     mGpuBoostOn := None; mGpuBoostCapacityMax := None;
     mGpuCapacityLoadUpHeadroom := 0;
     mHeuristicBoostOn := None;
     mHBoostModerateJankThreshold := None; mHBoostOffMaxAvgDurRatio := None;
     mHBoostSevereJankPidPu := None; mHBoostSevereJankThreshold := None;
     mHBoostUclampMinCeilingRange := None; mHBoostUclampMinFloorRange := None;
     mJankCheckTimeFactor := None; mLowFrameRateThreshold := None;
     mMaxRecordsNum := None;
     mUclampMinLoadUp := 200; mUclampMinLoadReset := 250;
     mUclampMaxEfficientBase := Some 300; mUclampMaxEfficientOffset := Some 50 |}.

(** The plain profile with GPU boost on. *)
Definition gpuBoost : AdpfConfig :=
  {| mPidOn := true;
     mPidPo := 5%float; mPidPu := 3%float; mPidI := 0.0009765625%float;
     mPidIInit := 200; mPidIHigh := 512; mPidILow := -120;
     mPidDo := 500%float; mPidDu := 0%float;
     mUclampMinOn := true;
     mUclampMinInit := 100; mUclampMinHigh := 384; mUclampMinLow := 2;
     mSamplingWindowP := 1; mSamplingWindowI := 0; mSamplingWindowD := 1;
     mReportingRateLimitNs := 166666660;
     mTargetTimeFactor := 1%float; mStaleTimeFactor := 10%float;
     mGpuBoostOn := Some true; mGpuBoostCapacityMax := Some 1000;
     mGpuCapacityLoadUpHeadroom := 0;
     mHeuristicBoostOn := None;
     mHBoostModerateJankThreshold := None; mHBoostOffMaxAvgDurRatio := None;
     mHBoostSevereJankPidPu := None; mHBoostSevereJankThreshold := None;
     mHBoostUclampMinCeilingRange := None; mHBoostUclampMinFloorRange := None;
     mJankCheckTimeFactor := None; mLowFrameRateThreshold := None;
     mMaxRecordsNum := None;
     mUclampMinLoadUp := 200; mUclampMinLoadReset := 250;
     mUclampMaxEfficientBase := Some 300; mUclampMaxEfficientOffset := Some 50 |}.

(** A heuristic window that keeps every (actual, target) pair in
    nanoseconds. *)
Definition window_max (w : list (Z * Z)) : option Z :=
  match w with
  | [] => None
  | _ => Some (Z.quot (foldr (fun s acc => Z.max s.1 acc) 0 w) 1000)
  end.

Definition window_avg (w : list (Z * Z)) : option Z :=
  match w with
  | [] => None
  | _ => Some (Z.quot (Z.quot (foldr (fun s acc => s.1 + acc) 0 w) (Z.of_nat (length w))) 1000)
  end.

Definition window_missed (w : list (Z * Z)) : Z :=
  Z.of_nat (length (List.filter (fun s => s.2 <? s.1) w)).

(** Collaborators for a profile [cfg]: every thread is alive unless it is
    thread 13, there is no GPU node. *)
Definition env (cfg : AdpfConfig) : Collaborators (list (Z * Z)) :=
  {| getPidIHighDivI := fun c => Double.to_int64 (PrimFloat.div (Double.of_Z (mPidIHigh c)) (mPidI c));
     getPidILowDivI := fun c => Double.to_int64 (PrimFloat.div (Double.of_Z (mPidILow c)) (mPidI c));
     GetAdpfProfileOf := fun _ => cfg;
     GetAdpfProfile := cfg;
     IsAdpfSupported := true;
     IsHintSupported := true;
     kUclampMin := 0;
     kUclampMax := 1024;
     AID_APP_START := 10000;
     sched_setattr := fun tid _ _ => if tid =? 13 then ESRCH else 0;
     mGpuCapacityNode := None;
     calculate_capacity := fun _ _ _ => 0;
     newSessionRecords := fun _ _ => [];
     addReportedDurations := fun w ds target => w ++ map (fun d => (durationNanos d, target)) ds;
     getMaxDuration := window_max;
     getAvgDuration := window_avg;
     getNumOfRecords := fun w => Z.of_nat (length w);
     getNumOfMissedCycles := window_missed;
     isLowFrameRate := fun _ _ => false |}.

(** The same collaborators on a device with a GPU capacity node that
    reports a frequency. *)
Definition gpuEnv (cfg : AdpfConfig) : Collaborators (list (Z * Z)) :=
  {| getPidIHighDivI := getPidIHighDivI (env cfg);
     getPidILowDivI := getPidILowDivI (env cfg);
     GetAdpfProfileOf := GetAdpfProfileOf (env cfg);
     GetAdpfProfile := GetAdpfProfile (env cfg);
     IsAdpfSupported := IsAdpfSupported (env cfg);
     IsHintSupported := IsHintSupported (env cfg);
     kUclampMin := kUclampMin (env cfg);
     kUclampMax := kUclampMax (env cfg);
     AID_APP_START := AID_APP_START (env cfg);
     sched_setattr := sched_setattr (env cfg);
     mGpuCapacityNode := Some (Some 500);
     calculate_capacity := calculate_capacity (env cfg);
     newSessionRecords := newSessionRecords (env cfg);
     addReportedDurations := addReportedDurations (env cfg);
     getMaxDuration := getMaxDuration (env cfg);
     getAvgDuration := getAvgDuration (env cfg);
     getNumOfRecords := getNumOfRecords (env cfg);
     getNumOfMissedCycles := getNumOfMissedCycles (env cfg);
     isLowFrameRate := isLowFrameRate (env cfg) |}.

Definition emptyManager : PowerSessionManager :=
  {| mSessionTaskMap := SessionTaskMap.empty;
     mEventSessionTimeoutWorker := [];
     mSessionMap := ∅;
     effects := [] |}.

Definition emptyWorld (cfg : AdpfConfig) : World (list (Z * Z)) :=
  {| sSessionIDCounter := 0; manager := emptyManager; sessions := ∅;
     hint_manager := HintManager.new [("DEFAULT", cfg)] ∅ |}.

Definition sample (ns : Z) : WorkDuration :=
  {| durationNanos := ns; cpuDurationNanos := ns; gpuDurationNanos := 0 |}.

(** A session value with one active CPU vote [lo, hi] over [0, 1000). *)
Definition voting (lo hi : Z) (efficient : bool) : SessionValueEntry :=
  {| sve_tgid := 1; sve_uid := 10001; isActive := true; isAppSession := true;
     lastUpdatedTime := 0;
     votes := {[ underlying CPU_VOTE_DEFAULT :=
                   {| voteActive := true; startTime := 0; durationNs := 1000;
                      voteValue := CpuRange lo hi |} ]};
     isPowerEfficient := efficient;
     hBoostModeDist :=
       {| lightModeFrames := 0; moderateModeFrames := 0; severeModeFrames := 0 |} |}.

(** Scenario D: sessions 1 and 2 share thread 7. *)
Definition shared (sv1 sv2 : SessionValueEntry) : SessionTaskMap :=
  {| mSessions := {[ 1 := (sv1, [7]); 2 := (sv2, [7]) ]};
     mTasks := {[ 7 := [1; 2] ]} |}.

(** Scenario D inside a manager with nothing pending. *)
Definition sharedManager : PowerSessionManager :=
  {| mSessionTaskMap := shared (voting 200 800 false) (voting 100 1000 false);
     mEventSessionTimeoutWorker := [];
     mSessionMap := {[ 1; 2 ]};
     effects := [] |}.

(** A manager with session 1 on thread 7, its default vote live until 1000
    and one timer pending for it. *)
Definition oneSession : PowerSessionManager :=
  {| mSessionTaskMap :=
       {| mSessions := {[ 1 := (voting 200 800 false, [7]) ]};
          mTasks := {[ 7 := [1] ]} |};
     mEventSessionTimeoutWorker :=
       [({| timeStamp := 0; ev_sessionId := 1; ev_voteId := underlying CPU_VOTE_DEFAULT |},
         1000)];
     mSessionMap := {[ 1 ]};
     effects := [] |}.

(** The session object of session 1, with a target of 16 ms. *)
Definition session1 (cfg : AdpfConfig) (active closed : bool)
    : PowerHintSession (list (Z * Z)) :=
  {| mSessionId := 1;
     mDescriptor :=
       {| sessionId := 1; tgid := 1; uid := 10001; thread_ids := [7];
          targetNs := 16000000; pidControlVariable := 100; is_active := active;
          update_count := 0; integral_error := 0; previous_error := 0 |};
     mTag := OTHER; mAdpfProfile := Some cfg; mSessionClosed := closed;
     mLastUpdatedTime := 0; mJankyLevel := LIGHT; mJankyFrameNum := 0;
     mSessionRecords :=
       if hboostEnabled cfg then Some (newSessionRecords (env cfg) 300 1.25%float) else None |}.

End Fixture.

(** ** The rest of the session interface *)

(** The AIDL [SessionHint], as [sendHint] switches on it; [Invalid] is any
    value the switch does not name. *)
Module SessionHint.

Inductive t : Set :=
  | CPU_LOAD_UP
  | CPU_LOAD_DOWN
  | CPU_LOAD_RESET
  | CPU_LOAD_RESUME
  | POWER_EFFICIENCY
  | GPU_LOAD_UP
  | GPU_LOAD_DOWN
  | GPU_LOAD_RESET
  | Invalid.

(** [toString(hint)]: the generated function gives the enumerator's name. *)
Definition toString (hint : t) : string :=
  match hint with
  | CPU_LOAD_UP => "CPU_LOAD_UP"
  | CPU_LOAD_DOWN => "CPU_LOAD_DOWN"
  | CPU_LOAD_RESET => "CPU_LOAD_RESET"
  | CPU_LOAD_RESUME => "CPU_LOAD_RESUME"
  | POWER_EFFICIENCY => "POWER_EFFICIENCY"
  | GPU_LOAD_UP => "GPU_LOAD_UP"
  | GPU_LOAD_DOWN => "GPU_LOAD_DOWN"
  | GPU_LOAD_RESET => "GPU_LOAD_RESET"
  | Invalid => "Invalid"
  end.

End SessionHint.

(** The AIDL [SessionMode], as [setMode] switches on it; [Other] is any
    value but [POWER_EFFICIENCY]. *)
Module SessionMode.

Inductive t : Set := POWER_EFFICIENCY | Other.

End SessionMode.

(** What a session asks of the hint manager through [tryToSendPowerHint]. *)
Inductive HintManagerCall : Set :=
  | AskHintSupported (hint : string)
  | DoHintNamed (hint : string).

Definition set_thread_ids (t : list Z) (d : AppHintDesc) : AppHintDesc :=
  {| sessionId := sessionId d; tgid := tgid d; uid := uid d; thread_ids := t;
     targetNs := targetNs d; pidControlVariable := pidControlVariable d;
     is_active := is_active d; update_count := update_count d;
     integral_error := integral_error d; previous_error := previous_error d |}.

Section SessionInterface.

Context {SessionRecords : Type} (env : Collaborators SessionRecords).

(** [HintManager::IsHintSupported(hint)]. *)
Variable isHintSupported : string -> bool.

(** [PowerSessionManager::setPreferPowerEfficiency]. *)
Definition setPreferPowerEfficiency (sessionId : Z) (enabled : bool) (now : Z)
    (m : PowerSessionManager) : PowerSessionManager :=
  match SessionTaskMap.findSession sessionId (mSessionTaskMap m) with
  | None => m
  | Some sessVal =>
      if negb (Bool.eqb enabled (isPowerEfficient sessVal)) then
        applyUclampLocked env sessionId now
          (with_map (SessionTaskMap.updateSession (set_isPowerEfficient enabled) sessionId) m)
      else m
  end.

(** [PowerHintSession::setThreads]. *)
Definition session_setThreads (threadIds : list Z) (now : Z)
    (s : PowerHintSession SessionRecords) (m : PowerSessionManager)
    : ExceptionCode * PowerHintSession SessionRecords * PowerSessionManager :=
  if mSessionClosed s then (EX_ILLEGAL_STATE, s, m)
  else if bool_decide (threadIds = []) then (EX_ILLEGAL_ARGUMENT, s, m)
  else
    let s1 := with_descriptor (set_thread_ids threadIds) s in
    let m1 := setThreadsFromPowerSession env (mSessionId s1) threadIds now m in
    let '(s2, m2) :=
      updatePidControlVariable env (to_int32 (mUclampMinInit (getAdpfProfile env s1))) true
        now s1 m1 in
    (EX_NONE, s2, m2).

(** A [PowerHintSession] with the members the calls below use: the
    [POWER_EFFICIENCY] element of [mModes] (the only one written), the cache
    [mSupportedHints], and the calls made to the hint manager so far. *)
Record SessionObject : Type := {
  session : PowerHintSession SessionRecords;
  mModes_POWER_EFFICIENCY : bool;
  mSupportedHints : gmap string bool;
  hintManagerCalls : list HintManagerCall
}.

Definition with_session (f : PowerHintSession SessionRecords -> PowerHintSession SessionRecords)
    (x : SessionObject) : SessionObject :=
  {| session := f (session x);
     mModes_POWER_EFFICIENCY := mModes_POWER_EFFICIENCY x;
     mSupportedHints := mSupportedHints x;
     hintManagerCalls := hintManagerCalls x |}.

(** [PowerHintSession::tryToSendPowerHint]. *)
Definition tryToSendPowerHint (hint : string) (x : SessionObject) : SessionObject :=
  let x1 :=
    match mSupportedHints x !! hint with
    | Some _ => x
    | None =>
        {| session := session x;
           mModes_POWER_EFFICIENCY := mModes_POWER_EFFICIENCY x;
           mSupportedHints := <[hint := isHintSupported hint]> (mSupportedHints x);
           hintManagerCalls := hintManagerCalls x ++ [AskHintSupported hint] |}
    end in
  match mSupportedHints x1 !! hint with
  | Some true =>
      {| session := session x1;
         mModes_POWER_EFFICIENCY := mModes_POWER_EFFICIENCY x1;
         mSupportedHints := mSupportedHints x1;
         hintManagerCalls := hintManagerCalls x1 ++ [DoHintNamed hint] |}
  | _ => x1
  end.

(** [PowerHintSession::setMode]. *)
Definition session_setMode (mode : SessionMode.t) (enabled : bool) (now : Z)
    (x : SessionObject) (m : PowerSessionManager)
    : ExceptionCode * SessionObject * PowerSessionManager :=
  if mSessionClosed (session x) then (EX_ILLEGAL_STATE, x, m)
  else
    match mode with
    | SessionMode.POWER_EFFICIENCY =>
        (EX_NONE,
         {| session := set_mLastUpdatedTime now (session x);
            mModes_POWER_EFFICIENCY := enabled;
            mSupportedHints := mSupportedHints x;
            hintManagerCalls := hintManagerCalls x |},
         setPreferPowerEfficiency (mSessionId (session x)) enabled now m)
    | SessionMode.Other => (EX_ILLEGAL_ARGUMENT, x, m)
    end.

(** The [switch] of [sendHint]: the session and the manager after the case
    of the hint, or nothing for a hint that is not valid.  The
    [POWER_EFFICIENCY] case calls [setMode] with the session's lock held;
    it is taken to go through. *)
Definition sendHint_switch (hint : SessionHint.t) (now : Z)
    (x : SessionObject) (m : PowerSessionManager)
    : option (SessionObject * PowerSessionManager) :=
  let s := session x in
  let adpfConfig := getAdpfProfile env s in
  let halfStale :=
    Double.to_int64
      (PrimFloat.div
         (PrimFloat.mul (Double.of_Z (targetNs (mDescriptor s))) (mStaleTimeFactor adpfConfig))
         2%float) in
  match hint with
  | SessionHint.CPU_LOAD_UP =>
      let '(s1, m1) :=
        updatePidControlVariable env (pidControlVariable (mDescriptor s)) true now s m in
      Some (with_session (fun _ => s1) x,
            voteSet env (mSessionId s) CPU_LOAD_UP (to_int32 (mUclampMinLoadUp adpfConfig))
              (kUclampMax env) now (to_int64 (targetNs (mDescriptor s) * 2)) m1)
  | SessionHint.CPU_LOAD_DOWN =>
      let '(s1, m1) :=
        updatePidControlVariable env (to_int32 (mUclampMinLow adpfConfig)) true now s m in
      Some (with_session (fun _ => s1) x, m1)
  | SessionHint.CPU_LOAD_RESET =>
      let '(s1, m1) :=
        updatePidControlVariable env
          (to_int32 (Z.max (mUclampMinInit adpfConfig)
                       (to_uint32 (pidControlVariable (mDescriptor s)))))
          false now s m in
      Some (with_session (fun _ => s1) x,
            voteSet env (mSessionId s) CPU_LOAD_RESET
              (to_int32 (mUclampMinLoadReset adpfConfig)) (kUclampMax env) now halfStale m1)
  | SessionHint.CPU_LOAD_RESUME =>
      Some (x,
            voteSet env (mSessionId s) CPU_LOAD_RESUME (pidControlVariable (mDescriptor s))
              (kUclampMax env) now halfStale m)
  | SessionHint.POWER_EFFICIENCY =>
      let '(_, x1, m1) := session_setMode SessionMode.POWER_EFFICIENCY true now x m in
      Some (x1, m1)
  | SessionHint.GPU_LOAD_UP =>
      Some (x,
            voteSetGpu env (mSessionId s) GPU_LOAD_UP (mGpuCapacityLoadUpHeadroom adpfConfig)
              now (targetNs (mDescriptor s)) m)
  | SessionHint.GPU_LOAD_DOWN => Some (x, m)
  | SessionHint.GPU_LOAD_RESET => Some (x, m)
  | SessionHint.Invalid => None
  end.

(** [PowerHintSession::sendHint]. *)
Definition sendHint (hint : SessionHint.t) (now : Z)
    (x : SessionObject) (m : PowerSessionManager)
    : ExceptionCode * SessionObject * PowerSessionManager :=
  if mSessionClosed (session x) then (EX_ILLEGAL_STATE, x, m)
  else if targetNs (mDescriptor (session x)) =? 0 then (EX_ILLEGAL_STATE, x, m)
  else
    match sendHint_switch hint now x m with
    | None => (EX_ILLEGAL_ARGUMENT, x, m)
    | Some (x1, m1) =>
        (EX_NONE,
         tryToSendPowerHint (SessionHint.toString hint)
           (with_session (set_mLastUpdatedTime now) x1),
         m1)
    end.

(** A sequence of [sendHint] calls, each with its clock reading. *)
Fixpoint sendHints (calls : list (SessionHint.t * Z))
    (x : SessionObject) (m : PowerSessionManager) : SessionObject * PowerSessionManager :=
  match calls with
  | [] => (x, m)
  | (hint, now) :: rest =>
      let '(_, x1, m1) := sendHint hint now x m in
      sendHints rest x1 m1
  end.

End SessionInterface.

Arguments SessionObject : clear implicits.
Arguments session {SessionRecords} _.
Arguments mModes_POWER_EFFICIENCY {SessionRecords} _.
Arguments mSupportedHints {SessionRecords} _.
Arguments hintManagerCalls {SessionRecords} _.
Arguments with_session {SessionRecords} _ _.

(** ** Hint statistics *)

(** [HintStatus], with its [stats]: the timeout in milliseconds, the start
    and end of the current request as [steady_clock] readings in
    nanoseconds, the [uint32_t] count and the [uint64_t] duration in
    milliseconds. *)
Record HintStatus : Set := {
  max_timeout : Z;
  start_time : Z;
  end_time : Z;
  stats_count : Z;
  stats_duration_ms : Z
}.

(** [kTimePointMax], [steady_clock::time_point::max()]. *)
Definition kTimePointMax : Z := INT64_MAX.

(** [duration_cast<milliseconds>] of a count of nanoseconds. *)
Definition ns_to_ms (ns : Z) : Z := Z.quot ns 1000000.

(** [HintStatus(max_timeout)]: both readings are [time_point::min()]. *)
Definition newHintStatus (max_timeout : Z) : HintStatus :=
  {| max_timeout := max_timeout; start_time := INT64_MIN; end_time := INT64_MIN;
     stats_count := 0; stats_duration_ms := 0 |}.

(** The timeout [HintManager::InitHintStatus] gives a hint, from the
    timeouts of its node actions: [std::minmax_element] finds the least and
    the greatest. *)
Definition InitHintStatus_timeout (timeouts : list Z) : Z :=
  match timeouts with
  | [] => 0
  | first :: rest =>
      let least := foldl Z.min first rest in
      let greatest := foldl Z.max first rest in
      if least =? 0 then 0 else greatest
  end.

(** [HintManager::DoHintStatus], at clock reading [now], on the status of
    the hint. *)
Definition DoHintStatus (timeout_ms : Z) (now : Z) (status : HintStatus) : HintStatus :=
  let count := to_uint32 (stats_count status + 1) in
  let expired := end_time status <? now in
  let duration_ms :=
    if expired then
      to_uint64 (stats_duration_ms status
                 + ns_to_ms (to_int64 (end_time status - start_time status)))
    else stats_duration_ms status in
  {| max_timeout := max_timeout status;
     start_time := if expired then now else start_time status;
     end_time :=
       if timeout_ms =? 0 then kTimePointMax
       else to_int64 (now + to_int64 (timeout_ms * 1000000));
     stats_count := count;
     stats_duration_ms := duration_ms |}.

(** [HintManager::EndHintStatus]. *)
Definition EndHintStatus (now : Z) (status : HintStatus) : HintStatus :=
  if now <? end_time status then
    {| max_timeout := max_timeout status;
       start_time := start_time status;
       end_time := now;
       stats_count := stats_count status;
       stats_duration_ms :=
         to_uint64 (stats_duration_ms status
                    + ns_to_ms (to_int64 (now - start_time status))) |}
  else status.

(** [PowerSessionManager::updateHintMode]. *)
Definition updateHintMode (mode : string) (enabled : bool) (hm : HintManager) : HintManager :=
  if enabled && bool_decide (is_Some (HintManager.GetAdpfProfileFromDoHint hm))
  then (HintManager.SetAdpfProfileFromDoHint mode hm).2
  else hm.

(** [kAdpfEventNodePath]. *)
Definition kAdpfEventNodePath : string := "<AdpfConfig>:".

Section ProfileUpdates.

Context {SessionRecords : Type}.

(** [PowerHintSession::setAdpfProfile]. *)
Definition setAdpfProfile (profile : AdpfConfig) (s : PowerHintSession SessionRecords)
    : PowerHintSession SessionRecords :=
  {| mSessionId := mSessionId s; mDescriptor := mDescriptor s; mTag := mTag s;
     mAdpfProfile := Some profile; mSessionClosed := mSessionClosed s;
     mLastUpdatedTime := mLastUpdatedTime s; mJankyLevel := mJankyLevel s;
     mJankyFrameNum := mJankyFrameNum s; mSessionRecords := mSessionRecords s |}.

(** [HintManager::OnNodeUpdate]: the hint manager and the session objects
    after the callbacks of the tag have run; [operator[]] makes the callback
    list of a tag that had none.  A callback whose session object is gone
    does nothing here. *)
Definition OnNodeUpdate (name path value : string) (hm : HintManager)
    (sessions : gmap Z (PowerHintSession SessionRecords))
    : HintManager * gmap Z (PowerHintSession SessionRecords) :=
  if String.prefix kAdpfEventNodePath path then
    let tag :=
      String.substring (String.length kAdpfEventNodePath)
        (String.length path - String.length kAdpfEventNodePath) path in
    let '(updated, hm') := HintManager.SetAdpfProfile tag value hm in
    if negb updated then (hm', sessions)
    else
      let callback_list := default [] (tag_update_callback_list_ hm' !! tag) in
      let hm'' :=
        {| adpfs_ := adpfs_ hm'; tag_profile_map_ := tag_profile_map_ hm';
           adpf_index_ := adpf_index_ hm';
           tag_update_callback_list_ :=
             <[tag := callback_list]> (tag_update_callback_list_ hm') |} in
      match tag_profile_map_ hm' !! tag with
      | None => (hm'', sessions)
      | Some profile =>
          (hm'',
           foldl (fun acc callback => alter (setAdpfProfile profile.2) callback acc) sessions
             callback_list)
      end
  else (hm, sessions).

End ProfileUpdates.

(** ** The power HAL *)

(** The AIDL [Mode], the enumerators [Power::setMode] names. *)
Module Mode.

Inductive t : Set :=
  | DOUBLE_TAP_TO_WAKE
  | LOW_POWER
  | SUSTAINED_PERFORMANCE
  | FIXED_PERFORMANCE
  | VR
  | LAUNCH
  | EXPENSIVE_RENDERING
  | INTERACTIVE
  | DEVICE_IDLE
  | DISPLAY_INACTIVE
  | AUDIO_STREAMING_LOW_LATENCY
  | CAMERA_STREAMING_SECURE
  | CAMERA_STREAMING_LOW
  | CAMERA_STREAMING_MID
  | CAMERA_STREAMING_HIGH
  | GAME_LOADING
  | AUTOMOTIVE_PROJECTION.

(** [toString(type)]: the generated function gives the enumerator's name. *)
Definition toString (type : t) : string :=
  match type with
  | DOUBLE_TAP_TO_WAKE => "DOUBLE_TAP_TO_WAKE"
  | LOW_POWER => "LOW_POWER"
  | SUSTAINED_PERFORMANCE => "SUSTAINED_PERFORMANCE"
  | FIXED_PERFORMANCE => "FIXED_PERFORMANCE"
  | VR => "VR"
  | LAUNCH => "LAUNCH"
  | EXPENSIVE_RENDERING => "EXPENSIVE_RENDERING"
  | INTERACTIVE => "INTERACTIVE"
  | DEVICE_IDLE => "DEVICE_IDLE"
  | DISPLAY_INACTIVE => "DISPLAY_INACTIVE"
  | AUDIO_STREAMING_LOW_LATENCY => "AUDIO_STREAMING_LOW_LATENCY"
  | CAMERA_STREAMING_SECURE => "CAMERA_STREAMING_SECURE"
  | CAMERA_STREAMING_LOW => "CAMERA_STREAMING_LOW"
  | CAMERA_STREAMING_MID => "CAMERA_STREAMING_MID"
  | CAMERA_STREAMING_HIGH => "CAMERA_STREAMING_HIGH"
  | GAME_LOADING => "GAME_LOADING"
  | AUTOMOTIVE_PROJECTION => "AUTOMOTIVE_PROJECTION"
  end.

End Mode.

(** The AIDL [Boost], the enumerators [Power::setBoost] names. *)
Module Boost.

Inductive t : Set :=
  | INTERACTION
  | DISPLAY_UPDATE_IMMINENT
  | ML_ACC
  | AUDIO_LAUNCH
  | CAMERA_LAUNCH
  | CAMERA_SHOT.

Definition toString (type : t) : string :=
  match type with
  | INTERACTION => "INTERACTION"
  | DISPLAY_UPDATE_IMMINENT => "DISPLAY_UPDATE_IMMINENT"
  | ML_ACC => "ML_ACC"
  | AUDIO_LAUNCH => "AUDIO_LAUNCH"
  | CAMERA_LAUNCH => "CAMERA_LAUNCH"
  | CAMERA_SHOT => "CAMERA_SHOT"
  end.

End Boost.

(** What [Power] asks of the display, the hint manager and the interaction
    handler, in the order it happens. *)
Inductive PowerCall : Set :=
  | SetDisplayLowPower (enabled : bool)
  | SetAAMode (enabled : bool)
  | HintDo (hint : string)
  | HintDoFor (hint : string) (timeout_ms : Z)
  | HintEnd (hint : string)
  | Acquire (durationMs : Z).

(** [Power]: its two mode flags, the hint manager's profiles, which
    [setMode] updates, and the calls made so far. *)
Record Power : Type := {
  mVRModeOn : bool;
  mSustainedPerfModeOn : bool;
  hintManager : HintManager;
  powerCalls : list PowerCall
}.

Module Power.

Definition call (cs : list PowerCall) (p : Power) : Power :=
  {| mVRModeOn := mVRModeOn p; mSustainedPerfModeOn := mSustainedPerfModeOn p;
     hintManager := hintManager p; powerCalls := powerCalls p ++ cs |}.

Definition set_mVRModeOn (b : bool) (p : Power) : Power :=
  {| mVRModeOn := b; mSustainedPerfModeOn := mSustainedPerfModeOn p;
     hintManager := hintManager p; powerCalls := powerCalls p |}.

Definition set_mSustainedPerfModeOn (b : bool) (p : Power) : Power :=
  {| mVRModeOn := mVRModeOn p; mSustainedPerfModeOn := b;
     hintManager := hintManager p; powerCalls := powerCalls p |}.

Definition set_hintManager (hm : HintManager) (p : Power) : Power :=
  {| mVRModeOn := mVRModeOn p; mSustainedPerfModeOn := mSustainedPerfModeOn p;
     hintManager := hm; powerCalls := powerCalls p |}.

(** The constructor, from the values of the properties
    [vendor.powerhal.state], [vendor.powerhal.audio] and
    [vendor.powerhal.rendering]. *)
Definition new (state audio rendering : string) (hm : HintManager) : Power :=
  let p0 :=
    {| mVRModeOn := false; mSustainedPerfModeOn := false; hintManager := hm;
       powerCalls := [] |} in
  let p1 :=
    if String.eqb state "SUSTAINED_PERFORMANCE" then
      set_mSustainedPerfModeOn true (call [HintDo "SUSTAINED_PERFORMANCE"] p0)
    else if String.eqb state "VR" then
      set_mVRModeOn true (call [HintDo state] p0)
    else if String.eqb state "VR_SUSTAINED_PERFORMANCE" then
      set_mVRModeOn true
        (set_mSustainedPerfModeOn true (call [HintDo "VR_SUSTAINED_PERFORMANCE"] p0))
    else p0 in
  let p2 :=
    if String.eqb audio "AUDIO_STREAMING_LOW_LATENCY" then call [HintDo audio] p1 else p1 in
  if String.eqb rendering "EXPENSIVE_RENDERING" then call [HintDo "EXPENSIVE_RENDERING"] p2
  else p2.

(** [Power::setMode]; the status returned is always [ok]. *)
Definition setMode (type : Mode.t) (enabled : bool) (p : Power) : Power :=
  let p :=
    if HintManager.IsAdpfSupported (hintManager p)
    then set_hintManager (updateHintMode (Mode.toString type) enabled (hintManager p)) p
    else p in
  let hint :=
    if enabled then call [HintDo (Mode.toString type)] p
    else call [HintEnd (Mode.toString type)] p in
  match type with
  | Mode.LOW_POWER =>
      let p1 := call [SetDisplayLowPower enabled] p in
      if enabled then call [HintDo (Mode.toString type)] p1
      else call [HintEnd (Mode.toString type)] p1
  | Mode.SUSTAINED_PERFORMANCE =>
      if enabled && negb (mSustainedPerfModeOn p) then
        let p1 :=
          if negb (mVRModeOn p) then call [HintDo "SUSTAINED_PERFORMANCE"] p
          else call [HintEnd "VR"; HintDo "VR_SUSTAINED_PERFORMANCE"] p in
        set_mSustainedPerfModeOn true p1
      else if negb enabled && mSustainedPerfModeOn p then
        let p1 := call [HintEnd "VR_SUSTAINED_PERFORMANCE"; HintEnd "SUSTAINED_PERFORMANCE"] p in
        let p2 := if mVRModeOn p then call [HintDo "VR"] p1 else p1 in
        set_mSustainedPerfModeOn false p2
      else p
  | Mode.VR =>
      if enabled && negb (mVRModeOn p) then
        let p1 :=
          if negb (mSustainedPerfModeOn p) then call [HintDo "VR"] p
          else call [HintEnd "SUSTAINED_PERFORMANCE"; HintDo "VR_SUSTAINED_PERFORMANCE"] p in
        set_mVRModeOn true p1
      else if negb enabled && mVRModeOn p then
        let p1 := call [HintEnd "VR_SUSTAINED_PERFORMANCE"; HintEnd "VR"] p in
        let p2 := if mSustainedPerfModeOn p then call [HintDo "SUSTAINED_PERFORMANCE"] p1 else p1 in
        set_mVRModeOn false p2
      else p
  | Mode.AUTOMOTIVE_PROJECTION =>
      let p1 := call [SetAAMode enabled] p in
      if enabled then call [HintDo "AUTOMOTIVE_PROJECTION"] p1
      else call [HintEnd "AUTOMOTIVE_PROJECTION"; HintEnd "DISPLAY_IDLE_AA"] p1
  | Mode.LAUNCH =>
      if mVRModeOn p || mSustainedPerfModeOn p then p else hint
  | _ => hint
  end.

(** [Power::setBoost]; the status returned is always [ok]. *)
Definition setBoost (type : Boost.t) (durationMs : Z) (p : Power) : Power :=
  match type with
  | Boost.INTERACTION =>
      if mVRModeOn p || mSustainedPerfModeOn p then p
      else call [Acquire durationMs] p
  | _ =>
      if mVRModeOn p || mSustainedPerfModeOn p then p
      else if 0 <? durationMs then call [HintDoFor (Boost.toString type) durationMs] p
      else if durationMs =? 0 then call [HintDo (Boost.toString type)] p
      else call [HintEnd (Boost.toString type)] p
  end.

End Power.

(** A request to the power HAL. *)
Inductive PowerRequest : Set :=
  | SetMode (type : Mode.t) (enabled : bool)
  | SetBoost (type : Boost.t) (durationMs : Z).

Definition handle (request : PowerRequest) (p : Power) : Power :=
  match request with
  | SetMode type enabled => Power.setMode type enabled p
  | SetBoost type durationMs => Power.setBoost type durationMs p
  end.

(** A hint manager with two profiles, the second one named after the
    [GAME_LOADING] mode, and a profile of its own for one tag. *)
Definition profiles : HintManager :=
  HintManager.new
    [("REFRESH_60FPS", Fixture.plain); ("GAME_LOADING", Fixture.hboost 1%float)]
    {[ "SURFACEFLINGER" := ("REFRESH_60FPS", Fixture.plain) ]}.

(** Session 1 as a session object that has asked nothing yet. *)
Definition object1 (cfg : AdpfConfig) (active closed : bool)
    : SessionObject (list (Z * Z)) :=
  {| session := Fixture.session1 cfg active closed;
     mModes_POWER_EFFICIENCY := false;
     mSupportedHints := ∅;
     hintManagerCalls := [] |}.

(** ** Notions used to state further properties *)

(** The thread a scheduler call is made for. *)
Definition effect_tid (e : Effect) : option Z :=
  match e with
  | SchedSetattr tid _ _ => Some tid
  | _ => None
  end.

(** The error of one sample against the target, in units of 100 us, as the
    loop of [convertWorkDurationToBoostByPid] computes it. *)
Definition sample_error (targetDurationNanos : Z) (sample : WorkDuration) : Z :=
  ns_to_100us (to_int64 (durationNanos sample - targetDurationNanos)).

(** A sum of [int64_t] values accumulated left to right from [acc], as
    [err_sum += error] does. *)
Definition wrapped_sum (acc : Z) (errors : list Z) : Z :=
  foldl (fun a e => to_int64 (a + e)) acc errors.

(** The value of [sid] after an operation on [sessionId] that applies [f]
    to the session it names. *)
Definition touched (f : SessionValueEntry -> SessionValueEntry) (sessionId sid : Z)
    (found : option SessionValueEntry) : option SessionValueEntry :=
  if decide (sid = sessionId) then f <$> found else found.

(** The hints a session has asked the hint manager about, and those it has
    sent. *)
Definition asked (calls : list HintManagerCall) : list string :=
  omap (fun c => match c with AskHintSupported h => Some h | _ => None end) calls.

Definition sent (calls : list HintManagerCall) : list string :=
  omap (fun c => match c with DoHintNamed h => Some h | _ => None end) calls.

(** A vote that is what it was, but perhaps switched off. *)
Definition faded (v v' : Vote) : Prop :=
  startTime v' = startTime v /\ durationNs v' = durationNs v /\
  voteValue v' = voteValue v /\ (voteActive v' = true -> voteActive v = true).

(** A ledger with the votes it had, some perhaps switched off. *)
Definition ledger_faded (vs vs' : gmap Z Vote) : Prop :=
  forall k,
    match vs !! k, vs' !! k with
    | Some v, Some v' => faded v v'
    | None, None => True
    | _, _ => False
    end.

(** A session value that is what it was but for the time of its last
    update and votes perhaps switched off; or no session in both. *)
Definition entry_faded (found found' : option SessionValueEntry) : Prop :=
  match found, found' with
  | Some entry, Some entry' =>
      ledger_faded (votes entry) (votes entry') /\
      isActive entry' = isActive entry /\
      isPowerEfficient entry' = isPowerEfficient entry /\
      isAppSession entry' = isAppSession entry /\
      hBoostModeDist entry' = hBoostModeDist entry
  | None, None => True
  | _, _ => False
  end.

(** The vote kind a session hint casts besides the default vote, if any
    (the default kind stands for none). *)
Definition hint_vote (hint : SessionHint.t) : AdpfVoteType :=
  match hint with
  | SessionHint.CPU_LOAD_UP => CPU_LOAD_UP
  | SessionHint.CPU_LOAD_RESET => CPU_LOAD_RESET
  | SessionHint.CPU_LOAD_RESUME => CPU_LOAD_RESUME
  | SessionHint.GPU_LOAD_UP => GPU_LOAD_UP
  | _ => CPU_VOTE_DEFAULT
  end.

(** An update of a session value that keeps its active flag and rewrites at
    most the votes of the kinds listed. *)
Definition keeps (kinds : list Z) (f : SessionValueEntry -> SessionValueEntry) : Prop :=
  forall v,
    isActive (f v) = isActive v /\
    forall k, k ∉ kinds -> votes (f v) !! k = votes v !! k.

(** A manager that differs from another by such an update of one session,
    the registry being the same. *)
Definition only_touches (kinds : list Z) (sessionId : Z) (m m' : PowerSessionManager)
    : Prop :=
  mSessionMap m' = mSessionMap m /\
  exists f,
    keeps kinds f /\
    forall sid,
      SessionTaskMap.findSession sid (mSessionTaskMap m')
      = touched f sessionId sid (SessionTaskMap.findSession sid (mSessionTaskMap m)).

(** Is a hint requested and not ended since, in a sequence of calls. *)
Definition held (hint : string) (calls : list PowerCall) : bool :=
  foldl (fun on c =>
           match c with
           | HintDo h | HintDoFor h _ => if String.eqb h hint then true else on
           | HintEnd h => if String.eqb h hint then false else on
           | _ => on
           end) false calls.

(** The value last requested for a mode in a sequence of requests, from an
    initial value. *)
Definition last_request (this : Mode.t -> bool) (initial : bool)
    (requests : list PowerRequest) : bool :=
  foldl (fun on request =>
           match request with
           | SetMode type enabled => if this type then enabled else on
           | SetBoost _ _ => on
           end) initial requests.

Definition is_SUSTAINED_PERFORMANCE (type : Mode.t) : bool :=
  match type with Mode.SUSTAINED_PERFORMANCE => true | _ => false end.

Definition is_VR (type : Mode.t) : bool :=
  match type with Mode.VR => true | _ => false end.

(** The index of the default profile is one of the vector, or 0 when there
    is no profile. *)
Definition index_in_range (hm : HintManager) : Prop :=
  0 <= adpf_index_ hm < Z.max 1 (Z.of_nat (length (adpfs_ hm))).

(** An operation on the profiles of the hint manager. *)
Inductive ProfileOp : Set :=
  | OpSetAdpfProfileFromDoHint (profile_name : string)
  | OpSetAdpfProfile (tag profile : string)
  | OpUpdateHintMode (mode : string) (enabled : bool)
  | OpRegisterAdpfUpdateEvent (tag : string) (update_adpf_func : Z)
  | OpUnregisterAdpfUpdateEvent (tag : string) (update_adpf_func : Z).

Definition apply_op (op : ProfileOp) (hm : HintManager) : HintManager :=
  match op with
  | OpSetAdpfProfileFromDoHint profile_name =>
      (HintManager.SetAdpfProfileFromDoHint profile_name hm).2
  | OpSetAdpfProfile tag profile => (HintManager.SetAdpfProfile tag profile hm).2
  | OpUpdateHintMode mode enabled => updateHintMode mode enabled hm
  | OpRegisterAdpfUpdateEvent tag f => HintManager.RegisterAdpfUpdateEvent tag f hm
  | OpUnregisterAdpfUpdateEvent tag f => HintManager.UnregisterAdpfUpdateEvent tag f hm
  end.

(** What the cache and the call log of a session object satisfy: a hint is
    in the cache exactly when it has been asked about, it has been asked
    about once, the cache holds the hint manager's answer, and only
    supported hints that have been asked about have been sent. *)
Definition cache_coherent {SessionRecords : Type} (isHintSupported : string -> bool)
    (x : SessionObject SessionRecords) : Prop :=
  NoDup (asked (hintManagerCalls x)) /\
  (forall hint, is_Some (mSupportedHints x !! hint) <-> hint ∈ asked (hintManagerCalls x)) /\
  (forall hint b, mSupportedHints x !! hint = Some b -> b = isHintSupported hint) /\
  (forall hint,
     hint ∈ sent (hintManagerCalls x) ->
     isHintSupported hint = true /\ hint ∈ asked (hintManagerCalls x)).

(** Two findings of a session that resolve alike: none in both, or values
    with the same active flag, votes and power-efficiency preference. *)
Definition resolves_alike (found found' : option SessionValueEntry) : Prop :=
  match found, found' with
  | Some entry, Some entry' =>
      isActive entry' = isActive entry /\ votes entry' = votes entry /\
      isPowerEfficient entry' = isPowerEfficient entry /\
      isAppSession entry' = isAppSession entry
  | None, None => True
  | _, _ => False
  end.

Section RecomputeNotions.

Context {SessionRecords : Type} (env : Collaborators SessionRecords).

(** The scheduler call for a thread whose range is resolved in a
    thread-session map at a time. *)
Definition resolved_call (tid now : Z) (stm : SessionTaskMap) : Effect :=
  (set_uclamp env tid
     (SessionTaskMap.getTaskVoteRange tid now (kUclampMin env, kUclampMax env)
        (mUclampMaxEfficientBase (GetAdpfProfile env))
        (mUclampMaxEfficientOffset (GetAdpfProfile env)) stm)).2.

(** The scheduler's answer to that call. *)
Definition resolved_status (tid now : Z) (stm : SessionTaskMap) : Z :=
  (set_uclamp env tid
     (SessionTaskMap.getTaskVoteRange tid now (kUclampMin env, kUclampMax env)
        (mUclampMaxEfficientBase (GetAdpfProfile env))
        (mUclampMaxEfficientOffset (GetAdpfProfile env)) stm)).1.

(** The write of the GPU capacity resolved in a thread-session map, on a
    device with a capacity node and a profile that configures GPU boost. *)
Definition gpu_calls (now : Z) (stm : SessionTaskMap) : list Effect :=
  match mGpuCapacityNode env, mGpuBoostOn (GetAdpfProfile env) with
  | Some _, Some _ => [SetGpuCapacity (SessionTaskMap.getSessionsGpuCapacity now stm)]
  | _, _ => []
  end.

(** The universal boost hint for a thread-session map: the system boost is
    disabled while an application session is active and enabled otherwise,
    when the hint is supported. *)
Definition boost_calls (now : Z) (stm : SessionTaskMap) : list Effect :=
  if IsHintSupported env then
    [if SessionTaskMap.isAnyAppSessionActive now stm then DoHint else EndHint]
  else [].

(** A thread the scheduler never reports as gone. *)
Definition alive (tid : Z) : Prop :=
  forall uclampMin uclampMax, sched_setattr env tid uclampMin uclampMax <> ESRCH.

End RecomputeNotions.

(** The callbacks registered with the hint manager for a tag. *)
Definition callbacks (tag : string) (hm : HintManager) : list Z :=
  default [] (tag_update_callback_list_ hm !! tag).

(** * Properties *)

(** ** Machine integers and doubles *)

Lemma to_int32_id x : INT32_MIN <= x <= INT32_MAX -> to_int32 x = x.
Proof.
  unfold to_int32, wrap_signed, INT32_MIN, INT32_MAX. intros H.
  rewrite Z.mod_small; lia.
Qed.

Lemma to_int64_id x : INT64_MIN <= x <= INT64_MAX -> to_int64 x = x.
Proof.
  unfold to_int64, wrap_signed, INT64_MIN, INT64_MAX. intros H.
  rewrite Z.mod_small; lia.
Qed.

Lemma to_uint32_id x : 0 <= x <= UINT32_MAX -> to_uint32 x = x.
Proof.
  unfold to_uint32, wrap_unsigned, UINT32_MAX. intros H.
  rewrite Z.mod_small; lia.
Qed.

Lemma SessionJankyLevel_eqb_eq a b : SessionJankyLevel_eqb a b = true <-> a = b.
Proof. destruct a, b; simpl; split; congruence. Qed.

(** ** The jank classifier *)

(** C1, as the code has it.  A low frame rate forces LIGHT.  Below the
    moderate threshold the level is LIGHT when the previous level is LIGHT or
    the max/avg ratio is strictly below the bound, and MODERATE otherwise;
    from the moderate threshold up to the severe one it is MODERATE, and from
    the severe threshold on it is SEVERE. *)
Theorem updateSessionJankState_levels
    (adpfConfig : AdpfConfig) (oldState : SessionJankyLevel) (numOfJankFrames : Z)
    (durationVariance : double) (isLowFPS : bool) (moderate severe : Z) (bound : double) :
  mHBoostModerateJankThreshold adpfConfig = Some moderate ->
  mHBoostSevereJankThreshold adpfConfig = Some severe ->
  mHBoostOffMaxAvgDurRatio adpfConfig = Some bound ->
  moderate <= severe ->
  0 <= numOfJankFrames <= INT32_MAX ->
  let level :=
    updateSessionJankState adpfConfig oldState numOfJankFrames durationVariance isLowFPS in
  (isLowFPS = true -> level = Some LIGHT) /\
  (isLowFPS = false -> numOfJankFrames < moderate ->
     oldState = LIGHT \/ PrimFloat.ltb durationVariance bound = true ->
     level = Some LIGHT) /\
  (isLowFPS = false -> numOfJankFrames < moderate ->
     oldState <> LIGHT -> PrimFloat.ltb durationVariance bound = false ->
     level = Some MODERATE) /\
  (isLowFPS = false -> moderate <= numOfJankFrames < severe -> level = Some MODERATE) /\
  (isLowFPS = false -> severe <= numOfJankFrames -> level = Some SEVERE).
Proof.
  intros Hm Hs Hb Hord Hn level. subst level. unfold updateSessionJankState.
  rewrite Hm, Hs, Hb. simpl.
  assert (Hu : to_uint32 numOfJankFrames = numOfJankFrames).
  { apply to_uint32_id. unfold INT32_MAX, UINT32_MAX in *. lia. }
  rewrite Hu.
  repeat split.
  - intros ->. reflexivity.
  - intros -> Hlt Hor.
    destruct (Z.ltb_spec numOfJankFrames moderate); [|lia].
    destruct Hor as [-> | Hr]; [reflexivity|].
    rewrite Hr. destruct (SessionJankyLevel_eqb oldState LIGHT); reflexivity.
  - intros -> Hlt Hold Hr.
    destruct (Z.ltb_spec numOfJankFrames moderate); [|lia].
    destruct (SessionJankyLevel_eqb oldState LIGHT) eqn:E.
    + apply SessionJankyLevel_eqb_eq in E. contradiction.
    + rewrite Hr. reflexivity.
  - intros -> [Hge Hlt].
    destruct (Z.ltb_spec numOfJankFrames moderate); [lia|].
    destruct (Z.ltb_spec numOfJankFrames severe); [reflexivity|lia].
  - intros -> Hge.
    destruct (Z.ltb_spec numOfJankFrames moderate); [lia|].
    destruct (Z.ltb_spec numOfJankFrames severe); [lia|reflexivity].
Qed.

(** The classifier at a session two frames short of the moderate threshold,
    coming from MODERATE with a ratio at the bound. *)
Lemma updateSessionJankState_levels_witness :
  updateSessionJankState (Fixture.hboost 1%float) MODERATE 1 4%float false = Some MODERATE.
Proof.
  destruct (updateSessionJankState_levels (Fixture.hboost 1%float) MODERATE 1 4%float false
              3 9 4%float eq_refl eq_refl eq_refl ltac:(lia) ltac:(unfold INT32_MAX; lia))
    as (_ & _ & H & _).
  apply H; [reflexivity | lia | discriminate | reflexivity].
Defined.

(** C1 as the spec words it fails: a session at LIGHT with no missed cycle
    stays LIGHT although its max/avg ratio, 10, exceeds the bound, 4. *)
Lemma updateSessionJankState_no_escalation_from_light :
  ~ (forall (adpfConfig : AdpfConfig) (oldState : SessionJankyLevel) (numOfJankFrames : Z)
       (durationVariance : double) (moderate : Z) (bound : double),
       mHBoostModerateJankThreshold adpfConfig = Some moderate ->
       mHBoostOffMaxAvgDurRatio adpfConfig = Some bound ->
       0 <= numOfJankFrames < moderate ->
       PrimFloat.ltb bound durationVariance = true ->
       updateSessionJankState adpfConfig oldState numOfJankFrames durationVariance false
       = Some MODERATE).
Proof.
  intros H.
  specialize (H (Fixture.hboost 1%float) LIGHT 0 10%float 3 4%float
                eq_refl eq_refl ltac:(lia) eq_refl).
  vm_compute in H. discriminate H.
Qed.

(** ** The PID controller *)

Lemma window_start_nonneg (samplingWindow length : Z) :
  0 <= length -> 0 <= window_start samplingWindow length.
Proof.
  intros Hlength. unfold window_start.
  destruct (Z.eqb_spec samplingWindow 0), (Z.ltb_spec length samplingWindow);
    cbn [orb]; lia.
Qed.

Lemma window_start_range (samplingWindow length : Z) :
  0 < length -> 0 <= samplingWindow ->
  0 <= window_start samplingWindow length < length.
Proof.
  intros Hlength Hwindow. unfold window_start.
  destruct (Z.eqb_spec samplingWindow 0), (Z.ltb_spec length samplingWindow);
    cbn [orb]; lia.
Qed.

Section PidFacts.

Context {SessionRecords : Type} (env : Collaborators SessionRecords)
  (adpfConfig : AdpfConfig).

Lemma pid_loop_app targetDurationNanos dt p_start i_start d_start (l1 l2 : list WorkDuration) :
  forall i acc,
    pid_loop env adpfConfig targetDurationNanos dt p_start i_start d_start i (l1 ++ l2) acc
    = pid_loop env adpfConfig targetDurationNanos dt p_start i_start d_start
        (i + Z.of_nat (length l1)) l2
        (pid_loop env adpfConfig targetDurationNanos dt p_start i_start d_start i l1 acc).
Proof.
  induction l1 as [|x l1 IH]; intros i acc; cbn [app pid_loop length].
  - f_equal. lia.
  - rewrite IH. f_equal. lia.
Qed.

Lemma pid_loop_before targetDurationNanos dt p_start i_start d_start (l : list WorkDuration) :
  forall i acc,
    i + Z.of_nat (length l) <= p_start ->
    err_sum (pid_loop env adpfConfig targetDurationNanos dt p_start i_start d_start i l acc)
    = err_sum acc.
Proof.
  induction l as [|x l IH]; intros i acc Hi; cbn [pid_loop length] in *; [reflexivity|].
  rewrite IH by lia. unfold pid_sample. cbn [err_sum].
  destruct (Z.leb_spec p_start i); [lia|reflexivity].
Qed.

Lemma pid_loop_inside targetDurationNanos dt p_start i_start d_start (l : list WorkDuration) :
  forall i acc,
    p_start <= i ->
    err_sum (pid_loop env adpfConfig targetDurationNanos dt p_start i_start d_start i l acc)
    = wrapped_sum (err_sum acc) (map (sample_error targetDurationNanos) l).
Proof.
  induction l as [|x l IH]; intros i acc Hi; cbn [pid_loop map]; [reflexivity|].
  rewrite IH by lia. unfold wrapped_sum. cbn [foldl]. f_equal.
  unfold pid_sample. cbn [err_sum].
  destruct (Z.leb_spec p_start i); [reflexivity|lia].
Qed.

(** The error sum the loop leaves is the sum over the P window, whatever
    the other windows make the loop visit before. *)
Lemma pid_run_window_sum (desc : AppHintDesc) (actualDurations : list WorkDuration) :
  err_sum (pid_run env adpfConfig desc actualDurations)
  = wrapped_sum 0
      (map (sample_error (targetNs desc))
         (drop (Z.to_nat (window_start (mSamplingWindowP adpfConfig)
                            (Z.of_nat (length actualDurations))))
            actualDurations)).
Proof.
  set (len := Z.of_nat (length actualDurations)).
  set (p_start := window_start (mSamplingWindowP adpfConfig) len).
  unfold pid_run, pid_over. fold len. fold p_start.
  set (first := pid_first adpfConfig len).
  assert (Hlen : 0 <= len) by (subst len; lia).
  pose proof (window_start_nonneg (mSamplingWindowP adpfConfig) len Hlen) as Hp.
  pose proof (window_start_nonneg (mSamplingWindowI adpfConfig) len Hlen) as Hi.
  pose proof (window_start_nonneg (mSamplingWindowD adpfConfig) len Hlen) as Hd.
  fold p_start in Hp.
  assert (Hfirst : 0 <= first <= p_start) by (subst first; unfold pid_first; fold p_start; lia).
  destruct (Z.le_gt_cases p_start len) as [Hin | Hout].
  - replace (drop (Z.to_nat first) actualDurations)
      with (take (Z.to_nat p_start - Z.to_nat first) (drop (Z.to_nat first) actualDurations)
            ++ drop (Z.to_nat p_start) actualDurations).
    2:{ rewrite <- (take_drop (Z.to_nat p_start - Z.to_nat first)
                      (drop (Z.to_nat first) actualDurations)) at 2.
        f_equal. rewrite drop_drop. f_equal. lia. }
    rewrite pid_loop_app.
    rewrite pid_loop_inside.
    + rewrite pid_loop_before; [reflexivity|].
      rewrite length_take, length_drop. subst len. lia.
    + rewrite length_take, length_drop. subst len. lia.
  - rewrite (drop_ge actualDurations (Z.to_nat p_start)) by (subst len; lia).
    rewrite pid_loop_before; [reflexivity|].
    rewrite length_drop. subst len. lia.
Qed.

(** C7, as the code has it.  The output of the PID computation is the sum
    of three terms, of which the proportional one is the gain times the
    error sum of the P window over the size of that window.  The gain is the
    overshoot gain when that sum is positive and the undershoot gain in
    force otherwise.  Without heuristic boost the undershoot gain in force
    is [mPidPu]; with it, it is blended toward the smaller of the
    severe-jank gain and [mPidPu]: at MODERATE with a factor of 0 below the
    moderate threshold and of (frames - moderate) / (severe - moderate) from
    it on, and at SEVERE that smaller gain is used outright. *)
Theorem pid_proportional_gain
    (mJankyLevel : SessionJankyLevel) (mJankyFrameNum : Z) (desc : AppHintDesc)
    (actualDurations : list WorkDuration) :
  let length := Z.of_nat (length actualDurations) in
  let p_start := window_start (mSamplingWindowP adpfConfig) length in
  let d_start := window_start (mSamplingWindowD adpfConfig) length in
  let acc := pid_run env adpfConfig desc actualDurations in
  let errors :=
    wrapped_sum 0
      (map (sample_error (targetNs desc)) (drop (Z.to_nat p_start) actualDurations)) in
  let output undershoot :=
    to_int64
      (to_int64
         (Double.to_int64
            (PrimFloat.div
               (PrimFloat.mul (if 0 <? errors then mPidPo adpfConfig else undershoot)
                  (Double.of_Z errors))
               (Double.of_Z (length - p_start)))
          + iOut adpfConfig acc)
       + dOut adpfConfig acc (ns_to_100us (targetNs desc)) length d_start) in
  let computed :=
    fst <$> convertWorkDurationToBoostByPid env adpfConfig mJankyLevel mJankyFrameNum desc
              actualDurations in
  (hboostEnabled adpfConfig = false -> computed = Some (output (mPidPu adpfConfig))) /\
  (hboostEnabled adpfConfig = true ->
   forall (severePidPu : double) (moderate severe : Z),
     mHBoostSevereJankPidPu adpfConfig = Some severePidPu ->
     mHBoostModerateJankThreshold adpfConfig = Some moderate ->
     mHBoostSevereJankThreshold adpfConfig = Some severe ->
     let hboostPidPu := Double.min severePidPu (mPidPu adpfConfig) in
     let blend factor :=
       PrimFloat.add (mPidPu adpfConfig)
         (PrimFloat.mul factor (PrimFloat.sub hboostPidPu (mPidPu adpfConfig))) in
     computed
     = Some (output
               match mJankyLevel with
               | LIGHT => mPidPu adpfConfig
               | MODERATE =>
                   blend
                     (if to_uint32 mJankyFrameNum <? moderate then 0%float
                      else
                        PrimFloat.div
                          (PrimFloat.mul
                             (Double.of_Z (to_uint32 (mJankyFrameNum - moderate))) 1%float)
                          (Double.of_Z (to_uint32 (severe - moderate))))
               | SEVERE => hboostPidPu
               end)).
Proof.
  intros len p_start d_start acc errors output computed.
  assert (Herrors : err_sum acc = errors).
  { subst acc errors p_start len. apply pid_run_window_sum. }
  assert (Hgen : forall pid_pu,
             pid_pu_active adpfConfig mJankyLevel mJankyFrameNum = Some pid_pu ->
             computed = Some (output pid_pu)).
  { intros pid_pu Hpu. subst computed. unfold convertWorkDurationToBoostByPid.
    rewrite Hpu. cbn [mbind option_bind fmap option_fmap option_map fst].
    fold len. fold p_start. fold d_start. fold acc.
    unfold pOut, p_gain. rewrite Herrors. reflexivity. }
  split.
  - intros Hoff. apply Hgen. unfold pid_pu_active. rewrite Hoff. reflexivity.
  - intros Hon severePidPu moderate severe Hg Hm Hs hboostPidPu blend. apply Hgen.
    unfold pid_pu_active, JankyFactor. rewrite Hon, Hg, Hm, Hs.
    cbn [mbind option_bind]. destruct mJankyLevel; try reflexivity.
    destruct (to_uint32 mJankyFrameNum <? moderate); reflexivity.
Qed.

Lemma pid_sample_integral_inside targetDurationNanos dt p_start i_start d_start i acc sample :
  i_start <= i ->
  getPidILowDivI env adpfConfig
  <= acc_integral_error
       (pid_sample env adpfConfig targetDurationNanos dt p_start i_start d_start i acc sample)
  <= Z.max (getPidILowDivI env adpfConfig) (getPidIHighDivI env adpfConfig).
Proof.
  intros Hi. unfold pid_sample. simpl.
  destruct (Z.leb_spec i_start i); [|lia]. lia.
Qed.

Lemma pid_sample_integral_outside targetDurationNanos dt p_start i_start d_start i acc sample :
  i < i_start ->
  acc_integral_error
    (pid_sample env adpfConfig targetDurationNanos dt p_start i_start d_start i acc sample)
  = acc_integral_error acc.
Proof.
  intros Hi. unfold pid_sample. simpl.
  destruct (Z.leb_spec i_start i); [lia|reflexivity].
Qed.

Lemma pid_loop_integral_bounded targetDurationNanos dt p_start i_start d_start :
  forall samples i acc,
    getPidILowDivI env adpfConfig <= acc_integral_error acc
    <= Z.max (getPidILowDivI env adpfConfig) (getPidIHighDivI env adpfConfig)
    \/ (samples <> [] /\ i_start < i + Z.of_nat (length samples)) ->
    getPidILowDivI env adpfConfig
    <= acc_integral_error
         (pid_loop env adpfConfig targetDurationNanos dt p_start i_start d_start i samples acc)
    <= Z.max (getPidILowDivI env adpfConfig) (getPidIHighDivI env adpfConfig).
Proof.
  induction samples as [|sample rest IH]; intros i acc H.
  - destruct H as [H | [H _]]; [exact H | contradiction].
  - cbn [pid_loop]. apply IH.
    destruct (Z.le_gt_cases i_start i) as [Hin | Hout].
    + left. apply pid_sample_integral_inside; assumption.
    + rewrite pid_sample_integral_outside by lia.
      destruct H as [H | [_ H]]; [left; exact H | right].
      cbn [length] in H. split; [|lia].
      destruct rest; [cbn [length] in H; lia | discriminate].
Qed.

Lemma pid_loop_integral_untouched targetDurationNanos dt p_start i_start d_start :
  forall samples i acc,
    i + Z.of_nat (length samples) <= i_start ->
    acc_integral_error
      (pid_loop env adpfConfig targetDurationNanos dt p_start i_start d_start i samples acc)
    = acc_integral_error acc.
Proof.
  induction samples as [|sample rest IH]; intros i acc H; [reflexivity|].
  cbn [pid_loop length] in *. rewrite IH by lia.
  apply pid_sample_integral_outside. lia.
Qed.

(** C8, as the code has it.  Take the samples the loop has processed so
    far, a prefix of those it visits.  Once a sample of the integral window
    is among them, the integral error is at least the low limit and at most
    the larger of the two limits, so within [low, high] when the limits are
    ordered.  Before that the integral is the one the descriptor carried in,
    whatever it was: the samples before the window, which the loop visits
    for the P or D term, do not clamp it.  At the end of a batch that is not
    empty the integral written back is within the limits. *)
Theorem pid_integral_error_bounded
    (desc : AppHintDesc) (actualDurations processed rest : list WorkDuration) :
  let length := Z.of_nat (length actualDurations) in
  let first := pid_first adpfConfig length in
  let i_start := window_start (mSamplingWindowI adpfConfig) length in
  let low := getPidILowDivI env adpfConfig in
  let high := getPidIHighDivI env adpfConfig in
  let integral := acc_integral_error (pid_over env adpfConfig desc length processed) in
  drop (Z.to_nat first) actualDurations = processed ++ rest ->
  (i_start < first + Z.of_nat (List.length processed) ->
   low <= integral <= Z.max low high /\ (low <= high -> integral <= high)) /\
  (first + Z.of_nat (List.length processed) <= i_start -> integral = integral_error desc) /\
  (0 <= mSamplingWindowI adpfConfig -> actualDurations <> [] ->
   low <= acc_integral_error (pid_run env adpfConfig desc actualDurations) <= Z.max low high).
Proof.
  intros len first i_start low high integral _. subst integral. unfold pid_over.
  fold first. fold i_start.
  split; [|split].
  - intros Hin.
    assert (Hb : low
                 <= acc_integral_error
                      (pid_loop env adpfConfig (targetNs desc) (ns_to_100us (targetNs desc))
                         (window_start (mSamplingWindowP adpfConfig) len) i_start
                         (window_start (mSamplingWindowD adpfConfig) len) first processed
                         (pid_entry desc))
                 <= Z.max low high).
    { apply pid_loop_integral_bounded. right. split; [|exact Hin].
      intros ->. cbn [length] in Hin. subst first i_start. unfold pid_first in Hin. lia. }
    split; [exact Hb | lia].
  - intros Hout. rewrite pid_loop_integral_untouched by exact Hout. reflexivity.
  - intros Hwindow Hne. unfold pid_run, pid_over. fold len. fold first. fold i_start.
    assert (Hlen : 0 < len).
    { subst len. destruct actualDurations; [contradiction | cbn [length]; lia]. }
    pose proof (window_start_range (mSamplingWindowI adpfConfig) len Hlen Hwindow) as Hi.
    fold i_start in Hi.
    assert (Hfirst : first <= i_start) by (subst first i_start; unfold pid_first; lia).
    assert (Hnn : 0 <= first).
    { subst first. unfold pid_first.
      pose proof (window_start_nonneg (mSamplingWindowP adpfConfig) len ltac:(lia)).
      pose proof (window_start_nonneg (mSamplingWindowD adpfConfig) len ltac:(lia)).
      fold i_start. lia. }
    apply pid_loop_integral_bounded. right.
    assert (Hdrop : Z.of_nat (length (drop (Z.to_nat first) actualDurations)) = len - first).
    { rewrite length_drop. subst len. lia. }
    split; [|lia].
    intros Hnil. rewrite Hnil in Hdrop. cbn [length] in Hdrop. lia.
Qed.

End PidFacts.

(** The heuristic profile whose severe-jank gain, 1, is below its
    undershoot gain, 3, at MODERATE halfway between the thresholds: a frame
    that takes half its target is 80 units short, the gain is 2, and the
    output is the proportional term -160 plus the integral term -12 (the D
    term is 0). *)
Lemma pid_proportional_gain_witness :
  fst <$> convertWorkDurationToBoostByPid (Fixture.env (Fixture.hboost 1%float))
            (Fixture.hboost 1%float) MODERATE 6
            (mDescriptor (Fixture.session1 (Fixture.hboost 1%float) true false))
            [Fixture.sample 8000000]
  = Some (-172).
Proof.
  destruct (pid_proportional_gain (Fixture.env (Fixture.hboost 1%float))
              (Fixture.hboost 1%float) MODERATE 6
              (mDescriptor (Fixture.session1 (Fixture.hboost 1%float) true false))
              [Fixture.sample 8000000]) as (_ & H).
  pose proof (H eq_refl 1%float 3 9 eq_refl eq_refl eq_refl) as Houtput.
  cbn zeta in Houtput. etransitivity; [exact Houtput|]. vm_compute. reflexivity.
Defined.

(** C7 as the spec words it fails: with a severe-jank gain of 5 above the
    undershoot gain of 3, a session at SEVERE keeps the gain 3. *)
Lemma pid_pu_active_severe_not_outright :
  ~ (forall (adpfConfig : AdpfConfig) (mJankyFrameNum : Z) (severePidPu : double),
       hboostEnabled adpfConfig = true ->
       mHBoostSevereJankPidPu adpfConfig = Some severePidPu ->
       pid_pu_active adpfConfig SEVERE mJankyFrameNum = Some severePidPu).
Proof.
  intros H.
  specialize (H (Fixture.hboost 5%float) 10 5%float eq_refl eq_refl).
  vm_compute in H. discriminate H.
Qed.

(** The same in the output: at SEVERE with a severe-jank gain of 5 the frame
    that is 80 units short gives -240 - 12, the output of the gain 3, not
    -400 - 12. *)
Example convertWorkDurationToBoostByPid_severe :
  fst <$> convertWorkDurationToBoostByPid (Fixture.env (Fixture.hboost 5%float))
            (Fixture.hboost 5%float) SEVERE 10
            (mDescriptor (Fixture.session1 (Fixture.hboost 5%float) true false))
            [Fixture.sample 8000000]
  = Some (-252).
Proof. vm_compute. reflexivity. Qed.

(** A batch of two samples under the plain profile: after the first one the
    integral error, 0 on entry, is within the limits. *)
Lemma pid_integral_error_bounded_witness :
  -122880
  <= acc_integral_error
       (pid_over (Fixture.env Fixture.plain) Fixture.plain
          (mDescriptor (Fixture.session1 Fixture.plain true false))
          2 [Fixture.sample 32000000])
  <= 524288.
Proof.
  destruct (pid_integral_error_bounded (Fixture.env Fixture.plain) Fixture.plain
              (mDescriptor (Fixture.session1 Fixture.plain true false))
              [Fixture.sample 32000000; Fixture.sample 16000000]
              [Fixture.sample 32000000] [Fixture.sample 16000000] eq_refl)
    as (Hin & _).
  destruct (Hin ltac:(vm_compute; reflexivity)) as (Hb & _). exact Hb.
Defined.

(** C8 as the spec words it fails: under a profile whose integral window is
    the last sample and whose limits are 100 and 512, the first sample of a
    batch of two is processed, for the P term, without the integral being
    clamped: it is still 0, below the low limit. *)
Lemma pid_integral_error_outside_window :
  ~ (forall (SessionRecords : Type) (env : Collaborators SessionRecords)
       (adpfConfig : AdpfConfig) (desc : AppHintDesc)
       (actualDurations processed rest : list WorkDuration),
       drop (Z.to_nat (pid_first adpfConfig (Z.of_nat (length actualDurations))))
         actualDurations = processed ++ rest ->
       processed <> [] ->
       getPidILowDivI env adpfConfig
       <= acc_integral_error
            (pid_over env adpfConfig desc (Z.of_nat (length actualDurations)) processed)
       <= getPidIHighDivI env adpfConfig).
Proof.
  intros H.
  specialize (H (list (Z * Z)) (Fixture.env Fixture.lateIntegral) Fixture.lateIntegral
                (mDescriptor (Fixture.session1 Fixture.lateIntegral true false))
                [Fixture.sample 32000000; Fixture.sample 16000000]
                [Fixture.sample 32000000] [Fixture.sample 16000000] eq_refl
                ltac:(discriminate)).
  vm_compute in H. destruct H as [H _]. apply H. reflexivity.
Qed.

(** ** The session manager *)

Section ManagerFacts.

Context {SessionRecords : Type} (env : Collaborators SessionRecords).

Lemma applyUclampThreads_mSessions sessionId timePoint threadList :
  forall stm,
    mSessions (applyUclampThreads env sessionId timePoint threadList stm).1.2 = mSessions stm.
Proof.
  induction threadList as [|tid rest IH]; intros stm; [reflexivity|].
  cbn [applyUclampThreads]. unfold set_uclamp.
  destruct (_ =? ESRCH).
  - specialize (IH (SessionTaskMap.removeDeadTaskSessionMap sessionId tid stm)).
    destruct (applyUclampThreads env sessionId timePoint rest _) as [[kept stm'] effs].
    exact IH.
  - specialize (IH stm).
    destruct (applyUclampThreads env sessionId timePoint rest stm) as [[kept stm'] effs].
    exact IH.
Qed.

Lemma same_ledgers_refl m : same_ledgers m m.
Proof. repeat split. Qed.

Lemma same_ledgers_trans m1 m2 m3 :
  same_ledgers m1 m2 -> same_ledgers m2 m3 -> same_ledgers m1 m3.
Proof.
  intros (Q1 & R1 & V1) (Q2 & R2 & V2).
  split; [congruence | split; [congruence | intros sid; rewrite V2; apply V1]].
Qed.

Lemma same_ledgers_emit es m : same_ledgers m (emit es m).
Proof. repeat split. Qed.

Lemma findSession_updateSession f sessionId sid stm :
  SessionTaskMap.findSession sid (SessionTaskMap.updateSession f sessionId stm)
  = (if decide (sessionId = sid) then f else id) <$> SessionTaskMap.findSession sid stm.
Proof.
  unfold SessionTaskMap.findSession, SessionTaskMap.updateSession. cbn [mSessions].
  destruct (decide (sessionId = sid)) as [->|Hne].
  - rewrite lookup_alter_eq. destruct (mSessions stm !! sid) as [[sv tasks]|]; reflexivity.
  - rewrite lookup_alter_ne by exact Hne.
    destruct (mSessions stm !! sid) as [[sv tasks]|]; reflexivity.
Qed.

Lemma findSession_setTaskIds tasks sessionId sid stm :
  SessionTaskMap.findSession sid (SessionTaskMap.setTaskIds sessionId tasks stm)
  = SessionTaskMap.findSession sid stm.
Proof.
  unfold SessionTaskMap.findSession, SessionTaskMap.setTaskIds. cbn [mSessions].
  destruct (decide (sessionId = sid)) as [->|Hne].
  - rewrite lookup_alter_eq. destruct (mSessions stm !! sid) as [[sv ts]|]; reflexivity.
  - rewrite lookup_alter_ne by exact Hne. reflexivity.
Qed.

Lemma same_ledgers_touch sessionId timePoint m :
  same_ledgers m
    (with_map (SessionTaskMap.updateSession (set_lastUpdatedTime timePoint) sessionId) m).
Proof.
  repeat split. intros sid. cbn [with_map mSessionTaskMap].
  rewrite findSession_updateSession.
  case_decide; destruct (SessionTaskMap.findSession sid (mSessionTaskMap m)); reflexivity.
Qed.

Lemma same_ledgers_applyUclampLocked sessionId timePoint m :
  same_ledgers m (applyUclampLocked env sessionId timePoint m).
Proof.
  unfold applyUclampLocked.
  destruct (SessionTaskMap.findSession sessionId (mSessionTaskMap m)); [|apply same_ledgers_refl].
  eapply same_ledgers_trans; [|apply same_ledgers_touch].
  destruct (negb _); [apply same_ledgers_refl|].
  pose proof (applyUclampThreads_mSessions sessionId timePoint
                (SessionTaskMap.getTaskIds sessionId (mSessionTaskMap m)) (mSessionTaskMap m))
    as Hs.
  destruct (applyUclampThreads _ _ _ _ _) as [[kept stm] effs]. cbn [fst snd] in Hs.
  repeat split. intros sid. cbn [emit with_map mSessionTaskMap].
  rewrite findSession_setTaskIds. unfold SessionTaskMap.findSession. rewrite Hs. reflexivity.
Qed.

Lemma same_ledgers_applyGpuVotesLocked sessionId timePoint m :
  same_ledgers m (applyGpuVotesLocked env sessionId timePoint m).
Proof.
  unfold applyGpuVotesLocked.
  destruct (SessionTaskMap.findSession sessionId (mSessionTaskMap m)); [|apply same_ledgers_refl].
  eapply same_ledgers_trans; [|apply same_ledgers_touch].
  destruct (mGpuCapacityNode env), (mGpuBoostOn (GetAdpfProfile env));
    first [apply same_ledgers_emit | apply same_ledgers_refl].
Qed.

Lemma same_ledgers_applyCpuAndGpuVotes sessionId timePoint m :
  same_ledgers m (applyCpuAndGpuVotes env sessionId timePoint m).
Proof.
  unfold applyCpuAndGpuVotes. eapply same_ledgers_trans;
    [apply same_ledgers_applyUclampLocked | apply same_ledgers_applyGpuVotesLocked].
Qed.

Lemma same_ledgers_updateUniversalBoostMode now m :
  same_ledgers m (updateUniversalBoostMode env now m).
Proof.
  unfold updateUniversalBoostMode.
  destruct (SessionTaskMap.isAnyAppSessionActive _ _), (IsHintSupported env);
    first [apply same_ledgers_emit | apply same_ledgers_refl].
Qed.

(** C5, as the code has it.  For a session the manager knows, [voteSet]
    appends exactly one timer, for the new deadline, when the slot's vote is
    not active or the new deadline is strictly earlier than the recorded
    one; otherwise it leaves the pending timers as they are. *)
Theorem voteSet_schedules
    (sessionId : Z) (voteId : AdpfVoteType) (uclampMin uclampMax startTime durationNs : Z)
    (m : PowerSessionManager) (session : SessionValueEntry) :
  SessionTaskMap.findSession sessionId (mSessionTaskMap m) = Some session ->
  mEventSessionTimeoutWorker
    (voteSet env sessionId voteId uclampMin uclampMax startTime durationNs m)
  = mEventSessionTimeoutWorker m
    ++ (if negb (Votes.voteIsActive (underlying voteId) (votes session))
           || (startTime + durationNs <? Votes.voteTimeout (underlying voteId) (votes session))
        then [({| timeStamp := startTime; ev_sessionId := sessionId;
                  ev_voteId := underlying voteId |}, startTime + durationNs)]
        else []).
Proof.
  intros Hs. unfold voteSet. rewrite Hs. unfold shouldScheduleTimeout.
  match goal with
  | |- context [applyUclampLocked env ?a ?b ?c] =>
      destruct (same_ledgers_applyUclampLocked a b c) as (Hq & _ & _)
  end.
  destruct (negb _ || _); cbn [schedule mEventSessionTimeoutWorker]; rewrite Hq;
    cbn [with_map mEventSessionTimeoutWorker]; [reflexivity|].
  symmetry. apply app_nil_r.
Qed.

End ManagerFacts.

(** One timer is pending for the default vote of session 1; a vote with the
    earlier deadline 500 adds a second one. *)
Lemma voteSet_schedules_witness :
  mEventSessionTimeoutWorker
    (voteSet (Fixture.env Fixture.plain) 1 CPU_VOTE_DEFAULT 300 1024 0 500 Fixture.oneSession)
  = [({| timeStamp := 0; ev_sessionId := 1; ev_voteId := 0 |}, 1000);
     ({| timeStamp := 0; ev_sessionId := 1; ev_voteId := 0 |}, 500)].
Proof.
  apply (voteSet_schedules (Fixture.env Fixture.plain) 1 CPU_VOTE_DEFAULT 300 1024 0 500
           Fixture.oneSession (Fixture.voting 200 800 false)).
  reflexivity.
Defined.

(** C5 as the spec words it fails: [voteSet] does not keep the timers of a
    slot at one.  Session 1 has one timer pending for its live default vote;
    after a vote with an earlier deadline it has two. *)
Lemma voteSet_not_single_timer :
  ~ (forall (SessionRecords : Type) (env : Collaborators SessionRecords) (sessionId : Z) (voteId : AdpfVoteType)
       (uclampMin uclampMax startTime durationNs : Z) (m : PowerSessionManager),
       (length (pendingTimers sessionId (underlying voteId) m) <= 1)%nat ->
       (length (pendingTimers sessionId (underlying voteId)
                  (voteSet env sessionId voteId uclampMin uclampMax startTime durationNs m))
        <= 1)%nat).
Proof.
  intros H.
  specialize (H (list (Z * Z)) (Fixture.env Fixture.plain) 1 CPU_VOTE_DEFAULT 300 1024 0 500
                Fixture.oneSession).
  vm_compute in H. specialize (H (le_n 1)). inversion H as [|? H']. inversion H'.
Qed.

(** ** Which session values an operation touches *)

Section Touched.

Context {SessionRecords : Type} (env : Collaborators SessionRecords).

Lemma touched_updateSession f sessionId sid stm :
  SessionTaskMap.findSession sid (SessionTaskMap.updateSession f sessionId stm)
  = touched f sessionId sid (SessionTaskMap.findSession sid stm).
Proof.
  rewrite findSession_updateSession. unfold touched.
  destruct (decide (sessionId = sid)) as [->|Hne].
  - rewrite decide_True by reflexivity. reflexivity.
  - rewrite decide_False by congruence.
    destruct (SessionTaskMap.findSession sid stm); reflexivity.
Qed.

Lemma touched_applyUclampLocked sessionId timePoint m sid :
  SessionTaskMap.findSession sid (mSessionTaskMap (applyUclampLocked env sessionId timePoint m))
  = touched (set_lastUpdatedTime timePoint) sessionId sid
      (SessionTaskMap.findSession sid (mSessionTaskMap m)).
Proof.
  unfold applyUclampLocked.
  destruct (SessionTaskMap.findSession sessionId (mSessionTaskMap m)) eqn:Hfound.
  - cbn [with_map mSessionTaskMap]. rewrite touched_updateSession. f_equal.
    destruct (negb _); [reflexivity|].
    pose proof (applyUclampThreads_mSessions env sessionId timePoint
                  (SessionTaskMap.getTaskIds sessionId (mSessionTaskMap m))
                  (mSessionTaskMap m)) as Hs.
    destruct (applyUclampThreads _ _ _ _ _) as [[kept stm] effs]. cbn [fst snd] in Hs.
    cbn [emit with_map mSessionTaskMap]. rewrite findSession_setTaskIds.
    unfold SessionTaskMap.findSession. rewrite Hs. reflexivity.
  - unfold touched. case_decide; [subst; rewrite Hfound|]; reflexivity.
Qed.

Lemma touched_applyGpuVotesLocked sessionId timePoint m sid :
  SessionTaskMap.findSession sid (mSessionTaskMap (applyGpuVotesLocked env sessionId timePoint m))
  = touched (set_lastUpdatedTime timePoint) sessionId sid
      (SessionTaskMap.findSession sid (mSessionTaskMap m)).
Proof.
  unfold applyGpuVotesLocked.
  destruct (SessionTaskMap.findSession sessionId (mSessionTaskMap m)) eqn:Hfound.
  - cbn [with_map mSessionTaskMap]. rewrite touched_updateSession. f_equal.
    destruct (mGpuCapacityNode env), (mGpuBoostOn (GetAdpfProfile env)); reflexivity.
  - unfold touched. case_decide; [subst; rewrite Hfound|]; reflexivity.
Qed.

Lemma touched_touched f g sessionId sid found :
  touched f sessionId sid (touched g sessionId sid found)
  = touched (fun v => f (g v)) sessionId sid found.
Proof. unfold touched. case_decide; [destruct found|]; reflexivity. Qed.

Lemma touched_ext f g sessionId sid found :
  (forall v, f v = g v) -> touched f sessionId sid found = touched g sessionId sid found.
Proof.
  intros H. unfold touched. case_decide; [|reflexivity].
  destruct found; cbn; [rewrite H|]; reflexivity.
Qed.

Lemma touched_applyCpuAndGpuVotes sessionId timePoint m sid :
  SessionTaskMap.findSession sid (mSessionTaskMap (applyCpuAndGpuVotes env sessionId timePoint m))
  = touched (set_lastUpdatedTime timePoint) sessionId sid
      (SessionTaskMap.findSession sid (mSessionTaskMap m)).
Proof.
  unfold applyCpuAndGpuVotes.
  rewrite touched_applyGpuVotesLocked, touched_applyUclampLocked, touched_touched.
  apply touched_ext. reflexivity.
Qed.

Lemma updateUniversalBoostMode_map now m :
  mSessionTaskMap (updateUniversalBoostMode env now m) = mSessionTaskMap m.
Proof.
  unfold updateUniversalBoostMode.
  destruct (SessionTaskMap.isAnyAppSessionActive _ _), (IsHintSupported env); reflexivity.
Qed.

Lemma touched_forceSessionActive sessionId isActive now m sid :
  SessionTaskMap.findSession sid
    (mSessionTaskMap (forceSessionActive env sessionId isActive now m))
  = touched (fun v => set_lastUpdatedTime now (set_isActive isActive v)) sessionId sid
      (SessionTaskMap.findSession sid (mSessionTaskMap m)).
Proof.
  unfold forceSessionActive.
  destruct (SessionTaskMap.findSession sessionId (mSessionTaskMap m)) eqn:Hfound.
  - rewrite updateUniversalBoostMode_map, touched_applyCpuAndGpuVotes.
    cbn [with_map mSessionTaskMap]. rewrite touched_updateSession, touched_touched.
    reflexivity.
  - unfold touched. case_decide; [subst; rewrite Hfound|]; reflexivity.
Qed.

Lemma touched_voteSet sessionId voteId uclampMin uclampMax startTime durationNs m sid :
  SessionTaskMap.findSession sid
    (mSessionTaskMap (voteSet env sessionId voteId uclampMin uclampMax startTime durationNs m))
  = touched
      (fun v =>
         set_lastUpdatedTime startTime
           (set_votes
              (Votes.add (underlying voteId)
                 {| voteActive := true; startTime := startTime; durationNs := durationNs;
                    voteValue := CpuRange uclampMin uclampMax |}) v))
      sessionId sid (SessionTaskMap.findSession sid (mSessionTaskMap m)).
Proof.
  unfold voteSet.
  destruct (SessionTaskMap.findSession sessionId (mSessionTaskMap m)) eqn:Hfound.
  - assert (Hmap : forall e d x, mSessionTaskMap (if shouldScheduleTimeout (votes s) (underlying voteId) (startTime + durationNs) then schedule e d x else x)
                                 = mSessionTaskMap x).
    { intros. destruct (shouldScheduleTimeout _ _ _); reflexivity. }
    rewrite Hmap, touched_applyUclampLocked. cbn [with_map mSessionTaskMap].
    rewrite touched_updateSession. unfold SessionTaskMap.addVote.
    rewrite touched_updateSession, !touched_touched. apply touched_ext. reflexivity.
  - unfold touched. case_decide; [subst; rewrite Hfound|]; reflexivity.
Qed.

End Touched.

(** ** Recomputing the resources of a session *)

Section RecomputeFacts.

Context {SessionRecords : Type} (env : Collaborators SessionRecords).

Lemma resolves_alike_refl found : resolves_alike found found.
Proof. destruct found; cbn; auto. Qed.

Lemma resolves_alike_fmap f found :
  (forall v, isActive (f v) = isActive v /\ votes (f v) = votes v /\
             isPowerEfficient (f v) = isPowerEfficient v /\
             isAppSession (f v) = isAppSession v) ->
  resolves_alike found (f <$> found).
Proof. intros Hf. destruct found; cbn; auto. Qed.

Lemma resolves_alike_trans a b c :
  resolves_alike a b -> resolves_alike b c -> resolves_alike a c.
Proof.
  destruct a, b, c; cbn; try tauto.
  intros (? & ? & ? & ?) (? & ? & ? & ?). repeat split; congruence.
Qed.

Lemma resolves_alike_sym a b : resolves_alike a b -> resolves_alike b a.
Proof. destruct a, b; cbn; try tauto. intros (? & ? & ? & ?). auto. Qed.

(** The ledgers and preferences of the contributing sessions, over a list
    of session ids and two look-ups that resolve alike on it. *)
Lemma contributing_alike (ledger : SessionValueEntry -> UclampRange)
    (F F' : Z -> option SessionValueEntry) (ids : list Z) :
  (forall sv sv', votes sv' = votes sv -> ledger sv' = ledger sv) ->
  (forall s, s ∈ ids -> resolves_alike (F s) (F' s)) ->
  map ledger (filter (fun sv => isActive sv = true) (omap F' ids))
  = map ledger (filter (fun sv => isActive sv = true) (omap F ids)) /\
  forallb isPowerEfficient (filter (fun sv => isActive sv = true) (omap F' ids))
  = forallb isPowerEfficient (filter (fun sv => isActive sv = true) (omap F ids)).
Proof.
  intros Hledger. induction ids as [|s ids IH]; intros Halike; [split; reflexivity|].
  destruct IH as [IH1 IH2].
  { intros s' Hs'. apply Halike. apply list_elem_of_further, Hs'. }
  specialize (Halike s (list_elem_of_here _ _)). cbn [omap list_omap].
  destruct (F s) as [v|], (F' s) as [v'|]; cbn in Halike; try contradiction; [|auto].
  destruct Halike as (Hact & Hvotes & Heff & _).
  rewrite !filter_cons. rewrite Hact.
  destruct (decide (isActive v = true)); [|auto].
  cbn [map forallb]. rewrite IH1, IH2, Heff, (Hledger v v' Hvotes). auto.
Qed.

(** The same, when the second look-up runs over the ids but one whose
    session does not contribute. *)
Lemma contributing_skip (ledger : SessionValueEntry -> UclampRange)
    (F F' : Z -> option SessionValueEntry) (sid : Z) (ids : list Z) :
  (forall sv sv', votes sv' = votes sv -> ledger sv' = ledger sv) ->
  (forall v, F sid = Some v -> isActive v = false) ->
  (forall s, s ∈ ids -> s <> sid -> resolves_alike (F s) (F' s)) ->
  map ledger (filter (fun sv => isActive sv = true)
                (omap F' (filter (fun s => s <> sid) ids)))
  = map ledger (filter (fun sv => isActive sv = true) (omap F ids)) /\
  forallb isPowerEfficient
    (filter (fun sv => isActive sv = true) (omap F' (filter (fun s => s <> sid) ids)))
  = forallb isPowerEfficient (filter (fun sv => isActive sv = true) (omap F ids)).
Proof.
  intros Hledger Hsid. induction ids as [|s ids IH]; intros Halike; [split; reflexivity|].
  destruct IH as [IH1 IH2].
  { intros s' Hs'. apply Halike. apply list_elem_of_further, Hs'. }
  specialize (Halike s (list_elem_of_here _ _)). rewrite filter_cons.
  destruct (decide (s <> sid)) as [Hne|Heq].
  - specialize (Halike Hne). cbn [omap list_omap].
    destruct (F s) as [v|], (F' s) as [v'|]; cbn in Halike; try contradiction; [|auto].
    destruct Halike as (Hact & Hvotes & Heff & _).
    rewrite !filter_cons. rewrite Hact.
    destruct (decide (isActive v = true)); [|auto].
    cbn [map forallb]. rewrite IH1, IH2, Heff, (Hledger v v' Hvotes). auto.
  - assert (s = sid) as -> by (destruct (decide (s = sid)); [assumption | contradiction]).
    cbn [omap list_omap]. destruct (F sid) as [v|] eqn:Hv; [|auto].
    rewrite filter_cons. rewrite (Hsid v eq_refl).
    destruct (decide (false = true)); [discriminate | auto].
Qed.

Lemma getTaskVoteRange_alike tid now range efficientBase efficientOffset stm stm' :
  SessionTaskMap.getSessionIds tid stm' = SessionTaskMap.getSessionIds tid stm ->
  (forall s, s ∈ SessionTaskMap.getSessionIds tid stm ->
     resolves_alike (SessionTaskMap.findSession s stm) (SessionTaskMap.findSession s stm')) ->
  SessionTaskMap.getTaskVoteRange tid now range efficientBase efficientOffset stm'
  = SessionTaskMap.getTaskVoteRange tid now range efficientBase efficientOffset stm.
Proof.
  intros Hids Halike. unfold SessionTaskMap.getTaskVoteRange, SessionTaskMap.contributing.
  rewrite Hids.
  destruct (contributing_alike (fun sv => Votes.getUclampRange range now (votes sv))
              (fun s => SessionTaskMap.findSession s stm)
              (fun s => SessionTaskMap.findSession s stm')
              (SessionTaskMap.getSessionIds tid stm)) as [-> ->];
    [intros sv sv' ->; reflexivity | exact Halike | reflexivity].
Qed.

Lemma getTaskVoteRange_skip tid now range efficientBase efficientOffset stm stm' sid :
  SessionTaskMap.getSessionIds tid stm'
  = filter (fun s => s <> sid) (SessionTaskMap.getSessionIds tid stm) ->
  (forall v, SessionTaskMap.findSession sid stm = Some v -> isActive v = false) ->
  (forall s, s <> sid ->
     resolves_alike (SessionTaskMap.findSession s stm) (SessionTaskMap.findSession s stm')) ->
  SessionTaskMap.getTaskVoteRange tid now range efficientBase efficientOffset stm'
  = SessionTaskMap.getTaskVoteRange tid now range efficientBase efficientOffset stm.
Proof.
  intros Hids Hsid Halike. unfold SessionTaskMap.getTaskVoteRange, SessionTaskMap.contributing.
  rewrite Hids.
  destruct (contributing_skip (fun sv => Votes.getUclampRange range now (votes sv))
              (fun s => SessionTaskMap.findSession s stm)
              (fun s => SessionTaskMap.findSession s stm') sid
              (SessionTaskMap.getSessionIds tid stm)) as [-> ->];
    [intros sv sv' ->; reflexivity | exact Hsid | intros s _; apply Halike | reflexivity].
Qed.

(** The aggregates over all sessions. *)

Lemma foldr_max_perm (l l' : list Z) : l ≡ₚ l' -> foldr Z.max 0 l = foldr Z.max 0 l'.
Proof. induction 1; cbn [foldr]; lia. Qed.

Lemma foldr_max_nonneg (l : list Z) : 0 <= foldr Z.max 0 l.
Proof. induction l; cbn [foldr]; lia. Qed.

Lemma existsb_perm {A} (p : A -> bool) (l l' : list A) :
  l ≡ₚ l' -> existsb p l = existsb p l'.
Proof.
  induction 1; cbn [existsb]; try congruence.
  destruct (p x), (p y); reflexivity.
Qed.

Lemma aggregates_insert now (ms : gmap Z (SessionValueEntry * list Z)) k e :
  ms !! k = None ->
  SessionTaskMap.getSessionsGpuCapacity now {| mSessions := <[k := e]> ms; mTasks := ∅ |}
  = Z.max (if isActive e.1 then Votes.getGpuCapacity now (votes e.1) else 0)
      (SessionTaskMap.getSessionsGpuCapacity now {| mSessions := ms; mTasks := ∅ |}) /\
  SessionTaskMap.isAnyAppSessionActive now {| mSessions := <[k := e]> ms; mTasks := ∅ |}
  = (isAppSession e.1 && isActive e.1)
    || SessionTaskMap.isAnyAppSessionActive now {| mSessions := ms; mTasks := ∅ |}.
Proof.
  intros Hfresh.
  unfold SessionTaskMap.getSessionsGpuCapacity, SessionTaskMap.isAnyAppSessionActive.
  cbn [mSessions].
  pose proof (map_to_list_insert ms k e Hfresh) as Hperm. split.
  - rewrite (foldr_max_perm _ _ (fmap_Permutation _ _ _ Hperm)). reflexivity.
  - rewrite (existsb_perm _ _ _ Hperm). reflexivity.
Qed.

Lemma aggregates_tasks now stm tasks :
  SessionTaskMap.getSessionsGpuCapacity now {| mSessions := mSessions stm; mTasks := tasks |}
  = SessionTaskMap.getSessionsGpuCapacity now stm /\
  SessionTaskMap.isAnyAppSessionActive now {| mSessions := mSessions stm; mTasks := tasks |}
  = SessionTaskMap.isAnyAppSessionActive now stm.
Proof. split; reflexivity. Qed.

Lemma getGpuCapacity_nonneg now vs : 0 <= Votes.getGpuCapacity now vs.
Proof. apply foldr_max_nonneg. Qed.

Lemma aggregates_alike_raw now (ms : gmap Z (SessionValueEntry * list Z)) :
  forall ms' : gmap Z (SessionValueEntry * list Z),
    (forall s, resolves_alike (fst <$> ms !! s) (fst <$> ms' !! s)) ->
    SessionTaskMap.getSessionsGpuCapacity now {| mSessions := ms'; mTasks := ∅ |}
    = SessionTaskMap.getSessionsGpuCapacity now {| mSessions := ms; mTasks := ∅ |} /\
    SessionTaskMap.isAnyAppSessionActive now {| mSessions := ms'; mTasks := ∅ |}
    = SessionTaskMap.isAnyAppSessionActive now {| mSessions := ms; mTasks := ∅ |}.
Proof.
  induction ms as [|k e ms Hfresh IH] using map_ind; intros ms' Halike.
  - assert (ms' = ∅) as ->; [|split; reflexivity].
    apply map_empty. intros s. specialize (Halike s). rewrite lookup_empty in Halike.
    destruct (ms' !! s); [contradiction | reflexivity].
  - pose proof (Halike k) as Hk. rewrite lookup_insert_eq in Hk.
    destruct (ms' !! k) as [e'|] eqn:Hk'; [|contradiction].
    cbn in Hk. destruct Hk as (Hact & Hvotes & _ & Happ).
    assert (Hms' : ms' = <[k := e']> (delete k ms')).
    { rewrite insert_delete_eq. symmetry. apply insert_id, Hk'. }
    destruct (IH (delete k ms')) as [IH1 IH2].
    { intros s. destruct (decide (s = k)) as [->|Hne].
      - rewrite lookup_delete_eq, Hfresh. exact I.
      - rewrite lookup_delete_ne by congruence. specialize (Halike s).
        rewrite lookup_insert_ne in Halike by congruence. exact Halike. }
    destruct (aggregates_insert now ms k e Hfresh) as [-> ->].
    rewrite Hms'.
    destruct (aggregates_insert now (delete k ms') k e' (lookup_delete_eq _ _)) as [-> ->].
    rewrite IH1, IH2, Hact, Hvotes, Happ. split; reflexivity.
Qed.

Lemma aggregates_alike now stm stm' :
  (forall s, resolves_alike (SessionTaskMap.findSession s stm)
               (SessionTaskMap.findSession s stm')) ->
  SessionTaskMap.getSessionsGpuCapacity now stm'
  = SessionTaskMap.getSessionsGpuCapacity now stm /\
  SessionTaskMap.isAnyAppSessionActive now stm'
  = SessionTaskMap.isAnyAppSessionActive now stm.
Proof.
  intros Halike. exact (aggregates_alike_raw now (mSessions stm) (mSessions stm') Halike).
Qed.

(** A session that is not active counts for nothing in them. *)
Lemma aggregates_skip now stm stm' sid :
  SessionTaskMap.findSession sid stm' = None ->
  (forall v, SessionTaskMap.findSession sid stm = Some v -> isActive v = false) ->
  (forall s, s <> sid ->
     resolves_alike (SessionTaskMap.findSession s stm) (SessionTaskMap.findSession s stm')) ->
  SessionTaskMap.getSessionsGpuCapacity now stm'
  = SessionTaskMap.getSessionsGpuCapacity now stm /\
  SessionTaskMap.isAnyAppSessionActive now stm'
  = SessionTaskMap.isAnyAppSessionActive now stm.
Proof.
  intros Hgone Hsid Halike.
  destruct (aggregates_alike_raw now (delete sid (mSessions stm)) (mSessions stm'))
    as [H1 H2].
  { intros s. destruct (decide (s = sid)) as [->|Hne].
    - rewrite lookup_delete_eq. unfold SessionTaskMap.findSession in Hgone.
      rewrite Hgone. exact I.
    - rewrite lookup_delete_ne by congruence. apply Halike, Hne. }
  change (SessionTaskMap.getSessionsGpuCapacity now stm')
    with (SessionTaskMap.getSessionsGpuCapacity now {| mSessions := mSessions stm'; mTasks := ∅ |}).
  change (SessionTaskMap.isAnyAppSessionActive now stm')
    with (SessionTaskMap.isAnyAppSessionActive now {| mSessions := mSessions stm'; mTasks := ∅ |}).
  rewrite H1, H2.
  destruct (mSessions stm !! sid) as [e|] eqn:He.
  - assert (Hms : <[sid := e]> (delete sid (mSessions stm)) = mSessions stm).
    { rewrite insert_delete_eq. apply insert_id, He. }
    destruct (aggregates_insert now (delete sid (mSessions stm)) sid e (lookup_delete_eq _ _))
      as [G1 G2].
    rewrite Hms in G1, G2.
    assert (Hoff : isActive e.1 = false).
    { apply Hsid. unfold SessionTaskMap.findSession. rewrite He. reflexivity. }
    rewrite Hoff in G1, G2. rewrite andb_false_r in G2. cbn [orb] in G2.
    change (SessionTaskMap.getSessionsGpuCapacity now stm
            = Z.max 0 (SessionTaskMap.getSessionsGpuCapacity now
                         {| mSessions := delete sid (mSessions stm); mTasks := ∅ |})) in G1.
    change (SessionTaskMap.isAnyAppSessionActive now stm
            = SessionTaskMap.isAnyAppSessionActive now
                {| mSessions := delete sid (mSessions stm); mTasks := ∅ |}) in G2.
    rewrite G1, G2. split; [|reflexivity].
    pose proof (foldr_max_nonneg
                  (map (fun kv : Z * (SessionValueEntry * list Z) =>
                          if isActive kv.2.1 then Votes.getGpuCapacity now (votes kv.2.1) else 0)
                     (map_to_list (delete sid (mSessions stm))))) as Hnn.
    unfold SessionTaskMap.getSessionsGpuCapacity. cbn [mSessions]. lia.
  - rewrite delete_id by exact He. split; reflexivity.
Qed.

(** The sessions of a thread after a session is unlinked from a thread. *)
Lemma lookup_unlinkTask sid t (tasks : gmap Z (list Z)) tid :
  default [] (SessionTaskMap.unlinkTask sid t tasks !! tid)
  = if decide (tid = t) then filter (fun s => s <> sid) (default [] (tasks !! tid))
    else default [] (tasks !! tid).
Proof.
  unfold SessionTaskMap.unlinkTask. destruct (tasks !! t) as [l|] eqn:Hl.
  - destruct (filter (fun s => s <> sid) l) as [|x l'] eqn:Hf.
    + case_decide as Htid.
      * subst. rewrite lookup_delete_eq, Hl. cbn. rewrite Hf. reflexivity.
      * rewrite lookup_delete_ne by congruence. reflexivity.
    + case_decide as Htid.
      * subst. rewrite lookup_insert_eq, Hl. cbn. rewrite Hf. reflexivity.
      * rewrite lookup_insert_ne by congruence. reflexivity.
  - case_decide as Htid; [|reflexivity]. subst. rewrite Hl. reflexivity.
Qed.

Lemma getSessionIds_prune sid t stm tid :
  SessionTaskMap.getSessionIds tid (SessionTaskMap.removeDeadTaskSessionMap sid t stm)
  = if decide (tid = t) then filter (fun s => s <> sid) (SessionTaskMap.getSessionIds tid stm)
    else SessionTaskMap.getSessionIds tid stm.
Proof. apply lookup_unlinkTask. Qed.

Lemma filter_ne_idem (sid : Z) (l : list Z) :
  filter (fun s => s <> sid) (filter (fun s => s <> sid) l) = filter (fun s => s <> sid) l.
Proof.
  induction l as [|x l IH]; [reflexivity|]. rewrite filter_cons.
  destruct (decide (x <> sid)) as [Hx|Hx]; [|exact IH].
  rewrite filter_cons, decide_True by exact Hx. rewrite IH. reflexivity.
Qed.

Lemma resolved_alike tid now stm stm' :
  SessionTaskMap.getSessionIds tid stm' = SessionTaskMap.getSessionIds tid stm ->
  (forall s, s ∈ SessionTaskMap.getSessionIds tid stm ->
     resolves_alike (SessionTaskMap.findSession s stm) (SessionTaskMap.findSession s stm')) ->
  resolved_call env tid now stm' = resolved_call env tid now stm /\
  resolved_status env tid now stm' = resolved_status env tid now stm.
Proof.
  intros Hids Halike. unfold resolved_call, resolved_status.
  rewrite (getTaskVoteRange_alike tid now _ _ _ stm stm' Hids Halike). split; reflexivity.
Qed.

Lemma resolved_skip tid now stm stm' sid :
  SessionTaskMap.getSessionIds tid stm'
  = filter (fun s => s <> sid) (SessionTaskMap.getSessionIds tid stm) ->
  (forall v, SessionTaskMap.findSession sid stm = Some v -> isActive v = false) ->
  (forall s, s <> sid ->
     resolves_alike (SessionTaskMap.findSession s stm) (SessionTaskMap.findSession s stm')) ->
  resolved_call env tid now stm' = resolved_call env tid now stm.
Proof.
  intros Hids Hsid Halike. unfold resolved_call.
  rewrite (getTaskVoteRange_skip tid now _ _ _ stm stm' sid Hids Hsid Halike). reflexivity.
Qed.

Lemma resolved_prune sid t now stm tid :
  tid <> t ->
  resolved_call env tid now (SessionTaskMap.removeDeadTaskSessionMap sid t stm)
  = resolved_call env tid now stm /\
  resolved_status env tid now (SessionTaskMap.removeDeadTaskSessionMap sid t stm)
  = resolved_status env tid now stm.
Proof.
  intros Hne. apply resolved_alike.
  - rewrite getSessionIds_prune, decide_False by exact Hne. reflexivity.
  - intros s _. apply resolves_alike_refl.
Qed.

(** One step of the loop over the threads. *)
Lemma applyUclampThreads_cons sid now tid rest stm :
  applyUclampThreads env sid now (tid :: rest) stm
  = if resolved_status env tid now stm =? ESRCH then
      let r := applyUclampThreads env sid now rest
                 (SessionTaskMap.removeDeadTaskSessionMap sid tid stm) in
      (r.1.1, r.1.2, resolved_call env tid now stm :: r.2)
    else
      let r := applyUclampThreads env sid now rest stm in
      (tid :: r.1.1, r.1.2, resolved_call env tid now stm :: r.2).
Proof.
  cbn [applyUclampThreads]. unfold resolved_status, resolved_call.
  destruct (set_uclamp env tid _) as [stat eff]. cbn [fst snd].
  destruct (stat =? ESRCH).
  - destruct (applyUclampThreads env sid now rest _) as [[kept stm'] effs]. reflexivity.
  - destruct (applyUclampThreads env sid now rest stm) as [[kept stm'] effs]. reflexivity.
Qed.

Lemma resolved_call_tid tid now stm : effect_tid (resolved_call env tid now stm) = Some tid.
Proof. reflexivity. Qed.

Lemma alive_status tid now stm :
  alive env tid -> (resolved_status env tid now stm =? ESRCH) = false.
Proof.
  intros Halive. unfold resolved_status, set_uclamp. cbn [fst].
  apply Z.eqb_neq, Halive.
Qed.

(** Every thread gets its call, in order; the threads kept are threads of
    the list, with every thread that is alive among them. *)
Lemma applyUclampThreads_calls sid now threads :
  forall stm,
    map effect_tid (applyUclampThreads env sid now threads stm).2 = map Some threads /\
    (forall tid, tid ∈ (applyUclampThreads env sid now threads stm).1.1 -> tid ∈ threads) /\
    (forall tid, tid ∈ threads -> alive env tid ->
       tid ∈ (applyUclampThreads env sid now threads stm).1.1).
Proof.
  induction threads as [|t rest IH]; intros stm.
  - cbn. split; [reflexivity|]. split; intros tid H; [exact H|]. intros _. exact H.
  - rewrite applyUclampThreads_cons.
    destruct (resolved_status env t now stm =? ESRCH) eqn:Hstat; cbn zeta; cbn [fst snd map].
    + destruct (IH (SessionTaskMap.removeDeadTaskSessionMap sid t stm)) as (Hc & Hsub & Hal).
      rewrite Hc. split; [reflexivity|]. split.
      * intros tid Hin. apply list_elem_of_further, Hsub, Hin.
      * intros tid Hin Halive. apply elem_of_cons in Hin as [->|Hin]; [|apply Hal; assumption].
        rewrite (alive_status _ _ _ Halive) in Hstat. discriminate.
    + destruct (IH stm) as (Hc & Hsub & Hal).
      rewrite Hc. split; [reflexivity|]. split.
      * intros tid Hin. apply elem_of_cons in Hin as [->|Hin];
          [apply list_elem_of_here | apply list_elem_of_further, Hsub, Hin].
      * intros tid Hin Halive. apply elem_of_cons in Hin as [->|Hin];
          [apply list_elem_of_here | apply list_elem_of_further, Hal; assumption].
Qed.

(** What the loop does to the sessions of a thread: nothing, or it unlinks
    the session; nothing for a thread whose call is answered. *)
Lemma applyUclampThreads_ids sid now threads tid :
  forall stm,
    let stm' := (applyUclampThreads env sid now threads stm).1.2 in
    (SessionTaskMap.getSessionIds tid stm' = SessionTaskMap.getSessionIds tid stm \/
     SessionTaskMap.getSessionIds tid stm'
     = filter (fun s => s <> sid) (SessionTaskMap.getSessionIds tid stm)) /\
    ((resolved_status env tid now stm =? ESRCH) = false ->
     SessionTaskMap.getSessionIds tid stm' = SessionTaskMap.getSessionIds tid stm) /\
    (tid ∉ threads ->
     SessionTaskMap.getSessionIds tid stm' = SessionTaskMap.getSessionIds tid stm).
Proof.
  induction threads as [|t rest IH]; intros stm; cbn zeta.
  - cbn. auto.
  - rewrite applyUclampThreads_cons.
    destruct (resolved_status env t now stm =? ESRCH) eqn:Hstat; cbn zeta; cbn [fst snd].
    + destruct (IH (SessionTaskMap.removeDeadTaskSessionMap sid t stm)) as (Hor & Hans & Hout).
      cbn zeta in *. rewrite getSessionIds_prune in Hor, Hans, Hout.
      split; [|split].
      * destruct (decide (tid = t)); [|exact Hor].
        right. destruct Hor as [->| ->]; [reflexivity | apply filter_ne_idem].
      * intros Hanswered. destruct (decide (tid = t)) as [->|Hne]; [congruence|].
        apply Hans. rewrite (proj2 (resolved_prune sid t now stm tid Hne)). exact Hanswered.
      * intros Hnot. rewrite not_elem_of_cons in Hnot. destruct Hnot as [Hne Hnot].
        rewrite decide_False in Hout by exact Hne. apply Hout, Hnot.
    + destruct (IH stm) as (Hor & Hans & Hout). cbn zeta in *.
      split; [exact Hor|]. split; [exact Hans|].
      intros Hnot. rewrite not_elem_of_cons in Hnot. apply Hout, Hnot.
Qed.

(** Every thread kept has a call that carries the range it resolves to in
    the map the loop leaves. *)
Lemma applyUclampThreads_kept_call sid now threads :
  forall stm tid,
    tid ∈ (applyUclampThreads env sid now threads stm).1.1 ->
    resolved_call env tid now (applyUclampThreads env sid now threads stm).1.2
    ∈ (applyUclampThreads env sid now threads stm).2.
Proof.
  induction threads as [|t rest IH]; intros stm tid.
  - cbn. intros H. apply elem_of_nil in H. contradiction.
  - rewrite applyUclampThreads_cons.
    destruct (resolved_status env t now stm =? ESRCH) eqn:Hstat; cbn zeta; cbn [fst snd].
    + intros Hin. apply list_elem_of_further, IH, Hin.
    + intros Hin. apply elem_of_cons in Hin as [->|Hin];
        [|apply list_elem_of_further, IH, Hin].
      destruct (applyUclampThreads_ids sid now rest t stm) as (_ & Hans & _).
      cbn zeta in Hans. specialize (Hans Hstat).
      pose proof (applyUclampThreads_mSessions env sid now rest stm) as Hs.
      destruct (resolved_alike t now stm (applyUclampThreads env sid now rest stm).1.2 Hans)
        as [-> _]; [|apply list_elem_of_here].
      intros s _. unfold SessionTaskMap.findSession. rewrite Hs. apply resolves_alike_refl.
Qed.

Lemma alike_updateSession f sid stm s :
  (forall v, isActive (f v) = isActive v /\ votes (f v) = votes v /\
             isPowerEfficient (f v) = isPowerEfficient v /\
             isAppSession (f v) = isAppSession v) ->
  resolves_alike (SessionTaskMap.findSession s stm)
    (SessionTaskMap.findSession s (SessionTaskMap.updateSession f sid stm)).
Proof.
  intros Hf. rewrite findSession_updateSession. apply resolves_alike_fmap.
  intros v. case_decide; [apply Hf | auto].
Qed.

Lemma alike_touch now sid stm s :
  resolves_alike (SessionTaskMap.findSession s stm)
    (SessionTaskMap.findSession s
       (SessionTaskMap.updateSession (set_lastUpdatedTime now) sid stm)).
Proof. apply alike_updateSession. intros v. auto. Qed.

Lemma getSessionIds_updateSession f sid stm tid :
  SessionTaskMap.getSessionIds tid (SessionTaskMap.updateSession f sid stm)
  = SessionTaskMap.getSessionIds tid stm.
Proof. reflexivity. Qed.

Lemma getTaskIds_updateSession f sessionId sid stm :
  SessionTaskMap.getTaskIds sid (SessionTaskMap.updateSession f sessionId stm)
  = SessionTaskMap.getTaskIds sid stm.
Proof.
  unfold SessionTaskMap.getTaskIds, SessionTaskMap.updateSession. cbn [mSessions].
  destruct (decide (sessionId = sid)) as [->|Hne].
  - rewrite lookup_alter_eq. destruct (mSessions stm !! sid) as [[sv ts]|]; reflexivity.
  - rewrite lookup_alter_ne by exact Hne. reflexivity.
Qed.

Lemma getTaskIds_setTaskIds tasks sessionId stm :
  is_Some (mSessions stm !! sessionId) ->
  SessionTaskMap.getTaskIds sessionId (SessionTaskMap.setTaskIds sessionId tasks stm) = tasks.
Proof.
  intros [[sv ts] Hfound].
  unfold SessionTaskMap.getTaskIds, SessionTaskMap.setTaskIds. cbn [mSessions].
  rewrite lookup_alter_eq, Hfound. reflexivity.
Qed.

(** [applyUclampLocked] on a session the manager knows. *)
Lemma applyUclampLocked_effects sid now m entry :
  SessionTaskMap.findSession sid (mSessionTaskMap m) = Some entry ->
  let m' := applyUclampLocked env sid now m in
  let threads := SessionTaskMap.getTaskIds sid (mSessionTaskMap m) in
  let kept := SessionTaskMap.getTaskIds sid (mSessionTaskMap m') in
  exists calls,
    effects m' = effects m ++ calls /\
    (mUclampMinOn (GetAdpfProfile env) = false ->
     calls = [] /\ kept = threads /\ mTasks (mSessionTaskMap m') = mTasks (mSessionTaskMap m)) /\
    (mUclampMinOn (GetAdpfProfile env) = true ->
     map effect_tid calls = map Some threads /\
     forall tid, tid ∈ kept -> resolved_call env tid now (mSessionTaskMap m') ∈ calls) /\
    (forall tid, tid ∈ kept -> tid ∈ threads) /\
    (forall tid, tid ∈ threads -> alive env tid -> tid ∈ kept) /\
    (forall tid,
       SessionTaskMap.getSessionIds tid (mSessionTaskMap m')
       = SessionTaskMap.getSessionIds tid (mSessionTaskMap m) \/
       SessionTaskMap.getSessionIds tid (mSessionTaskMap m')
       = filter (fun s => s <> sid) (SessionTaskMap.getSessionIds tid (mSessionTaskMap m))) /\
    (forall tid, tid ∉ threads ->
       SessionTaskMap.getSessionIds tid (mSessionTaskMap m')
       = SessionTaskMap.getSessionIds tid (mSessionTaskMap m)).
Proof.
  intros Hfound m' threads kept. subst m' kept. unfold applyUclampLocked. rewrite Hfound.
  destruct (mUclampMinOn (GetAdpfProfile env)) eqn:Hon; cbn [negb].
  - fold threads.
    destruct (applyUclampThreads_calls sid now threads (mSessionTaskMap m))
      as (Hcalls & Hsub & Halive).
    pose proof (applyUclampThreads_kept_call sid now threads (mSessionTaskMap m)) as Hkept.
    pose proof (fun tid => applyUclampThreads_ids sid now threads tid (mSessionTaskMap m))
      as Hids.
    pose proof (applyUclampThreads_mSessions env sid now threads (mSessionTaskMap m)) as Hs.
    destruct (applyUclampThreads env sid now threads (mSessionTaskMap m))
      as [[kept stm] effs]. cbn [fst snd] in *. cbn zeta in Hids.
    cbn [with_map emit mSessionTaskMap effects].
    assert (Hk : SessionTaskMap.getTaskIds sid
                   (SessionTaskMap.updateSession (set_lastUpdatedTime now) sid
                      (SessionTaskMap.setTaskIds sid kept stm)) = kept).
    { rewrite getTaskIds_updateSession. apply getTaskIds_setTaskIds.
      rewrite Hs. unfold SessionTaskMap.findSession in Hfound.
      destruct (mSessions (mSessionTaskMap m) !! sid); [eauto | discriminate]. }
    rewrite Hk. exists effs. split; [reflexivity|]. split; [discriminate|].
    split; [|split; [exact Hsub | split; [exact Halive | split]]].
    + intros _. split; [exact Hcalls|]. intros tid Hin.
      destruct (resolved_alike tid now stm
                  (SessionTaskMap.updateSession (set_lastUpdatedTime now) sid
                     (SessionTaskMap.setTaskIds sid kept stm))) as [-> _];
        [reflexivity | | apply Hkept, Hin].
      intros s _. eapply resolves_alike_trans; [|apply alike_touch].
      rewrite findSession_setTaskIds. apply resolves_alike_refl.
    + intros tid. destruct (Hids tid) as (Hor & _). exact Hor.
    + intros tid Hnot. destruct (Hids tid) as (_ & _ & Hout). apply Hout, Hnot.
  - cbn [with_map mSessionTaskMap effects]. exists []. rewrite app_nil_r.
    rewrite getTaskIds_updateSession. fold threads.
    split; [reflexivity|]. split; [auto|]. split; [discriminate|].
    split; [auto|]. split; [auto|]. split; [auto|]. auto.
Qed.

(** The recomputation after a change to a session the manager knows:
    [applyCpuAndGpuVotes], then [updateUniversalBoostMode]. *)
Lemma recompute_effects sid now m entry :
  SessionTaskMap.findSession sid (mSessionTaskMap m) = Some entry ->
  let m' := updateUniversalBoostMode env now (applyCpuAndGpuVotes env sid now m) in
  let threads := SessionTaskMap.getTaskIds sid (mSessionTaskMap m) in
  let kept := SessionTaskMap.getTaskIds sid (mSessionTaskMap m') in
  exists calls,
    effects m'
    = effects m ++ calls ++ gpu_calls env now (mSessionTaskMap m')
      ++ boost_calls env now (mSessionTaskMap m') /\
    (mUclampMinOn (GetAdpfProfile env) = false -> calls = [] /\ kept = threads) /\
    (mUclampMinOn (GetAdpfProfile env) = true ->
     map effect_tid calls = map Some threads /\
     forall tid, tid ∈ kept -> resolved_call env tid now (mSessionTaskMap m') ∈ calls) /\
    (forall tid, tid ∈ kept -> tid ∈ threads) /\
    (forall tid, tid ∈ threads -> alive env tid -> tid ∈ kept) /\
    (forall tid,
       SessionTaskMap.getSessionIds tid (mSessionTaskMap m')
       = SessionTaskMap.getSessionIds tid (mSessionTaskMap m) \/
       SessionTaskMap.getSessionIds tid (mSessionTaskMap m')
       = filter (fun s => s <> sid) (SessionTaskMap.getSessionIds tid (mSessionTaskMap m))) /\
    (forall tid, tid ∉ threads ->
       SessionTaskMap.getSessionIds tid (mSessionTaskMap m')
       = SessionTaskMap.getSessionIds tid (mSessionTaskMap m)).
Proof.
  intros Hfound m' threads kept.
  destruct (applyUclampLocked_effects sid now m entry Hfound)
    as (calls & Heff & Hoff & Hon & Hsub & Halive & Hids & Hout).
  cbn zeta in *. fold threads in Hoff, Hon, Hsub, Halive, Hout.
  set (m1 := applyUclampLocked env sid now m) in *.
  assert (Hfound1 : is_Some (SessionTaskMap.findSession sid (mSessionTaskMap m1))).
  { subst m1. rewrite touched_applyUclampLocked, Hfound. unfold touched.
    rewrite decide_True by reflexivity. eauto. }
  destruct Hfound1 as [entry1 Hfound1].
  assert (Hmap : mSessionTaskMap m'
                 = SessionTaskMap.updateSession (set_lastUpdatedTime now) sid
                     (mSessionTaskMap m1)).
  { subst m'. rewrite updateUniversalBoostMode_map. unfold applyCpuAndGpuVotes. fold m1.
    unfold applyGpuVotesLocked. rewrite Hfound1. cbn [with_map mSessionTaskMap].
    destruct (mGpuCapacityNode env), (mGpuBoostOn (GetAdpfProfile env)); reflexivity. }
  assert (Hkept : kept = SessionTaskMap.getTaskIds sid (mSessionTaskMap m1)).
  { subst kept. rewrite Hmap. apply getTaskIds_updateSession. }
  assert (Hagg : SessionTaskMap.getSessionsGpuCapacity now (mSessionTaskMap m')
                 = SessionTaskMap.getSessionsGpuCapacity now (mSessionTaskMap m1)).
  { rewrite Hmap. apply aggregates_alike. intros s. apply alike_touch. }
  exists calls. split; [|split; [|split; [|split; [|split; [|split]]]]].
  - subst m'. unfold updateUniversalBoostMode at 1, boost_calls.
    set (m2 := applyCpuAndGpuVotes env sid now m) in *.
    assert (Heff2 : effects m2 = effects m ++ calls ++ gpu_calls env now (mSessionTaskMap m2)).
    { rewrite updateUniversalBoostMode_map in Hagg.
      unfold gpu_calls. rewrite Hagg. subst m2. unfold applyCpuAndGpuVotes. fold m1.
      unfold applyGpuVotesLocked. rewrite Hfound1.
      destruct (mGpuCapacityNode env), (mGpuBoostOn (GetAdpfProfile env));
        cbn [with_map emit effects]; rewrite Heff, <- ?app_assoc, ?app_nil_r; reflexivity. }
    rewrite updateUniversalBoostMode_map.
    destruct (SessionTaskMap.isAnyAppSessionActive now (mSessionTaskMap m2)),
      (IsHintSupported env); cbn [emit effects]; rewrite Heff2, <- ?app_assoc, ?app_nil_r;
      reflexivity.
  - intros Hno. destruct (Hoff Hno) as (-> & Hk & _). split; [reflexivity|].
    rewrite Hkept. exact Hk.
  - intros Hyes. destruct (Hon Hyes) as (Hcalls & Hcall). split; [exact Hcalls|].
    intros tid Hin. rewrite Hkept in Hin.
    destruct (resolved_alike tid now (mSessionTaskMap m1) (mSessionTaskMap m')) as [-> _];
      [rewrite Hmap; reflexivity | | apply Hcall, Hin].
    intros s _. rewrite Hmap. apply alike_touch.
  - intros tid. rewrite Hkept. apply Hsub.
  - intros tid. rewrite Hkept. apply Halive.
  - intros tid. rewrite Hmap, getSessionIds_updateSession. apply Hids.
  - intros tid. rewrite Hmap, getSessionIds_updateSession. apply Hout.
Qed.

(** The sessions of a thread once a session is replaced or removed. *)
Lemma lookup_foldr_unlinkTask sid (l : list Z) (tasks : gmap Z (list Z)) tid :
  default [] (foldr (SessionTaskMap.unlinkTask sid) tasks l !! tid)
  = if decide (tid ∈ l) then filter (fun s => s <> sid) (default [] (tasks !! tid))
    else default [] (tasks !! tid).
Proof.
  induction l as [|t l IH]; cbn [foldr].
  - rewrite decide_False by apply not_elem_of_nil. reflexivity.
  - rewrite lookup_unlinkTask, IH.
    destruct (decide (tid = t)) as [->|Hne].
    + rewrite (decide_True (P := t ∈ t :: l)) by apply list_elem_of_here.
      case_decide; [apply filter_ne_idem | reflexivity].
    + destruct (decide (tid ∈ l)) as [Hin|Hnot].
      * rewrite decide_True by (apply list_elem_of_further, Hin). reflexivity.
      * rewrite decide_False; [reflexivity|].
        intros Hin. apply elem_of_cons in Hin as [?|?]; contradiction.
Qed.

Lemma getSessionIds_remove sid stm tid :
  SessionTaskMap.getSessionIds tid (SessionTaskMap.remove sid stm)
  = filter (fun s => s <> sid) (SessionTaskMap.getSessionIds tid stm).
Proof.
  unfold SessionTaskMap.getSessionIds, SessionTaskMap.remove. cbn [mTasks].
  rewrite map_lookup_filter, lookup_fmap.
  destruct (mTasks stm !! tid) as [l|]; cbn; [|reflexivity].
  destruct (filter (fun s => s <> sid) l) as [|x l'].
  - case_guard as Hg; [exfalso; apply Hg; reflexivity | reflexivity].
  - case_guard as Hg; [reflexivity | discriminate Hg].
Qed.

Lemma filter_agree {A} (P Q : A -> Prop) `{!forall x, Decision (P x)}
    `{!forall x, Decision (Q x)} (l : list A) :
  (forall x, x ∈ l -> P x <-> Q x) -> filter P l = filter Q l.
Proof.
  induction l as [|x l IH]; intros Hagree; [reflexivity|].
  rewrite !filter_cons. rewrite IH by (intros y Hy; apply Hagree, list_elem_of_further, Hy).
  pose proof (Hagree x (list_elem_of_here _ _)) as Hx.
  destruct (decide (P x)), (decide (Q x)); tauto || reflexivity.
Qed.

(** Replacing the threads of a known session by none, then removing it. *)
Lemma remove_replace_nil sid stm entry :
  SessionTaskMap.findSession sid stm = Some entry ->
  let r := SessionTaskMap.replace sid [] stm in
  let final := SessionTaskMap.remove sid r.1.1 in
  SessionTaskMap.findSession sid final = None /\
  (forall s, s <> sid ->
     SessionTaskMap.findSession s final = SessionTaskMap.findSession s stm) /\
  (forall tid,
     SessionTaskMap.getSessionIds tid final
     = filter (fun s => s <> sid) (SessionTaskMap.getSessionIds tid stm)) /\
  r.2 = filter (fun tid => SessionTaskMap.getSessionIds tid final = [])
          (remove_dups (SessionTaskMap.getTaskIds sid stm)).
Proof.
  intros Hfound r final. subst final r.
  unfold SessionTaskMap.findSession in Hfound. unfold SessionTaskMap.replace.
  destruct (mSessions stm !! sid) as [[sv previous]|] eqn:Hs; [|discriminate].
  cbn [fst snd].
  assert (Hids : forall tid,
             SessionTaskMap.getSessionIds tid
               {| mSessions := <[sid := (sv, [])]> (mSessions stm);
                  mTasks := foldr (SessionTaskMap.linkTask sid)
                              (foldr (SessionTaskMap.unlinkTask sid) (mTasks stm)
                                 (filter (fun t => t ∉ []) previous))
                              (filter (fun t => t ∉ previous) []) |}
             = if decide (tid ∈ previous)
               then filter (fun s => s <> sid) (SessionTaskMap.getSessionIds tid stm)
               else SessionTaskMap.getSessionIds tid stm).
  { intros tid. unfold SessionTaskMap.getSessionIds. cbn [mTasks foldr filter list_filter].
    rewrite lookup_foldr_unlinkTask.
    assert (Hall : filter (fun t : Z => t ∉ []) previous = previous).
    { clear. induction previous as [|x l IH]; [reflexivity|].
      rewrite filter_cons_True by apply not_elem_of_nil. rewrite IH. reflexivity. }
    rewrite Hall. reflexivity. }
  assert (Hfinal : forall tid,
             SessionTaskMap.getSessionIds tid
               (SessionTaskMap.remove sid
                  {| mSessions := <[sid := (sv, [])]> (mSessions stm);
                     mTasks := foldr (SessionTaskMap.linkTask sid)
                                 (foldr (SessionTaskMap.unlinkTask sid) (mTasks stm)
                                    (filter (fun t => t ∉ []) previous))
                                 (filter (fun t => t ∉ previous) []) |})
             = filter (fun s => s <> sid) (SessionTaskMap.getSessionIds tid stm)).
  { intros tid. rewrite getSessionIds_remove, Hids.
    case_decide; [apply filter_ne_idem | reflexivity]. }
  split; [|split; [|split]].
  - unfold SessionTaskMap.findSession, SessionTaskMap.remove. cbn [mSessions].
    rewrite lookup_delete_eq. reflexivity.
  - intros s Hne. unfold SessionTaskMap.findSession, SessionTaskMap.remove. cbn [mSessions].
    rewrite lookup_delete_ne by congruence. rewrite lookup_insert_ne by congruence.
    reflexivity.
  - exact Hfinal.
  - unfold SessionTaskMap.getTaskIds. rewrite Hs. cbn [fmap option_fmap option_map default snd].
    apply filter_agree. intros tid Hin. rewrite elem_of_remove_dups in Hin.
    rewrite Hfinal, Hids, decide_True by exact Hin.
    split; [intros [_ H]; exact H | intros H; split; [apply not_elem_of_nil | exact H]].
Qed.

(** [forceSessionActive] on a session the manager knows. *)
Lemma forceSessionActive_known sid b now m entry :
  SessionTaskMap.findSession sid (mSessionTaskMap m) = Some entry ->
  forceSessionActive env sid b now m
  = updateUniversalBoostMode env now
      (applyCpuAndGpuVotes env sid now
         (with_map (SessionTaskMap.updateSession (set_isActive b) sid) m)).
Proof. intros Hfound. unfold forceSessionActive. rewrite Hfound. reflexivity. Qed.

(** [removePowerSession] on a session the manager knows: the resources
    are recomputed without the session, the threads it kept that no session
    claims any more go back to the default task profile, and the session is
    gone from the map and from the registry. *)
Lemma removePowerSession_known sid now m entry :
  SessionTaskMap.findSession sid (mSessionTaskMap m) = Some entry ->
  let m1 := removePowerSession env sid now m in
  let final := mSessionTaskMap m1 in
  let threads := SessionTaskMap.getTaskIds sid (mSessionTaskMap m) in
  exists calls kept,
    effects m1
    = effects m ++ calls ++ gpu_calls env now final ++ boost_calls env now final
      ++ map (fun tid => SetTaskProfiles tid NoResetUclampGrp)
           (filter (fun tid => SessionTaskMap.getSessionIds tid final = [])
              (remove_dups kept)) /\
    (mUclampMinOn (GetAdpfProfile env) = false -> calls = [] /\ kept = threads) /\
    (mUclampMinOn (GetAdpfProfile env) = true ->
     map effect_tid calls = map Some threads /\
     forall tid, tid ∈ kept -> resolved_call env tid now final ∈ calls) /\
    (forall tid, tid ∈ kept -> tid ∈ threads) /\
    (forall tid, tid ∈ threads -> alive env tid -> tid ∈ kept) /\
    (forall tid,
       SessionTaskMap.getSessionIds tid final
       = filter (fun s => s <> sid) (SessionTaskMap.getSessionIds tid (mSessionTaskMap m))) /\
    (forall s, s <> sid ->
       SessionTaskMap.findSession s final = SessionTaskMap.findSession s (mSessionTaskMap m)).
Proof.
  intros Hfound m1 final threads.
  set (m0 := with_map (SessionTaskMap.updateSession (set_isActive false) sid) m).
  assert (Hfound0 : SessionTaskMap.findSession sid (mSessionTaskMap m0)
                    = Some (set_isActive false entry)).
  { subst m0. cbn [with_map mSessionTaskMap]. rewrite touched_updateSession, Hfound.
    unfold touched. rewrite decide_True by reflexivity. reflexivity. }
  destruct (recompute_effects sid now m0 _ Hfound0)
    as (calls & Heff & Hoff & Hon & Hsub & Halive & Hids & Hout).
  cbn zeta in *.
  set (mf := updateUniversalBoostMode env now (applyCpuAndGpuVotes env sid now m0)) in *.
  assert (Hforce : forceSessionActive env sid false now m = mf).
  { apply (forceSessionActive_known sid false now m entry Hfound). }
  assert (Hfoundf : forall s,
             SessionTaskMap.findSession s (mSessionTaskMap mf)
             = touched (fun v => set_lastUpdatedTime now (set_isActive false v)) sid s
                 (SessionTaskMap.findSession s (mSessionTaskMap m))).
  { intros s. rewrite <- Hforce. apply touched_forceSessionActive. }
  assert (Hsid : SessionTaskMap.findSession sid (mSessionTaskMap mf)
                 = Some (set_lastUpdatedTime now (set_isActive false entry))).
  { rewrite Hfoundf, Hfound. unfold touched. rewrite decide_True by reflexivity.
    reflexivity. }
  destruct (remove_replace_nil sid (mSessionTaskMap mf) _ Hsid)
    as (Hgone & Hothers & Hfinal & Hremoved).
  cbn zeta in *.
  assert (Hm1 : m1 = unregisterSession sid
                       (emit (map (fun tid => SetTaskProfiles tid NoResetUclampGrp)
                                (SessionTaskMap.replace sid [] (mSessionTaskMap mf)).2)
                          (with_map
                             (fun _ => SessionTaskMap.remove sid
                                         (SessionTaskMap.replace sid [] (mSessionTaskMap mf)).1.1)
                             mf))).
  { subst m1. unfold removePowerSession. rewrite Hforce.
    destruct (SessionTaskMap.replace sid [] (mSessionTaskMap mf)) as [[stm added] removed].
    reflexivity. }
  assert (Hfinal_eq : final = SessionTaskMap.remove sid
                                (SessionTaskMap.replace sid [] (mSessionTaskMap mf)).1.1).
  { subst final. rewrite Hm1. reflexivity. }
  rewrite <- Hfinal_eq in Hgone, Hothers, Hfinal, Hremoved.
  assert (Hinactive : forall v,
             SessionTaskMap.findSession sid (mSessionTaskMap mf) = Some v ->
             isActive v = false).
  { intros v Hv. rewrite Hsid in Hv. injection Hv as <-. reflexivity. }
  assert (Halike : forall s, s <> sid ->
             resolves_alike (SessionTaskMap.findSession s (mSessionTaskMap mf))
               (SessionTaskMap.findSession s final)).
  { intros s Hne. rewrite (Hothers s Hne). apply resolves_alike_refl. }
  destruct (aggregates_skip now (mSessionTaskMap mf) final sid Hgone Hinactive Halike)
    as [Hgpu Hboost].
  assert (Hidsm : forall tid,
             SessionTaskMap.getSessionIds tid (mSessionTaskMap m0)
             = SessionTaskMap.getSessionIds tid (mSessionTaskMap m)).
  { intros tid. subst m0. reflexivity. }
  exists calls, (SessionTaskMap.getTaskIds sid (mSessionTaskMap mf)).
  assert (Hthreads0 : SessionTaskMap.getTaskIds sid (mSessionTaskMap m0) = threads).
  { subst m0 threads. cbn [with_map mSessionTaskMap]. apply getTaskIds_updateSession. }
  rewrite Hthreads0 in *.
  split; [|split; [exact Hoff | split; [|split; [exact Hsub | split; [exact Halive | split]]]]].
  - rewrite Hm1 at 1. cbn [unregisterSession emit with_map effects].
    rewrite Heff, Hremoved. unfold gpu_calls, boost_calls. rewrite Hgpu, Hboost.
    rewrite <- !app_assoc. reflexivity.
  - intros Hyes. destruct (Hon Hyes) as (Hcalls & Hcall). split; [exact Hcalls|].
    intros tid Hin.
    rewrite (resolved_skip tid now (mSessionTaskMap mf) final sid (Hfinal tid) Hinactive Halike).
    apply Hcall, Hin.
  - intros tid. rewrite Hfinal.
    destruct (Hids tid) as [-> | ->]; rewrite Hidsm; [reflexivity | apply filter_ne_idem].
  - intros s Hne. rewrite (Hothers s Hne), Hfoundf. unfold touched.
    rewrite decide_False by exact Hne. reflexivity.
Qed.

(** C6.  A timer that fires for a session the manager no longer knows, or
    for a vote that is not active, changes nothing.  For an active vote whose
    deadline, read again, has passed: the vote is switched off and nothing
    else in any ledger changes; the resources are recomputed from the state
    the handler leaves, which is to say that every thread of the session
    gets one scheduler call, in order, the call of a thread the session
    keeps carrying the range the thread now resolves to, that the GPU
    capacity now resolved is written (on a device with a capacity node and
    GPU boost configured), and that the universal boost hint follows; no
    timer is added.  For one whose deadline is still ahead, one timer is
    appended for that deadline and nothing else changes. *)
Theorem handleEvent_cases
    (eventTimeout : EventSessionTimeout) (tNow : Z) (m : PowerSessionManager) :
  let sessionId := ev_sessionId eventTimeout in
  let voteId := ev_voteId eventTimeout in
  let m' := handleEvent env eventTimeout tNow m in
  (SessionTaskMap.findSession sessionId (mSessionTaskMap m) = None -> m' = m) /\
  (forall sessVal,
     SessionTaskMap.findSession sessionId (mSessionTaskMap m) = Some sessVal ->
     (Votes.voteIsActive voteId (votes sessVal) = false -> m' = m) /\
     (Votes.voteIsActive voteId (votes sessVal) = true ->
      Votes.voteTimeout voteId (votes sessVal) <= tNow ->
      (exists sessVal',
         SessionTaskMap.findSession sessionId (mSessionTaskMap m') = Some sessVal' /\
         Votes.voteIsActive voteId (votes sessVal') = false /\
         votes sessVal' = Votes.setUseVote voteId false (votes sessVal) /\
         isActive sessVal' = isActive sessVal /\
         isPowerEfficient sessVal' = isPowerEfficient sessVal /\
         lastUpdatedTime sessVal' = tNow) /\
      (forall sid, sid <> sessionId ->
         SessionTaskMap.findSession sid (mSessionTaskMap m')
         = SessionTaskMap.findSession sid (mSessionTaskMap m)) /\
      mEventSessionTimeoutWorker m' = mEventSessionTimeoutWorker m /\
      mSessionMap m' = mSessionMap m /\
      exists calls,
        effects m'
        = effects m ++ calls ++ gpu_calls env tNow (mSessionTaskMap m')
          ++ boost_calls env tNow (mSessionTaskMap m') /\
        (mUclampMinOn (GetAdpfProfile env) = false -> calls = []) /\
        (mUclampMinOn (GetAdpfProfile env) = true ->
         map effect_tid calls
         = map Some (SessionTaskMap.getTaskIds sessionId (mSessionTaskMap m)) /\
         forall tid,
           tid ∈ SessionTaskMap.getTaskIds sessionId (mSessionTaskMap m') ->
           resolved_call env tid tNow (mSessionTaskMap m') ∈ calls)) /\
     (Votes.voteIsActive voteId (votes sessVal) = true ->
      tNow < Votes.voteTimeout voteId (votes sessVal) ->
      mEventSessionTimeoutWorker m'
      = mEventSessionTimeoutWorker m
        ++ [(eventTimeout, Votes.voteTimeout voteId (votes sessVal))] /\
      mSessionTaskMap m' = mSessionTaskMap m /\
      mSessionMap m' = mSessionMap m /\
      effects m' = effects m)).
Proof.
  intros sessionId voteId m'. subst sessionId voteId m'. unfold handleEvent. split.
  - intros ->. reflexivity.
  - intros sessVal Hfind. rewrite Hfind. split; [|split].
    + intros ->. reflexivity.
    + intros Hact Hdue. rewrite Hact.
      destruct (Z.leb_spec (Votes.voteTimeout (ev_voteId eventTimeout) (votes sessVal)) tNow);
        [|lia].
      set (m0 := with_map
                   (SessionTaskMap.updateSession
                      (set_votes (Votes.setUseVote (ev_voteId eventTimeout) false))
                      (ev_sessionId eventTimeout)) m).
      assert (Hfind0 : SessionTaskMap.findSession (ev_sessionId eventTimeout)
                         (mSessionTaskMap m0)
                       = Some (set_votes (Votes.setUseVote (ev_voteId eventTimeout) false)
                                 sessVal)).
      { subst m0. cbn [with_map mSessionTaskMap]. rewrite touched_updateSession, Hfind.
        unfold touched. rewrite decide_True by reflexivity. reflexivity. }
      destruct (recompute_effects (ev_sessionId eventTimeout) tNow m0 _ Hfind0)
        as (calls & Heff & Hoff & Hon & _).
      cbn zeta in *.
      pose proof (same_ledgers_trans _ _ _
                    (same_ledgers_applyCpuAndGpuVotes env (ev_sessionId eventTimeout) tNow m0)
                    (same_ledgers_updateUniversalBoostMode env tNow _)) as (Hq & Hr & _).
      assert (Hany : forall sid,
                 SessionTaskMap.findSession sid
                   (mSessionTaskMap
                      (updateUniversalBoostMode env tNow
                         (applyCpuAndGpuVotes env (ev_sessionId eventTimeout) tNow m0)))
                 = touched
                     (fun v =>
                        set_lastUpdatedTime tNow
                          (set_votes (Votes.setUseVote (ev_voteId eventTimeout) false) v))
                     (ev_sessionId eventTimeout) sid
                     (SessionTaskMap.findSession sid (mSessionTaskMap m))).
      { intros sid. rewrite updateUniversalBoostMode_map, touched_applyCpuAndGpuVotes.
        subst m0. cbn [with_map mSessionTaskMap].
        rewrite touched_updateSession, touched_touched. reflexivity. }
      split; [|split; [|split; [exact Hq | split; [exact Hr|]]]].
      * rewrite Hany, Hfind. unfold touched. rewrite decide_True by reflexivity.
        eexists. split; [reflexivity|].
        cbn [votes set_lastUpdatedTime set_votes isActive isPowerEfficient lastUpdatedTime].
        split; [|auto].
        unfold Votes.voteIsActive, Votes.setUseVote. rewrite lookup_alter_eq.
        destruct (votes sessVal !! ev_voteId eventTimeout); reflexivity.
      * intros sid Hne. rewrite Hany. unfold touched. rewrite decide_False by exact Hne.
        reflexivity.
      * exists calls. split; [exact Heff|]. split.
        -- intros Hno. apply (Hoff Hno).
        -- intros Hyes. destruct (Hon Hyes) as (Hcalls & Hcall). split; [|exact Hcall].
           rewrite Hcalls. subst m0. cbn [with_map mSessionTaskMap].
           rewrite getTaskIds_updateSession. reflexivity.
    + intros Hact Hahead. rewrite Hact.
      destruct (Z.leb_spec (Votes.voteTimeout (ev_voteId eventTimeout) (votes sessVal)) tNow);
        [lia|].
      repeat split.
Qed.

End RecomputeFacts.

(** The timer of session 1's default vote fires at its deadline, 1000: the
    vote is switched off, thread 7 gets a scheduler call with the default
    range, which is what it resolves to now, and the system boost stays
    disabled for the application session. *)
Lemma handleEvent_cases_witness :
  exists calls,
    effects
      (handleEvent (Fixture.env Fixture.plain)
         {| timeStamp := 0; ev_sessionId := 1; ev_voteId := 0 |} 1000 Fixture.oneSession)
    = calls ++ [DoHint] /\
    map effect_tid calls = [Some 7] /\
    SchedSetattr 7 0 1024 ∈ calls.
Proof.
  destruct (handleEvent_cases (Fixture.env Fixture.plain)
              {| timeStamp := 0; ev_sessionId := 1; ev_voteId := 0 |} 1000 Fixture.oneSession)
    as (_ & H).
  destruct (H (Fixture.voting 200 800 false) eq_refl) as (_ & Hdue & _).
  destruct (Hdue eq_refl ltac:(vm_compute; discriminate))
    as (_ & _ & _ & _ & calls & Heff & _ & Hon).
  destruct (Hon eq_refl) as (Hcalls & Hcall).
  exists calls. split; [exact Heff|]. split; [exact Hcalls|].
  apply (Hcall 7). vm_compute. constructor.
Defined.

(** The same timer on a device with a GPU capacity node and a profile that
    configures GPU boost: the capacity resolved, 0 with no GPU vote left, is
    written between the scheduler call and the boost hint. *)
Example handleEvent_writes_gpu_capacity :
  effects
    (handleEvent (Fixture.gpuEnv Fixture.gpuBoost)
       {| timeStamp := 0; ev_sessionId := 1; ev_voteId := 0 |} 1000 Fixture.oneSession)
  = [SchedSetattr 7 0 1024; SetGpuCapacity 0; DoHint].
Proof. vm_compute. reflexivity. Qed.

(** ** Hint sessions *)


Lemma callbacks_unregister tag id hm tag' :
  callbacks tag' (HintManager.UnregisterAdpfUpdateEvent tag id hm)
  = if decide (tag' = tag) then HintManager.erase_first id (callbacks tag hm)
    else callbacks tag' hm.
Proof.
  unfold callbacks, HintManager.UnregisterAdpfUpdateEvent. cbn [tag_update_callback_list_].
  case_decide as Htag.
  - subst. rewrite lookup_insert_eq. reflexivity.
  - rewrite lookup_insert_ne by congruence. reflexivity.
Qed.

Lemma erase_first_other id id' (l : list Z) :
  id' <> id -> id' ∈ HintManager.erase_first id l <-> id' ∈ l.
Proof.
  intros Hne. induction l as [|x l IH]; [reflexivity|]. cbn [HintManager.erase_first].
  destruct (Z.eqb_spec x id) as [->|Hx].
  - rewrite elem_of_cons. split; [auto | intros [?|?]; [contradiction | assumption]].
  - rewrite !elem_of_cons, IH. reflexivity.
Qed.

Lemma erase_first_sub id id' (l : list Z) :
  id' ∈ HintManager.erase_first id l -> id' ∈ l.
Proof.
  induction l as [|x l IH]; [auto|]. cbn [HintManager.erase_first].
  destruct (x =? id).
  - apply list_elem_of_further.
  - rewrite !elem_of_cons. intros [?|?]; auto.
Qed.

Lemma erase_first_NoDup id (l : list Z) :
  NoDup l -> id ∉ HintManager.erase_first id l.
Proof.
  induction 1 as [|x l Hx Hl IH]; cbn [HintManager.erase_first]; [apply not_elem_of_nil|].
  destruct (Z.eqb_spec x id) as [->|Hne]; [exact Hx|].
  rewrite not_elem_of_cons. split; [congruence | exact IH].
Qed.

Section SessionFacts.

Context {SessionRecords : Type} (env : Collaborators SessionRecords).

(** A session removed is in no table of the manager, whether or not the
    manager knew it. *)
Lemma removePowerSession_gone sessionId now m :
  let m1 := removePowerSession env sessionId now m in
  SessionTaskMap.findSession sessionId (mSessionTaskMap m1) = None /\
  (forall tid, sessionId ∉ SessionTaskMap.getSessionIds tid (mSessionTaskMap m1)) /\
  (to_int32 sessionId ∉ mSessionMap m1) /\
  mEventSessionTimeoutWorker m1 = mEventSessionTimeoutWorker m.
Proof.
  cbn zeta. unfold removePowerSession.
  assert (Hq : mEventSessionTimeoutWorker (forceSessionActive env sessionId false now m)
               = mEventSessionTimeoutWorker m).
  { unfold forceSessionActive.
    destruct (SessionTaskMap.findSession sessionId (mSessionTaskMap m)); [|reflexivity].
    match goal with
    | |- context [applyCpuAndGpuVotes env ?a ?b ?c] =>
        destruct (same_ledgers_trans _ _ _
                    (same_ledgers_applyCpuAndGpuVotes env a b c)
                    (same_ledgers_updateUniversalBoostMode env now _)) as (Hq & _ & _)
    end.
    exact Hq. }
  destruct (SessionTaskMap.replace _ _ _) as [[stm added] removed].
  cbn [unregisterSession emit with_map mSessionTaskMap mSessionMap
       mEventSessionTimeoutWorker].
  split; [|split; [|split; [|exact Hq]]].
  - unfold SessionTaskMap.findSession, SessionTaskMap.remove. cbn [mSessions].
    rewrite lookup_delete_eq. reflexivity.
  - intros tid. rewrite getSessionIds_remove. intros Hin.
    apply list_elem_of_filter in Hin as [Hne _]. apply Hne. reflexivity.
  - apply not_elem_of_difference. right. apply elem_of_singleton. reflexivity.
Qed.

Lemma removePowerSession_unknown sessionId now m :
  SessionTaskMap.findSession sessionId (mSessionTaskMap m) = None ->
  effects (removePowerSession env sessionId now m) = effects m /\
  forall s,
    SessionTaskMap.findSession s (mSessionTaskMap (removePowerSession env sessionId now m))
    = SessionTaskMap.findSession s (mSessionTaskMap m).
Proof.
  intros Hnone. unfold removePowerSession, forceSessionActive. rewrite Hnone.
  unfold SessionTaskMap.replace. unfold SessionTaskMap.findSession in Hnone.
  destruct (mSessions (mSessionTaskMap m) !! sessionId) eqn:Hs; [discriminate|].
  cbn [unregisterSession emit with_map mSessionTaskMap effects map].
  split; [apply app_nil_r|].
  intros s. unfold SessionTaskMap.findSession, SessionTaskMap.remove. cbn [mSessions].
  rewrite delete_id by exact Hs. reflexivity.
Qed.

(** C3.  The first [close] of a session succeeds and marks the session
    closed and inactive.  The session is gone from every table: from the
    thread-session map, from the sessions of every thread, from the registry
    and, when its callback was registered once, from the callbacks of its
    tag, the other callbacks staying.  In the manager the session is
    deactivated and detached: every thread of the session gets one scheduler
    call, in order, which for a thread that is kept carries the range the
    thread resolves to without the session; the GPU capacity and the
    universal boost hint are recomputed without it; and every thread kept
    that no session claims any more is sent back to the default task
    profile, once.  The other sessions and the pending timers are as
    before.  A [close] after that fails with an illegal state and changes
    nothing. *)
Theorem close_once (now now' : Z) (s : PowerHintSession SessionRecords)
    (m : PowerSessionManager) (hm : HintManager) :
  mSessionClosed s = false ->
  let sid := mSessionId s in
  let tag := SessionTag_toString (mTag s) in
  let s1 := (close env now s m hm).1.1.2 in
  let m1 := (close env now s m hm).1.2 in
  let hm1 := (close env now s m hm).2 in
  let final := mSessionTaskMap m1 in
  let threads := SessionTaskMap.getTaskIds sid (mSessionTaskMap m) in
  (close env now s m hm).1.1.1 = EX_NONE /\
  mSessionClosed s1 = true /\
  is_active (mDescriptor s1) = false /\
  SessionTaskMap.findSession sid final = None /\
  (forall tid, sid ∉ SessionTaskMap.getSessionIds tid final) /\
  (to_int32 sid ∉ mSessionMap m1) /\
  (NoDup (callbacks tag hm) -> sid ∉ callbacks tag hm1) /\
  (forall tag' id, tag' <> tag \/ id <> sid ->
     id ∈ callbacks tag' hm1 <-> id ∈ callbacks tag' hm) /\
  (forall entry,
     SessionTaskMap.findSession sid (mSessionTaskMap m) = Some entry ->
     exists calls kept,
       effects m1
       = effects m ++ calls ++ gpu_calls env now final ++ boost_calls env now final
         ++ map (fun tid => SetTaskProfiles tid NoResetUclampGrp)
              (filter (fun tid => SessionTaskMap.getSessionIds tid final = [])
                 (remove_dups kept)) /\
       (mUclampMinOn (GetAdpfProfile env) = false -> calls = [] /\ kept = threads) /\
       (mUclampMinOn (GetAdpfProfile env) = true ->
        map effect_tid calls = map Some threads /\
        forall tid, tid ∈ kept -> resolved_call env tid now final ∈ calls) /\
       (forall tid, tid ∈ kept -> tid ∈ threads) /\
       (forall tid, tid ∈ threads -> alive env tid -> tid ∈ kept)) /\
  (SessionTaskMap.findSession sid (mSessionTaskMap m) = None -> effects m1 = effects m) /\
  (forall other, other <> sid ->
     SessionTaskMap.findSession other final
     = SessionTaskMap.findSession other (mSessionTaskMap m)) /\
  mEventSessionTimeoutWorker m1 = mEventSessionTimeoutWorker m /\
  (forall hm', close env now' s1 m1 hm' = (EX_ILLEGAL_STATE, s1, m1, hm')).
Proof.
  intros Hopen sid tag s1 m1 hm1 final threads.
  subst s1 m1 hm1 final. unfold close. rewrite Hopen.
  cbn [fst snd mSessionId set_mSessionClosed with_descriptor mSessionClosed mDescriptor
       set_is_active is_active mTag].
  fold sid. fold tag.
  destruct (removePowerSession_gone sid now m) as (Hgone & Hlinks & Hregistry & Hqueue).
  cbn zeta in *.
  split; [reflexivity|]. split; [reflexivity|]. split; [reflexivity|].
  split; [exact Hgone|]. split; [exact Hlinks|]. split; [exact Hregistry|].
  split; [|split; [|split; [|split; [|split; [|split; [exact Hqueue | reflexivity]]]]]].
  - intros Hnodup. rewrite callbacks_unregister, decide_True by reflexivity.
    apply erase_first_NoDup, Hnodup.
  - intros tag' id Hor. rewrite callbacks_unregister.
    case_decide as Htag; [|reflexivity]. subst tag'.
    apply erase_first_other. destruct Hor as [Hor|Hor]; [contradiction | exact Hor].
  - intros entry Hfound.
    destruct (removePowerSession_known env sid now m entry Hfound)
      as (calls & kept & Heff & Hoff & Hon & Hsub & Halive & _).
    exists calls, kept. auto.
  - intros Hnone. apply (removePowerSession_unknown sid now m Hnone).
  - intros other Hne.
    destruct (SessionTaskMap.findSession sid (mSessionTaskMap m)) as [entry|] eqn:Hfound.
    + destruct (removePowerSession_known env sid now m entry Hfound)
        as (calls & kept & _ & _ & _ & _ & _ & _ & Hothers).
      apply Hothers, Hne.
    + apply (removePowerSession_unknown sid now m Hfound).
Qed.

Lemma session_pause_ok (now : Z) (s s1 : PowerHintSession SessionRecords)
    (m m1 : PowerSessionManager) :
  session_pause env now s m = (EX_NONE, s1, m1) ->
  mSessionClosed s1 = false /\
  is_active (mDescriptor s1) = false /\
  targetNs (mDescriptor s1) = targetNs (mDescriptor s).
Proof.
  unfold session_pause.
  destruct (mSessionClosed s) eqn:Hc; [discriminate|].
  destruct (negb (is_active (mDescriptor s))); [discriminate|].
  intros [= <- _]. cbn. auto.
Qed.

(** C10, as the code has it.  A report to an open session with a target set
    that is inactive, in particular one that has just been paused, fails and
    changes nothing: with an illegal state when the batch holds a sample,
    and with an illegal argument when the batch is empty, the batch being
    checked before the active flag. *)
Theorem reportActualWorkDuration_while_paused
    (actualDurations : list WorkDuration) (now : Z)
    (s : PowerHintSession SessionRecords) (m : PowerSessionManager) :
  mSessionClosed s = false ->
  targetNs (mDescriptor s) <> 0 ->
  let failure := if bool_decide (actualDurations = []) then EX_ILLEGAL_ARGUMENT
                 else EX_ILLEGAL_STATE in
  (is_active (mDescriptor s) = false ->
   reportActualWorkDuration env actualDurations now s m = Some (failure, s, m)) /\
  (forall paused s1 m1,
     session_pause env paused s m = (EX_NONE, s1, m1) ->
     reportActualWorkDuration env actualDurations now s1 m1 = Some (failure, s1, m1)) /\
  (actualDurations <> [] -> failure = EX_ILLEGAL_STATE) /\
  (actualDurations = [] -> failure = EX_ILLEGAL_ARGUMENT).
Proof.
  intros Hopen Htarget failure.
  assert (Hgen : forall (s' : PowerHintSession SessionRecords) m',
             mSessionClosed s' = false -> targetNs (mDescriptor s') <> 0 ->
             is_active (mDescriptor s') = false ->
             reportActualWorkDuration env actualDurations now s' m'
             = Some (failure, s', m')).
  { intros s' m' Hc Ht Ha. unfold reportActualWorkDuration. rewrite Hc.
    destruct (Z.eqb_spec (targetNs (mDescriptor s')) 0); [contradiction|].
    subst failure. case_bool_decide; [reflexivity|]. rewrite Ha. reflexivity. }
  split; [|split; [|split]].
  - intros Ha. apply Hgen; assumption.
  - intros paused s1 m1 Hp. apply session_pause_ok in Hp as (Hc & Ha & Ht).
    apply Hgen; [exact Hc | rewrite Ht; exact Htarget | exact Ha].
  - intros Hne. subst failure. rewrite bool_decide_eq_false_2 by exact Hne. reflexivity.
  - intros ->. reflexivity.
Qed.

(** The constructor runs to its end when the profile of the tag, if it has
    heuristic boost on, sets the size of the record window and the jank
    check factor, which the constructor dereferences. *)
Lemma newPowerHintSession_runs (tgid uid : Z) (threadIds : list Z) (durationNs : Z)
    (tag : SessionTag) (now id : Z) (m : PowerSessionManager) (hm : HintManager) :
  let adpfConfig := GetAdpfProfileOf env tag in
  (hboostEnabled adpfConfig = true ->
   is_Some (mMaxRecordsNum adpfConfig) /\ is_Some (mJankCheckTimeFactor adpfConfig)) ->
  exists s,
    newPowerHintSession env tgid uid threadIds durationNs tag now id m hm
    = Some (s,
            voteSet env id CPU_VOTE_DEFAULT (mUclampMinInit adpfConfig) (kUclampMax env) now
              durationNs
              (voteSet env id CPU_LOAD_RESET (mUclampMinLoadReset adpfConfig) (kUclampMax env)
                 now
                 (Double.to_int64
                    (PrimFloat.div
                       (PrimFloat.mul (Double.of_Z durationNs) (mStaleTimeFactor adpfConfig))
                       2%float))
                 (addPowerSession env
                    {| sessionId := id; tgid := tgid; uid := uid; thread_ids := threadIds;
                       targetNs := durationNs; pidControlVariable := 0; is_active := true;
                       update_count := 0; integral_error := 0; previous_error := 0 |}
                    threadIds now m)),
            HintManager.RegisterAdpfUpdateEvent (SessionTag_toString tag) id hm) /\
    mSessionId s = id /\ mSessionClosed s = false /\ mTag s = tag /\
    mDescriptor s
    = {| sessionId := id; tgid := tgid; uid := uid; thread_ids := threadIds;
         targetNs := durationNs; pidControlVariable := 0; is_active := true;
         update_count := 0; integral_error := 0; previous_error := 0 |} /\
    mLastUpdatedTime s = now /\ getAdpfProfile env s = adpfConfig /\
    mJankyLevel s = LIGHT.
Proof.
  intros adpfConfig Hrecords. unfold newPowerHintSession. fold adpfConfig.
  destruct (hboostEnabled adpfConfig).
  - destruct (Hrecords eq_refl) as [[maxRecordsNum ->] [jankCheckTimeFactor ->]].
    cbn [mbind option_bind]. eexists. split; [reflexivity|]. repeat split.
  - cbn [mbind option_bind]. eexists. split; [reflexivity|]. repeat split.
Qed.

(** C2, as the code has it.  [updateTargetWorkDuration] on an open session
    rejects a non-positive duration as an illegal argument and changes
    nothing.  The factory does not look at the duration: the only illegal
    argument it reports is an empty thread list, and with ADPF supported, a
    thread to attach and a profile for the tag that sets the record window
    when it has heuristic boost on, it succeeds, whatever the duration, and
    returns the next id. *)
Theorem target_duration_validation :
  (forall (targetDurationNanos : Z) (s : PowerHintSession SessionRecords)
          (m : PowerSessionManager),
     mSessionClosed s = false ->
     targetDurationNanos <= 0 ->
     session_updateTargetWorkDuration env targetDurationNanos s m
     = (EX_ILLEGAL_ARGUMENT, s, m)) /\
  (forall tgid uid threadIds durationNanos tag now (w : World SessionRecords) session w',
     createHintSessionWithConfig env tgid uid threadIds durationNanos tag now w
     = Some (EX_ILLEGAL_ARGUMENT, session, w') ->
     threadIds = [] /\ session = None /\ w' = w) /\
  (forall tgid uid threadIds durationNanos tag now (w : World SessionRecords),
     IsAdpfSupported env = true ->
     threadIds <> [] ->
     (hboostEnabled (GetAdpfProfileOf env tag) = true ->
      is_Some (mMaxRecordsNum (GetAdpfProfileOf env tag)) /\
      is_Some (mJankCheckTimeFactor (GetAdpfProfileOf env tag))) ->
     exists w',
       createHintSessionWithConfig env tgid uid threadIds durationNanos tag now w
       = Some (EX_NONE, Some (to_int64 (sSessionIDCounter w + 1)), w') /\
       exists s,
         sessions w' !! to_int64 (sSessionIDCounter w + 1) = Some s /\
         mSessionClosed s = false /\
         targetNs (mDescriptor s) = durationNanos).
Proof.
  split; [|split].
  - intros targetDurationNanos s m Hopen Hd.
    unfold session_updateTargetWorkDuration. rewrite Hopen.
    destruct (Z.leb_spec targetDurationNanos 0); [reflexivity|lia].
  - intros tgid uid threadIds durationNanos tag now w session w'.
    unfold createHintSessionWithConfig.
    destruct (negb (IsAdpfSupported env)); [discriminate|].
    destruct threadIds; cbn.
    + intros [= <- <-]. auto.
    + destruct (newPowerHintSession _ _ _ _ _ _ _ _ _ _) as [[[? ?] ?]|]; discriminate.
  - intros tgid uid threadIds durationNanos tag now w Hsup Hne Hrecords.
    unfold createHintSessionWithConfig. rewrite Hsup. cbn [negb].
    assert (Hlen : (Z.of_nat (length threadIds) =? 0) = false).
    { destruct threadIds; [contradiction | reflexivity]. }
    rewrite Hlen.
    destruct (newPowerHintSession_runs tgid uid threadIds durationNanos tag now
                (to_int64 (sSessionIDCounter w + 1)) (manager w) (hint_manager w) Hrecords)
      as (s & -> & _ & Hopen & _ & Hdesc & _).
    cbn [mbind option_bind]. eexists. split; [reflexivity|].
    exists s. cbn [sessions]. rewrite lookup_insert_eq. rewrite Hdesc. auto.
Qed.

End SessionFacts.

(** Closing session 1 of the one-session manager, whose callback is the
    one registered for its tag: thread 7 gets its scheduler call, the system
    boost is enabled again, thread 7 goes back to the default task profile
    and the callback is gone; a second close fails. *)
Lemma close_once_witness :
  let hm := HintManager.RegisterAdpfUpdateEvent "OTHER" 1 profiles in
  let closed :=
    close (Fixture.env Fixture.plain) 10 (Fixture.session1 Fixture.plain true false)
      Fixture.oneSession hm in
  (1 ∉ callbacks "OTHER" closed.2) /\
  (exists calls kept,
     effects closed.1.2
     = calls ++ [EndHint]
       ++ map (fun tid => SetTaskProfiles tid NoResetUclampGrp)
            (filter (fun tid => SessionTaskMap.getSessionIds tid (mSessionTaskMap closed.1.2)
                                = [])
               (remove_dups kept)) /\
     7 ∈ kept) /\
  close (Fixture.env Fixture.plain) 20 closed.1.1.2 closed.1.2 closed.2
  = (EX_ILLEGAL_STATE, closed.1.1.2, closed.1.2, closed.2).
Proof.
  intros hm closed.
  destruct (close_once (Fixture.env Fixture.plain) 10 20
              (Fixture.session1 Fixture.plain true false) Fixture.oneSession hm eq_refl)
    as (_ & _ & _ & _ & _ & _ & Hcallback & _ & Heffects & _ & _ & _ & Hagain).
  split; [apply Hcallback; vm_compute; repeat constructor; inversion 1|].
  split; [|apply Hagain].
  destruct (Heffects (Fixture.voting 200 800 false) eq_refl)
    as (calls & kept & Heff & _ & _ & _ & Halive).
  exists calls, kept. split; [exact Heff|].
  apply Halive; [vm_compute; constructor|].
  intros lo hi. vm_compute. discriminate.
Defined.

(** Closing session 1 when session 2 still claims thread 7: the thread is
    given the range session 2 votes for and keeps its task profile. *)
Example close_shared_thread :
  let closed :=
    close (Fixture.env Fixture.plain) 10 (Fixture.session1 Fixture.plain true false)
      Fixture.sharedManager profiles in
  effects closed.1.2 = [SchedSetattr 7 100 1000; DoHint] /\
  SessionTaskMap.getSessionIds 7 (mSessionTaskMap closed.1.2) = [2].
Proof. vm_compute. split; reflexivity. Qed.

(** The same close when no other session claims thread 7. *)
Example close_last_claim :
  effects
    (close (Fixture.env Fixture.plain) 10 (Fixture.session1 Fixture.plain true false)
       Fixture.oneSession profiles).1.2
  = [SchedSetattr 7 0 350; EndHint; SetTaskProfiles 7 NoResetUclampGrp].
Proof. vm_compute. reflexivity. Qed.

(** A report of one sample to session 1 while it is paused. *)
Lemma reportActualWorkDuration_while_paused_witness :
  reportActualWorkDuration (Fixture.env Fixture.plain) [Fixture.sample 16000000] 5
    (Fixture.session1 Fixture.plain false false) Fixture.oneSession
  = Some (EX_ILLEGAL_STATE, Fixture.session1 Fixture.plain false false, Fixture.oneSession).
Proof.
  apply (reportActualWorkDuration_while_paused (Fixture.env Fixture.plain)
           [Fixture.sample 16000000] 5 (Fixture.session1 Fixture.plain false false)
           Fixture.oneSession);
    [reflexivity | discriminate | reflexivity].
Defined.

(** C10 as the spec words it fails: a report with no sample to session 1
    while it is paused is an illegal argument, not an illegal state. *)
Lemma reportActualWorkDuration_paused_empty_batch :
  ~ (forall (SessionRecords : Type) (env : Collaborators SessionRecords)
       (actualDurations : list WorkDuration) (now : Z)
       (s : PowerHintSession SessionRecords) (m : PowerSessionManager),
       mSessionClosed s = false ->
       targetNs (mDescriptor s) <> 0 ->
       is_active (mDescriptor s) = false ->
       reportActualWorkDuration env actualDurations now s m = Some (EX_ILLEGAL_STATE, s, m)).
Proof.
  intros H.
  specialize (H (list (Z * Z)) (Fixture.env Fixture.plain) [] 5
                (Fixture.session1 Fixture.plain false false) Fixture.oneSession
                eq_refl ltac:(discriminate) eq_refl).
  apply (f_equal (fun r => match r with Some (status, _, _) => Some status | None => None end))
    in H.
  vm_compute in H. discriminate H.
Qed.

(** Creating a session for thread 7 with a target duration of 0. *)
Lemma target_duration_validation_witness :
  exists w',
    createHintSessionWithConfig (Fixture.env Fixture.plain) 1 10001 [7] 0 OTHER 0
      (Fixture.emptyWorld Fixture.plain)
    = Some (EX_NONE, Some 1, w').
Proof.
  destruct (target_duration_validation (Fixture.env Fixture.plain)) as (_ & _ & H).
  destruct (H 1 10001 [7] 0 OTHER 0 (Fixture.emptyWorld Fixture.plain) eq_refl
              ltac:(discriminate) ltac:(discriminate)) as (w' & Hrun & _).
  exists w'. exact Hrun.
Defined.

(** C2 as the spec words it fails: creating a session for thread 7 with a
    target duration of 0 succeeds. *)
Lemma createHintSession_accepts_zero_duration :
  ~ (forall (SessionRecords : Type) (env : Collaborators SessionRecords) tgid uid threadIds durationNanos tag now (w : World SessionRecords),
       durationNanos <= 0 ->
       createHintSessionWithConfig env tgid uid threadIds durationNanos tag now w
       = Some (EX_ILLEGAL_ARGUMENT, None, w)).
Proof.
  intros H.
  specialize (H (list (Z * Z)) (Fixture.env Fixture.plain) 1 10001 [7] 0 OTHER 0
                (Fixture.emptyWorld Fixture.plain) ltac:(lia)).
  apply (f_equal (fun r => match r with Some (status, _, _) => Some status | None => None end))
    in H.
  vm_compute in H. discriminate H.
Qed.

(** ** Resolving a thread's range *)

Lemma foldl_max_range (rest : list UclampRange) :
  forall acc : UclampRange,
    let r := foldl (fun acc x => (Z.max acc.1 x.1, Z.max acc.2 x.2)) acc rest in
    (acc.1 <= r.1 /\ acc.2 <= r.2) /\
    (forall x, In x rest -> x.1 <= r.1 /\ x.2 <= r.2) /\
    (r.1 = acc.1 \/ exists x, In x rest /\ r.1 = x.1) /\
    (r.2 = acc.2 \/ exists x, In x rest /\ r.2 = x.2).
Proof.
  induction rest as [|y rest IH]; intros acc; cbn.
  - repeat split; try lia; try (left; reflexivity).
  - destruct (IH (Z.max acc.1 y.1, Z.max acc.2 y.2)) as ((Ha1 & Ha2) & Hall & Hex1 & Hex2).
    cbn in *. repeat split; try lia.
    + destruct H as [<- | Hin]; [lia | apply Hall, Hin].
    + destruct H as [<- | Hin]; [lia | apply Hall, Hin].
    + destruct Hex1 as [-> | (x & Hin & ->)].
      * destruct (Z.max_spec acc.1 y.1) as [[_ ->] | [_ ->]];
          [right; exists y; auto | left; reflexivity].
      * right. exists x. auto.
    + destruct Hex2 as [-> | (x & Hin & ->)].
      * destruct (Z.max_spec acc.2 y.2) as [[_ ->] | [_ ->]];
          [right; exists y; auto | left; reflexivity].
      * right. exists x. auto.
Qed.

Lemma maxRange_spec (ranges : list UclampRange) :
  ranges <> [] ->
  exists r,
    maxRange ranges = Some r /\
    (forall x, In x ranges -> x.1 <= r.1 /\ x.2 <= r.2) /\
    (exists x, In x ranges /\ r.1 = x.1) /\
    (exists x, In x ranges /\ r.2 = x.2).
Proof.
  destruct ranges as [|first rest]; [contradiction|]. intros _.
  destruct (foldl_max_range rest first) as ((Ha1 & Ha2) & Hall & Hex1 & Hex2).
  eexists. split; [reflexivity|]. cbn in *. repeat split.
  - destruct H as [<- | Hin]; [lia | apply Hall, Hin].
  - destruct H as [<- | Hin]; [lia | apply Hall, Hin].
  - destruct Hex1 as [-> | (x & Hin & ->)]; [exists first | exists x]; auto.
  - destruct Hex2 as [-> | (x & Hin & ->)]; [exists first | exists x]; auto.
Qed.

(** C9.  The sessions that contribute to a thread are those associated with
    it that are active.  When there is one, the resolved floor is the largest
    of their ledger floors and the resolved ceiling the largest of their
    ledger ceilings, capped at [efficientBase + efficientOffset] when all of
    them prefer power efficiency.  Votes of [200, 800] and [100, 1000] on a
    shared thread resolve to [200, 1000], which is the range
    [applyUclampLocked] hands to the scheduler. *)
Theorem getTaskVoteRange_resolves
    (taskId now : Z) (range : UclampRange) (efficientBase efficientOffset : option Z)
    (m : SessionTaskMap) :
  let sessions := SessionTaskMap.contributing taskId m in
  let ledger sv := Votes.getUclampRange range now (votes sv) in
  let resolved :=
    SessionTaskMap.getTaskVoteRange taskId now range efficientBase efficientOffset m in
  (forall sv,
     In sv sessions <->
     isActive sv = true /\
     exists sid, In sid (SessionTaskMap.getSessionIds taskId m) /\
                 SessionTaskMap.findSession sid m = Some sv) /\
  (sessions <> [] ->
   (forall sv, In sv sessions -> (ledger sv).1 <= resolved.1) /\
   (exists sv, In sv sessions /\ resolved.1 = (ledger sv).1) /\
   exists ceiling,
     (forall sv, In sv sessions -> (ledger sv).2 <= ceiling) /\
     (exists sv, In sv sessions /\ ceiling = (ledger sv).2) /\
     resolved.2 =
       if forallb isPowerEfficient sessions then
         match efficientBase, efficientOffset with
         | Some base, Some offset => Z.min ceiling (base + offset)
         | _, _ => ceiling
         end
       else ceiling) /\
  SessionTaskMap.getTaskVoteRange 7 10 (0, 1024) None None
    (Fixture.shared (Fixture.voting 200 800 false) (Fixture.voting 100 1000 false))
  = (200, 1000) /\
  effects (applyUclampLocked (Fixture.env Fixture.plain) 1 10 Fixture.sharedManager)
  = [SchedSetattr 7 200 1000].
Proof.
  intros sessions ledger resolved. split; [|split; [|split]].
  - intros sv. subst sessions. unfold SessionTaskMap.contributing.
    rewrite <- list_elem_of_In, list_elem_of_filter, list_elem_of_omap.
    split.
    + intros (Hact & sid & Hin & Hfind). split; [exact Hact|].
      exists sid. rewrite <- list_elem_of_In. auto.
    + intros (Hact & sid & Hin & Hfind). split; [exact Hact|].
      exists sid. rewrite list_elem_of_In. auto.
  - intros Hne.
    destruct (maxRange_spec (map ledger sessions)) as (r & Hr & Hall & (x1 & Hx1 & E1) & (x2 & Hx2 & E2)).
    { destruct sessions; [contradiction | discriminate]. }
    assert (Hres : resolved =
                   if forallb isPowerEfficient sessions
                   then SessionTaskMap.capEfficient efficientBase efficientOffset r else r).
    { subst resolved. unfold SessionTaskMap.getTaskVoteRange.
      fold sessions. fold ledger. rewrite Hr. reflexivity. }
    assert (Hfst : resolved.1 = r.1).
    { rewrite Hres. destruct (forallb _ _); [|reflexivity].
      unfold SessionTaskMap.capEfficient. destruct efficientBase, efficientOffset; reflexivity. }
    apply in_map_iff in Hx1 as (sv1 & <- & Hsv1).
    apply in_map_iff in Hx2 as (sv2 & <- & Hsv2).
    split; [|split].
    + intros sv Hin. rewrite Hfst. apply (Hall (ledger sv)). apply in_map. exact Hin.
    + exists sv1. split; [exact Hsv1 | congruence].
    + exists r.2. split; [|split].
      * intros sv Hin. apply (Hall (ledger sv)). apply in_map. exact Hin.
      * exists sv2. auto.
      * rewrite Hres. destruct (forallb _ _); [|reflexivity].
        unfold SessionTaskMap.capEfficient. destruct efficientBase, efficientOffset; reflexivity.
  - vm_compute. reflexivity.
  - vm_compute. reflexivity.
Qed.

(** ** The control variable *)

(** [std::min] is applied first and [std::max] last: the result is at least
    the floor, and at most the ceiling unless the floor is above it. *)
Lemma next_min_bounded (bounds : Z * Z) (pidControlVariable output : Z) :
  to_int32 bounds.1 <= next_min bounds pidControlVariable output
  <= Z.max (to_int32 bounds.1) (to_int32 bounds.2).
Proof. unfold next_min. lia. Qed.

Section ReportFacts.

Context {SessionRecords : Type} (env : Collaborators SessionRecords).

Lemma updatePidControlVariable_session v updateVote now (s : PowerHintSession SessionRecords) m :
  fst (updatePidControlVariable env v updateVote now s m)
  = with_descriptor (set_pidControlVariable v) s.
Proof. unfold updatePidControlVariable. destruct updateVote; reflexivity. Qed.

Lemma updateHeuristicBoost_profile (s s' : PowerHintSession SessionRecords) :
  updateHeuristicBoost env s = Some s' -> getAdpfProfile env s' = getAdpfProfile env s.
Proof.
  unfold updateHeuristicBoost.
  destruct (mSessionRecords s) as [records|]; cbn [mbind option_bind]; [|discriminate].
  destruct (getMaxDuration env records), (getAvgDuration env records);
    try (intros [= <-]; reflexivity).
  destruct (mLowFrameRateThreshold (getAdpfProfile env s)); cbn [mbind option_bind];
    [|discriminate].
  destruct (updateSessionJankState _ _ _ _ _); cbn [mbind option_bind]; [|discriminate].
  intros [= <-]. reflexivity.
Qed.

Lemma recordHeuristics_profile adpfConfig actualDurations (s s' : PowerHintSession SessionRecords) m m' :
  recordHeuristics env adpfConfig actualDurations s m = Some (s', m') ->
  getAdpfProfile env s' = getAdpfProfile env s.
Proof.
  unfold recordHeuristics.
  destruct (hboostEnabled adpfConfig); [|intros [= <- _]; reflexivity].
  destruct (mSessionRecords s) as [records|]; cbn [mbind option_bind]; [|discriminate].
  destruct (updateHeuristicBoost env _) as [s''|] eqn:Eh; cbn [mbind option_bind];
    [|discriminate].
  intros [= <- _]. apply updateHeuristicBoost_profile in Eh. rewrite Eh. reflexivity.
Qed.

(** What a successful report leaves: the profile is the same; with PID on
    the control variable is a [next_min] of the bounds of the new jank
    state; with PID off it is [mUclampMinHigh] and the jank state is kept. *)
Lemma reportActualWorkDuration_ok actualDurations now (s s' : PowerHintSession SessionRecords) m m' :
  reportActualWorkDuration env actualDurations now s m = Some (EX_NONE, s', m') ->
  getAdpfProfile env s' = getAdpfProfile env s /\
  (mPidOn (getAdpfProfile env s) = true ->
   exists bounds previous output,
     uclampMinBounds (getAdpfProfile env s) (mJankyLevel s') (mJankyFrameNum s') = Some bounds /\
     pidControlVariable (mDescriptor s') = next_min bounds previous output) /\
  (mPidOn (getAdpfProfile env s) = false ->
   pidControlVariable (mDescriptor s') = to_int32 (mUclampMinHigh (getAdpfProfile env s)) /\
   mJankyLevel s' = mJankyLevel s /\ mJankyFrameNum s' = mJankyFrameNum s).
Proof.
  unfold reportActualWorkDuration.
  destruct (mSessionClosed s); [discriminate|].
  destruct (targetNs (mDescriptor s) =? 0); [discriminate|].
  destruct (bool_decide (actualDurations = [])); [discriminate|].
  destruct (negb (is_active (mDescriptor s))); [discriminate|].
  destruct (mPidOn (getAdpfProfile env s)) eqn:Hpid; cbn [negb].
  - destruct (recordHeuristics _ _ _ _ _) as [[s3 m3]|] eqn:Efirst;
      cbn [mbind option_bind]; [|discriminate].
    apply recordHeuristics_profile in Efirst.
    destruct (convertWorkDurationToBoostByPid _ _ _ _ _ _) as [[output desc]|];
      cbn [mbind option_bind]; [|discriminate].
    destruct (uclampMinBounds _ _ _) as [bounds|] eqn:Hbounds;
      cbn [mbind option_bind]; [|discriminate].
    match goal with
    | |- context [updatePidControlVariable env ?v ?b ?t ?s0 ?m0] =>
        pose proof (updatePidControlVariable_session v b t s0 m0) as Hs;
        destruct (updatePidControlVariable env v b t s0 m0) as [s5 m5]
    end.
    cbn [fst] in Hs. subst s5. intros [= <- _].
    split; [transitivity (getAdpfProfile env s3); [reflexivity | rewrite Efirst; reflexivity]|].
    split; [|discriminate].
    intros _. exists bounds. eexists. eexists. split; [exact Hbounds | reflexivity].
  - match goal with
    | |- context [updatePidControlVariable env ?v ?b ?t ?s0 ?m0] =>
        pose proof (updatePidControlVariable_session v b t s0 m0) as Hs;
        destruct (updatePidControlVariable env v b t s0 m0) as [s3 m3]
    end.
    cbn [fst] in Hs. subst s3. intros [= <- _].
    split; [reflexivity|]. split; [discriminate|]. intros _. repeat split.
Qed.

(** C4, as the code has it.  Take any sequence of reports that all
    succeed; the profile of the session is the one it had throughout.  With
    PID on, after the last report the control variable is at least the
    floor in force and at most the larger of that floor and the ceiling in
    force, these being [uclampMinLow] and [uclampMinHigh] widened by the
    heuristic-boost ranges at MODERATE and SEVERE, for the jank state the
    report leaves; so it is within [floor, ceiling] whenever the floor does
    not exceed the ceiling.  With PID off the control variable is
    [uclampMinHigh] and the jank state is the one the session had, whatever
    it was. *)
Theorem pidControlVariable_bounded
    (calls : list (list WorkDuration * Z)) (actualDurations : list WorkDuration) (now : Z)
    (s s' : PowerHintSession SessionRecords) (m m' : PowerSessionManager) :
  reportAll env (calls ++ [(actualDurations, now)]) s m = Some (s', m') ->
  let profile := getAdpfProfile env s in
  let value := pidControlVariable (mDescriptor s') in
  getAdpfProfile env s' = profile /\
  (mPidOn profile = true ->
   exists bounds,
     uclampMinBounds profile (mJankyLevel s') (mJankyFrameNum s') = Some bounds /\
     to_int32 bounds.1 <= value <= Z.max (to_int32 bounds.1) (to_int32 bounds.2) /\
     (to_int32 bounds.1 <= to_int32 bounds.2 ->
      to_int32 bounds.1 <= value <= to_int32 bounds.2)) /\
  (mPidOn profile = false ->
   value = to_int32 (mUclampMinHigh profile) /\
   mJankyLevel s' = mJankyLevel s /\ mJankyFrameNum s' = mJankyFrameNum s).
Proof.
  cbn zeta. revert s m. induction calls as [|[batch t] calls IH]; intros s m Hrun.
  - cbn in Hrun.
    destruct (reportActualWorkDuration env actualDurations now s m) as [[[[] s1] m1]|] eqn:E;
      try discriminate.
    injection Hrun as -> ->.
    apply reportActualWorkDuration_ok in E as (Hprofile & Hon & Hoff).
    split; [exact Hprofile|]. split; [|exact Hoff].
    intros Hpid. destruct (Hon Hpid) as (bounds & previous & output & Hb & ->).
    exists bounds. split; [exact Hb|].
    pose proof (next_min_bounded bounds previous output). split; [assumption | lia].
  - cbn in Hrun.
    destruct (reportActualWorkDuration env batch t s m) as [[[[] s1] m1]|] eqn:E;
      try discriminate.
    apply reportActualWorkDuration_ok in E as (Hprofile & _ & Hoff).
    destruct (IH s1 m1 Hrun) as (Hp & Hon' & Hoff'). rewrite Hprofile in Hp, Hon', Hoff'.
    split; [exact Hp|]. split; [exact Hon'|].
    intros Hpid. destruct (Hoff' Hpid) as (Hv & Hl & Hf). destruct (Hoff Hpid) as (_ & Hl1 & Hf1).
    split; [exact Hv|]. split; congruence.
Qed.

End ReportFacts.

(** Two reports to session 1 under the heuristic profile, every frame twice
    as long as the target: after the second the session is at MODERATE with
    six missed cycles, the bounds in force are [300, 640], and the control
    variable is within them. *)
Lemma pidControlVariable_bounded_witness :
  match
    reportAll (Fixture.env (Fixture.hboost 1%float))
      ([(List.repeat (Fixture.sample 32000000) 5, 1000)]
         ++ [([Fixture.sample 32000000], 2000)])
      (Fixture.session1 (Fixture.hboost 1%float) true false) Fixture.oneSession
  with
  | Some (s', _) =>
      uclampMinBounds (Fixture.hboost 1%float) (mJankyLevel s') (mJankyFrameNum s')
      = Some (300, 640) /\
      300 <= pidControlVariable (mDescriptor s') <= 640
  | None => False
  end.
Proof.
  destruct (reportAll _ _ _ _) as [[s' m']|] eqn:E; [|vm_compute in E; discriminate E].
  destruct (pidControlVariable_bounded (Fixture.env (Fixture.hboost 1%float))
              [(List.repeat (Fixture.sample 32000000) 5, 1000)]
              [Fixture.sample 32000000] 2000
              (Fixture.session1 (Fixture.hboost 1%float) true false) s'
              Fixture.oneSession m' E) as (_ & Hon & _).
  destruct (Hon eq_refl) as (bounds & Hbounds & _ & Hwithin).
  assert (Hvalue : uclampMinBounds (Fixture.hboost 1%float) (mJankyLevel s') (mJankyFrameNum s')
                   = Some (300, 640)).
  { vm_compute in E. injection E as <- _. vm_compute. reflexivity. }
  split; [exact Hvalue|].
  change (getAdpfProfile (Fixture.env (Fixture.hboost 1%float))
            (Fixture.session1 (Fixture.hboost 1%float) true false))
    with (Fixture.hboost 1%float) in Hbounds.
  rewrite Hvalue in Hbounds. injection Hbounds as <-.
  apply Hwithin. vm_compute. discriminate.
Defined.

(** C4 as the spec words it fails.  Session 1 is driven to SEVERE by ten
    frames twice as long as the target, then its profile is replaced by one
    with the PID controller off: the next report sets the control variable
    to [uclampMinHigh], 384, below the floor in force at SEVERE, 400. *)
Lemma pidControlVariable_below_floor :
  ~ (forall (SessionRecords : Type) (env : Collaborators SessionRecords)
       (calls : list (list WorkDuration * Z))
       (s s' : PowerHintSession SessionRecords) (m m' : PowerSessionManager)
       (bounds : Z * Z),
       calls <> [] ->
       reportAll env calls s m = Some (s', m') ->
       uclampMinBounds (getAdpfProfile env s') (mJankyLevel s') (mJankyFrameNum s')
       = Some bounds ->
       bounds.1 <= pidControlVariable (mDescriptor s') <= bounds.2).
Proof.
  intros H.
  destruct (reportAll (Fixture.env (Fixture.hboost 1%float))
              [(List.repeat (Fixture.sample 32000000) 10, 1000)]
              (Fixture.session1 (Fixture.hboost 1%float) true false) Fixture.oneSession)
    as [[severe m1]|] eqn:Esevere; [|vm_compute in Esevere; discriminate Esevere].
  destruct (reportAll (Fixture.env (Fixture.hboost 1%float))
              [([Fixture.sample 32000000], 2000)]
              (setAdpfProfile Fixture.pidOff severe) m1)
    as [[s' m']|] eqn:Eoff.
  - specialize (H (list (Z * Z)) (Fixture.env (Fixture.hboost 1%float))
                  [([Fixture.sample 32000000], 2000)]
                  (setAdpfProfile Fixture.pidOff severe) s' m1 m' (400, 800)
                  ltac:(discriminate) Eoff).
    vm_compute in Esevere. injection Esevere as <- <-.
    vm_compute in Eoff. injection Eoff as <- <-.
    vm_compute in H. destruct (H eq_refl) as [Hfloor _]. apply Hfloor. reflexivity.
  - vm_compute in Esevere. injection Esevere as <- <-.
    vm_compute in Eoff. discriminate Eoff.
Qed.

(** A floor above the ceiling: under a profile with [uclampMinLow] at 300
    and [uclampMinHigh] at 100 a report leaves the control variable at the
    floor, 300, above the ceiling. *)
Example pidControlVariable_inverted_bounds :
  match
    reportAll (Fixture.env Fixture.inverted) [([Fixture.sample 16000000], 1000)]
      (Fixture.session1 Fixture.inverted true false) Fixture.oneSession
  with
  | Some (s', _) =>
      uclampMinBounds Fixture.inverted (mJankyLevel s') (mJankyFrameNum s') = Some (300, 100) /\
      pidControlVariable (mDescriptor s') = 300
  | None => False
  end.
Proof. vm_compute. split; reflexivity. Qed.

(** The same timer firing early, at 400, is put back for the deadline. *)
Example handleEvent_requeues :
  mEventSessionTimeoutWorker
    (handleEvent (Fixture.env Fixture.plain)
       {| timeStamp := 0; ev_sessionId := 1; ev_voteId := 0 |} 400 Fixture.oneSession)
  = [({| timeStamp := 0; ev_sessionId := 1; ev_voteId := 0 |}, 1000);
     ({| timeStamp := 0; ev_sessionId := 1; ev_voteId := 0 |}, 1000)].
Proof. vm_compute. reflexivity. Qed.

(** Two sessions that both prefer power efficiency: the ceiling of the shared
    thread is capped at 300 + 50. *)
Example getTaskVoteRange_efficient :
  SessionTaskMap.getTaskVoteRange 7 10 (0, 1024) (Some 300) (Some 50)
    (Fixture.shared (Fixture.voting 200 800 true) (Fixture.voting 100 1000 true))
  = (200, 350).
Proof. vm_compute. reflexivity. Qed.

(** A paused session does not contribute: with session 2 inactive the
    shared thread resolves to session 1's range. *)
Example getTaskVoteRange_paused :
  SessionTaskMap.getTaskVoteRange 7 10 (0, 1024) None None
    (Fixture.shared (Fixture.voting 200 800 false)
       (set_isActive false (Fixture.voting 100 1000 false)))
  = (200, 800).
Proof. vm_compute. reflexivity. Qed.

(** Creating a session with a negative target duration succeeds as well. *)
Example createHintSession_negative_duration :
  match
    createHintSessionWithConfig (Fixture.env Fixture.plain) 1 10001 [7] (-5) OTHER 0
      (Fixture.emptyWorld Fixture.plain)
  with
  | Some (status, session, _) => status = EX_NONE /\ session = Some 1
  | None => False
  end.
Proof. vm_compute. split; reflexivity. Qed.

(** * Further properties of the code *)

(** ** The scheduler call *)

(** X1.  Whatever range is resolved, the range [set_uclamp] hands to
    [sched_setattr] lies within [kUclampMin, kUclampMax] with its minimum not
    above its maximum, for the thread asked for; a range that already does is
    passed as it is. *)
Theorem set_uclamp_sanitises
    {SessionRecords : Type} (env : Collaborators SessionRecords) (tid : Z)
    (range : UclampRange) :
  kUclampMin env <= kUclampMax env ->
  exists uclampMin uclampMax,
    snd (set_uclamp env tid range) = SchedSetattr tid uclampMin uclampMax /\
    fst (set_uclamp env tid range) = sched_setattr env tid uclampMin uclampMax /\
    kUclampMin env <= uclampMin <= uclampMax /\
    uclampMax <= kUclampMax env /\
    (kUclampMin env <= range.1 <= range.2 -> range.2 <= kUclampMax env ->
     uclampMin = range.1 /\ uclampMax = range.2).
Proof.
  intros Hlimits. unfold set_uclamp. cbn [fst snd].
  eexists. eexists. split; [reflexivity|]. split; [reflexivity|]. lia.
Qed.

(** An inverted, out-of-limits range [1500, -3] becomes [1024, 1024]. *)
Lemma set_uclamp_sanitises_witness :
  exists uclampMin uclampMax,
    snd (set_uclamp (Fixture.env Fixture.plain) 7 (1500, -3))
    = SchedSetattr 7 uclampMin uclampMax /\
    fst (set_uclamp (Fixture.env Fixture.plain) 7 (1500, -3))
    = sched_setattr (Fixture.env Fixture.plain) 7 uclampMin uclampMax /\
    0 <= uclampMin <= uclampMax /\
    uclampMax <= 1024 /\
    (0 <= 1500 <= -3 -> -3 <= 1024 -> uclampMin = 1500 /\ uclampMax = -3).
Proof.
  apply (set_uclamp_sanitises (Fixture.env Fixture.plain) 7 (1500, -3)).
  vm_compute. discriminate.
Defined.

(** ** The sampling windows *)

(** X2.  For a batch that is not empty and a window size that is not
    negative, each window starts at an index of the batch and holds the last
    [samplingWindow] samples (all of them when the size is 0 or exceeds the
    batch), so the divisors [length - p_start] and [length - d_start] of the
    P and D terms are at least 1. *)
Theorem window_start_in_batch (samplingWindow length : Z) :
  0 < length ->
  0 <= samplingWindow ->
  0 <= window_start samplingWindow length < length /\
  length - window_start samplingWindow length
  = (if (samplingWindow =? 0) || (length <? samplingWindow) then length else samplingWindow).
Proof.
  intros Hlen Hw. unfold window_start.
  destruct (Z.eqb_spec samplingWindow 0); cbn [orb]; [lia|].
  destruct (Z.ltb_spec length samplingWindow); lia.
Qed.

Lemma window_start_in_batch_witness :
  0 <= window_start 3 5 < 5 /\
  5 - window_start 3 5 = (if (3 =? 0) || (5 <? 3) then 5 else 3).
Proof. apply (window_start_in_batch 3 5); lia. Defined.

Section MorePidFacts.

Context {SessionRecords : Type} (env : Collaborators SessionRecords)
  (adpfConfig : AdpfConfig).

Lemma pid_loop_previous targetDurationNanos dt p_start i_start d_start (l : list WorkDuration) :
  forall i acc,
    acc_previous_error
      (pid_loop env adpfConfig targetDurationNanos dt p_start i_start d_start i l acc)
    = match last l with
      | Some sample => sample_error targetDurationNanos sample
      | None => acc_previous_error acc
      end.
Proof.
  induction l as [|x l IH]; intros i acc; cbn [pid_loop]; [reflexivity|].
  rewrite IH. destruct l as [|y l]; [reflexivity|].
  change (last (x :: y :: l)) with (last (y :: l)).
  destruct (last (y :: l)) eqn:E; [reflexivity|].
  apply last_None in E. discriminate E.
Qed.

(** X3.  Of a batch, the proportional error sum the loop leaves is the sum
    of the errors of the samples from [p_start] on, the last
    [mSamplingWindowP] of them, whatever the I and D windows make the loop
    visit before; and the previous error written back is the error of the
    last sample. *)
Theorem pid_run_err_sum (desc : AppHintDesc) (actualDurations : list WorkDuration) :
  actualDurations <> [] ->
  0 <= mSamplingWindowP adpfConfig ->
  0 <= mSamplingWindowI adpfConfig ->
  0 <= mSamplingWindowD adpfConfig ->
  let length := Z.of_nat (length actualDurations) in
  let p_start := window_start (mSamplingWindowP adpfConfig) length in
  err_sum (pid_run env adpfConfig desc actualDurations)
  = wrapped_sum 0
      (map (sample_error (targetNs desc)) (drop (Z.to_nat p_start) actualDurations)) /\
  Some (acc_previous_error (pid_run env adpfConfig desc actualDurations))
  = sample_error (targetNs desc) <$> last actualDurations.
Proof.
  intros Hne HP HI HD len p_start.
  assert (Hlen : 0 < len).
  { subst len. destruct actualDurations; [contradiction | cbn [length]; lia]. }
  pose proof (window_start_range (mSamplingWindowP adpfConfig) len Hlen HP) as Hp.
  pose proof (window_start_range (mSamplingWindowI adpfConfig) len Hlen HI) as Hi.
  pose proof (window_start_range (mSamplingWindowD adpfConfig) len Hlen HD) as Hd.
  fold p_start in Hp.
  unfold pid_run, pid_over. fold len. fold p_start.
  set (first := pid_first adpfConfig len).
  assert (Hfirst : 0 <= first <= p_start) by (subst first; unfold pid_first; fold p_start; lia).
  split.
  - replace (drop (Z.to_nat first) actualDurations)
      with (take (Z.to_nat p_start - Z.to_nat first) (drop (Z.to_nat first) actualDurations)
            ++ drop (Z.to_nat p_start) actualDurations).
    2:{ rewrite <- (take_drop (Z.to_nat p_start - Z.to_nat first)
                      (drop (Z.to_nat first) actualDurations)) at 2.
        f_equal. rewrite drop_drop. f_equal. lia. }
    rewrite pid_loop_app.
    rewrite pid_loop_inside.
    + rewrite pid_loop_before; [reflexivity|].
      rewrite length_take, length_drop. subst len. lia.
    + rewrite length_take, length_drop. subst len. lia.
  - rewrite pid_loop_previous.
    assert (Hlast : last (drop (Z.to_nat first) actualDurations) = last actualDurations).
    { rewrite <- (take_drop (Z.to_nat first) actualDurations) at 2.
      rewrite last_app.
      destruct (last (drop (Z.to_nat first) actualDurations)) eqn:E; [reflexivity|].
      apply last_None in E. apply (f_equal length) in E.
      rewrite length_drop in E. cbn [length] in E. subst len. lia. }
    rewrite Hlast. destruct (last actualDurations) eqn:E; [reflexivity|].
    apply last_None in E. contradiction.
Qed.

End MorePidFacts.

(** Three samples under the plain profile, whose P window is the last
    sample: the error sum is the error of the third, 160. *)
Lemma pid_run_err_sum_witness :
  err_sum
    (pid_run (Fixture.env Fixture.plain) Fixture.plain
       (mDescriptor (Fixture.session1 Fixture.plain true false))
       [Fixture.sample 8000000; Fixture.sample 16000000; Fixture.sample 32000000])
  = wrapped_sum 0
      (map (sample_error 16000000)
         (drop (Z.to_nat (window_start 1 3))
            [Fixture.sample 8000000; Fixture.sample 16000000; Fixture.sample 32000000])) /\
  Some
    (acc_previous_error
       (pid_run (Fixture.env Fixture.plain) Fixture.plain
          (mDescriptor (Fixture.session1 Fixture.plain true false))
          [Fixture.sample 8000000; Fixture.sample 16000000; Fixture.sample 32000000]))
  = sample_error 16000000
      <$> last [Fixture.sample 8000000; Fixture.sample 16000000; Fixture.sample 32000000].
Proof.
  apply (pid_run_err_sum (Fixture.env Fixture.plain) Fixture.plain
           (mDescriptor (Fixture.session1 Fixture.plain true false))
           [Fixture.sample 8000000; Fixture.sample 16000000; Fixture.sample 32000000]);
    [discriminate | vm_compute; discriminate ..].
Defined.

(** ** Votes and their timers *)

(** Reduce the projections of a vote applied to a vote record. *)
Ltac vote_fields := cbn [voteActive startTime durationNs].

Section VoteFacts.

Context {SessionRecords : Type} (env : Collaborators SessionRecords).

Lemma handleEvent_map_expired eventTimeout tNow m sessVal sid :
  SessionTaskMap.findSession (ev_sessionId eventTimeout) (mSessionTaskMap m) = Some sessVal ->
  Votes.voteIsActive (ev_voteId eventTimeout) (votes sessVal) = true ->
  Votes.voteTimeout (ev_voteId eventTimeout) (votes sessVal) <= tNow ->
  SessionTaskMap.findSession sid (mSessionTaskMap (handleEvent env eventTimeout tNow m))
  = touched
      (fun v =>
         set_lastUpdatedTime tNow
           (set_votes (Votes.setUseVote (ev_voteId eventTimeout) false) v))
      (ev_sessionId eventTimeout) sid (SessionTaskMap.findSession sid (mSessionTaskMap m)).
Proof.
  intros Hfound Hactive Hdue. unfold handleEvent. rewrite Hfound, Hactive.
  destruct (Z.leb_spec (Votes.voteTimeout (ev_voteId eventTimeout) (votes sessVal)) tNow);
    [|lia].
  rewrite updateUniversalBoostMode_map, touched_applyCpuAndGpuVotes.
  cbn [with_map mSessionTaskMap]. rewrite touched_updateSession, touched_touched.
  reflexivity.
Qed.

Lemma voteSet_queue sessionId voteId uclampMin uclampMax startTime durationNs m session :
  SessionTaskMap.findSession sessionId (mSessionTaskMap m) = Some session ->
  mEventSessionTimeoutWorker
    (voteSet env sessionId voteId uclampMin uclampMax startTime durationNs m)
  = mEventSessionTimeoutWorker m
    ++ (if shouldScheduleTimeout (votes session) (underlying voteId) (startTime + durationNs)
        then [({| timeStamp := startTime; ev_sessionId := sessionId;
                  ev_voteId := underlying voteId |}, startTime + durationNs)]
        else []) /\
  mSessionMap (voteSet env sessionId voteId uclampMin uclampMax startTime durationNs m)
  = mSessionMap m.
Proof.
  intros Hfound. unfold voteSet. rewrite Hfound.
  match goal with
  | |- context [applyUclampLocked env ?a ?b ?c] =>
      destruct (same_ledgers_applyUclampLocked env a b c) as (Hq & Hr & _)
  end.
  destruct (shouldScheduleTimeout _ _ _);
    cbn [schedule mEventSessionTimeoutWorker mSessionMap]; rewrite Hq, Hr;
    cbn [with_map mEventSessionTimeoutWorker mSessionMap];
    [|rewrite app_nil_r]; auto.
Qed.

(** The entry of a session right after it has voted. *)
Lemma voteSet_live sessionId voteId uclampMin uclampMax startTime durationNs m session :
  SessionTaskMap.findSession sessionId (mSessionTaskMap m) = Some session ->
  exists live,
    SessionTaskMap.findSession sessionId
      (mSessionTaskMap (voteSet env sessionId voteId uclampMin uclampMax startTime durationNs m))
    = Some live /\
    votes live
    = Votes.add (underlying voteId)
        {| voteActive := true; startTime := startTime; durationNs := durationNs;
           voteValue := CpuRange uclampMin uclampMax |} (votes session) /\
    votes live !! underlying voteId
    = Some {| voteActive := true; startTime := startTime; durationNs := durationNs;
              voteValue := CpuRange uclampMin uclampMax |}.
Proof.
  intros Hfound. rewrite touched_voteSet, Hfound. unfold touched.
  rewrite decide_True by reflexivity. eexists. split; [reflexivity|].
  cbn [votes set_lastUpdatedTime set_votes]. split; [reflexivity|].
  unfold Votes.add. apply lookup_insert_eq.
Qed.

(** X4.  A vote set on a known session is live with the range and window
    given, and when the session had no active vote of that kind a timer is
    queued for its deadline.  When that timer is handled at or after the
    deadline, the vote is switched off, keeping its range and window, and no
    timer is added; handled before the deadline, the timer is queued again
    for the deadline, nothing else changes and the vote stays on. *)
Theorem voteSet_expires
    (sessionId : Z) (voteId : AdpfVoteType) (uclampMin uclampMax startTime durationNs tNow : Z)
    (m : PowerSessionManager) (session : SessionValueEntry) :
  SessionTaskMap.findSession sessionId (mSessionTaskMap m) = Some session ->
  let timer :=
    {| timeStamp := startTime; ev_sessionId := sessionId; ev_voteId := underlying voteId |} in
  let deadline := startTime + durationNs in
  let cast active :=
    Some {| voteActive := active; startTime := startTime; durationNs := durationNs;
            voteValue := CpuRange uclampMin uclampMax |} in
  let m1 := voteSet env sessionId voteId uclampMin uclampMax startTime durationNs m in
  let m2 := handleEvent env timer tNow m1 in
  (exists live,
     SessionTaskMap.findSession sessionId (mSessionTaskMap m1) = Some live /\
     votes live !! underlying voteId = cast true) /\
  (Votes.voteIsActive (underlying voteId) (votes session) = false ->
   mEventSessionTimeoutWorker m1 = mEventSessionTimeoutWorker m ++ [(timer, deadline)]) /\
  (deadline <= tNow ->
   (exists expired,
      SessionTaskMap.findSession sessionId (mSessionTaskMap m2) = Some expired /\
      votes expired !! underlying voteId = cast false) /\
   mEventSessionTimeoutWorker m2 = mEventSessionTimeoutWorker m1) /\
  (tNow < deadline ->
   m2 = schedule timer deadline m1 /\
   exists live,
     SessionTaskMap.findSession sessionId (mSessionTaskMap m2) = Some live /\
     votes live !! underlying voteId = cast true).
Proof.
  intros Hfound timer deadline cast m1 m2.
  destruct (voteSet_live sessionId voteId uclampMin uclampMax startTime durationNs m session
              Hfound) as (live & Hlive & Hvotes & Hslot).
  fold m1 in Hlive.
  assert (Hactive : Votes.voteIsActive (underlying voteId) (votes live) = true).
  { unfold Votes.voteIsActive. rewrite Hslot. reflexivity. }
  assert (Htimeout : Votes.voteTimeout (underlying voteId) (votes live) = deadline).
  { unfold Votes.voteTimeout. rewrite Hslot. reflexivity. }
  split; [|split; [|split]].
  - exists live. split; [exact Hlive | exact Hslot].
  - intros Hoff. subst m1.
    destruct (voteSet_queue sessionId voteId uclampMin uclampMax startTime durationNs m session
                Hfound) as [-> _].
    unfold shouldScheduleTimeout. rewrite Hoff. reflexivity.
  - intros Hdue. split.
    + subst m2. eexists. split.
      * rewrite (handleEvent_map_expired timer tNow m1 live); subst timer;
          cbn [ev_sessionId ev_voteId]; [| exact Hlive | exact Hactive | lia].
        rewrite Hlive. unfold touched. rewrite decide_True by reflexivity. reflexivity.
      * cbn [votes set_lastUpdatedTime set_votes]. unfold Votes.setUseVote.
        rewrite lookup_alter_eq, Hslot. reflexivity.
    + subst m2. unfold handleEvent. subst timer. cbn [ev_sessionId ev_voteId].
      rewrite Hlive, Hactive, Htimeout.
      destruct (Z.leb_spec deadline tNow); [|lia].
      match goal with
      | |- context [updateUniversalBoostMode env ?t (applyCpuAndGpuVotes env ?a ?b ?c)] =>
          destruct (same_ledgers_trans _ _ _
                      (same_ledgers_applyCpuAndGpuVotes env a b c)
                      (same_ledgers_updateUniversalBoostMode env t _)) as (Hq & _ & _)
      end.
      exact Hq.
  - intros Hahead.
    assert (Hrequeue : m2 = schedule timer deadline m1).
    { subst m2. unfold handleEvent. subst timer. cbn [ev_sessionId ev_voteId].
      rewrite Hlive, Hactive, Htimeout.
      destruct (Z.leb_spec deadline tNow); [lia | reflexivity]. }
    split; [exact Hrequeue|]. rewrite Hrequeue. exists live.
    split; [exact Hlive | exact Hslot].
Qed.

(** X5.  A vote of a kind set again while the earlier one is live, with a
    deadline that is not earlier, adds no timer.  The timer of the first
    vote, handled before the deadline the slot has now (at the first
    deadline, say), deactivates nothing: it is put back for the current
    deadline and the vote set last stays live. *)
Theorem voteSet_again_requeues
    (sessionId : Z) (voteId : AdpfVoteType)
    (uclampMin1 uclampMax1 startTime1 durationNs1 : Z)
    (uclampMin2 uclampMax2 startTime2 durationNs2 tNow : Z)
    (m : PowerSessionManager) (session : SessionValueEntry) :
  SessionTaskMap.findSession sessionId (mSessionTaskMap m) = Some session ->
  tNow < startTime2 + durationNs2 ->
  let m1 := voteSet env sessionId voteId uclampMin1 uclampMax1 startTime1 durationNs1 m in
  let m2 := voteSet env sessionId voteId uclampMin2 uclampMax2 startTime2 durationNs2 m1 in
  let first :=
    {| timeStamp := startTime1; ev_sessionId := sessionId; ev_voteId := underlying voteId |} in
  (startTime1 + durationNs1 <= startTime2 + durationNs2 ->
   mEventSessionTimeoutWorker m2 = mEventSessionTimeoutWorker m1) /\
  handleEvent env first tNow m2 = schedule first (startTime2 + durationNs2) m2 /\
  exists live,
    SessionTaskMap.findSession sessionId (mSessionTaskMap (handleEvent env first tNow m2))
    = Some live /\
    votes live !! underlying voteId
    = Some {| voteActive := true; startTime := startTime2; durationNs := durationNs2;
              voteValue := CpuRange uclampMin2 uclampMax2 |}.
Proof.
  intros Hfound Hahead m1 m2 first.
  destruct (voteSet_live sessionId voteId uclampMin1 uclampMax1 startTime1 durationNs1 m
              session Hfound) as (live1 & Hlive1 & _ & Hslot1).
  fold m1 in Hlive1.
  destruct (voteSet_live sessionId voteId uclampMin2 uclampMax2 startTime2 durationNs2 m1
              live1 Hlive1) as (live & Hlive & _ & Hslot).
  fold m2 in Hlive.
  assert (Hrequeue : handleEvent env first tNow m2 = schedule first (startTime2 + durationNs2) m2).
  { unfold handleEvent. subst first. cbn [ev_sessionId ev_voteId]. rewrite Hlive.
    unfold Votes.voteIsActive, Votes.voteTimeout. rewrite Hslot.
    vote_fields.
    destruct (Z.leb_spec (startTime2 + durationNs2) tNow); [lia|reflexivity]. }
  split; [|split; [exact Hrequeue|]].
  - intros Hlater. subst m2.
    destruct (voteSet_queue sessionId voteId uclampMin2 uclampMax2 startTime2 durationNs2 m1
                live1 Hlive1) as [-> _].
    unfold shouldScheduleTimeout, Votes.voteIsActive, Votes.voteTimeout. rewrite Hslot1.
    vote_fields. cbn [negb orb].
    destruct (Z.ltb_spec (startTime2 + durationNs2) (startTime1 + durationNs1)); [lia|].
    apply app_nil_r.
  - rewrite Hrequeue. exists live. split; [exact Hlive | exact Hslot].
Qed.

Lemma getTaskIds_applyUclampLocked_other sessionId timePoint m sid :
  sid <> sessionId ->
  SessionTaskMap.getTaskIds sid (mSessionTaskMap (applyUclampLocked env sessionId timePoint m))
  = SessionTaskMap.getTaskIds sid (mSessionTaskMap m).
Proof.
  intros Hne. unfold applyUclampLocked.
  destruct (SessionTaskMap.findSession sessionId (mSessionTaskMap m)); [|reflexivity].
  cbn [with_map mSessionTaskMap]. rewrite getTaskIds_updateSession.
  destruct (negb _); [reflexivity|].
  pose proof (applyUclampThreads_mSessions env sessionId timePoint
                (SessionTaskMap.getTaskIds sessionId (mSessionTaskMap m)) (mSessionTaskMap m))
    as Hs.
  destruct (applyUclampThreads _ _ _ _ _) as [[kept stm] effs]. cbn [fst snd] in Hs.
  cbn [emit with_map mSessionTaskMap].
  unfold SessionTaskMap.getTaskIds, SessionTaskMap.setTaskIds. cbn [mSessions].
  rewrite lookup_alter_ne by congruence. rewrite Hs. reflexivity.
Qed.

(** X6.  [voteSet] on one session leaves the value and the thread list of
    every other session as they were, and the registry.  Of its own session
    it changes only the timestamp and the slot it names (the activity and
    efficiency flags and every other vote stay) and can only drop threads of
    its list.  It only appends to the timers, and to the trace only
    scheduler calls for threads of its session. *)
Theorem voteSet_frame
    (sessionId : Z) (voteId : AdpfVoteType) (uclampMin uclampMax startTime durationNs : Z)
    (m : PowerSessionManager) :
  let m' := voteSet env sessionId voteId uclampMin uclampMax startTime durationNs m in
  (forall sid, sid <> sessionId ->
     SessionTaskMap.findSession sid (mSessionTaskMap m')
     = SessionTaskMap.findSession sid (mSessionTaskMap m) /\
     SessionTaskMap.getTaskIds sid (mSessionTaskMap m')
     = SessionTaskMap.getTaskIds sid (mSessionTaskMap m)) /\
  (forall session,
     SessionTaskMap.findSession sessionId (mSessionTaskMap m) = Some session ->
     exists session',
       SessionTaskMap.findSession sessionId (mSessionTaskMap m') = Some session' /\
       isActive session' = isActive session /\
       isPowerEfficient session' = isPowerEfficient session /\
       hBoostModeDist session' = hBoostModeDist session /\
       lastUpdatedTime session' = startTime /\
       forall other, other <> underlying voteId ->
         votes session' !! other = votes session !! other) /\
  (forall tid,
     tid ∈ SessionTaskMap.getTaskIds sessionId (mSessionTaskMap m') ->
     tid ∈ SessionTaskMap.getTaskIds sessionId (mSessionTaskMap m)) /\
  mSessionMap m' = mSessionMap m /\
  (exists timers,
     mEventSessionTimeoutWorker m' = mEventSessionTimeoutWorker m ++ timers) /\
  (exists calls,
     effects m' = effects m ++ calls /\
     forall call, call ∈ calls ->
       exists tid, effect_tid call = Some tid /\
                   tid ∈ SessionTaskMap.getTaskIds sessionId (mSessionTaskMap m)).
Proof.
  intros m'. subst m'.
  assert (Hmap : forall (b : bool) e d x,
             mSessionTaskMap (if b then schedule e d x else x) = mSessionTaskMap x).
  { intros []; reflexivity. }
  assert (Heffects : forall (b : bool) e d x,
             effects (if b then schedule e d x else x) = effects x).
  { intros []; reflexivity. }
  split; [|split; [|split; [|split; [|split]]]].
  - intros sid Hne. split.
    + rewrite touched_voteSet. unfold touched. rewrite decide_False by exact Hne.
      reflexivity.
    + unfold voteSet.
      destruct (SessionTaskMap.findSession sessionId (mSessionTaskMap m)); [|reflexivity].
      rewrite Hmap, getTaskIds_applyUclampLocked_other by exact Hne.
      cbn [with_map mSessionTaskMap]. unfold SessionTaskMap.addVote.
      rewrite !getTaskIds_updateSession. reflexivity.
  - intros session Hfound. rewrite touched_voteSet, Hfound. unfold touched.
    rewrite decide_True by reflexivity. eexists. split; [reflexivity|].
    cbn. repeat split. intros other Hne. unfold Votes.add.
    apply lookup_insert_ne. congruence.
  - intros tid. unfold voteSet.
    destruct (SessionTaskMap.findSession sessionId (mSessionTaskMap m)) as [session|] eqn:Hfound;
      [|auto].
    rewrite Hmap.
    match goal with
    | |- context [applyUclampLocked env sessionId startTime ?x] =>
        assert (Hfound' : exists entry,
                   SessionTaskMap.findSession sessionId (mSessionTaskMap x) = Some entry);
        [|destruct Hfound' as [entry Hentry];
          destruct (applyUclampLocked_effects env sessionId startTime x entry Hentry)
            as (calls & _ & _ & _ & Hsub & _)]
    end.
    { cbn [with_map mSessionTaskMap]. unfold SessionTaskMap.addVote.
      rewrite !touched_updateSession, Hfound. unfold touched.
      rewrite !decide_True by reflexivity. eauto. }
    cbn zeta in Hsub. intros Hin. apply Hsub in Hin.
    cbn [with_map mSessionTaskMap] in Hin. unfold SessionTaskMap.addVote in Hin.
    rewrite !getTaskIds_updateSession in Hin. exact Hin.
  - unfold voteSet.
    destruct (SessionTaskMap.findSession sessionId (mSessionTaskMap m)); [|reflexivity].
    match goal with
    | |- context [applyUclampLocked env ?a ?b ?c] =>
        destruct (same_ledgers_applyUclampLocked env a b c) as (_ & Hr & _)
    end.
    destruct (shouldScheduleTimeout _ _ _); cbn [schedule mSessionMap]; rewrite Hr;
      reflexivity.
  - destruct (SessionTaskMap.findSession sessionId (mSessionTaskMap m)) as [session|] eqn:Hfound.
    + destruct (voteSet_queue sessionId voteId uclampMin uclampMax startTime durationNs m
                  session Hfound) as [-> _]. eauto.
    + unfold voteSet. rewrite Hfound. exists []. symmetry. apply app_nil_r.
  - unfold voteSet.
    destruct (SessionTaskMap.findSession sessionId (mSessionTaskMap m)) as [session|] eqn:Hfound.
    2:{ exists []. split; [symmetry; apply app_nil_r|]. intros call Hin.
        apply elem_of_nil in Hin. contradiction. }
    rewrite Heffects.
    match goal with
    | |- context [applyUclampLocked env sessionId startTime ?x] =>
        assert (Hfound' : exists entry,
                   SessionTaskMap.findSession sessionId (mSessionTaskMap x) = Some entry);
        [|destruct Hfound' as [entry Hentry];
          destruct (applyUclampLocked_effects env sessionId startTime x entry Hentry)
            as (calls & Heff & Hoff & Hon & _)]
    end.
    { cbn [with_map mSessionTaskMap]. unfold SessionTaskMap.addVote.
      rewrite !touched_updateSession, Hfound. unfold touched.
      rewrite !decide_True by reflexivity. eauto. }
    cbn zeta in *. exists calls. split; [exact Heff|].
    intros call Hin. destruct (mUclampMinOn (GetAdpfProfile env)) eqn:Hmode.
    + destruct (Hon eq_refl) as (Hcalls & _).
      cbn [with_map mSessionTaskMap] in Hcalls. unfold SessionTaskMap.addVote in Hcalls.
      rewrite !getTaskIds_updateSession in Hcalls.
      assert (Hin' : effect_tid call ∈ map effect_tid calls)
        by (apply list_elem_of_In, in_map, list_elem_of_In, Hin).
      rewrite Hcalls in Hin'. apply list_elem_of_In, in_map_iff in Hin'.
      destruct Hin' as (tid & Htid & Hthread).
      exists tid. split; [symmetry; exact Htid | apply list_elem_of_In; exact Hthread].
    + destruct (Hoff eq_refl) as (-> & _). apply elem_of_nil in Hin. contradiction.
Qed.

End VoteFacts.

(** A load-up vote of 50 ns on session 1, which has none: its timer is
    queued, and handled at 60 finds the vote expired and adds no timer. *)
Lemma voteSet_expires_witness :
  let m1 := voteSet (Fixture.env Fixture.plain) 1 CPU_LOAD_UP 200 1024 0 50 Fixture.oneSession in
  let timer := {| timeStamp := 0; ev_sessionId := 1; ev_voteId := underlying CPU_LOAD_UP |} in
  mEventSessionTimeoutWorker m1
  = mEventSessionTimeoutWorker Fixture.oneSession ++ [(timer, 50)] /\
  mEventSessionTimeoutWorker (handleEvent (Fixture.env Fixture.plain) timer 60 m1)
  = mEventSessionTimeoutWorker m1.
Proof.
  destruct (voteSet_expires (Fixture.env Fixture.plain) 1 CPU_LOAD_UP 200 1024 0 50 60
              Fixture.oneSession (Fixture.voting 200 800 false) eq_refl)
    as (_ & Hqueued & Hdue & _).
  split; [exact (Hqueued eq_refl) | exact (proj2 (Hdue ltac:(lia)))].
Defined.

(** The load-up vote set again at 40 for 50 ns: no timer is added, and the
    first timer, handled at 50, is put back for 90. *)
Lemma voteSet_again_requeues_witness :
  let m1 := voteSet (Fixture.env Fixture.plain) 1 CPU_LOAD_UP 200 1024 0 50 Fixture.oneSession in
  let m2 := voteSet (Fixture.env Fixture.plain) 1 CPU_LOAD_UP 300 1024 40 50 m1 in
  let timer := {| timeStamp := 0; ev_sessionId := 1; ev_voteId := underlying CPU_LOAD_UP |} in
  mEventSessionTimeoutWorker m2 = mEventSessionTimeoutWorker m1 /\
  handleEvent (Fixture.env Fixture.plain) timer 50 m2 = schedule timer (40 + 50) m2.
Proof.
  destruct (voteSet_again_requeues (Fixture.env Fixture.plain) 1 CPU_LOAD_UP
              200 1024 0 50 300 1024 40 50 50 Fixture.oneSession
              (Fixture.voting 200 800 false) eq_refl ltac:(lia))
    as (Hsame & Hrequeue & _).
  split; [exact (Hsame ltac:(lia)) | exact Hrequeue].
Defined.

(** ** Sessions that are gone, boosts that are dropped *)

Section RemovalFacts.

Context {SessionRecords : Type} (env : Collaborators SessionRecords).

Lemma removePowerSession_findSession sessionId now m :
  SessionTaskMap.findSession sessionId
    (mSessionTaskMap (removePowerSession env sessionId now m)) = None.
Proof.
  unfold removePowerSession.
  destruct (SessionTaskMap.replace _ _ _) as [[stm added] removed]. cbn.
  unfold SessionTaskMap.findSession, SessionTaskMap.remove. cbn [mSessions].
  rewrite lookup_delete_eq. reflexivity.
Qed.

(** X7.  Once a session is removed, whatever still arrives for its id is
    dropped: votes of either form, timers, boost resets, pause and resume,
    target updates, forced activation and statistics all return the manager
    as it is. *)
Theorem removePowerSession_then_ignored (sessionId now : Z) (m : PowerSessionManager) :
  let m' := removePowerSession env sessionId now m in
  (forall voteId uclampMin uclampMax startTime durationNs,
     voteSet env sessionId voteId uclampMin uclampMax startTime durationNs m' = m') /\
  (forall voteId capacity startTime durationNs,
     voteSetGpu env sessionId voteId capacity startTime durationNs m' = m') /\
  (forall eventTimeout tNow,
     ev_sessionId eventTimeout = sessionId -> handleEvent env eventTimeout tNow m' = m') /\
  disableBoosts sessionId m' = m' /\
  (forall t, pause env sessionId t m' = m') /\
  (forall t, resume env sessionId t m' = m') /\
  (forall voteId durationNs, updateTargetWorkDuration sessionId voteId durationNs m' = m') /\
  (forall isActive t, forceSessionActive env sessionId isActive t m' = m') /\
  (forall level frames, updateHboostStatistics sessionId level frames m' = m').
Proof.
  intros m'. pose proof (removePowerSession_findSession sessionId now m) as Hgone.
  fold m' in Hgone.
  repeat split; intros;
    unfold voteSet, voteSetGpu, handleEvent, disableBoosts, pause, resume,
      updateTargetWorkDuration, forceSessionActive, updateHboostStatistics;
    try match goal with H : ev_sessionId _ = _ |- _ => rewrite H end;
    rewrite Hgone; reflexivity.
Qed.

Lemma voteIsActive_setUseVote_false k k' (vs : gmap Z Vote) :
  Votes.voteIsActive k (Votes.setUseVote k' false vs)
  = if decide (k = k') then false else Votes.voteIsActive k vs.
Proof.
  unfold Votes.voteIsActive, Votes.setUseVote. case_decide as Hk.
  - subst. rewrite lookup_alter_eq. destruct (vs !! k'); reflexivity.
  - rewrite lookup_alter_ne by congruence. reflexivity.
Qed.

Lemma lookup_setUseVote_ne k k' b (vs : gmap Z Vote) :
  k <> k' -> Votes.setUseVote k' b vs !! k = vs !! k.
Proof. intros Hne. unfold Votes.setUseVote. apply lookup_alter_ne. congruence. Qed.

(** X8.  [disableBoosts] switches off the load-up, load-reset, load-resume
    and power-efficiency votes and the GPU load-up and reset votes of a
    session; its default CPU vote, its GPU capacity vote and every vote of
    another kind are as before, as are the other sessions, the timers and the
    effects. *)
Theorem disableBoosts_drops_boosts
    (sessionId : Z) (m : PowerSessionManager) (session : SessionValueEntry) :
  SessionTaskMap.findSession sessionId (mSessionTaskMap m) = Some session ->
  let m' := disableBoosts sessionId m in
  (exists session',
     SessionTaskMap.findSession sessionId (mSessionTaskMap m') = Some session' /\
     (forall voteId,
        In voteId [CPU_LOAD_UP; CPU_LOAD_RESET; CPU_LOAD_RESUME; VOTE_POWER_EFFICIENCY;
                   GPU_LOAD_UP; GPU_LOAD_RESET] ->
        Votes.voteIsActive (underlying voteId) (votes session') = false) /\
     (forall k,
        ~ In k [1; 2; 3; 4; 5; 7] -> votes session' !! k = votes session !! k) /\
     votes session' !! underlying CPU_VOTE_DEFAULT = votes session !! underlying CPU_VOTE_DEFAULT /\
     votes session' !! underlying GPU_CAPACITY = votes session !! underlying GPU_CAPACITY /\
     isActive session' = isActive session) /\
  (forall sid, sid <> sessionId ->
     SessionTaskMap.findSession sid (mSessionTaskMap m')
     = SessionTaskMap.findSession sid (mSessionTaskMap m)) /\
  mEventSessionTimeoutWorker m' = mEventSessionTimeoutWorker m /\
  effects m' = effects m.
Proof.
  intros Hfound m'. subst m'. unfold disableBoosts. rewrite Hfound.
  cbn [with_map mSessionTaskMap mEventSessionTimeoutWorker effects].
  split; [|split; [|split; reflexivity]].
  - rewrite touched_updateSession, Hfound. unfold touched.
    rewrite decide_True by reflexivity. eexists. split; [reflexivity|].
    cbn [votes set_votes isActive foldl underlying].
    assert (Hother : forall k, ~ In k [1; 2; 3; 4; 5; 7] ->
              Votes.setUseVote 7 false
                (Votes.setUseVote 5 false
                   (Votes.setUseVote 4 false
                      (Votes.setUseVote 3 false
                         (Votes.setUseVote 2 false
                            (Votes.setUseVote 1 false (votes session)))))) !! k
              = votes session !! k).
    { intros k Hk. cbn [In] in Hk.
      rewrite !lookup_setUseVote_ne by (intros ->; apply Hk; tauto). reflexivity. }
    repeat split.
    + intros voteId Hin. rewrite !voteIsActive_setUseVote_false.
      cbn [In] in Hin.
      destruct Hin as [<-|[<-|[<-|[<-|[<-|[<-|[]]]]]]]; cbn [underlying];
        repeat (case_decide; try reflexivity; try lia).
    + exact Hother.
    + apply Hother. cbn [In]. lia.
    + apply Hother. cbn [In]. lia.
  - intros sid Hne. rewrite touched_updateSession. unfold touched.
    rewrite decide_False by exact Hne. reflexivity.
Qed.

End RemovalFacts.

(** Session 1 of the manager with one session. *)
Lemma disableBoosts_drops_boosts_witness :
  mEventSessionTimeoutWorker (disableBoosts 1 Fixture.oneSession)
  = mEventSessionTimeoutWorker Fixture.oneSession /\
  effects (disableBoosts 1 Fixture.oneSession) = effects Fixture.oneSession.
Proof.
  exact (proj2 (proj2 (disableBoosts_drops_boosts 1 Fixture.oneSession
                         (Fixture.voting 200 800 false) eq_refl))).
Defined.


(** ** Dead threads *)

Section PruneFacts.

Context {SessionRecords : Type} (env : Collaborators SessionRecords).

Lemma applyUclampThreads_prunes (dead : Z -> bool) sessionId timePoint :
  (forall tid uclampMin uclampMax,
     (sched_setattr env tid uclampMin uclampMax =? ESRCH) = dead tid) ->
  forall threadList stm,
    fst (fst (applyUclampThreads env sessionId timePoint threadList stm))
    = List.filter (fun tid => negb (dead tid)) threadList /\
    map effect_tid (snd (applyUclampThreads env sessionId timePoint threadList stm))
    = map Some threadList.
Proof.
  intros Horacle. induction threadList as [|tid rest IH]; intros stm; [split; reflexivity|].
  cbn [applyUclampThreads List.filter map]. unfold set_uclamp. rewrite Horacle.
  destruct (dead tid); cbn [negb].
  - specialize (IH (SessionTaskMap.removeDeadTaskSessionMap sessionId tid stm)).
    destruct (applyUclampThreads env sessionId timePoint rest _) as [[kept stm'] effs].
    cbn [fst snd map effect_tid] in *. destruct IH as [-> ->]. split; reflexivity.
  - specialize (IH stm).
    destruct (applyUclampThreads env sessionId timePoint rest stm) as [[kept stm'] effs].
    cbn [fst snd map effect_tid] in *. destruct IH as [-> ->]. split; reflexivity.
Qed.

(** X9.  With uclamp control on, [applyUclampLocked] makes one scheduler
    call for every thread of the session, in order, whether or not earlier
    ones failed; the threads the scheduler reports as gone (ESRCH) are
    dropped from the session's thread list and the others are kept. *)
Theorem applyUclampLocked_prunes
    (dead : Z -> bool) (sessionId timePoint : Z) (m : PowerSessionManager)
    (session : SessionValueEntry) :
  SessionTaskMap.findSession sessionId (mSessionTaskMap m) = Some session ->
  mUclampMinOn (GetAdpfProfile env) = true ->
  (forall tid uclampMin uclampMax,
     (sched_setattr env tid uclampMin uclampMax =? ESRCH) = dead tid) ->
  let m' := applyUclampLocked env sessionId timePoint m in
  SessionTaskMap.getTaskIds sessionId (mSessionTaskMap m')
  = List.filter (fun tid => negb (dead tid))
      (SessionTaskMap.getTaskIds sessionId (mSessionTaskMap m)) /\
  exists calls,
    effects m' = effects m ++ calls /\
    map effect_tid calls
    = map Some (SessionTaskMap.getTaskIds sessionId (mSessionTaskMap m)).
Proof.
  intros Hfound Hon Horacle m'. subst m'. unfold applyUclampLocked.
  rewrite Hfound, Hon. cbn [negb].
  destruct (applyUclampThreads_prunes dead sessionId timePoint Horacle
              (SessionTaskMap.getTaskIds sessionId (mSessionTaskMap m)) (mSessionTaskMap m))
    as [Hkept Hcalls].
  pose proof (applyUclampThreads_mSessions env sessionId timePoint
                (SessionTaskMap.getTaskIds sessionId (mSessionTaskMap m)) (mSessionTaskMap m))
    as Hs.
  destruct (applyUclampThreads _ _ _ _ _) as [[kept stm] effs]. cbn [fst snd] in *.
  cbn [with_map emit mSessionTaskMap effects]. split.
  - rewrite getTaskIds_updateSession, getTaskIds_setTaskIds; [exact Hkept|].
    rewrite Hs. unfold SessionTaskMap.findSession in Hfound.
    destruct (mSessions (mSessionTaskMap m) !! sessionId); [eauto | discriminate].
  - exists effs. split; [reflexivity | exact Hcalls].
Qed.

End PruneFacts.

(** Session 1 on threads 7, 13 and 9, of which the scheduler no longer knows
    13: three calls are made and 13 is dropped. *)
Lemma applyUclampLocked_prunes_witness :
  SessionTaskMap.getTaskIds 1
    (mSessionTaskMap
       (applyUclampLocked (Fixture.env Fixture.plain) 1 10
          (with_map (SessionTaskMap.setTaskIds 1 [7; 13; 9]) Fixture.oneSession)))
  = [7; 9].
Proof.
  exact (proj1 (applyUclampLocked_prunes (Fixture.env Fixture.plain) (fun tid => tid =? 13)
                  1 10 (with_map (SessionTaskMap.setTaskIds 1 [7; 13; 9]) Fixture.oneSession)
                  (Fixture.voting 200 800 false) eq_refl eq_refl
                  (fun tid _ _ => ltac:(cbn; destruct (tid =? 13); reflexivity)))).
Defined.

(** ** Pausing and resuming *)

Section PauseFacts.

Context {SessionRecords : Type} (env : Collaborators SessionRecords).
Variable dead : Z -> bool.
Hypothesis sched_setattr_dead :
  forall tid uclampMin uclampMax,
    (sched_setattr env tid uclampMin uclampMax =? ESRCH) = dead tid.

(** The thread list of [sid] after a recomputation for [sessionId]. *)
Lemma getTaskIds_applyUclampLocked sessionId timePoint m sid :
  SessionTaskMap.getTaskIds sid (mSessionTaskMap (applyUclampLocked env sessionId timePoint m))
  = if bool_decide (sid = sessionId) && mUclampMinOn (GetAdpfProfile env)
    then List.filter (fun tid => negb (dead tid))
           (SessionTaskMap.getTaskIds sid (mSessionTaskMap m))
    else SessionTaskMap.getTaskIds sid (mSessionTaskMap m).
Proof.
  unfold applyUclampLocked.
  destruct (SessionTaskMap.findSession sessionId (mSessionTaskMap m)) eqn:Hfound.
  - cbn [with_map mSessionTaskMap]. rewrite getTaskIds_updateSession.
    destruct (mUclampMinOn (GetAdpfProfile env)); cbn [negb];
      [|rewrite andb_false_r; reflexivity].
    rewrite andb_true_r.
    destruct (applyUclampThreads_prunes env dead sessionId timePoint sched_setattr_dead
                (SessionTaskMap.getTaskIds sessionId (mSessionTaskMap m)) (mSessionTaskMap m))
      as [Hkept _].
    pose proof (applyUclampThreads_mSessions env sessionId timePoint
                  (SessionTaskMap.getTaskIds sessionId (mSessionTaskMap m)) (mSessionTaskMap m))
      as Hs.
    destruct (applyUclampThreads _ _ _ _ _) as [[kept stm] effs]. cbn [fst snd] in *.
    cbn [with_map emit mSessionTaskMap].
    case_bool_decide as Hsid.
    + subst sid. rewrite getTaskIds_setTaskIds; [exact Hkept|].
      rewrite Hs. unfold SessionTaskMap.findSession in Hfound.
      destruct (mSessions (mSessionTaskMap m) !! sessionId); [eauto | discriminate].
    + unfold SessionTaskMap.getTaskIds, SessionTaskMap.setTaskIds. cbn [mSessions].
      rewrite lookup_alter_ne by congruence. rewrite Hs. reflexivity.
  - case_bool_decide as Hsid; [|reflexivity]. subst sid.
    unfold SessionTaskMap.getTaskIds. unfold SessionTaskMap.findSession in Hfound.
    destruct (mSessions (mSessionTaskMap m) !! sessionId); [discriminate|].
    destruct (mUclampMinOn _); reflexivity.
Qed.

Lemma getTaskIds_applyGpuVotesLocked sessionId timePoint m sid :
  SessionTaskMap.getTaskIds sid (mSessionTaskMap (applyGpuVotesLocked env sessionId timePoint m))
  = SessionTaskMap.getTaskIds sid (mSessionTaskMap m).
Proof.
  unfold applyGpuVotesLocked.
  destruct (SessionTaskMap.findSession sessionId (mSessionTaskMap m)); [|reflexivity].
  cbn [with_map mSessionTaskMap]. rewrite getTaskIds_updateSession.
  destruct (mGpuCapacityNode env), (mGpuBoostOn (GetAdpfProfile env)); reflexivity.
Qed.

Lemma getTaskIds_recompute sessionId now m sid :
  SessionTaskMap.getTaskIds sid
    (mSessionTaskMap
       (updateUniversalBoostMode env now (applyCpuAndGpuVotes env sessionId now m)))
  = if bool_decide (sid = sessionId) && mUclampMinOn (GetAdpfProfile env)
    then List.filter (fun tid => negb (dead tid))
           (SessionTaskMap.getTaskIds sid (mSessionTaskMap m))
    else SessionTaskMap.getTaskIds sid (mSessionTaskMap m).
Proof.
  rewrite updateUniversalBoostMode_map. unfold applyCpuAndGpuVotes.
  rewrite getTaskIds_applyGpuVotesLocked. apply getTaskIds_applyUclampLocked.
Qed.

Lemma getTaskIds_forceSessionActive sessionId isActive now m sid :
  SessionTaskMap.getTaskIds sid
    (mSessionTaskMap (forceSessionActive env sessionId isActive now m))
  = if bool_decide (sid = sessionId) && mUclampMinOn (GetAdpfProfile env)
    then List.filter (fun tid => negb (dead tid))
           (SessionTaskMap.getTaskIds sid (mSessionTaskMap m))
    else SessionTaskMap.getTaskIds sid (mSessionTaskMap m).
Proof.
  unfold forceSessionActive.
  destruct (SessionTaskMap.findSession sessionId (mSessionTaskMap m)) eqn:Hfound.
  - rewrite getTaskIds_recompute. cbn [with_map mSessionTaskMap].
    rewrite getTaskIds_updateSession. reflexivity.
  - case_bool_decide as Hsid; [|reflexivity]. subst sid.
    unfold SessionTaskMap.getTaskIds. unfold SessionTaskMap.findSession in Hfound.
    destruct (mSessions (mSessionTaskMap m) !! sessionId); [discriminate|].
    destruct (mUclampMinOn _); reflexivity.
Qed.

Lemma findSession_replace sessionId taskIds stm sid :
  SessionTaskMap.findSession sid (SessionTaskMap.replace sessionId taskIds stm).1.1
  = SessionTaskMap.findSession sid stm.
Proof.
  unfold SessionTaskMap.replace.
  destruct (mSessions stm !! sessionId) as [[sv previous]|] eqn:Hfound; [|reflexivity].
  unfold SessionTaskMap.findSession. cbn [fst mSessions].
  destruct (decide (sessionId = sid)) as [->|Hne].
  - rewrite lookup_insert_eq, Hfound. reflexivity.
  - rewrite lookup_insert_ne by exact Hne. reflexivity.
Qed.

Lemma getTaskIds_replace sessionId taskIds stm sid :
  SessionTaskMap.getTaskIds sid (SessionTaskMap.replace sessionId taskIds stm).1.1
  = if bool_decide (sid = sessionId)
    then (if SessionTaskMap.findSession sid stm is Some _ then taskIds else [])
    else SessionTaskMap.getTaskIds sid stm.
Proof.
  unfold SessionTaskMap.replace, SessionTaskMap.findSession, SessionTaskMap.getTaskIds.
  case_bool_decide as Hsid.
  - subst sid. destruct (mSessions stm !! sessionId) as [[sv previous]|] eqn:Hfound.
    + cbn [fst mSessions]. rewrite lookup_insert_eq. reflexivity.
    + cbn [fst]. rewrite Hfound. reflexivity.
  - destruct (mSessions stm !! sessionId) as [[sv previous]|] eqn:Hfound; [|reflexivity].
    cbn [fst mSessions]. rewrite lookup_insert_ne by congruence. reflexivity.
Qed.

Lemma touched_setThreadsFromPowerSession sessionId threadIds now m sid :
  SessionTaskMap.findSession sid
    (mSessionTaskMap (setThreadsFromPowerSession env sessionId threadIds now m))
  = touched (fun v => set_lastUpdatedTime now (set_isActive true v)) sessionId sid
      (SessionTaskMap.findSession sid (mSessionTaskMap m)).
Proof.
  unfold setThreadsFromPowerSession.
  pose proof (findSession_replace sessionId threadIds
                (mSessionTaskMap (forceSessionActive env sessionId false now m)) sid)
    as Hreplace.
  destruct (SessionTaskMap.replace _ _ _) as [[stm added] removed]. cbn [fst] in Hreplace.
  rewrite touched_forceSessionActive. cbn [emit with_map mSessionTaskMap].
  rewrite Hreplace, touched_forceSessionActive, touched_touched.
  apply touched_ext. intros v. reflexivity.
Qed.

Lemma getTaskIds_setThreadsFromPowerSession sessionId threadIds now m :
  SessionTaskMap.getTaskIds sessionId
    (mSessionTaskMap (setThreadsFromPowerSession env sessionId threadIds now m))
  = match SessionTaskMap.findSession sessionId (mSessionTaskMap m) with
    | Some _ =>
        if mUclampMinOn (GetAdpfProfile env)
        then List.filter (fun tid => negb (dead tid)) threadIds
        else threadIds
    | None => []
    end.
Proof.
  unfold setThreadsFromPowerSession.
  pose proof (getTaskIds_replace sessionId threadIds
                (mSessionTaskMap (forceSessionActive env sessionId false now m)) sessionId)
    as Hreplace.
  destruct (SessionTaskMap.replace _ _ _) as [[stm added] removed]. cbn [fst] in Hreplace.
  rewrite getTaskIds_forceSessionActive. cbn [emit with_map mSessionTaskMap].
  rewrite Hreplace, touched_forceSessionActive.
  rewrite bool_decide_eq_true_2 by reflexivity. cbn [andb].
  unfold touched. rewrite decide_True by reflexivity.
  destruct (SessionTaskMap.findSession sessionId (mSessionTaskMap m)); cbn [fmap option_fmap option_map];
    destruct (mUclampMinOn _); reflexivity.
Qed.

Lemma pause_active sessionId now m session :
  SessionTaskMap.findSession sessionId (mSessionTaskMap m) = Some session ->
  isActive session = true ->
  pause env sessionId now m
  = updateUniversalBoostMode env now
      (applyCpuAndGpuVotes env sessionId now
         (with_map (SessionTaskMap.updateSession (set_isActive false) sessionId) m)).
Proof. intros Hfound Hactive. unfold pause. rewrite Hfound, Hactive. reflexivity. Qed.

Lemma resume_active sessionId now m session :
  SessionTaskMap.findSession sessionId (mSessionTaskMap m) = Some session ->
  isActive session = true ->
  resume env sessionId now m = m.
Proof. intros Hfound Hactive. unfold resume. rewrite Hfound, Hactive. reflexivity. Qed.

(** X10.  Pausing an open, active session and resuming it.  The pause
    succeeds, leaves the manager's entry inactive with an empty thread list
    and the votes as they were; the resume succeeds and gives back the
    session object as it was before the pause, the manager's entry active
    and the session's threads installed again (those the scheduler reports
    gone apart, when uclamp control is on).  In the resume the manager's own
    [resume] changes nothing: reinstalling the threads has already made the
    entry active. *)
Theorem session_pause_resume
    (now1 now2 : Z) (s : PowerHintSession SessionRecords) (m : PowerSessionManager)
    (session : SessionValueEntry) :
  mSessionClosed s = false ->
  is_active (mDescriptor s) = true ->
  SessionTaskMap.findSession (mSessionId s) (mSessionTaskMap m) = Some session ->
  exists s1 m1 m2,
    session_pause env now1 s m = (EX_NONE, s1, m1) /\
    SessionTaskMap.findSession (mSessionId s) (mSessionTaskMap m1)
    = Some (set_lastUpdatedTime now1 (set_isActive false session)) /\
    SessionTaskMap.getTaskIds (mSessionId s) (mSessionTaskMap m1) = [] /\
    session_resume env now2 s1 m1 = (EX_NONE, s, m2) /\
    m2 = setThreadsFromPowerSession env (mSessionId s) (thread_ids (mDescriptor s)) now2 m1 /\
    SessionTaskMap.findSession (mSessionId s) (mSessionTaskMap m2)
    = Some (set_lastUpdatedTime now2 (set_isActive true session)) /\
    SessionTaskMap.getTaskIds (mSessionId s) (mSessionTaskMap m2)
    = if mUclampMinOn (GetAdpfProfile env)
      then List.filter (fun tid => negb (dead tid)) (thread_ids (mDescriptor s))
      else thread_ids (mDescriptor s).
Proof.
  intros Hopen Hactive Hfound.
  set (m0 := setThreadsFromPowerSession env (mSessionId s) [] now1 m).
  assert (Hfound0 : SessionTaskMap.findSession (mSessionId s) (mSessionTaskMap m0)
                    = Some (set_lastUpdatedTime now1 (set_isActive true session))).
  { subst m0. rewrite touched_setThreadsFromPowerSession. unfold touched.
    rewrite decide_True by reflexivity. rewrite Hfound. reflexivity. }
  assert (Htasks0 : SessionTaskMap.getTaskIds (mSessionId s) (mSessionTaskMap m0) = []).
  { subst m0. rewrite getTaskIds_setThreadsFromPowerSession, Hfound.
    destruct (mUclampMinOn _); reflexivity. }
  set (m1 := pause env (mSessionId s) now1 m0).
  assert (Hfound1 : SessionTaskMap.findSession (mSessionId s) (mSessionTaskMap m1)
                    = Some (set_lastUpdatedTime now1 (set_isActive false session))).
  { subst m1. rewrite (pause_active _ _ _ _ Hfound0 eq_refl).
    rewrite updateUniversalBoostMode_map, touched_applyCpuAndGpuVotes.
    cbn [with_map mSessionTaskMap]. rewrite touched_updateSession, touched_touched.
    unfold touched. rewrite decide_True by reflexivity. rewrite Hfound0.
    destruct session; reflexivity. }
  assert (Htasks1 : SessionTaskMap.getTaskIds (mSessionId s) (mSessionTaskMap m1) = []).
  { subst m1. rewrite (pause_active _ _ _ _ Hfound0 eq_refl).
    rewrite getTaskIds_recompute. cbn [with_map mSessionTaskMap].
    rewrite getTaskIds_updateSession, Htasks0.
    destruct (_ && _); reflexivity. }
  set (m2 := setThreadsFromPowerSession env (mSessionId s) (thread_ids (mDescriptor s))
               now2 m1).
  assert (Hfound2 : SessionTaskMap.findSession (mSessionId s) (mSessionTaskMap m2)
                    = Some (set_lastUpdatedTime now2 (set_isActive true session))).
  { subst m2. rewrite touched_setThreadsFromPowerSession. unfold touched.
    rewrite decide_True by reflexivity. rewrite Hfound1.
    destruct session; reflexivity. }
  exists (with_descriptor (set_is_active false) s), m1, m2.
  split.
  { unfold session_pause. rewrite Hopen, Hactive. reflexivity. }
  split; [exact Hfound1|]. split; [exact Htasks1|]. split.
  { unfold session_resume. cbn [mSessionClosed with_descriptor mDescriptor set_is_active
                                 is_active mSessionId thread_ids].
    rewrite Hopen. fold m2. rewrite (resume_active _ _ _ _ Hfound2 eq_refl).
    f_equal. f_equal. destruct s as [id d tag profile closed updated level frames records].
    destruct d. cbn in Hactive. subst. reflexivity. }
  split; [reflexivity|]. split; [exact Hfound2|].
  subst m2. rewrite getTaskIds_setThreadsFromPowerSession, Hfound1. reflexivity.
Qed.

End PauseFacts.

(** Session 1 of the manager with one session, on thread 7. *)
Lemma session_pause_resume_witness :
  exists s1 m1 m2,
    session_pause (Fixture.env Fixture.plain) 10 (Fixture.session1 Fixture.plain true false)
      Fixture.oneSession = (EX_NONE, s1, m1) /\
    session_resume (Fixture.env Fixture.plain) 20 s1 m1
    = (EX_NONE, Fixture.session1 Fixture.plain true false, m2) /\
    SessionTaskMap.getTaskIds 1 (mSessionTaskMap m2) = [7].
Proof.
  destruct (session_pause_resume (Fixture.env Fixture.plain) (fun tid => tid =? 13)
              (fun tid _ _ => ltac:(cbn; destruct (tid =? 13); reflexivity))
              10 20 (Fixture.session1 Fixture.plain true false) Fixture.oneSession
              (Fixture.voting 200 800 false) eq_refl eq_refl eq_refl)
    as (s1 & m1 & m2 & Hpause & _ & _ & Hresume & _ & _ & Htasks).
  exists s1, m1, m2. split; [exact Hpause|]. split; [exact Hresume|]. exact Htasks.
Defined.

(** ** Reports *)

Section ReportVotes.

Context {SessionRecords : Type} (env : Collaborators SessionRecords).

(** X11.  A report that fails has changed nothing, and the status tells why:
    an illegal argument is an empty batch sent to an open session with a
    target set, an illegal state is a closed session, a target of zero, or a
    paused session.  No report ends in another status. *)
Theorem reportActualWorkDuration_failure
    (actualDurations : list WorkDuration) (now : Z)
    (s s' : PowerHintSession SessionRecords) (m m' : PowerSessionManager)
    (status : ExceptionCode) :
  reportActualWorkDuration env actualDurations now s m = Some (status, s', m') ->
  status <> EX_NONE ->
  s' = s /\ m' = m /\
  (status = EX_ILLEGAL_ARGUMENT /\
   mSessionClosed s = false /\ targetNs (mDescriptor s) <> 0 /\ actualDurations = []
   \/
   status = EX_ILLEGAL_STATE /\
   (mSessionClosed s = true \/ targetNs (mDescriptor s) = 0 \/
    actualDurations <> [] /\ is_active (mDescriptor s) = false)).
Proof.
  unfold reportActualWorkDuration.
  destruct (mSessionClosed s) eqn:Hclosed; [intros [= <- <- <-] _; auto 10|].
  destruct (Z.eqb_spec (targetNs (mDescriptor s)) 0) as [Hzero|Hset];
    [intros [= <- <- <-] _; auto 10|].
  case_bool_decide as Hbatch; [intros [= <- <- <-] _; auto 10|].
  destruct (is_active (mDescriptor s)) eqn:Hactive; cbn [negb];
    [|intros [= <- <- <-] _; auto 10].
  intros Hrun Hfail. exfalso. apply Hfail.
  destruct (negb (mPidOn (getAdpfProfile env s))).
  - destruct (updatePidControlVariable _ _ _ _ _ _) as [s3 m3]. congruence.
  - destruct (recordHeuristics _ _ _ _ _) as [[s3 m3]|]; cbn [mbind option_bind] in Hrun;
      [|discriminate].
    destruct (convertWorkDurationToBoostByPid _ _ _ _ _ _) as [[output desc]|];
      cbn [mbind option_bind] in Hrun; [|discriminate].
    destruct (uclampMinBounds _ _ _) as [bounds|]; cbn [mbind option_bind] in Hrun;
      [|discriminate].
    destruct (updatePidControlVariable _ _ _ _ _ _) as [s5 m5]. congruence.
Qed.

End ReportVotes.

(** An empty batch sent to session 1. *)
Lemma reportActualWorkDuration_failure_witness :
  reportActualWorkDuration (Fixture.env Fixture.plain) [] 5
    (Fixture.session1 Fixture.plain true false) Fixture.oneSession
  = Some (EX_ILLEGAL_ARGUMENT, Fixture.session1 Fixture.plain true false, Fixture.oneSession) /\
  (EX_ILLEGAL_ARGUMENT = EX_ILLEGAL_ARGUMENT /\
   mSessionClosed (Fixture.session1 Fixture.plain true false) = false /\
   targetNs (mDescriptor (Fixture.session1 Fixture.plain true false)) <> 0 /\
   [] = ([] : list WorkDuration)
   \/
   EX_ILLEGAL_ARGUMENT = EX_ILLEGAL_STATE /\
   (mSessionClosed (Fixture.session1 Fixture.plain true false) = true \/
    targetNs (mDescriptor (Fixture.session1 Fixture.plain true false)) = 0 \/
    [] <> ([] : list WorkDuration) /\
    is_active (mDescriptor (Fixture.session1 Fixture.plain true false)) = false)).
Proof.
  split; [reflexivity|].
  exact (proj2 (proj2 (reportActualWorkDuration_failure (Fixture.env Fixture.plain) [] 5
                         (Fixture.session1 Fixture.plain true false)
                         (Fixture.session1 Fixture.plain true false)
                         Fixture.oneSession Fixture.oneSession EX_ILLEGAL_ARGUMENT eq_refl
                         ltac:(discriminate)))).
Defined.

Section ReportSuccess.

Context {SessionRecords : Type} (env : Collaborators SessionRecords).

Lemma touched_voteSetGpu sessionId voteId capacity startTime durationNs m sid :
  SessionTaskMap.findSession sid
    (mSessionTaskMap (voteSetGpu env sessionId voteId capacity startTime durationNs m))
  = touched
      (fun v =>
         set_lastUpdatedTime startTime
           (set_votes
              (Votes.add (underlying voteId)
                 {| voteActive := true; startTime := startTime; durationNs := durationNs;
                    voteValue := GpuCycles capacity |}) v))
      sessionId sid (SessionTaskMap.findSession sid (mSessionTaskMap m)).
Proof.
  unfold voteSetGpu.
  destruct (SessionTaskMap.findSession sessionId (mSessionTaskMap m)) eqn:Hfound.
  - assert (Hmap : forall e d x,
               mSessionTaskMap
                 (if shouldScheduleTimeout (votes s) (underlying voteId) (startTime + durationNs)
                  then schedule e d x else x)
               = mSessionTaskMap x).
    { intros. destruct (shouldScheduleTimeout _ _ _); reflexivity. }
    rewrite Hmap, touched_applyGpuVotesLocked. cbn [with_map mSessionTaskMap].
    rewrite touched_updateSession. unfold SessionTaskMap.addGpuVote.
    rewrite touched_updateSession, !touched_touched. apply touched_ext. reflexivity.
  - unfold touched. case_decide; [subst; rewrite Hfound|]; reflexivity.
Qed.

Lemma touched_disableBoosts sessionId m sid :
  SessionTaskMap.findSession sid (mSessionTaskMap (disableBoosts sessionId m))
  = touched
      (set_votes (fun vs =>
         foldl (fun acc vid => Votes.setUseVote (underlying vid) false acc) vs
           [CPU_LOAD_UP; CPU_LOAD_RESET; CPU_LOAD_RESUME; VOTE_POWER_EFFICIENCY;
            GPU_LOAD_UP; GPU_LOAD_RESET]))
      sessionId sid (SessionTaskMap.findSession sid (mSessionTaskMap m)).
Proof.
  unfold disableBoosts.
  destruct (SessionTaskMap.findSession sessionId (mSessionTaskMap m)) eqn:Hfound.
  - cbn [with_map mSessionTaskMap]. apply touched_updateSession.
  - unfold touched. case_decide; [subst; rewrite Hfound|]; reflexivity.
Qed.

Lemma touched_updateHboostStatistics sessionId jankyLevel numOfFrames m sid :
  exists f,
    (forall v, votes (f v) = votes v /\ isActive (f v) = isActive v) /\
    SessionTaskMap.findSession sid
      (mSessionTaskMap (updateHboostStatistics sessionId jankyLevel numOfFrames m))
    = touched f sessionId sid (SessionTaskMap.findSession sid (mSessionTaskMap m)).
Proof.
  unfold updateHboostStatistics.
  destruct (SessionTaskMap.findSession sessionId (mSessionTaskMap m)) eqn:Hfound.
  - eexists. split; [|cbn [with_map mSessionTaskMap]; apply touched_updateSession].
    intros v. split; reflexivity.
  - exists (fun v => v). split; [intros v; split; reflexivity|].
    unfold touched. case_decide; [subst; rewrite Hfound|]; reflexivity.
Qed.

Lemma updateHeuristicBoost_frame (s s' : PowerHintSession SessionRecords) :
  updateHeuristicBoost env s = Some s' ->
  mDescriptor s' = mDescriptor s /\ mSessionId s' = mSessionId s /\
  mLastUpdatedTime s' = mLastUpdatedTime s.
Proof.
  unfold updateHeuristicBoost.
  destruct (mSessionRecords s) as [records|]; cbn [mbind option_bind]; [|discriminate].
  destruct (getMaxDuration env records), (getAvgDuration env records);
    try (intros [= <-]; auto).
  destruct (mLowFrameRateThreshold (getAdpfProfile env s)); cbn [mbind option_bind];
    [|discriminate].
  destruct (updateSessionJankState _ _ _ _ _); cbn [mbind option_bind]; [|discriminate].
  intros [= <-]. auto.
Qed.

Lemma recordHeuristics_frame adpfConfig actualDurations
    (s s' : PowerHintSession SessionRecords) m m' :
  recordHeuristics env adpfConfig actualDurations s m = Some (s', m') ->
  mDescriptor s' = mDescriptor s /\ mSessionId s' = mSessionId s /\
  mLastUpdatedTime s' = mLastUpdatedTime s /\
  forall sid, exists f,
    (forall v, votes (f v) = votes v /\ isActive (f v) = isActive v) /\
    SessionTaskMap.findSession sid (mSessionTaskMap m')
    = touched f (mSessionId s) sid (SessionTaskMap.findSession sid (mSessionTaskMap m)).
Proof.
  unfold recordHeuristics.
  destruct (hboostEnabled adpfConfig).
  - destruct (mSessionRecords s) as [records|]; cbn [mbind option_bind]; [|discriminate].
    destruct (updateHeuristicBoost env _) as [s''|] eqn:Eh; cbn [mbind option_bind];
      [|discriminate].
    intros [= <- <-]. apply updateHeuristicBoost_frame in Eh as (Hd & Hid & Ht).
    rewrite Hd, Hid, Ht. repeat split. intros sid. apply touched_updateHboostStatistics.
  - intros [= <- <-]. repeat split. intros sid. exists (fun v => v).
    split; [intros v; split; reflexivity|].
    unfold touched. case_decide; [destruct (SessionTaskMap.findSession _ _)|]; reflexivity.
Qed.

Lemma boosts_disabled (vs : gmap Z Vote) (voteId : AdpfVoteType) :
  In voteId [CPU_LOAD_UP; CPU_LOAD_RESET; CPU_LOAD_RESUME; VOTE_POWER_EFFICIENCY;
             GPU_LOAD_UP; GPU_LOAD_RESET] ->
  Votes.voteIsActive (underlying voteId)
    (foldl (fun acc vid => Votes.setUseVote (underlying vid) false acc) vs
       [CPU_LOAD_UP; CPU_LOAD_RESET; CPU_LOAD_RESUME; VOTE_POWER_EFFICIENCY;
        GPU_LOAD_UP; GPU_LOAD_RESET]) = false.
Proof.
  intros Hin. cbn [foldl]. rewrite !voteIsActive_setUseVote_false. cbn [In] in Hin.
  destruct Hin as [<-|[<-|[<-|[<-|[<-|[<-|[]]]]]]]; cbn [underlying];
    repeat (case_decide; try reflexivity; try lia).
Qed.

Lemma voteIsActive_add_ne k k' v (vs : gmap Z Vote) :
  k <> k' -> Votes.voteIsActive k (Votes.add k' v vs) = Votes.voteIsActive k vs.
Proof.
  intros Hne. unfold Votes.voteIsActive, Votes.add.
  rewrite lookup_insert_ne by congruence. reflexivity.
Qed.

Lemma boost_kind (voteId : AdpfVoteType) :
  In voteId [CPU_LOAD_UP; CPU_LOAD_RESET; CPU_LOAD_RESUME; VOTE_POWER_EFFICIENCY;
             GPU_LOAD_UP; GPU_LOAD_RESET] ->
  underlying voteId <> underlying CPU_VOTE_DEFAULT /\
  underlying voteId <> underlying GPU_CAPACITY.
Proof.
  cbn [In]. intros [<-|[<-|[<-|[<-|[<-|[<-|[]]]]]]]; cbn; lia.
Qed.

(** The manager after the default vote of a report is cast on [m2], the
    manager once the boosts are dropped. *)
Lemma report_default_vote sessionId v now d m m2 session :
  SessionTaskMap.findSession sessionId (mSessionTaskMap m) = Some session ->
  (exists f,
     (forall x, votes (f x) = votes x /\ isActive (f x) = isActive x) /\
     SessionTaskMap.findSession sessionId (mSessionTaskMap m2)
     = touched f sessionId sessionId
         (SessionTaskMap.findSession sessionId
            (mSessionTaskMap (disableBoosts sessionId m)))) ->
  exists session',
    SessionTaskMap.findSession sessionId
      (mSessionTaskMap (voteSet env sessionId CPU_VOTE_DEFAULT v (kUclampMax env) now d m2))
    = Some session' /\
    votes session' !! underlying CPU_VOTE_DEFAULT
    = Some {| voteActive := true; startTime := now; durationNs := d;
              voteValue := CpuRange v (kUclampMax env) |} /\
    (forall voteId,
       In voteId [CPU_LOAD_UP; CPU_LOAD_RESET; CPU_LOAD_RESUME; VOTE_POWER_EFFICIENCY;
                  GPU_LOAD_UP; GPU_LOAD_RESET] ->
       Votes.voteIsActive (underlying voteId) (votes session') = false) /\
    isActive session' = isActive session /\
    lastUpdatedTime session' = now.
Proof.
  intros Hfound (f & Hf & Hm2).
  rewrite touched_voteSet, Hm2, touched_disableBoosts, Hfound.
  unfold touched. rewrite !decide_True by reflexivity.
  cbn [fmap option_fmap option_map]. eexists. split; [reflexivity|].
  cbn [votes set_lastUpdatedTime set_votes isActive lastUpdatedTime].
  split; [|split; [|split; [|reflexivity]]].
  - unfold Votes.add. rewrite lookup_insert_eq. reflexivity.
  - intros voteId Hin. destruct (boost_kind voteId Hin) as [Hne _].
    rewrite voteIsActive_add_ne by exact Hne.
    rewrite (proj1 (Hf _)). cbn [votes set_votes]. apply boosts_disabled, Hin.
  - rewrite (proj2 (Hf _)). reflexivity.
Qed.

Lemma reportGpu_frame adpfConfig actualDurations now (s : PowerHintSession SessionRecords) m
    session :
  SessionTaskMap.findSession (mSessionId s) (mSessionTaskMap m) = Some session ->
  exists session',
    SessionTaskMap.findSession (mSessionId s)
      (mSessionTaskMap (reportGpu env adpfConfig actualDurations now s m)) = Some session' /\
    (forall k, k <> underlying GPU_CAPACITY -> votes session' !! k = votes session !! k) /\
    isActive session' = isActive session /\
    (lastUpdatedTime session = now -> lastUpdatedTime session' = now).
Proof.
  intros Hfound. unfold reportGpu.
  assert (Hsame : exists session',
             SessionTaskMap.findSession (mSessionId s) (mSessionTaskMap m) = Some session' /\
             (forall k, k <> underlying GPU_CAPACITY ->
                votes session' !! k = votes session !! k) /\
             isActive session' = isActive session /\
             (lastUpdatedTime session = now -> lastUpdatedTime session' = now)).
  { exists session. auto. }
  destruct (mGpuBoostCapacityMax adpfConfig) as [capacityMax|]; [|exact Hsame].
  destruct (last actualDurations) as [back|]; [|exact Hsame].
  destruct (negb _ || _); [exact Hsame|].
  destruct (gpuFrequency env) as [gpu_freq|]; [|exact Hsame].
  rewrite touched_voteSetGpu, Hfound. unfold touched. rewrite decide_True by reflexivity.
  cbn [fmap option_fmap option_map]. eexists. split; [reflexivity|].
  cbn [votes set_lastUpdatedTime set_votes isActive lastUpdatedTime].
  split; [|split; reflexivity].
  intros k Hk. unfold Votes.add. rewrite lookup_insert_ne by congruence. reflexivity.
Qed.

(** X12.  A report that succeeds on a session the manager knows leaves the
    manager's entry for it with the default CPU vote live from the time of
    the report, its floor the control variable the session now holds and its
    ceiling the platform maximum, for the stale time of the target or twice
    the reporting rate limit if that is longer; every boost vote is off; the
    session counts one more update and is stamped with the time of the
    report, its target unchanged. *)
Theorem reportActualWorkDuration_casts_default_vote
    (actualDurations : list WorkDuration) (now : Z)
    (s s' : PowerHintSession SessionRecords) (m m' : PowerSessionManager)
    (session : SessionValueEntry) :
  reportActualWorkDuration env actualDurations now s m = Some (EX_NONE, s', m') ->
  SessionTaskMap.findSession (mSessionId s) (mSessionTaskMap m) = Some session ->
  (exists session',
     SessionTaskMap.findSession (mSessionId s) (mSessionTaskMap m') = Some session' /\
     votes session' !! underlying CPU_VOTE_DEFAULT
     = Some {| voteActive := true; startTime := now;
               durationNs :=
                 Z.max (scaledDuration (targetNs (mDescriptor s))
                          (mStaleTimeFactor (getAdpfProfile env s)))
                       (to_int64 (mReportingRateLimitNs (getAdpfProfile env s) * 2));
               voteValue := CpuRange (pidControlVariable (mDescriptor s')) (kUclampMax env) |} /\
     (forall voteId,
        In voteId [CPU_LOAD_UP; CPU_LOAD_RESET; CPU_LOAD_RESUME; VOTE_POWER_EFFICIENCY;
                   GPU_LOAD_UP; GPU_LOAD_RESET] ->
        Votes.voteIsActive (underlying voteId) (votes session') = false) /\
     isActive session' = isActive session /\
     lastUpdatedTime session' = now) /\
  update_count (mDescriptor s') = to_int64 (update_count (mDescriptor s) + 1) /\
  mLastUpdatedTime s' = now /\
  targetNs (mDescriptor s') = targetNs (mDescriptor s) /\
  mSessionId s' = mSessionId s.
Proof.
  intros Hrun Hfound. unfold reportActualWorkDuration in Hrun.
  destruct (mSessionClosed s); [discriminate|].
  destruct (targetNs (mDescriptor s) =? 0); [discriminate|].
  destruct (bool_decide (actualDurations = [])); [discriminate|].
  destruct (negb (is_active (mDescriptor s))); [discriminate|].
  set (s2 := set_mLastUpdatedTime now
               (with_descriptor (set_update_count (to_int64 (update_count (mDescriptor s) + 1)))
                  s)) in *.
  match type of Hrun with
  | context [disableBoosts _ ?x] => set (m1 := x) in *
  end.
  assert (Hfound1 : SessionTaskMap.findSession (mSessionId s) (mSessionTaskMap m1)
                    = Some session).
  { subst m1. destruct (isTimeout _ _ _); [rewrite updateUniversalBoostMode_map|];
      exact Hfound. }
  destruct (negb (mPidOn (getAdpfProfile env s))).
  - unfold updatePidControlVariable in Hrun. injection Hrun as <- <-.
    split; [|repeat split].
    apply (report_default_vote _ _ _ _ m1 _ session Hfound1).
    exists (fun v => v). split; [intros v; split; reflexivity|].
    unfold touched. rewrite decide_True by reflexivity.
    destruct (SessionTaskMap.findSession _ (mSessionTaskMap (disableBoosts _ _)));
      reflexivity.
  - destruct (recordHeuristics _ _ _ _ _) as [[s3 m3]|] eqn:Efirst;
      cbn [mbind option_bind] in Hrun; [|discriminate].
    pose proof Efirst as Hprofile. apply recordHeuristics_profile in Hprofile.
    apply recordHeuristics_frame in Efirst as (Hd & Hid & Ht & Hm3).
    unfold convertWorkDurationToBoostByPid in Hrun.
    destruct (pid_pu_active _ _ _); cbn [mbind option_bind] in Hrun; [|discriminate].
    destruct (uclampMinBounds _ _ _) as [bounds|]; cbn [mbind option_bind] in Hrun;
      [|discriminate].
    unfold updatePidControlVariable in Hrun. injection Hrun as <- <-.
    cbn [mDescriptor with_descriptor set_pidControlVariable update_count targetNs
         mLastUpdatedTime mSessionId pidControlVariable].
    rewrite Hd, Hid, Ht.
    split; [|repeat split].
    match goal with
    | |- context [voteSet env _ _ ?v _ _ ?d m3] =>
        destruct (report_default_vote (mSessionId s) v now d m1 m3 session Hfound1
                    (Hm3 (mSessionId s)))
          as (session1 & Hfound5 & Hdefault & Hboosts & Hactive & Hstamp)
    end.
    match goal with
    | |- context [reportGpu env ?c ?ds ?t ?s0 ?m0] =>
        pose proof (reportGpu_frame c ds t s0 m0 session1) as Hgpu
    end.
    cbn [mSessionId with_descriptor] in Hgpu. rewrite Hid in Hgpu.
    destruct (Hgpu Hfound5) as (session' & Hfound' & Hvotes & Hactive' & Hstamp').
    exists session'. split; [exact Hfound'|].
    split; [|split; [|split; [congruence | auto]]].
    + rewrite Hvotes by (cbn; lia). rewrite Hdefault.
      assert (Hp : forall f g,
                 getAdpfProfile env (with_descriptor f (with_descriptor g s3))
                 = getAdpfProfile env s).
      { intros f g. transitivity (getAdpfProfile env s3);
          [reflexivity | rewrite Hprofile; reflexivity]. }
      rewrite !Hp. reflexivity.
    + intros voteId Hin. destruct (boost_kind voteId Hin) as [_ Hne].
      unfold Votes.voteIsActive. rewrite Hvotes by exact Hne. apply Hboosts, Hin.
Qed.

End ReportSuccess.

(** One frame on target reported to session 1 at time 5. *)
Lemma reportActualWorkDuration_casts_default_vote_witness :
  match
    reportActualWorkDuration (Fixture.env Fixture.plain) [Fixture.sample 16000000] 5
      (Fixture.session1 Fixture.plain true false) Fixture.oneSession
  with
  | Some (EX_NONE, s', _) =>
      update_count (mDescriptor s') = 1 /\ mLastUpdatedTime s' = 5
  | _ => False
  end.
Proof.
  destruct (reportActualWorkDuration _ _ _ _ _) as [[[status s'] m']|] eqn:E;
    [|vm_compute in E; discriminate E].
  destruct status; try (vm_compute in E; discriminate E).
  destruct (reportActualWorkDuration_casts_default_vote (Fixture.env Fixture.plain)
              [Fixture.sample 16000000] 5 (Fixture.session1 Fixture.plain true false) s'
              Fixture.oneSession m' (Fixture.voting 200 800 false) E eq_refl)
    as (_ & Hcount & Hstamp & _).
  split; [exact Hcount | exact Hstamp].
Defined.

(** ** Creating a session *)


Section CreateFacts.

Context {SessionRecords : Type} (env : Collaborators SessionRecords).
Variable dead : Z -> bool.
Hypothesis sched_setattr_dead :
  forall tid uclampMin uclampMax,
    (sched_setattr env tid uclampMin uclampMax =? ESRCH) = dead tid.

Lemma filter_filter_same (f : Z -> bool) (l : list Z) :
  List.filter f (List.filter f l) = List.filter f l.
Proof.
  induction l as [|x l IH]; [reflexivity|]. cbn [List.filter].
  destruct (f x) eqn:Hx; [|exact IH]. cbn [List.filter]. rewrite Hx, IH. reflexivity.
Qed.



Lemma getTaskIds_voteSet sessionId voteId uclampMin uclampMax startTime durationNs m sid :
  SessionTaskMap.getTaskIds sid
    (mSessionTaskMap (voteSet env sessionId voteId uclampMin uclampMax startTime durationNs m))
  = if bool_decide (sid = sessionId) && mUclampMinOn (GetAdpfProfile env)
    then List.filter (fun tid => negb (dead tid))
           (SessionTaskMap.getTaskIds sid (mSessionTaskMap m))
    else SessionTaskMap.getTaskIds sid (mSessionTaskMap m).
Proof.
  unfold voteSet.
  destruct (SessionTaskMap.findSession sessionId (mSessionTaskMap m)) eqn:Hfound.
  - assert (Hmap : forall e d x,
               mSessionTaskMap
                 (if shouldScheduleTimeout (votes s) (underlying voteId) (startTime + durationNs)
                  then schedule e d x else x)
               = mSessionTaskMap x).
    { intros. destruct (shouldScheduleTimeout _ _ _); reflexivity. }
    rewrite Hmap, (getTaskIds_applyUclampLocked env dead sched_setattr_dead).
    cbn [with_map mSessionTaskMap]. unfold SessionTaskMap.addVote.
    rewrite !getTaskIds_updateSession. reflexivity.
  - case_bool_decide as Hsid; [|reflexivity]. subst sid.
    unfold SessionTaskMap.getTaskIds. unfold SessionTaskMap.findSession in Hfound.
    destruct (mSessions (mSessionTaskMap m) !! sessionId); [discriminate|].
    destruct (mUclampMinOn _); reflexivity.
Qed.




End CreateFacts.


(** ** Power efficiency, threads and hints *)

Section InterfaceFacts.

Context {SessionRecords : Type} (env : Collaborators SessionRecords).
Variable dead : Z -> bool.
Hypothesis sched_setattr_dead :
  forall tid uclampMin uclampMax,
    (sched_setattr env tid uclampMin uclampMax =? ESRCH) = dead tid.

Lemma touched_setPreferPowerEfficiency sessionId enabled now m session sid :
  SessionTaskMap.findSession sessionId (mSessionTaskMap m) = Some session ->
  isPowerEfficient session <> enabled ->
  SessionTaskMap.findSession sid
    (mSessionTaskMap (setPreferPowerEfficiency env sessionId enabled now m))
  = touched (fun v => set_lastUpdatedTime now (set_isPowerEfficient enabled v)) sessionId sid
      (SessionTaskMap.findSession sid (mSessionTaskMap m)).
Proof.
  intros Hfound Hdiffer. unfold setPreferPowerEfficiency. rewrite Hfound.
  destruct (Bool.eqb enabled (isPowerEfficient session)) eqn:Heq.
  - apply Bool.eqb_prop in Heq. congruence.
  - cbn [negb]. rewrite touched_applyUclampLocked. cbn [with_map mSessionTaskMap].
    rewrite touched_updateSession, touched_touched. reflexivity.
Qed.

(** X14.  [setPreferPowerEfficiency] on a known session.  When the flag
    already has the value asked for, the manager is returned as it is: no
    thread is touched.  Otherwise the flag is set and the session's threads
    are reclamped, one scheduler call each; the votes, the active flag, the
    timers and the other sessions are as before.  Asking again for the same
    value changes nothing. *)
Theorem setPreferPowerEfficiency_sets
    (sessionId : Z) (enabled : bool) (now now' : Z) (m : PowerSessionManager)
    (session : SessionValueEntry) :
  SessionTaskMap.findSession sessionId (mSessionTaskMap m) = Some session ->
  let m' := setPreferPowerEfficiency env sessionId enabled now m in
  (isPowerEfficient session = enabled -> m' = m) /\
  (exists session',
     SessionTaskMap.findSession sessionId (mSessionTaskMap m') = Some session' /\
     isPowerEfficient session' = enabled /\
     votes session' = votes session /\
     isActive session' = isActive session) /\
  (isPowerEfficient session <> enabled ->
   mUclampMinOn (GetAdpfProfile env) = true ->
   exists calls,
     effects m' = effects m ++ calls /\
     map effect_tid calls
     = map Some (SessionTaskMap.getTaskIds sessionId (mSessionTaskMap m))) /\
  mEventSessionTimeoutWorker m' = mEventSessionTimeoutWorker m /\
  (forall sid, sid <> sessionId ->
     SessionTaskMap.findSession sid (mSessionTaskMap m')
     = SessionTaskMap.findSession sid (mSessionTaskMap m)) /\
  setPreferPowerEfficiency env sessionId enabled now' m' = m'.
Proof.
  intros Hfound m'.
  destruct (decide (isPowerEfficient session = enabled)) as [Hsame|Hdiffer].
  - assert (Hm : m' = m).
    { subst m'. unfold setPreferPowerEfficiency. rewrite Hfound, Hsame.
      rewrite Bool.eqb_reflx. reflexivity. }
    rewrite Hm. split; [reflexivity|].
    split; [exists session; auto|]. split; [contradiction|]. split; [reflexivity|].
    split; [reflexivity|].
    unfold setPreferPowerEfficiency. rewrite Hfound, Hsame, Bool.eqb_reflx. reflexivity.
  - assert (Hfound' : SessionTaskMap.findSession sessionId (mSessionTaskMap m')
                      = Some (set_lastUpdatedTime now (set_isPowerEfficient enabled session))).
    { subst m'. rewrite (touched_setPreferPowerEfficiency _ _ _ _ session) by assumption.
      unfold touched. rewrite decide_True by reflexivity. rewrite Hfound. reflexivity. }
    split; [contradiction|].
    split; [eexists; split; [exact Hfound'|]; repeat split|].
    split; [|split; [|split]].
    + intros _ Hon. subst m'. unfold setPreferPowerEfficiency. rewrite Hfound.
      destruct (Bool.eqb enabled (isPowerEfficient session)) eqn:Heq;
        [apply Bool.eqb_prop in Heq; congruence|].
      cbn [negb]. unfold applyUclampLocked. cbn [with_map mSessionTaskMap].
      rewrite touched_updateSession, Hfound. unfold touched.
      rewrite decide_True by reflexivity. cbn [fmap option_fmap option_map].
      rewrite Hon. cbn [negb]. rewrite getTaskIds_updateSession.
      match goal with
      | |- context [applyUclampThreads env ?a ?b ?c ?d] =>
          destruct (applyUclampThreads_prunes env dead a b sched_setattr_dead c d)
            as [_ Hcalls];
          destruct (applyUclampThreads env a b c d) as [[kept stm] effs]
      end.
      cbn [fst snd] in Hcalls. cbn [emit with_map effects].
      exists effs. split; [reflexivity | exact Hcalls].
    + subst m'. unfold setPreferPowerEfficiency. rewrite Hfound.
      destruct (negb _); [|reflexivity].
      match goal with
      | |- context [applyUclampLocked env ?a ?b ?c] =>
          destruct (same_ledgers_applyUclampLocked env a b c) as (-> & _ & _)
      end.
      reflexivity.
    + intros sid Hsid. subst m'.
      rewrite (touched_setPreferPowerEfficiency _ _ _ _ session) by assumption.
      unfold touched. rewrite decide_False by exact Hsid. reflexivity.
    + unfold setPreferPowerEfficiency at 1. rewrite Hfound'.
      cbn [isPowerEfficient set_lastUpdatedTime set_isPowerEfficient].
      rewrite Bool.eqb_reflx. reflexivity.
Qed.

(** X15.  [setThreads] on an open session the manager knows, with a thread
    list that is not empty.  The call succeeds; the session holds the new
    list and its control variable is back at [mUclampMinInit]; the manager's
    entry is active, whether or not the session itself is paused, its
    threads are the new list (those the scheduler reports gone apart, when
    uclamp control is on), and its default vote is live from now at the new
    control variable; the other votes are as before. *)
Theorem session_setThreads_installs
    (threadIds : list Z) (now : Z) (s : PowerHintSession SessionRecords)
    (m : PowerSessionManager) (entry : SessionValueEntry) :
  mSessionClosed s = false ->
  threadIds <> [] ->
  SessionTaskMap.findSession (mSessionId s) (mSessionTaskMap m) = Some entry ->
  exists s' m',
    session_setThreads env threadIds now s m = (EX_NONE, s', m') /\
    thread_ids (mDescriptor s') = threadIds /\
    pidControlVariable (mDescriptor s') = to_int32 (mUclampMinInit (getAdpfProfile env s)) /\
    is_active (mDescriptor s') = is_active (mDescriptor s) /\
    (exists entry',
       SessionTaskMap.findSession (mSessionId s) (mSessionTaskMap m') = Some entry' /\
       isActive entry' = true /\
       votes entry' !! underlying CPU_VOTE_DEFAULT
       = Some {| voteActive := true; startTime := now;
                 durationNs :=
                   Z.max (scaledDuration (targetNs (mDescriptor s))
                            (mStaleTimeFactor (getAdpfProfile env s)))
                         (to_int64 (mReportingRateLimitNs (getAdpfProfile env s) * 2));
                 voteValue :=
                   CpuRange (pidControlVariable (mDescriptor s')) (kUclampMax env) |} /\
       (forall k, k <> underlying CPU_VOTE_DEFAULT -> votes entry' !! k = votes entry !! k)) /\
    SessionTaskMap.getTaskIds (mSessionId s) (mSessionTaskMap m')
    = (if mUclampMinOn (GetAdpfProfile env)
       then List.filter (fun tid => negb (dead tid)) threadIds
       else threadIds).
Proof.
  intros Hopen Hthreads Hfound. unfold session_setThreads. rewrite Hopen.
  rewrite bool_decide_eq_false_2 by exact Hthreads.
  unfold updatePidControlVariable. eexists. eexists. split; [reflexivity|].
  cbn [mDescriptor with_descriptor thread_ids pidControlVariable is_active
       set_pidControlVariable set_thread_ids mSessionId targetNs].
  split; [reflexivity|]. split; [reflexivity|]. split; [reflexivity|]. split.
  - rewrite touched_voteSet, (touched_setThreadsFromPowerSession env), Hfound.
    unfold touched. rewrite !decide_True by reflexivity.
    cbn [fmap option_fmap option_map]. eexists. split; [reflexivity|].
    cbn [votes isActive set_lastUpdatedTime set_votes set_isActive].
    split; [reflexivity|]. unfold Votes.add. split.
    + rewrite lookup_insert_eq. reflexivity.
    + intros k Hk. rewrite lookup_insert_ne by congruence. reflexivity.
  - rewrite (getTaskIds_voteSet env dead sched_setattr_dead).
    rewrite (getTaskIds_setThreadsFromPowerSession env dead sched_setattr_dead), Hfound.
    rewrite bool_decide_eq_true_2 by reflexivity. cbn [andb].
    destruct (mUclampMinOn _); [|reflexivity]. apply filter_filter_same.
Qed.

End InterfaceFacts.

(** Session 1 of the manager with one session, on thread 7, asked to prefer
    power efficiency, twice. *)
Lemma setPreferPowerEfficiency_sets_witness :
  setPreferPowerEfficiency (Fixture.env Fixture.plain) 1 true 20
    (setPreferPowerEfficiency (Fixture.env Fixture.plain) 1 true 10 Fixture.oneSession)
  = setPreferPowerEfficiency (Fixture.env Fixture.plain) 1 true 10 Fixture.oneSession.
Proof.
  exact (proj2 (proj2 (proj2 (proj2 (proj2
           (setPreferPowerEfficiency_sets (Fixture.env Fixture.plain) (fun tid => tid =? 13)
              (fun tid _ _ => ltac:(cbn; destruct (tid =? 13); reflexivity))
              1 true 10 20 Fixture.oneSession (Fixture.voting 200 800 false) eq_refl)))))).
Defined.

(** Session 1, paused, given threads 9 and 13. *)
Lemma session_setThreads_installs_witness :
  exists s' m',
    session_setThreads (Fixture.env Fixture.plain) [9; 13] 10
      (Fixture.session1 Fixture.plain false false) Fixture.oneSession = (EX_NONE, s', m') /\
    is_active (mDescriptor s') = false /\
    (exists entry',
       SessionTaskMap.findSession 1 (mSessionTaskMap m') = Some entry' /\
       isActive entry' = true) /\
    SessionTaskMap.getTaskIds 1 (mSessionTaskMap m') = [9].
Proof.
  destruct (session_setThreads_installs (Fixture.env Fixture.plain) (fun tid => tid =? 13)
              (fun tid _ _ => ltac:(cbn; destruct (tid =? 13); reflexivity))
              [9; 13] 10 (Fixture.session1 Fixture.plain false false) Fixture.oneSession
              (Fixture.voting 200 800 false) eq_refl ltac:(discriminate) eq_refl)
    as (s' & m' & Hcall & _ & _ & Hactive & (entry' & Hfound & Hentry & _) & Htasks).
  exists s', m'. split; [exact Hcall|]. split; [exact Hactive|].
  split; [exists entry'; split; [exact Hfound | exact Hentry]|]. exact Htasks.
Defined.

(** ** Hints *)

Section HintFacts.

Context {SessionRecords : Type} (env : Collaborators SessionRecords).
Variable isHintSupported : string -> bool.

Lemma asked_app l1 l2 : asked (l1 ++ l2) = asked l1 ++ asked l2.
Proof. apply omap_app. Qed.

Lemma sent_app l1 l2 : sent (l1 ++ l2) = sent l1 ++ sent l2.
Proof. apply omap_app. Qed.

Lemma asked_one hint : asked [AskHintSupported hint] = [hint].
Proof. reflexivity. Qed.

Lemma asked_none hint : asked [DoHintNamed hint] = [].
Proof. reflexivity. Qed.

Lemma sent_one hint : sent [DoHintNamed hint] = [hint].
Proof. reflexivity. Qed.

Lemma sent_none hint : sent [AskHintSupported hint] = [].
Proof. reflexivity. Qed.

Lemma cache_coherent_sent (x : SessionObject SessionRecords) hint :
  cache_coherent isHintSupported x ->
  mSupportedHints x !! hint = Some true ->
  cache_coherent isHintSupported
    {| session := session x;
       mModes_POWER_EFFICIENCY := mModes_POWER_EFFICIENCY x;
       mSupportedHints := mSupportedHints x;
       hintManagerCalls := hintManagerCalls x ++ [DoHintNamed hint] |}.
Proof.
  intros (Hnodup & Hdom & Hanswer & Hsent) Hcached. unfold cache_coherent.
  cbn [hintManagerCalls mSupportedHints]. rewrite asked_app, sent_app.
  rewrite asked_none, sent_one, app_nil_r.
  split; [exact Hnodup|]. split; [exact Hdom|]. split; [exact Hanswer|].
  intros h Hin. apply elem_of_app in Hin as [Hin|Hin]; [apply Hsent, Hin|].
  apply list_elem_of_singleton in Hin. subst h. split.
  - symmetry. apply Hanswer, Hcached.
  - apply Hdom. eauto.
Qed.

Lemma cache_coherent_asked (x : SessionObject SessionRecords) hint :
  cache_coherent isHintSupported x ->
  mSupportedHints x !! hint = None ->
  cache_coherent isHintSupported
    {| session := session x;
       mModes_POWER_EFFICIENCY := mModes_POWER_EFFICIENCY x;
       mSupportedHints := <[hint := isHintSupported hint]> (mSupportedHints x);
       hintManagerCalls := hintManagerCalls x ++ [AskHintSupported hint] |}.
Proof.
  intros (Hnodup & Hdom & Hanswer & Hsent) Hcached.
  assert (Hfresh : hint ∉ asked (hintManagerCalls x)).
  { intros Hin. apply Hdom in Hin as [b Hb]. congruence. }
  unfold cache_coherent. cbn [hintManagerCalls mSupportedHints].
  rewrite asked_app, sent_app, asked_one, sent_none, app_nil_r.
  split; [|split; [|split]].
  - apply NoDup_app. split; [exact Hnodup|]. split.
    + intros h Hin Hin'. apply list_elem_of_singleton in Hin'. subst h. contradiction.
    + apply NoDup_singleton.
  - intros h. rewrite elem_of_app, list_elem_of_singleton.
    destruct (decide (h = hint)) as [->|Hne].
    + rewrite lookup_insert_eq. split; [auto | eauto].
    + rewrite lookup_insert_ne by congruence. rewrite Hdom. tauto.
  - intros h b. destruct (decide (h = hint)) as [->|Hne].
    + rewrite lookup_insert_eq. congruence.
    + rewrite lookup_insert_ne by congruence. apply Hanswer.
  - intros h Hin. destruct (Hsent h Hin) as [Hsupported Hasked].
    split; [exact Hsupported|]. apply elem_of_app. auto.
Qed.

Lemma tryToSendPowerHint_coherent hint (x : SessionObject SessionRecords) :
  cache_coherent isHintSupported x ->
  cache_coherent isHintSupported (tryToSendPowerHint isHintSupported hint x).
Proof.
  intros Hx. unfold tryToSendPowerHint.
  destruct (mSupportedHints x !! hint) as [b|] eqn:Hcached.
  - rewrite Hcached. destruct b; [|exact Hx]. apply cache_coherent_sent; assumption.
  - cbn [mSupportedHints]. rewrite lookup_insert_eq.
    pose proof (cache_coherent_asked x hint Hx Hcached) as Hasked.
    destruct (isHintSupported hint) eqn:Hsupported; [|exact Hasked].
    apply (cache_coherent_sent _ hint) in Hasked; [exact Hasked|].
    cbn [mSupportedHints]. rewrite lookup_insert_eq. reflexivity.
Qed.

Lemma sendHint_switch_cache hint now (x x1 : SessionObject SessionRecords) m m1 :
  sendHint_switch env hint now x m = Some (x1, m1) ->
  mSupportedHints x1 = mSupportedHints x /\ hintManagerCalls x1 = hintManagerCalls x.
Proof.
  unfold sendHint_switch, session_setMode, updatePidControlVariable.
  destruct hint; try (intros [= <- _]; split; reflexivity); try discriminate.
  destruct (mSessionClosed (session x)); intros [= <- _]; split; reflexivity.
Qed.

Lemma sendHint_coherent hint now (x : SessionObject SessionRecords) m :
  cache_coherent isHintSupported x ->
  cache_coherent isHintSupported (sendHint env isHintSupported hint now x m).1.2.
Proof.
  intros Hx. unfold sendHint.
  destruct (mSessionClosed (session x)); [exact Hx|].
  destruct (targetNs (mDescriptor (session x)) =? 0); [exact Hx|].
  destruct (sendHint_switch env hint now x m) as [[x1 m1]|] eqn:Hswitch; [|exact Hx].
  cbn [fst snd]. apply tryToSendPowerHint_coherent.
  apply sendHint_switch_cache in Hswitch as [Hcache Hcalls].
  unfold cache_coherent, with_session. cbn [mSupportedHints hintManagerCalls].
  rewrite Hcache, Hcalls. exact Hx.
Qed.

Lemma sendHints_coherent calls (x : SessionObject SessionRecords) m :
  cache_coherent isHintSupported x ->
  cache_coherent isHintSupported (sendHints env isHintSupported calls x m).1.
Proof.
  revert x m. induction calls as [|[hint now] rest IH]; intros x m Hx; [exact Hx|].
  cbn [sendHints]. pose proof (sendHint_coherent hint now x m Hx) as Hx1.
  destruct (sendHint env isHintSupported hint now x m) as [[status x1] m1].
  apply IH, Hx1.
Qed.

(** X16.  Over any sequence of [sendHint] calls on a session object that
    starts with an empty cache, the hint manager is asked at most once
    whether a hint is supported, the cache holds its answers, and a hint is
    sent only if the hint manager supports it and has been asked. *)
Theorem sendHints_ask_once
    (calls : list (SessionHint.t * Z)) (x : SessionObject SessionRecords)
    (m : PowerSessionManager) :
  mSupportedHints x = ∅ ->
  hintManagerCalls x = [] ->
  let x' := (sendHints env isHintSupported calls x m).1 in
  NoDup (asked (hintManagerCalls x')) /\
  (forall hint b, mSupportedHints x' !! hint = Some b -> b = isHintSupported hint) /\
  (forall hint,
     hint ∈ sent (hintManagerCalls x') ->
     isHintSupported hint = true /\ hint ∈ asked (hintManagerCalls x')).
Proof.
  intros Hcache Hcalls x'.
  assert (Hstart : cache_coherent isHintSupported x).
  { unfold cache_coherent. rewrite Hcache, Hcalls. cbn [asked sent omap].
    split; [apply NoDup_nil; exact I|]. split; [|split].
    - intros hint. rewrite lookup_empty. split; [intros [? ?]; discriminate|].
      intros Hin. apply elem_of_nil in Hin. contradiction.
    - intros hint b. rewrite lookup_empty. discriminate.
    - intros hint Hin. apply elem_of_nil in Hin. contradiction. }
  destruct (sendHints_coherent calls x m Hstart) as (Hnodup & _ & Hanswer & Hsent).
  auto.
Qed.

End HintFacts.

(** Session 1 sends the load-up hint twice to a hint manager that supports
    it: the second call does not ask again. *)
Lemma sendHints_ask_once_witness :
  NoDup
    (asked
       (hintManagerCalls
          (sendHints (Fixture.env Fixture.plain) (fun hint => String.eqb hint "CPU_LOAD_UP")
             [(SessionHint.CPU_LOAD_UP, 1); (SessionHint.CPU_LOAD_UP, 2)]
             (object1 Fixture.plain true false) Fixture.oneSession).1)).
Proof.
  exact (proj1 (sendHints_ask_once (Fixture.env Fixture.plain)
                  (fun hint => String.eqb hint "CPU_LOAD_UP")
                  [(SessionHint.CPU_LOAD_UP, 1); (SessionHint.CPU_LOAD_UP, 2)]
                  (object1 Fixture.plain true false) Fixture.oneSession eq_refl eq_refl)).
Defined.

Section HintCases.

Context {SessionRecords : Type} (env : Collaborators SessionRecords).
Variable isHintSupported : string -> bool.

Lemma tryToSendPowerHint_session hint (x : SessionObject SessionRecords) :
  session (tryToSendPowerHint isHintSupported hint x) = session x /\
  mModes_POWER_EFFICIENCY (tryToSendPowerHint isHintSupported hint x)
  = mModes_POWER_EFFICIENCY x.
Proof.
  unfold tryToSendPowerHint.
  destruct (mSupportedHints x !! hint) as [b|] eqn:Hcached.
  - rewrite Hcached. destruct b; split; reflexivity.
  - cbn [mSupportedHints]. rewrite lookup_insert_eq.
    destruct (isHintSupported hint); split; reflexivity.
Qed.

(** X17.  The load-reset hint on an open session with a target never lowers
    the control variable: it becomes the larger of [mUclampMinInit] and its
    previous value (both taken as 32-bit values that are not negative).
    The manager's default vote is left as it was, so it may now be below the
    control variable; the load-reset vote is cast at [mUclampMinLoadReset]
    for half the stale time. *)
Theorem sendHint_load_reset_raises
    (now : Z) (x : SessionObject SessionRecords) (m : PowerSessionManager)
    (entry : SessionValueEntry) :
  let s := session x in
  let adpfConfig := getAdpfProfile env s in
  mSessionClosed s = false ->
  targetNs (mDescriptor s) <> 0 ->
  0 <= pidControlVariable (mDescriptor s) <= INT32_MAX ->
  0 <= mUclampMinInit adpfConfig <= INT32_MAX ->
  SessionTaskMap.findSession (mSessionId s) (mSessionTaskMap m) = Some entry ->
  exists x' m',
    sendHint env isHintSupported SessionHint.CPU_LOAD_RESET now x m = (EX_NONE, x', m') /\
    pidControlVariable (mDescriptor (session x'))
    = Z.max (mUclampMinInit adpfConfig) (pidControlVariable (mDescriptor s)) /\
    mLastUpdatedTime (session x') = now /\
    exists entry',
      SessionTaskMap.findSession (mSessionId s) (mSessionTaskMap m') = Some entry' /\
      votes entry' !! underlying CPU_VOTE_DEFAULT = votes entry !! underlying CPU_VOTE_DEFAULT /\
      votes entry' !! underlying CPU_LOAD_RESET
      = Some {| voteActive := true; startTime := now;
                durationNs :=
                  Double.to_int64
                    (PrimFloat.div
                       (PrimFloat.mul (Double.of_Z (targetNs (mDescriptor s)))
                          (mStaleTimeFactor adpfConfig)) 2%float);
                voteValue :=
                  CpuRange (to_int32 (mUclampMinLoadReset adpfConfig)) (kUclampMax env) |}.
Proof.
  intros s adpfConfig Hopen Htarget Hpcv Hinit Hfound. unfold sendHint. fold s.
  rewrite Hopen. destruct (Z.eqb_spec (targetNs (mDescriptor s)) 0); [contradiction|].
  unfold sendHint_switch, updatePidControlVariable. fold s. fold adpfConfig.
  eexists. eexists. split; [reflexivity|].
  rewrite !(proj1 (tryToSendPowerHint_session _ _)).
  cbn [session with_session mDescriptor with_descriptor set_mLastUpdatedTime
       pidControlVariable set_pidControlVariable mLastUpdatedTime].
  split; [|split; [reflexivity|]].
  - unfold INT32_MAX in *. rewrite (to_uint32_id (pidControlVariable (mDescriptor s)))
      by (unfold UINT32_MAX; lia).
    apply to_int32_id. unfold INT32_MIN, INT32_MAX. lia.
  - rewrite touched_voteSet, Hfound. unfold touched. rewrite decide_True by reflexivity.
    cbn [fmap option_fmap option_map]. eexists. split; [reflexivity|].
    cbn [votes set_lastUpdatedTime set_votes]. unfold Votes.add. cbn [underlying]. split.
    + rewrite lookup_insert_ne by lia. reflexivity.
    + rewrite lookup_insert_eq. reflexivity.
Qed.

(** X18.  A session that has been closed is inert: every later call on it,
    whatever its arguments, returns [EX_ILLEGAL_STATE] and leaves the
    session, the session object and the manager as the close left them. *)
Theorem close_is_final
    (now : Z) (s s' : PowerHintSession SessionRecords) (m m' : PowerSessionManager)
    (hm hm' : HintManager) :
  close env now s m hm = (EX_NONE, s', m', hm') ->
  (forall t, session_pause env t s' m' = (EX_ILLEGAL_STATE, s', m')) /\
  (forall t, session_resume env t s' m' = (EX_ILLEGAL_STATE, s', m')) /\
  (forall t hm'', close env t s' m' hm'' = (EX_ILLEGAL_STATE, s', m', hm'')) /\
  (forall targetDurationNanos,
     session_updateTargetWorkDuration env targetDurationNanos s' m'
     = (EX_ILLEGAL_STATE, s', m')) /\
  (forall actualDurations t,
     reportActualWorkDuration env actualDurations t s' m'
     = Some (EX_ILLEGAL_STATE, s', m')) /\
  (forall threadIds t,
     session_setThreads env threadIds t s' m' = (EX_ILLEGAL_STATE, s', m')) /\
  (forall x mode enabled t,
     session x = s' ->
     session_setMode env mode enabled t x m' = (EX_ILLEGAL_STATE, x, m')) /\
  (forall x hint t,
     session x = s' ->
     sendHint env isHintSupported hint t x m' = (EX_ILLEGAL_STATE, x, m')) /\
  SessionTaskMap.findSession (mSessionId s) (mSessionTaskMap m') = None.
Proof.
  unfold close. destruct (mSessionClosed s) eqn:Hopen; [discriminate|].
  intros [= <- <- _].
  repeat split; intros;
    unfold session_pause, session_resume, close, session_updateTargetWorkDuration,
      reportActualWorkDuration, session_setThreads, session_setMode, sendHint;
    try match goal with H : session _ = _ |- _ => rewrite H end;
    try reflexivity.
  apply removePowerSession_findSession.
Qed.

End HintCases.

(** Session 1 at control variable 100, with [mUclampMinInit] at 100. *)
Lemma sendHint_load_reset_raises_witness :
  exists x' m',
    sendHint (Fixture.env Fixture.plain) (fun _ => false) SessionHint.CPU_LOAD_RESET 10
      (object1 Fixture.plain true false) Fixture.oneSession = (EX_NONE, x', m') /\
    pidControlVariable (mDescriptor (session x')) = 100.
Proof.
  destruct (sendHint_load_reset_raises (Fixture.env Fixture.plain) (fun _ => false) 10
              (object1 Fixture.plain true false) Fixture.oneSession
              (Fixture.voting 200 800 false) eq_refl ltac:(discriminate)
              ltac:(vm_compute; split; discriminate) ltac:(vm_compute; split; discriminate)
              eq_refl)
    as (x' & m' & Hcall & Hpcv & _).
  exists x', m'. split; [exact Hcall | exact Hpcv].
Defined.

(** Session 1 once closed. *)
Lemma close_is_final_witness :
  session_pause (Fixture.env Fixture.plain) 20
    (close (Fixture.env Fixture.plain) 10 (Fixture.session1 Fixture.plain true false)
       Fixture.oneSession profiles).1.1.2
    (close (Fixture.env Fixture.plain) 10 (Fixture.session1 Fixture.plain true false)
       Fixture.oneSession profiles).1.2
  = (EX_ILLEGAL_STATE,
     (close (Fixture.env Fixture.plain) 10 (Fixture.session1 Fixture.plain true false)
        Fixture.oneSession profiles).1.1.2,
     (close (Fixture.env Fixture.plain) 10 (Fixture.session1 Fixture.plain true false)
        Fixture.oneSession profiles).1.2).
Proof.
  exact (proj1 (close_is_final (Fixture.env Fixture.plain) (fun _ => false) 10
                  (Fixture.session1 Fixture.plain true false) _ Fixture.oneSession _
                  profiles _ eq_refl) 20).
Defined.

(** ** The profiles of the hint manager *)

Lemma find_profile_found name i adpfs j profile :
  HintManager.find_profile name i adpfs = Some (j, profile) ->
  i <= j < i + Z.of_nat (length adpfs) /\
  adpfs !! Z.to_nat (j - i) = Some profile /\
  profile.1 = name /\
  forall k earlier, (k < Z.to_nat (j - i))%nat -> adpfs !! k = Some earlier -> earlier.1 <> name.
Proof.
  revert i. induction adpfs as [|first rest IH]; intros i; [discriminate|].
  cbn [HintManager.find_profile].
  destruct (String.eqb_spec first.1 name) as [Hname|Hname].
  - intros [= <- <-]. rewrite Z.sub_diag. cbn [length].
    split; [lia|]. split; [reflexivity|]. split; [exact Hname|]. intros k earlier Hk. lia.
  - intros Hfound. destruct (IH (i + 1) Hfound) as (Hrange & Hat & Hprofile & Hfirst).
    cbn [length]. split; [lia|].
    replace (Z.to_nat (j - i)) with (S (Z.to_nat (j - (i + 1)))) by lia.
    split; [exact Hat|]. split; [exact Hprofile|].
    intros [|k] earlier Hk Hlookup.
    + injection Hlookup as <-. exact Hname.
    + apply (Hfirst k earlier); [lia | exact Hlookup].
Qed.

Lemma find_profile_missing name i adpfs :
  HintManager.find_profile name i adpfs = None ->
  forall profile, profile ∈ adpfs -> profile.1 <> name.
Proof.
  revert i. induction adpfs as [|first rest IH]; intros i Hnone profile Hin.
  - apply elem_of_nil in Hin. contradiction.
  - cbn [HintManager.find_profile] in Hnone.
    destruct (String.eqb_spec first.1 name) as [Hname|Hname]; [discriminate|].
    apply elem_of_cons in Hin as [->|Hin]; [exact Hname|]. apply (IH (i + 1)); assumption.
Qed.

Lemma SetAdpfProfileFromDoHint_found name hm j profile :
  Z.of_nat (length (adpfs_ hm)) <= UINT32_MAX ->
  HintManager.find_profile name 0 (adpfs_ hm) = Some (j, profile) ->
  let hm' := (HintManager.SetAdpfProfileFromDoHint name hm).2 in
  adpfs_ hm' = adpfs_ hm /\ tag_profile_map_ hm' = tag_profile_map_ hm /\
  tag_update_callback_list_ hm' = tag_update_callback_list_ hm /\
  adpf_index_ hm' = j /\
  HintManager.GetAdpfProfileFromDoHint hm' = Some profile.
Proof.
  intros Hsize Hfound hm'. subst hm'. unfold HintManager.SetAdpfProfileFromDoHint.
  rewrite Hfound. apply find_profile_found in Hfound as (Hrange & Hat & _ & _).
  rewrite Z.sub_0_r in Hat.
  assert (Hj : to_uint32 j = j) by (apply to_uint32_id; lia).
  unfold HintManager.GetAdpfProfileFromDoHint.
  destruct (Z.eqb_spec (adpf_index_ hm) j) as [Hsame|Hother]; cbn [negb snd];
    cbn [adpfs_ tag_profile_map_ tag_update_callback_list_ adpf_index_];
    rewrite ?Hj, ?Hsame, Hat; destruct (adpfs_ hm); try discriminate; auto.
Qed.

Lemma SetAdpfProfileFromDoHint_in_range name hm :
  Z.of_nat (length (adpfs_ hm)) <= UINT32_MAX ->
  index_in_range hm ->
  index_in_range (HintManager.SetAdpfProfileFromDoHint name hm).2 /\
  adpfs_ (HintManager.SetAdpfProfileFromDoHint name hm).2 = adpfs_ hm /\
  forall tag,
    is_Some (tag_profile_map_ (HintManager.SetAdpfProfileFromDoHint name hm).2 !! tag)
    <-> is_Some (tag_profile_map_ hm !! tag).
Proof.
  intros Hsize Hrange.
  destruct (HintManager.find_profile name 0 (adpfs_ hm)) as [[j profile]|] eqn:Hfound.
  - destruct (SetAdpfProfileFromDoHint_found name hm j profile Hsize Hfound)
      as (Hadpfs & Htags & _ & Hindex & _).
    apply find_profile_found in Hfound as (Hj & _).
    unfold index_in_range. rewrite Hadpfs, Htags, Hindex. split; [lia|]. tauto.
  - unfold HintManager.SetAdpfProfileFromDoHint. rewrite Hfound. cbn [snd]. tauto.
Qed.

Lemma SetAdpfProfile_in_range tag profile hm :
  index_in_range hm ->
  index_in_range (HintManager.SetAdpfProfile tag profile hm).2 /\
  adpfs_ (HintManager.SetAdpfProfile tag profile hm).2 = adpfs_ hm /\
  forall tag',
    is_Some (tag_profile_map_ (HintManager.SetAdpfProfile tag profile hm).2 !! tag')
    <-> is_Some (tag_profile_map_ hm !! tag').
Proof.
  intros Hrange. unfold HintManager.SetAdpfProfile.
  destruct (tag_profile_map_ hm !! tag) as [current|] eqn:Hcurrent; [|cbn [snd]; tauto].
  destruct (String.eqb current.1 profile); [cbn [snd]; tauto|].
  destruct (HintManager.find_profile profile 0 (adpfs_ hm)) as [[j found]|];
    [|cbn [snd]; tauto].
  cbn [snd]. split; [exact Hrange|]. split; [reflexivity|].
  intros tag'. cbn [tag_profile_map_]. destruct (decide (tag' = tag)) as [->|Hne].
  - rewrite lookup_insert_eq, ?Hcurrent. split; eauto.
  - rewrite lookup_insert_ne by congruence. tauto.
Qed.

Lemma apply_op_in_range op hm :
  Z.of_nat (length (adpfs_ hm)) <= UINT32_MAX ->
  index_in_range hm ->
  index_in_range (apply_op op hm) /\ adpfs_ (apply_op op hm) = adpfs_ hm /\
  forall tag,
    is_Some (tag_profile_map_ (apply_op op hm) !! tag)
    <-> is_Some (tag_profile_map_ hm !! tag).
Proof.
  intros Hsize Hrange. destruct op as [name|tag profile|mode enabled|tag f|tag f];
    cbn [apply_op].
  - apply SetAdpfProfileFromDoHint_in_range; assumption.
  - apply SetAdpfProfile_in_range; assumption.
  - unfold updateHintMode. destruct (enabled && _);
      [apply SetAdpfProfileFromDoHint_in_range; assumption|].
    split; [exact Hrange | split; [reflexivity | tauto]].
  - split; [exact Hrange | split; [reflexivity | tauto]].
  - split; [exact Hrange | split; [reflexivity | tauto]].
Qed.

Lemma GetAdpfProfile_in_range tag hm :
  index_in_range hm ->
  HintManager.IsAdpfSupported hm = true ->
  is_Some (HintManager.GetAdpfProfileFromDoHint hm) /\
  is_Some (HintManager.GetAdpfProfile tag hm).
Proof.
  unfold index_in_range, HintManager.IsAdpfSupported, HintManager.GetAdpfProfile,
    HintManager.GetAdpfProfileFromDoHint.
  intros Hrange Hsupported. destruct (adpfs_ hm) as [|first rest] eqn:Hadpfs; [discriminate|].
  assert (Hat : is_Some ((first :: rest) !! Z.to_nat (adpf_index_ hm))).
  { apply lookup_lt_is_Some. rewrite <- Hadpfs. cbn [length] in Hrange. 
    rewrite Hadpfs. cbn [length]. lia. }
  split; [exact Hat|]. destruct (tag_profile_map_ hm !! tag); [eauto | exact Hat].
Qed.

(** X19.  While ADPF is supported, a session never gets a null profile: from
    the constructor on and over any sequence of profile selections, hint
    mode updates and callback registrations, [adpf_index_] stays an index
    of [adpfs_], and both [GetAdpfProfileFromDoHint] and [GetAdpfProfile],
    for any tag, return a profile. *)
Theorem GetAdpfProfile_never_null
    (adpfs : list NamedProfile) (tag_adpfs : gmap string NamedProfile)
    (ops : list ProfileOp) (tag : string) :
  adpfs <> [] ->
  Z.of_nat (length adpfs) <= UINT32_MAX ->
  let hm := foldl (fun hm op => apply_op op hm) (HintManager.new adpfs tag_adpfs) ops in
  HintManager.IsAdpfSupported hm = true /\
  0 <= adpf_index_ hm < Z.of_nat (length (adpfs_ hm)) /\
  is_Some (HintManager.GetAdpfProfileFromDoHint hm) /\
  is_Some (HintManager.GetAdpfProfile tag hm).
Proof.
  intros Hadpfs Hsize hm.
  assert (Hall : index_in_range hm /\ adpfs_ hm = adpfs).
  { subst hm. induction ops as [|op ops IH] using rev_ind.
    - split; [|reflexivity]. unfold index_in_range. cbn. lia.
    - rewrite foldl_app. cbn [foldl]. destruct IH as [Hrange Hsame].
      destruct (apply_op_in_range op _ ltac:(rewrite Hsame; exact Hsize) Hrange)
        as (Hrange' & Hsame' & _).
      split; [exact Hrange' | congruence]. }
  destruct Hall as [Hrange Hsame].
  assert (Hsupported : HintManager.IsAdpfSupported hm = true).
  { unfold HintManager.IsAdpfSupported. rewrite Hsame.
    destruct adpfs; [contradiction | reflexivity]. }
  split; [exact Hsupported|]. split.
  - unfold index_in_range in Hrange. rewrite Hsame in *.
    destruct adpfs; [contradiction|]. cbn [length] in *. lia.
  - apply GetAdpfProfile_in_range; assumption.
Qed.

(** X20.  [SetAdpfProfileFromDoHint] succeeds exactly when a profile of the
    name exists.  On failure the hint manager is unchanged.  On success the
    default profile is the first one of that name in [adpfs_], which every
    tag without a profile of its own then gets from [GetAdpfProfile]; the
    tags with a profile of their own keep it. *)
Theorem SetAdpfProfileFromDoHint_selects (profile_name : string) (hm : HintManager) :
  Z.of_nat (length (adpfs_ hm)) <= UINT32_MAX ->
  let result := HintManager.SetAdpfProfileFromDoHint profile_name hm in
  result.1 = HintManager.IsAdpfProfileSupported profile_name hm /\
  (result.1 = false -> result.2 = hm) /\
  (result.1 = true ->
   exists i profile,
     HintManager.GetAdpfProfileFromDoHint result.2 = Some profile /\
     profile.1 = profile_name /\
     adpfs_ hm !! i = Some profile /\
     (forall k earlier, (k < i)%nat -> adpfs_ hm !! k = Some earlier ->
        earlier.1 <> profile_name) /\
     forall tag,
       HintManager.GetAdpfProfile tag result.2
       = match tag_profile_map_ hm !! tag with
         | Some own => Some own
         | None => Some profile
         end).
Proof.
  intros Hsize result.
  destruct (HintManager.find_profile profile_name 0 (adpfs_ hm)) as [[j profile]|] eqn:Hfound.
  - destruct (SetAdpfProfileFromDoHint_found profile_name hm j profile Hsize Hfound)
      as (Hadpfs & Htags & _ & _ & Hdefault).
    assert (Hok : result.1 = true).
    { subst result. unfold HintManager.SetAdpfProfileFromDoHint. rewrite Hfound.
      reflexivity. }
    split; [rewrite Hok; unfold HintManager.IsAdpfProfileSupported; rewrite Hfound;
            reflexivity|].
    split; [congruence|]. intros _.
    apply find_profile_found in Hfound as (_ & Hat & Hname & Hfirst).
    exists (Z.to_nat (j - 0)), profile. split; [exact Hdefault|]. split; [exact Hname|].
    split; [exact Hat|]. split; [exact Hfirst|].
    intros tag. unfold HintManager.GetAdpfProfile. subst result. rewrite Hadpfs, Htags.
    destruct (adpfs_ hm); [rewrite lookup_nil in Hat; discriminate|].
    destruct (tag_profile_map_ hm !! tag); [reflexivity | exact Hdefault].
  - subst result. unfold HintManager.SetAdpfProfileFromDoHint,
      HintManager.IsAdpfProfileSupported. rewrite Hfound. cbn [fst snd].
    split; [reflexivity|]. split; [reflexivity | discriminate].
Qed.

(** X21.  [SetAdpfProfile] fails, and changes nothing, for a tag that has no
    profile of its own or a profile name that does not exist.  Otherwise it
    succeeds, and then [GetAdpfProfile] of the tag is a profile of that
    name (the one the tag had if it already had the name, else the first of
    the name in [adpfs_]).  The default profile and the profiles of the
    other tags are never affected. *)
Theorem SetAdpfProfile_sets (tag profile : string) (hm : HintManager) :
  adpfs_ hm <> [] ->
  let result := HintManager.SetAdpfProfile tag profile hm in
  (result.1 = false -> result.2 = hm) /\
  (result.1 = true <->
   exists current,
     tag_profile_map_ hm !! tag = Some current /\
     (current.1 = profile \/ HintManager.IsAdpfProfileSupported profile hm = true)) /\
  (result.1 = true ->
   exists selected,
     HintManager.GetAdpfProfile tag result.2 = Some selected /\ selected.1 = profile /\
     (tag_profile_map_ hm !! tag = Some selected \/ selected ∈ adpfs_ hm)) /\
  HintManager.GetAdpfProfileFromDoHint result.2 = HintManager.GetAdpfProfileFromDoHint hm /\
  (forall tag', tag' <> tag ->
     HintManager.GetAdpfProfile tag' result.2 = HintManager.GetAdpfProfile tag' hm).
Proof.
  intros Hadpfs result. subst result.
  unfold HintManager.SetAdpfProfile, HintManager.IsAdpfProfileSupported.
  destruct (tag_profile_map_ hm !! tag) as [current|] eqn:Hcurrent.
  - destruct (String.eqb_spec current.1 profile) as [Hname|Hname]; cbn [fst snd].
    + split; [discriminate|]. split; [split; [eauto | reflexivity]|].
      split; [|split; reflexivity]. intros _. exists current.
      unfold HintManager.GetAdpfProfile.
      destruct (adpfs_ hm); [contradiction|]. rewrite Hcurrent. auto.
    + destruct (HintManager.find_profile profile 0 (adpfs_ hm)) as [[j found]|] eqn:Hfound;
        cbn [fst snd].
      * split; [discriminate|]. split; [split; [eauto | reflexivity]|].
        apply find_profile_found in Hfound as (_ & Hat & Hfoundname & _).
        split; [|split].
        -- intros _. exists found. unfold HintManager.GetAdpfProfile.
           cbn [adpfs_ tag_profile_map_]. rewrite lookup_insert_eq.
           destruct (adpfs_ hm); [contradiction|]. split; [reflexivity|].
           split; [exact Hfoundname|]. right. eapply list_elem_of_lookup_2, Hat.
        -- reflexivity.
        -- intros tag' Hne. unfold HintManager.GetAdpfProfile.
           cbn [adpfs_ tag_profile_map_]. rewrite lookup_insert_ne by congruence.
           reflexivity.
      * split; [reflexivity|]. split.
        { split; [discriminate|]. intros (current' & [= <-] & [Hsame|Hsupported]);
            [contradiction | discriminate]. }
        split; [discriminate|]. split; reflexivity.
  - cbn [fst snd]. split; [reflexivity|]. split.
    { split; [discriminate|]. intros (current & Hsome & _). discriminate. }
    split; [discriminate|]. split; reflexivity.
Qed.

(** Selecting the profile named after a mode, then another that does not
    exist. *)
Lemma GetAdpfProfile_never_null_witness :
  is_Some
    (HintManager.GetAdpfProfile "HWUI"
       (foldl (fun hm op => apply_op op hm) profiles
          [OpUpdateHintMode "GAME_LOADING" true; OpSetAdpfProfileFromDoHint "LAUNCH"])).
Proof.
  exact (proj2 (proj2 (proj2
           (GetAdpfProfile_never_null
              [("REFRESH_60FPS", Fixture.plain); ("GAME_LOADING", Fixture.hboost 1%float)]
              {[ "SURFACEFLINGER" := ("REFRESH_60FPS", Fixture.plain) ]}
              [OpUpdateHintMode "GAME_LOADING" true; OpSetAdpfProfileFromDoHint "LAUNCH"]
              "HWUI" ltac:(discriminate) ltac:(vm_compute; discriminate))))).
Defined.

Lemma SetAdpfProfileFromDoHint_selects_witness :
  (HintManager.SetAdpfProfileFromDoHint "GAME_LOADING" profiles).1
  = HintManager.IsAdpfProfileSupported "GAME_LOADING" profiles.
Proof.
  exact (proj1 (SetAdpfProfileFromDoHint_selects "GAME_LOADING" profiles
                  ltac:(vm_compute; discriminate))).
Defined.

Lemma SetAdpfProfile_sets_witness :
  HintManager.GetAdpfProfileFromDoHint
    (HintManager.SetAdpfProfile "SURFACEFLINGER" "GAME_LOADING" profiles).2
  = HintManager.GetAdpfProfileFromDoHint profiles.
Proof.
  exact (proj1 (proj2 (proj2 (proj2
           (SetAdpfProfile_sets "SURFACEFLINGER" "GAME_LOADING" profiles
              ltac:(discriminate)))))).
Defined.

(** ** Profile updates reach the sessions *)

Section NotifyFacts.

Context {SessionRecords : Type}.

Lemma foldl_alter_lookup (f : PowerHintSession SessionRecords -> PowerHintSession SessionRecords)
    (callback_list : list Z) (sessions : gmap Z (PowerHintSession SessionRecords)) (id : Z) :
  (forall s, f (f s) = f s) ->
  foldl (fun acc callback => alter f callback acc) sessions callback_list !! id
  = if bool_decide (id ∈ callback_list) then f <$> sessions !! id else sessions !! id.
Proof.
  intros Hidem. revert sessions.
  induction callback_list as [|callback rest IH]; intros sessions.
  - cbn [foldl]. rewrite bool_decide_eq_false_2; [reflexivity|]. apply not_elem_of_nil.
  - cbn [foldl]. rewrite IH. destruct (decide (callback = id)) as [->|Hne].
    + rewrite lookup_alter_eq.
      rewrite (bool_decide_eq_true_2 (id ∈ id :: rest)) by apply list_elem_of_here.
      case_bool_decide; [|reflexivity].
      destruct (sessions !! id); cbn [fmap option_fmap option_map]; [rewrite Hidem|];
        reflexivity.
    + rewrite lookup_alter_ne by exact Hne.
      case_bool_decide as Hrest.
      * rewrite bool_decide_eq_true_2 by (apply list_elem_of_further, Hrest). reflexivity.
      * rewrite bool_decide_eq_false_2; [reflexivity|].
        intros Hin. apply elem_of_cons in Hin as [->|Hin]; contradiction.
Qed.

(** X22.  A node update whose path names a tag ([<AdpfConfig>:tag]) and
    whose value the tag can be switched to gives the new profile to every
    session whose callback is registered for the tag, and to no other; the
    sessions keep everything else.  An update for another path, or one the
    tag cannot be switched to, leaves the sessions and the hint manager as
    they are. *)
Theorem OnNodeUpdate_notifies
    (name path value : string) (hm : HintManager)
    (sessions : gmap Z (PowerHintSession SessionRecords)) :
  let tag :=
    String.substring (String.length kAdpfEventNodePath)
      (String.length path - String.length kAdpfEventNodePath) path in
  let result := OnNodeUpdate name path value hm sessions in
  (String.prefix kAdpfEventNodePath path = false -> result = (hm, sessions)) /\
  (String.prefix kAdpfEventNodePath path = true ->
   (HintManager.SetAdpfProfile tag value hm).1 = false -> result = (hm, sessions)) /\
  (String.prefix kAdpfEventNodePath path = true ->
   (HintManager.SetAdpfProfile tag value hm).1 = true ->
   exists profile,
     HintManager.GetAdpfProfile tag (HintManager.SetAdpfProfile tag value hm).2
     = match adpfs_ hm with [] => None | _ => Some profile end /\
     tag_profile_map_ result.1 !! tag = Some profile /\
     profile.1 = value /\
     forall id,
       result.2 !! id
       = if bool_decide (id ∈ default [] (tag_update_callback_list_ hm !! tag))
         then setAdpfProfile profile.2 <$> sessions !! id
         else sessions !! id).
Proof.
  intros tag result. subst result. unfold OnNodeUpdate. fold tag.
  split; [intros ->; reflexivity|]. split.
  - intros -> Hfailed.
    destruct (HintManager.SetAdpfProfile tag value hm) as [updated hm'] eqn:Hset.
    cbn [fst] in Hfailed. subst updated. cbn [negb].
    unfold HintManager.SetAdpfProfile in Hset.
    destruct (tag_profile_map_ hm !! tag) as [current|]; [|congruence].
    destruct (String.eqb current.1 value); [discriminate|].
    destruct (HintManager.find_profile value 0 (adpfs_ hm)) as [[j found]|];
      [discriminate | congruence].
  - intros -> Hupdated.
    destruct (HintManager.SetAdpfProfile tag value hm) as [updated hm'] eqn:Hset.
    cbn [fst snd] in *. subst updated. cbn [negb].
    assert (Hprofile : exists profile,
               tag_profile_map_ hm' !! tag = Some profile /\ profile.1 = value /\
               tag_update_callback_list_ hm' = tag_update_callback_list_ hm /\
               adpfs_ hm' = adpfs_ hm).
    { unfold HintManager.SetAdpfProfile in Hset.
      destruct (tag_profile_map_ hm !! tag) as [current|] eqn:Hcurrent; [|discriminate].
      destruct (String.eqb_spec current.1 value) as [Hname|Hname].
      - injection Hset as <-. exists current. auto.
      - destruct (HintManager.find_profile value 0 (adpfs_ hm)) as [[j found]|] eqn:Hfound;
          [|discriminate].
        injection Hset as <-. exists found. cbn [tag_profile_map_ tag_update_callback_list_].
        rewrite lookup_insert_eq. apply find_profile_found in Hfound as (_ & _ & Hfound & _).
        auto. }
    destruct Hprofile as (profile & Htag & Hname & Hcallbacks & Hadpfs).
    exists profile. rewrite Htag. cbn [fst snd tag_profile_map_].
    split; [|split; [exact Htag|split; [exact Hname|]]].
    + unfold HintManager.GetAdpfProfile. rewrite Hadpfs, Htag.
      destruct (adpfs_ hm); reflexivity.
    + intros id. rewrite Hcallbacks. apply foldl_alter_lookup. reflexivity.
Qed.

End NotifyFacts.

(** ** The modes of the power HAL *)

Lemma held_app hint calls calls' :
  held hint (calls ++ calls')
  = foldl (fun on c =>
             match c with
             | HintDo h | HintDoFor h _ => if String.eqb h hint then true else on
             | HintEnd h => if String.eqb h hint then false else on
             | _ => on
             end) (held hint calls) calls'.
Proof. unfold held. apply foldl_app. Qed.

Lemma setMode_hintManager type enabled p :
  hintManager (Power.setMode type enabled p)
  = if HintManager.IsAdpfSupported (hintManager p)
    then updateHintMode (Mode.toString type) enabled (hintManager p)
    else hintManager p.
Proof.
  destruct p as [vr sp hm calls]. unfold Power.setMode. cbn [hintManager].
  destruct (HintManager.IsAdpfSupported hm); destruct type, enabled, vr, sp; reflexivity.
Qed.

(** One request keeps the three performance hints in step with the flags. *)
Lemma handle_perf_hints request p :
  held "SUSTAINED_PERFORMANCE" (powerCalls p)
  = mSustainedPerfModeOn p && negb (mVRModeOn p) ->
  held "VR" (powerCalls p) = mVRModeOn p && negb (mSustainedPerfModeOn p) ->
  held "VR_SUSTAINED_PERFORMANCE" (powerCalls p) = mVRModeOn p && mSustainedPerfModeOn p ->
  let q := handle request p in
  mSustainedPerfModeOn q
  = last_request is_SUSTAINED_PERFORMANCE (mSustainedPerfModeOn p) [request] /\
  mVRModeOn q = last_request is_VR (mVRModeOn p) [request] /\
  held "SUSTAINED_PERFORMANCE" (powerCalls q)
  = mSustainedPerfModeOn q && negb (mVRModeOn q) /\
  held "VR" (powerCalls q) = mVRModeOn q && negb (mSustainedPerfModeOn q) /\
  held "VR_SUSTAINED_PERFORMANCE" (powerCalls q) = mVRModeOn q && mSustainedPerfModeOn q.
Proof.
  intros Hsp Hvr Hboth q. subst q. destruct p as [vr sp hm calls].
  cbn [mVRModeOn mSustainedPerfModeOn powerCalls] in Hsp, Hvr, Hboth.
  destruct request as [type enabled|type durationMs]; cbn [handle].
  - unfold Power.setMode. cbn [hintManager].
    destruct (HintManager.IsAdpfSupported hm);
      unfold Power.set_hintManager, Power.call, Power.set_mVRModeOn,
        Power.set_mSustainedPerfModeOn;
      destruct type, enabled, vr, sp;
      cbn [mVRModeOn mSustainedPerfModeOn powerCalls hintManager negb andb orb
           last_request foldl is_SUSTAINED_PERFORMANCE is_VR Mode.toString];
      rewrite ?held_app, ?Hsp, ?Hvr, ?Hboth; repeat split; reflexivity.
  - unfold Power.setBoost, Power.call.
    destruct type, vr, sp;
      cbn [mVRModeOn mSustainedPerfModeOn powerCalls orb last_request foldl];
      try (repeat split; assumption);
      destruct (0 <? durationMs), (durationMs =? 0);
      cbn [mVRModeOn mSustainedPerfModeOn powerCalls Boost.toString];
      rewrite ?held_app, ?Hsp, ?Hvr, ?Hboth; repeat split; reflexivity.
Qed.

(** X23.  From the constructor on and over any sequence of [setMode] and
    [setBoost] requests, the two flags hold the values last requested for
    [SUSTAINED_PERFORMANCE] and [VR] (or those the properties set at
    start), and of the three performance hints exactly the one the flags
    call for is requested and not ended: [VR_SUSTAINED_PERFORMANCE] when
    both are on, [SUSTAINED_PERFORMANCE] or [VR] when one is, none
    otherwise. *)
Theorem Power_perf_hints
    (state audio rendering : string) (hm : HintManager) (requests : list PowerRequest) :
  let p0 := Power.new state audio rendering hm in
  let p := foldl (fun p request => handle request p) p0 requests in
  mSustainedPerfModeOn p
  = last_request is_SUSTAINED_PERFORMANCE (mSustainedPerfModeOn p0) requests /\
  mVRModeOn p = last_request is_VR (mVRModeOn p0) requests /\
  held "SUSTAINED_PERFORMANCE" (powerCalls p)
  = mSustainedPerfModeOn p && negb (mVRModeOn p) /\
  held "VR" (powerCalls p) = mVRModeOn p && negb (mSustainedPerfModeOn p) /\
  held "VR_SUSTAINED_PERFORMANCE" (powerCalls p) = mVRModeOn p && mSustainedPerfModeOn p.
Proof.
  intros p0 p. subst p. induction requests as [|request requests IH] using rev_ind.
  - cbn [foldl last_request]. split; [reflexivity|]. split; [reflexivity|].
    subst p0. unfold Power.new.
    destruct (String.eqb_spec state "SUSTAINED_PERFORMANCE") as [->|_];
      [|destruct (String.eqb_spec state "VR") as [->|_];
        [|destruct (String.eqb_spec state "VR_SUSTAINED_PERFORMANCE") as [->|_]]];
      (destruct (String.eqb_spec audio "AUDIO_STREAMING_LOW_LATENCY") as [->|_]);
      (destruct (String.eqb rendering "EXPENSIVE_RENDERING"));
      repeat split; reflexivity.
  - rewrite foldl_app. cbn [foldl].
    destruct IH as (Hsp & Hvr & Hheld).
    destruct Hheld as (Hheld_sp & Hheld_vr & Hheld_both).
    destruct (handle_perf_hints request _ Hheld_sp Hheld_vr Hheld_both)
      as (Hsp' & Hvr' & Hheld').
    unfold last_request in *. rewrite !foldl_app. cbn [foldl] in *.
    rewrite <- Hsp, <- Hvr. split; [exact Hsp'|]. split; [exact Hvr' | exact Hheld'].
Qed.

(** X24.  [Power::setMode] and the default profile.  Switching a mode off
    never changes the profiles.  Switching on a mode after which a profile
    is named makes the first profile of that name the default one, which
    every tag without a profile of its own then gets; switching on a mode
    without such a profile changes nothing. *)
Theorem setMode_switches_profile (type : Mode.t) (p : Power) :
  Z.of_nat (length (adpfs_ (hintManager p))) <= UINT32_MAX ->
  index_in_range (hintManager p) ->
  hintManager (Power.setMode type false p) = hintManager p /\
  (HintManager.IsAdpfProfileSupported (Mode.toString type) (hintManager p) = false ->
   hintManager (Power.setMode type true p) = hintManager p) /\
  (HintManager.IsAdpfProfileSupported (Mode.toString type) (hintManager p) = true ->
   exists profile,
     profile.1 = Mode.toString type /\ profile ∈ adpfs_ (hintManager p) /\
     HintManager.GetAdpfProfileFromDoHint (hintManager (Power.setMode type true p))
     = Some profile /\
     forall tag,
       tag_profile_map_ (hintManager p) !! tag = None ->
       HintManager.GetAdpfProfile tag (hintManager (Power.setMode type true p))
       = Some profile).
Proof.
  intros Hsize Hrange. rewrite !setMode_hintManager. unfold updateHintMode.
  cbn [andb]. split; [destruct (HintManager.IsAdpfSupported _); reflexivity|].
  unfold HintManager.IsAdpfProfileSupported.
  destruct (HintManager.find_profile (Mode.toString type) 0 (adpfs_ (hintManager p)))
    as [[j profile]|] eqn:Hfound.
  - split; [discriminate|]. intros _.
    destruct (SetAdpfProfileFromDoHint_found _ _ j profile Hsize Hfound)
      as (Hadpfs & Htags & _ & _ & Hdefault).
    pose proof Hfound as Hat. apply find_profile_found in Hat as (_ & Hat & Hname & _).
    assert (Hsupported : HintManager.IsAdpfSupported (hintManager p) = true).
    { unfold HintManager.IsAdpfSupported.
      destruct (adpfs_ (hintManager p)); [discriminate | reflexivity]. }
    rewrite Hsupported.
    destruct (GetAdpfProfile_in_range "" _ Hrange Hsupported) as [Hsome _].
    rewrite bool_decide_eq_true_2 by exact Hsome.
    exists profile. split; [exact Hname|].
    split; [eapply list_elem_of_lookup_2, Hat|]. split; [exact Hdefault|].
    intros tag Hnone. unfold HintManager.GetAdpfProfile. rewrite Hadpfs, Htags, Hnone.
    destruct (adpfs_ (hintManager p)); [discriminate | exact Hdefault].
  - split; [|discriminate]. intros _.
    unfold HintManager.SetAdpfProfileFromDoHint. rewrite Hfound. cbn [snd].
    destruct (HintManager.IsAdpfSupported _); [|reflexivity].
    case_bool_decide; reflexivity.
Qed.

(** The power HAL started in VR mode, over the profiles above. *)
Lemma setMode_switches_profile_witness :
  hintManager (Power.setMode Mode.GAME_LOADING false (Power.new "VR" "" "" profiles))
  = hintManager (Power.new "VR" "" "" profiles).
Proof.
  exact (proj1 (setMode_switches_profile Mode.GAME_LOADING (Power.new "VR" "" "" profiles)
                  ltac:(vm_compute; discriminate) ltac:(vm_compute; split; [discriminate | reflexivity]))).
Defined.

(** ** The derivative term *)

Lemma to_int64_add_l a b : to_int64 (to_int64 a + b) = to_int64 (a + b).
Proof.
  unfold to_int64, wrap_signed.
  replace ((a + 2 ^ (64 - 1)) mod 2 ^ 64 - 2 ^ (64 - 1) + b + 2 ^ (64 - 1))
    with ((a + 2 ^ (64 - 1)) mod 2 ^ 64 + b) by lia.
  rewrite Z.add_mod_idemp_l by lia. f_equal. f_equal. lia.
Qed.

Lemma to_int64_add_r a b : to_int64 (a + to_int64 b) = to_int64 (a + b).
Proof. rewrite (Z.add_comm a), to_int64_add_l. f_equal. lia. Qed.

Section DerivativeFacts.

Context {SessionRecords : Type} (env : Collaborators SessionRecords)
  (adpfConfig : AdpfConfig).

Lemma pid_loop_derivative_before targetDurationNanos dt p_start i_start d_start
    (l : list WorkDuration) :
  forall i acc,
    i + Z.of_nat (length l) <= d_start ->
    derivative_sum
      (pid_loop env adpfConfig targetDurationNanos dt p_start i_start d_start i l acc)
    = derivative_sum acc.
Proof.
  induction l as [|x l IH]; intros i acc Hi; cbn [pid_loop length] in *; [reflexivity|].
  rewrite IH by lia. unfold pid_sample. cbn [derivative_sum].
  destruct (Z.leb_spec d_start i); [lia | reflexivity].
Qed.

Lemma pid_loop_derivative_inside targetDurationNanos dt p_start i_start d_start
    (l : list WorkDuration) :
  forall i acc sample,
    d_start <= i ->
    last l = Some sample ->
    derivative_sum
      (pid_loop env adpfConfig targetDurationNanos dt p_start i_start d_start i l acc)
    = to_int64 (derivative_sum acc
                + (sample_error targetDurationNanos sample - acc_previous_error acc)).
Proof.
  induction l as [|x l IH]; intros i acc sample Hi Hlast; [discriminate|].
  cbn [pid_loop]. destruct l as [|y l].
  - cbn [pid_loop last] in *. injection Hlast as <-. unfold pid_sample.
    cbn [derivative_sum]. destruct (Z.leb_spec d_start i); [|lia].
    apply to_int64_add_r.
  - change (last (x :: y :: l)) with (last (y :: l)) in Hlast.
    rewrite (IH (i + 1) _ sample) by (lia || exact Hlast).
    unfold pid_sample at 1 2. cbn [derivative_sum acc_previous_error].
    destruct (Z.leb_spec d_start i); [|lia].
    rewrite to_int64_add_l.
    match goal with
    | |- to_int64 (?a + to_int64 ?b + ?c) = _ =>
        replace (a + to_int64 b + c) with (a + c + to_int64 b) by lia
    end.
    rewrite to_int64_add_r. f_equal. unfold sample_error. lia.
Qed.

(** X25.  Of a batch, the derivative sum the loop leaves telescopes: it is
    the error of the last sample less the error in force when the D window
    starts, which is the error of the sample just before the window when the
    loop visits it, and the previous error of the descriptor otherwise; the
    difference is taken in 64 bits. *)
Theorem pid_run_derivative_sum (desc : AppHintDesc) (actualDurations : list WorkDuration)
    (back : WorkDuration) :
  last actualDurations = Some back ->
  0 <= mSamplingWindowP adpfConfig ->
  0 <= mSamplingWindowI adpfConfig ->
  0 <= mSamplingWindowD adpfConfig ->
  let length := Z.of_nat (length actualDurations) in
  let d_start := window_start (mSamplingWindowD adpfConfig) length in
  let base :=
    if pid_first adpfConfig length <? d_start then
      default 0 (sample_error (targetNs desc) <$> actualDurations !! Z.to_nat (d_start - 1))
    else previous_error desc in
  derivative_sum (pid_run env adpfConfig desc actualDurations)
  = to_int64 (sample_error (targetNs desc) back - base).
Proof.
  intros Hback HP HI HD len d_start base.
  assert (Hne : actualDurations <> []) by (intros ->; discriminate).
  assert (Hlen : 0 < len).
  { subst len. destruct actualDurations; [contradiction | cbn [length]; lia]. }
  pose proof (window_start_range (mSamplingWindowP adpfConfig) len Hlen HP) as Hp.
  pose proof (window_start_range (mSamplingWindowI adpfConfig) len Hlen HI) as Hi.
  pose proof (window_start_range (mSamplingWindowD adpfConfig) len Hlen HD) as Hd.
  fold d_start in Hd.
  unfold pid_run, pid_over. fold len. fold d_start.
  set (first := pid_first adpfConfig len) in *.
  assert (Hfirst : 0 <= first <= d_start)
    by (subst first; unfold pid_first; fold d_start; lia).
  replace (drop (Z.to_nat first) actualDurations)
    with (take (Z.to_nat d_start - Z.to_nat first) (drop (Z.to_nat first) actualDurations)
          ++ drop (Z.to_nat d_start) actualDurations).
  2:{ rewrite <- (take_drop (Z.to_nat d_start - Z.to_nat first)
                    (drop (Z.to_nat first) actualDurations)) at 2.
      f_equal. rewrite drop_drop. f_equal. lia. }
  rewrite pid_loop_app.
  assert (Hlast : last (drop (Z.to_nat d_start) actualDurations) = Some back).
  { rewrite <- (take_drop (Z.to_nat d_start) actualDurations) in Hback.
    rewrite last_app in Hback.
    destruct (last (drop (Z.to_nat d_start) actualDurations)) eqn:E; [exact Hback|].
    apply last_None in E. apply (f_equal length) in E.
    rewrite length_drop in E. cbn [length] in E. subst len. lia. }
  rewrite (pid_loop_derivative_inside _ _ _ _ _ _ _ _ back);
    [|rewrite length_take, length_drop; subst len; lia | exact Hlast].
  rewrite pid_loop_derivative_before
    by (rewrite length_take, length_drop; subst len; lia).
  rewrite pid_loop_previous. cbn [pid_entry derivative_sum acc_previous_error].
  f_equal. rewrite Z.add_0_l. f_equal. subst base.
  destruct (Z.ltb_spec first d_start) as [Hvisited|Hnone].
  - assert (Hbefore : last (take (Z.to_nat d_start - Z.to_nat first)
                              (drop (Z.to_nat first) actualDurations))
                      = actualDurations !! Z.to_nat (d_start - 1)).
    { rewrite last_lookup, length_take, length_drop, lookup_take_lt by (subst len; lia).
      rewrite lookup_drop. f_equal. subst len. lia. }
    rewrite Hbefore.
    destruct (actualDurations !! Z.to_nat (d_start - 1)) eqn:E; [reflexivity|].
    apply lookup_ge_None in E. subst len. lia.
  - replace (Z.to_nat d_start - Z.to_nat first)%nat with 0%nat by lia. reflexivity.
Qed.

End DerivativeFacts.

(** Three samples, with the D window on the last one: the derivative sum is
    the error of the third less that of the second. *)
Lemma pid_run_derivative_sum_witness :
  derivative_sum
    (pid_run (Fixture.env Fixture.plain) Fixture.plain
       (mDescriptor (Fixture.session1 Fixture.plain true false))
       [Fixture.sample 8000000; Fixture.sample 16000000; Fixture.sample 32000000])
  = 160.
Proof.
  exact (pid_run_derivative_sum (Fixture.env Fixture.plain) Fixture.plain
           (mDescriptor (Fixture.session1 Fixture.plain true false))
           [Fixture.sample 8000000; Fixture.sample 16000000; Fixture.sample 32000000]
           (Fixture.sample 32000000) eq_refl ltac:(vm_compute; discriminate)
           ltac:(vm_compute; discriminate) ltac:(vm_compute; discriminate)).
Defined.

(** ** Timers only switch votes off *)

Lemma faded_refl v : faded v v.
Proof. repeat split; auto. Qed.

Lemma ledger_faded_refl vs : ledger_faded vs vs.
Proof. intros k. destruct (vs !! k); [apply faded_refl | exact I]. Qed.

Lemma ledger_faded_trans vs1 vs2 vs3 :
  ledger_faded vs1 vs2 -> ledger_faded vs2 vs3 -> ledger_faded vs1 vs3.
Proof.
  intros H12 H23 k. specialize (H12 k). specialize (H23 k).
  destruct (vs1 !! k), (vs2 !! k), (vs3 !! k); try contradiction; try exact I.
  destruct H12 as (Hs & Hd & Hv & Ha), H23 as (Hs' & Hd' & Hv' & Ha').
  repeat split; try congruence. auto.
Qed.

Lemma ledger_faded_setUseVote k vs : ledger_faded vs (Votes.setUseVote k false vs).
Proof.
  intros k'. unfold Votes.setUseVote. destruct (decide (k = k')) as [->|Hne].
  - rewrite lookup_alter_eq. destruct (vs !! k'); [|exact I].
    repeat split; try reflexivity. discriminate.
  - rewrite lookup_alter_ne by exact Hne. destruct (vs !! k'); [apply faded_refl | exact I].
Qed.

Lemma entry_faded_refl found : entry_faded found found.
Proof.
  destruct found; [|exact I]. cbn. split; [apply ledger_faded_refl | auto].
Qed.

Lemma entry_faded_trans f1 f2 f3 : entry_faded f1 f2 -> entry_faded f2 f3 -> entry_faded f1 f3.
Proof.
  unfold entry_faded. destruct f1, f2, f3; try contradiction; try (intros; exact I).
  intros (Hv & Ha & He & Hp & Hd) (Hv' & Ha' & He' & Hp' & Hd').
  split; [eapply ledger_faded_trans; eassumption|]. repeat split; congruence.
Qed.

Section ExpiryFacts.

Context {SessionRecords : Type} (env : Collaborators SessionRecords).

Lemma handleEvent_fades eventTimeout tNow m sid :
  entry_faded (SessionTaskMap.findSession sid (mSessionTaskMap m))
    (SessionTaskMap.findSession sid (mSessionTaskMap (handleEvent env eventTimeout tNow m))).
Proof.
  destruct (SessionTaskMap.findSession (ev_sessionId eventTimeout) (mSessionTaskMap m))
    as [sessVal|] eqn:Hfound.
  - destruct (Votes.voteIsActive (ev_voteId eventTimeout) (votes sessVal)) eqn:Hactive.
    + destruct (Z.leb_spec (Votes.voteTimeout (ev_voteId eventTimeout) (votes sessVal)) tNow)
        as [Hdue|Hearly].
      * rewrite (handleEvent_map_expired env _ _ _ sessVal) by assumption.
        unfold touched. case_decide; [|apply entry_faded_refl].
        destruct (SessionTaskMap.findSession sid (mSessionTaskMap m)); [|exact I].
        cbn. split; [apply ledger_faded_setUseVote | auto].
      * unfold handleEvent. rewrite Hfound, Hactive.
        destruct (Z.leb_spec (Votes.voteTimeout (ev_voteId eventTimeout) (votes sessVal))
                    tNow); [lia|].
        apply entry_faded_refl.
    + unfold handleEvent. rewrite Hfound, Hactive. apply entry_faded_refl.
  - unfold handleEvent. rewrite Hfound. apply entry_faded_refl.
Qed.

Lemma handleEvent_registry eventTimeout tNow m :
  mSessionMap (handleEvent env eventTimeout tNow m) = mSessionMap m.
Proof.
  unfold handleEvent.
  destruct (SessionTaskMap.findSession _ _) as [sessVal|]; [|reflexivity].
  destruct (Votes.voteIsActive _ _); [|reflexivity].
  destruct (_ <=? _); [|reflexivity].
  match goal with
  | |- context [updateUniversalBoostMode env ?t (applyCpuAndGpuVotes env ?a ?b ?c)] =>
      destruct (same_ledgers_trans _ _ _
                  (same_ledgers_applyCpuAndGpuVotes env a b c)
                  (same_ledgers_updateUniversalBoostMode env t _)) as (_ & Hr & _)
  end.
  exact Hr.
Qed.

(** X26.  Timer events never create, remove, extend, change or switch on a
    vote: after any sequence of events, handled at any times, every session
    is still there with the votes it had, same range and window, some
    switched off; its active flag, its efficiency flag and its statistics
    are as they were, and the registry is unchanged. *)
Theorem handleEvents_only_fade
    (events : list (EventSessionTimeout * Z)) (m : PowerSessionManager) (sid : Z) :
  let m' := foldl (fun m e => handleEvent env e.1 e.2 m) m events in
  entry_faded (SessionTaskMap.findSession sid (mSessionTaskMap m))
    (SessionTaskMap.findSession sid (mSessionTaskMap m')) /\
  mSessionMap m' = mSessionMap m.
Proof.
  intros m'. subst m'. induction events as [|[eventTimeout tNow] events IH] using rev_ind.
  - split; [apply entry_faded_refl | reflexivity].
  - rewrite foldl_app. cbn [foldl fst snd]. destruct IH as [Hfaded Hregistry]. split.
    + eapply entry_faded_trans; [exact Hfaded | apply handleEvent_fades].
    + rewrite handleEvent_registry. exact Hregistry.
Qed.

(** X27.  Changing the target of an open session whose default vote is live
    rewrites the window of that vote to the scaled target and touches
    nothing else: no timer is queued and no thread is reclamped.  The timer
    already pending for the vote then follows the new deadline: handled
    before it, the timer is queued again for it; handled at or after it, the
    vote is switched off. *)
Theorem updateTargetWorkDuration_moves_deadline
    (targetDurationNanos tNow : Z) (s : PowerHintSession SessionRecords)
    (m : PowerSessionManager) (entry : SessionValueEntry) (vote : Vote) :
  mSessionClosed s = false ->
  0 < targetDurationNanos ->
  SessionTaskMap.findSession (mSessionId s) (mSessionTaskMap m) = Some entry ->
  votes entry !! underlying CPU_VOTE_DEFAULT = Some vote ->
  voteActive vote = true ->
  let d := scaledDuration targetDurationNanos (mTargetTimeFactor (getAdpfProfile env s)) in
  exists s' m' entry',
    session_updateTargetWorkDuration env targetDurationNanos s m = (EX_NONE, s', m') /\
    targetNs (mDescriptor s') = d /\
    mEventSessionTimeoutWorker m' = mEventSessionTimeoutWorker m /\
    effects m' = effects m /\
    SessionTaskMap.findSession (mSessionId s) (mSessionTaskMap m') = Some entry' /\
    votes entry' !! underlying CPU_VOTE_DEFAULT
    = Some {| voteActive := true; startTime := startTime vote; durationNs := d;
              voteValue := voteValue vote |} /\
    (forall k, k <> underlying CPU_VOTE_DEFAULT -> votes entry' !! k = votes entry !! k) /\
    forall timeStamp,
      let e := {| timeStamp := timeStamp; ev_sessionId := mSessionId s;
                  ev_voteId := underlying CPU_VOTE_DEFAULT |} in
      (tNow < startTime vote + d -> handleEvent env e tNow m' = schedule e (startTime vote + d) m') /\
      (startTime vote + d <= tNow ->
       exists expired,
         SessionTaskMap.findSession (mSessionId s) (mSessionTaskMap (handleEvent env e tNow m'))
         = Some expired /\
         Votes.voteIsActive (underlying CPU_VOTE_DEFAULT) (votes expired) = false).
Proof.
  intros Hopen Hpositive Hfound Hvote Hactive d.
  unfold session_updateTargetWorkDuration. rewrite Hopen.
  destruct (Z.leb_spec targetDurationNanos 0); [lia|]. fold d.
  unfold updateTargetWorkDuration. cbn [mSessionId with_descriptor]. rewrite Hfound.
  eexists. eexists. eexists. split; [reflexivity|].
  cbn [mDescriptor with_descriptor set_targetNs targetNs with_map
       mEventSessionTimeoutWorker effects mSessionTaskMap].
  split; [reflexivity|]. split; [reflexivity|]. split; [reflexivity|].
  rewrite touched_updateSession, Hfound. unfold touched.
  rewrite decide_True by reflexivity. cbn [fmap option_fmap option_map].
  split; [reflexivity|]. cbn [votes set_votes]. unfold Votes.updateDuration.
  assert (Hslot : alter
                    (fun v => {| voteActive := voteActive v; startTime := startTime v;
                                 durationNs := d; voteValue := voteValue v |})
                    (underlying CPU_VOTE_DEFAULT) (votes entry) !! underlying CPU_VOTE_DEFAULT
                  = Some {| voteActive := true; startTime := startTime vote; durationNs := d;
                            voteValue := voteValue vote |}).
  { rewrite lookup_alter_eq, Hvote. cbn [fmap option_fmap option_map]. rewrite Hactive.
    reflexivity. }
  split; [exact Hslot|]. split.
  { intros k Hk. rewrite lookup_alter_ne by congruence. reflexivity. }
  intros timeStamp.
  set (e := Build_EventSessionTimeout _ _ _).
  set (m' := with_map _ m).
  assert (Hfound' : SessionTaskMap.findSession (mSessionId s) (mSessionTaskMap m')
                    = Some (set_votes (Votes.updateDuration (underlying CPU_VOTE_DEFAULT) d)
                              entry)).
  { subst m'. cbn [with_map mSessionTaskMap]. rewrite touched_updateSession, Hfound.
    unfold touched. rewrite decide_True by reflexivity. reflexivity. }
  split.
  - intros Hearly. unfold handleEvent. subst e. cbn [ev_sessionId ev_voteId].
    rewrite Hfound'. cbn [votes set_votes].
    unfold Votes.voteIsActive, Votes.voteTimeout, Votes.updateDuration. rewrite Hslot.
    vote_fields.
    destruct (Z.leb_spec (startTime vote + d) tNow); [lia | reflexivity].
  - intros Hdue. eexists. split.
    + erewrite handleEvent_map_expired; [| exact Hfound' | |].
      * subst e. cbn [ev_sessionId]. rewrite Hfound'. unfold touched.
        rewrite decide_True by reflexivity. reflexivity.
      * subst e. cbn [ev_voteId votes set_votes].
        unfold Votes.voteIsActive, Votes.updateDuration. rewrite Hslot. reflexivity.
      * subst e. cbn [ev_voteId votes set_votes].
        unfold Votes.voteTimeout, Votes.updateDuration. rewrite Hslot. exact Hdue.
    + subst e. cbn [ev_voteId votes set_lastUpdatedTime set_votes].
      rewrite voteIsActive_setUseVote_false. rewrite decide_True by reflexivity.
      reflexivity.
Qed.

End ExpiryFacts.

(** The target of session 1 raised to 20 ms: the default vote, cast at 0,
    now lasts 20 ms. *)
Lemma updateTargetWorkDuration_moves_deadline_witness :
  exists s' m' entry',
    session_updateTargetWorkDuration (Fixture.env Fixture.plain) 20000000
      (Fixture.session1 Fixture.plain true false) Fixture.oneSession = (EX_NONE, s', m') /\
    targetNs (mDescriptor s') = 20000000 /\
    SessionTaskMap.findSession 1 (mSessionTaskMap m') = Some entry' /\
    votes entry' !! underlying CPU_VOTE_DEFAULT
    = Some {| voteActive := true; startTime := 0; durationNs := 20000000;
              voteValue := CpuRange 200 800 |}.
Proof.
  destruct (updateTargetWorkDuration_moves_deadline (Fixture.env Fixture.plain) 20000000 5
              (Fixture.session1 Fixture.plain true false) Fixture.oneSession
              (Fixture.voting 200 800 false)
              {| voteActive := true; startTime := 0; durationNs := 1000;
                 voteValue := CpuRange 200 800 |}
              eq_refl ltac:(lia) eq_refl eq_refl eq_refl)
    as (s' & m' & entry' & Hcall & Htarget & _ & _ & Hfound & Hvote & _).
  exists s', m', entry'. split; [exact Hcall|]. split; [exact Htarget|].
  split; [exact Hfound | exact Hvote].
Defined.

(** ** What a hint may touch *)

Section HintFrame.

Context {SessionRecords : Type} (env : Collaborators SessionRecords).
Variable isHintSupported : string -> bool.

Ltac in_kinds := first [apply list_elem_of_here | apply list_elem_of_further, list_elem_of_here].

Lemma only_touches_refl kinds sessionId m : only_touches kinds sessionId m m.
Proof.
  split; [reflexivity|]. exists (fun v => v). split; [intros v; auto|].
  intros sid. unfold touched. case_decide; [|reflexivity].
  destruct (SessionTaskMap.findSession sid (mSessionTaskMap m)); reflexivity.
Qed.

Lemma only_touches_trans kinds sessionId m1 m2 m3 :
  only_touches kinds sessionId m1 m2 -> only_touches kinds sessionId m2 m3 ->
  only_touches kinds sessionId m1 m3.
Proof.
  intros (Hr & f & Hf & Hfound) (Hr' & g & Hg & Hfound').
  split; [congruence|]. exists (fun v => g (f v)). split.
  - intros v. destruct (Hf v) as [Ha Hv], (Hg (f v)) as [Ha' Hv'].
    split; [congruence|]. intros k Hk. rewrite Hv', Hv by exact Hk. reflexivity.
  - intros sid. rewrite Hfound', Hfound, touched_touched. reflexivity.
Qed.

Lemma keeps_vote kinds (g : gmap Z Vote -> gmap Z Vote) t :
  (forall vs k, k ∉ kinds -> g vs !! k = vs !! k) ->
  keeps kinds (fun v => set_lastUpdatedTime t (set_votes g v)).
Proof. intros Hg v. cbn. split; [reflexivity|]. intros k Hk. apply Hg, Hk. Qed.

Lemma only_touches_voteSet kinds sessionId voteId uclampMin uclampMax startTime durationNs m :
  underlying voteId ∈ kinds ->
  only_touches kinds sessionId m
    (voteSet env sessionId voteId uclampMin uclampMax startTime durationNs m).
Proof.
  intros Hkind. split.
  - unfold voteSet.
    destruct (SessionTaskMap.findSession sessionId (mSessionTaskMap m)); [|reflexivity].
    match goal with
    | |- context [applyUclampLocked env ?a ?b ?c] =>
        destruct (same_ledgers_applyUclampLocked env a b c) as (_ & Hr & _)
    end.
    destruct (shouldScheduleTimeout _ _ _); cbn [schedule mSessionMap]; rewrite Hr;
      reflexivity.
  - eexists. split; [|intros sid; apply touched_voteSet].
    apply keeps_vote. intros vs k Hk. unfold Votes.add.
    apply lookup_insert_ne. intros <-. contradiction.
Qed.

Lemma only_touches_voteSetGpu kinds sessionId voteId capacity startTime durationNs m :
  underlying voteId ∈ kinds ->
  only_touches kinds sessionId m
    (voteSetGpu env sessionId voteId capacity startTime durationNs m).
Proof.
  intros Hkind. split.
  - unfold voteSetGpu.
    destruct (SessionTaskMap.findSession sessionId (mSessionTaskMap m)); [|reflexivity].
    match goal with
    | |- context [applyGpuVotesLocked env ?a ?b ?c] =>
        destruct (same_ledgers_applyGpuVotesLocked env a b c) as (_ & Hr & _)
    end.
    destruct (shouldScheduleTimeout _ _ _); cbn [schedule mSessionMap]; rewrite Hr;
      reflexivity.
  - eexists. split; [|intros sid; apply touched_voteSetGpu].
    apply keeps_vote. intros vs k Hk. unfold Votes.add.
    apply lookup_insert_ne. intros <-. contradiction.
Qed.

Lemma only_touches_setPreferPowerEfficiency kinds sessionId enabled now m :
  only_touches kinds sessionId m (setPreferPowerEfficiency env sessionId enabled now m).
Proof.
  unfold setPreferPowerEfficiency.
  destruct (SessionTaskMap.findSession sessionId (mSessionTaskMap m)) as [sessVal|];
    [|apply only_touches_refl].
  destruct (negb _); [|apply only_touches_refl]. split.
  - match goal with
    | |- context [applyUclampLocked env ?a ?b ?c] =>
        destruct (same_ledgers_applyUclampLocked env a b c) as (_ & Hr & _)
    end.
    rewrite Hr. reflexivity.
  - eexists. split.
    2:{ intros sid. rewrite touched_applyUclampLocked. cbn [with_map mSessionTaskMap].
        rewrite touched_updateSession, touched_touched. reflexivity. }
    intros v. cbn. auto.
Qed.

(** X28.  Whatever the hint and whether or not the call succeeds,
    [sendHint] leaves the other sessions of the manager and the registry as
    they are; in the session's own entry it keeps the active flag and
    rewrites at most the default vote and the vote of the hint's own kind;
    in the session object it keeps the threads, the target, the active flag
    and the closed flag. *)
Theorem sendHint_frame
    (hint : SessionHint.t) (now : Z) (x : SessionObject SessionRecords)
    (m : PowerSessionManager) :
  let result := sendHint env isHintSupported hint now x m in
  let id := mSessionId (session x) in
  (forall sid, sid <> id ->
     SessionTaskMap.findSession sid (mSessionTaskMap result.2)
     = SessionTaskMap.findSession sid (mSessionTaskMap m)) /\
  (forall entry,
     SessionTaskMap.findSession id (mSessionTaskMap m) = Some entry ->
     exists entry',
       SessionTaskMap.findSession id (mSessionTaskMap result.2) = Some entry' /\
       isActive entry' = isActive entry /\
       forall k, k <> underlying CPU_VOTE_DEFAULT -> k <> underlying (hint_vote hint) ->
         votes entry' !! k = votes entry !! k) /\
  mSessionMap result.2 = mSessionMap m /\
  thread_ids (mDescriptor (session result.1.2)) = thread_ids (mDescriptor (session x)) /\
  targetNs (mDescriptor (session result.1.2)) = targetNs (mDescriptor (session x)) /\
  is_active (mDescriptor (session result.1.2)) = is_active (mDescriptor (session x)) /\
  mSessionClosed (session result.1.2) = mSessionClosed (session x).
Proof.
  intros result id.
  assert (Hall : only_touches [underlying CPU_VOTE_DEFAULT; underlying (hint_vote hint)] id m
                   result.2 /\
                 thread_ids (mDescriptor (session result.1.2))
                 = thread_ids (mDescriptor (session x)) /\
                 targetNs (mDescriptor (session result.1.2))
                 = targetNs (mDescriptor (session x)) /\
                 is_active (mDescriptor (session result.1.2))
                 = is_active (mDescriptor (session x)) /\
                 mSessionClosed (session result.1.2) = mSessionClosed (session x)).
  { subst result. unfold sendHint.
    destruct (mSessionClosed (session x)) eqn:Hclosed;
      [cbn [fst snd]; split; [apply only_touches_refl | auto]|].
    destruct (targetNs (mDescriptor (session x)) =? 0);
      [cbn [fst snd]; split; [apply only_touches_refl | rewrite Hclosed; auto]|].
    unfold sendHint_switch, session_setMode, updatePidControlVariable. rewrite Hclosed.
    destruct hint; cbn [fst snd hint_vote];
      rewrite ?(proj1 (tryToSendPowerHint_session _ _ _));
      (split; [|cbn; auto]).
    - eapply only_touches_trans; apply only_touches_voteSet; in_kinds.
    - apply only_touches_voteSet; in_kinds.
    - apply only_touches_voteSet; in_kinds.
    - apply only_touches_voteSet; in_kinds.
    - apply only_touches_setPreferPowerEfficiency.
    - apply only_touches_voteSetGpu; in_kinds.
    - apply only_touches_refl.
    - apply only_touches_refl.
    - apply only_touches_refl. }
  destruct Hall as ((Hregistry & f & Hf & Hfound) & Hthreads & Htarget & Hactive & Hclosed).
  split; [|split; [|auto]].
  - intros sid Hsid. rewrite Hfound. unfold touched. rewrite decide_False by exact Hsid.
    reflexivity.
  - intros entry Hentry. rewrite Hfound, Hentry. unfold touched.
    rewrite decide_True by reflexivity. cbn [fmap option_fmap option_map].
    eexists. split; [reflexivity|]. destruct (Hf entry) as [Ha Hv]. split; [exact Ha|].
    intros k Hk0 Hk. apply Hv. intros Hin.
    apply elem_of_cons in Hin as [->|Hin]; [contradiction|].
    apply list_elem_of_singleton in Hin. contradiction.
Qed.

End HintFrame.

(** ** Hint statistics *)

Lemma foldl_min_least (rest : list Z) :
  forall first,
    (foldl Z.min first rest = first \/ foldl Z.min first rest ∈ rest) /\
    foldl Z.min first rest <= first /\
    forall t, t ∈ rest -> foldl Z.min first rest <= t.
Proof.
  induction rest as [|x rest IH]; intros first; cbn [foldl].
  - split; [auto|]. split; [lia|]. intros t Hin. apply elem_of_nil in Hin. contradiction.
  - destruct (IH (Z.min first x)) as (Hwhere & Hfirst & Hrest).
    split; [|split].
    + destruct Hwhere as [Heq|Hin]; [|right; apply list_elem_of_further, Hin].
      destruct (Z.min_spec first x) as [[_ Hmin]|[_ Hmin]].
      * left. rewrite Heq. exact Hmin.
      * right. rewrite Heq, Hmin. apply list_elem_of_here.
    + lia.
    + intros t Hin. apply elem_of_cons in Hin as [->|Hin]; [lia | apply Hrest, Hin].
Qed.

Lemma foldl_max_greatest (rest : list Z) :
  forall first,
    (foldl Z.max first rest = first \/ foldl Z.max first rest ∈ rest) /\
    first <= foldl Z.max first rest /\
    forall t, t ∈ rest -> t <= foldl Z.max first rest.
Proof.
  induction rest as [|x rest IH]; intros first; cbn [foldl].
  - split; [auto|]. split; [lia|]. intros t Hin. apply elem_of_nil in Hin. contradiction.
  - destruct (IH (Z.max first x)) as (Hwhere & Hfirst & Hrest).
    split; [|split].
    + destruct Hwhere as [Heq|Hin]; [|right; apply list_elem_of_further, Hin].
      destruct (Z.max_spec first x) as [[_ Hmax]|[_ Hmax]].
      * right. rewrite Heq, Hmax. apply list_elem_of_here.
      * left. rewrite Heq. exact Hmax.
    + lia.
    + intros t Hin. apply elem_of_cons in Hin as [->|Hin]; [lia | apply Hrest, Hin].
Qed.

(** X29.  The timeout [InitHintStatus] gives a hint whose node actions have
    timeouts that are not negative: it is 0, for ever, exactly when the hint
    has no node action or one of them has timeout 0; otherwise it is the
    timeout of one of the actions and no action has a longer one. *)
Theorem InitHintStatus_timeout_longest (timeouts : list Z) :
  (forall t, t ∈ timeouts -> 0 <= t) ->
  let timeout := InitHintStatus_timeout timeouts in
  (timeout = 0 <-> timeouts = [] \/ 0 ∈ timeouts) /\
  (timeout <> 0 -> timeout ∈ timeouts /\ forall t, t ∈ timeouts -> 0 < t <= timeout).
Proof.
  intros Hpositive timeout. subst timeout. destruct timeouts as [|first rest].
  - cbn. split; [split; auto|]. intros H. contradiction.
  - cbn [InitHintStatus_timeout].
    destruct (foldl_min_least rest first) as (Hleast_in & Hleast_first & Hleast_rest).
    destruct (foldl_max_greatest rest first) as (Hmost_in & Hmost_first & Hmost_rest).
    assert (Hleast : foldl Z.min first rest ∈ first :: rest).
    { destruct Hleast_in as [->|Hin];
        [apply list_elem_of_here | apply list_elem_of_further, Hin]. }
    assert (Hmost : foldl Z.max first rest ∈ first :: rest).
    { destruct Hmost_in as [->|Hin];
        [apply list_elem_of_here | apply list_elem_of_further, Hin]. }
    assert (Hbelow : forall t, t ∈ first :: rest -> foldl Z.min first rest <= t).
    { intros t Hin. apply elem_of_cons in Hin as [->|Hin]; [lia | apply Hleast_rest, Hin]. }
    assert (Habove : forall t, t ∈ first :: rest -> t <= foldl Z.max first rest).
    { intros t Hin. apply elem_of_cons in Hin as [->|Hin]; [lia | apply Hmost_rest, Hin]. }
    destruct (Z.eqb_spec (foldl Z.min first rest) 0) as [Hzero|Hnonzero].
    + split; [|intros H; contradiction]. split; [|reflexivity].
      intros _. right. rewrite <- Hzero. exact Hleast.
    + assert (Hall : forall t, t ∈ first :: rest -> 0 < t).
      { intros t Hin. pose proof (Hbelow t Hin). pose proof (Hpositive _ Hleast). lia. }
      split.
      * split.
        -- intros Hzero. pose proof (Hall _ Hmost). lia.
        -- intros [Hnil|Hin]; [discriminate|]. pose proof (Hall 0 Hin). lia.
      * intros _. split; [exact Hmost|]. intros t Hin.
        split; [apply Hall, Hin | apply Habove, Hin].
Qed.

(** A hint with actions of 100 ms, 0 and 250 ms lasts for ever. *)
Lemma InitHintStatus_timeout_longest_witness :
  InitHintStatus_timeout [100; 0; 250] = 0 <-> [100; 0; 250] = [] \/ 0 ∈ [100; 0; 250].
Proof.
  apply (InitHintStatus_timeout_longest [100; 0; 250]).
  intros t Hin. repeat (apply elem_of_cons in Hin as [->|Hin]; [lia|]).
  apply elem_of_nil in Hin. contradiction.
Defined.

(** X30.  The duration statistics of a hint.  A request that is ended early
    adds the time it ran to [duration_ms] at once, and the [DoHintStatus]
    that follows adds the same interval again; a request that runs to its
    timeout is added once, by the [DoHintStatus] that follows.  Each
    [DoHintStatus] counts one. *)
Theorem HintStatus_duration (timeout_ms t0 t1 t2 : Z) :
  0 <= t0 <= t1 -> t1 < t2 <= INT64_MAX ->
  0 < timeout_ms -> t0 + timeout_ms * 1000000 <= INT64_MAX ->
  let requested := DoHintStatus timeout_ms t0 (newHintStatus timeout_ms) in
  let ended := EndHintStatus t1 requested in
  stats_count requested = 1 /\ stats_duration_ms requested = 0 /\
  start_time requested = t0 /\ end_time requested = t0 + timeout_ms * 1000000 /\
  (t1 < t0 + timeout_ms * 1000000 ->
   stats_duration_ms ended = ns_to_ms (t1 - t0) /\
   stats_duration_ms (DoHintStatus timeout_ms t2 ended) = 2 * ns_to_ms (t1 - t0) /\
   stats_count (DoHintStatus timeout_ms t2 ended) = 2) /\
  (t0 + timeout_ms * 1000000 <= t1 ->
   ended = requested /\
   stats_duration_ms (DoHintStatus timeout_ms t2 ended) = timeout_ms /\
   stats_count (DoHintStatus timeout_ms t2 ended) = 2).
Proof.
  intros Ht1 Ht2 Htimeout Hend requested ended.
  assert (Hquot : 0 <= ns_to_ms (t1 - t0) <= t1).
  { unfold ns_to_ms. split; [apply Z.quot_pos; lia|].
    transitivity (t1 - t0); [|lia]. apply Z.quot_le_upper_bound; lia. }
  unfold INT64_MAX in *.
  assert (Hrequested : requested
                       = {| max_timeout := timeout_ms; start_time := t0;
                            end_time := t0 + timeout_ms * 1000000;
                            stats_count := 1; stats_duration_ms := 0 |}).
  { subst requested. unfold DoHintStatus, newHintStatus.
    cbn [max_timeout start_time end_time stats_count stats_duration_ms].
    destruct (Z.ltb_spec INT64_MIN t0) as [_|Hbad]; [|unfold INT64_MIN in Hbad; lia].
    destruct (Z.eqb_spec timeout_ms 0); [lia|].
    rewrite Z.sub_diag. cbn [ns_to_ms].
    rewrite (to_int64_id (timeout_ms * 1000000)) by (unfold INT64_MIN, INT64_MAX; lia).
    rewrite (to_int64_id (t0 + _)) by (unfold INT64_MIN, INT64_MAX; lia).
    reflexivity. }
  rewrite Hrequested. cbn [stats_count stats_duration_ms start_time end_time].
  split; [reflexivity|]. split; [reflexivity|]. split; [reflexivity|].
  split; [reflexivity|]. subst ended. rewrite Hrequested. unfold EndHintStatus.
  cbn [max_timeout start_time end_time stats_count stats_duration_ms]. split.
  - intros Hearly. destruct (Z.ltb_spec t1 (t0 + timeout_ms * 1000000)); [|lia].
    cbn [stats_duration_ms]. rewrite Z.add_0_l.
    rewrite (to_int64_id (t1 - t0)) by (unfold INT64_MIN, INT64_MAX; lia).
    assert (Hfirst : to_uint64 (ns_to_ms (t1 - t0)) = ns_to_ms (t1 - t0)).
    { unfold to_uint64, wrap_unsigned. apply Z.mod_small. lia. }
    rewrite Hfirst. split; [reflexivity|]. unfold DoHintStatus.
    cbn [max_timeout start_time end_time stats_count stats_duration_ms].
    destruct (Z.ltb_spec t1 t2); [|lia].
    rewrite (to_int64_id (t1 - t0)) by (unfold INT64_MIN, INT64_MAX; lia).
    split; [|reflexivity].
    unfold to_uint64, wrap_unsigned. rewrite Z.mod_small by lia. lia.
  - intros Hlate. destruct (Z.ltb_spec t1 (t0 + timeout_ms * 1000000)); [lia|].
    split; [reflexivity|]. unfold DoHintStatus.
    cbn [max_timeout start_time end_time stats_count stats_duration_ms].
    destruct (Z.ltb_spec (t0 + timeout_ms * 1000000) t2); [|lia].
    replace (t0 + timeout_ms * 1000000 - t0) with (timeout_ms * 1000000) by lia.
    rewrite (to_int64_id (timeout_ms * 1000000)) by (unfold INT64_MIN, INT64_MAX; lia).
    unfold ns_to_ms. rewrite Z.quot_mul by lia. split; [|reflexivity].
    unfold to_uint64, wrap_unsigned. apply Z.mod_small. lia.
Qed.

(** A hint of 100 ms requested at 1 s, ended after 40 ms and requested
    again at 2 s: 80 ms are on the books. *)
Lemma HintStatus_duration_witness :
  stats_duration_ms
    (DoHintStatus 100 2000000000
       (EndHintStatus 1040000000 (DoHintStatus 100 1000000000 (newHintStatus 100))))
  = 80.
Proof.
  exact (proj1 (proj2 (proj1 (proj2 (proj2 (proj2 (proj2
           (HintStatus_duration 100 1000000000 1040000000 2000000000
              ltac:(lia) ltac:(unfold INT64_MAX; lia) ltac:(lia)
              ltac:(unfold INT64_MAX; lia))))))
           ltac:(lia)))).
Defined.
